(** * velld backup orchestrator: a shallow embedding of the Go sources

    The Go packages [backup], [connection] and [settings] of the API
    server are embedded as pure functions over an explicit world (the
    SQL tables, the local spool, the S3 bucket) and records that answer
    every call leaving the process (dump tools, the S3 endpoint, the
    credential vault, the clock, the driver).  Each Go function
    returning [(T, error)] becomes a function into [result T]; a
    method that mutates the stores returns the new world as well.

    Part I holds the embedding, Part II the properties proved of it. *)

From Stdlib Require Import ZArith String Ascii Bool Sorted.
From Stdlib Require Import DecimalString DecimalZ DecimalPos.
From stdpp Require Import gmap strings list fin_maps sorting.

Local Open Scope string_scope.
Local Open Scope list_scope.
Local Open Scope Z_scope.

(* ===================================================================== *)
(** * Part I: the embedding                                              *)
(* ===================================================================== *)

(** ** Go values *)

(** A Go [(T, error)] pair, of which exactly one half is meaningful. *)
Inductive result (Err A : Type) : Type :=
| Ok (a : A)
| Fail (e : Err).
Arguments Ok {Err A} a.
Arguments Fail {Err A} e.

Definition is_ok {Err A} (r : result Err A) : bool :=
  match r with Ok _ => true | Fail _ => false end.

Definition is_fail {Err A} (r : result Err A) : bool := negb (is_ok r).

(** [time.Time] as seconds on the time line; [uuid.UUID] as a number. *)
Definition Time := Z.
Definition UUID := nat.

(** ** Package [strings] of the Go standard library, as far as it is used *)

Module strings.

(** [strings.Contains(s, substr)]. *)
Fixpoint Contains (s substr : string) : bool :=
  String.prefix substr s ||
  match s with
  | EmptyString => false
  | String _ s' => Contains s' substr
  end.

(** [strings.Split(s, sep)] for a one-byte separator: every segment is
    kept, the empty ones too, and a string without separator comes back
    as one segment. *)
Fixpoint SplitByte (sep : ascii) (s : string) : list string :=
  match s with
  | EmptyString => [EmptyString]
  | String c s' =>
      if Ascii.eqb c sep then EmptyString :: SplitByte sep s'
      else match SplitByte sep s' with
           | seg :: rest => String c seg :: rest
           | [] => [String c EmptyString]
           end
  end.

(** [strings.Join(elems, sep)]. *)
Fixpoint Join (elems : list string) (sep : string) : string :=
  match elems with
  | [] => ""
  | [e] => e
  | e :: rest => e +:+ sep +:+ Join rest sep
  end.

(** [strings.TrimPrefix(s, "/")] and [strings.TrimSuffix(s, "/")]. *)
Definition TrimPrefixSlash (s : string) : string :=
  match s with
  | String "/" s' => s'
  | _ => s
  end.

Fixpoint TrimSuffixSlash (s : string) : string :=
  match s with
  | EmptyString => EmptyString
  | String "/" EmptyString => EmptyString
  | String c s' => String c (TrimSuffixSlash s')
  end.

(** [strings.Trim(s, "/")]: all leading and all trailing slashes. *)
Fixpoint TrimLeftSlashes (s : string) : string :=
  match s with
  | String "/" s' => TrimLeftSlashes s'
  | _ => s
  end.

Fixpoint all_slashes (s : string) : bool :=
  match s with
  | EmptyString => true
  | String c s' => Ascii.eqb c "/" && all_slashes s'
  end.

Fixpoint TrimRightSlashes (s : string) : string :=
  match s with
  | EmptyString => EmptyString
  | String c s' => if all_slashes s then EmptyString
                   else String c (TrimRightSlashes s')
  end.

Definition TrimSlashes (s : string) : string :=
  TrimRightSlashes (TrimLeftSlashes s).

End strings.

(** ** Package [backup]: restore output validation (backup_restore.go) *)

Module restore.

(** The two [fmt.Errorf] sites of [validatePostgreSQLRestore]. *)
Inductive RestoreError : Type :=
| ErrRestoreTargetNotEmpty
    (* "restore failed: target database must be empty. ..." *)
| ErrRestoreFailed (n_errors : nat)
    (* "restore failed with %d error(s)" *).

Definition nonCriticalPatterns : list string :=
  [ "WARNING:"; "must be member of role"; "no privileges"; "NOTICE:" ].

(** The [for _, pattern := range nonCriticalPatterns] loop. *)
Fixpoint isCriticalLoop (patterns : list string) (line : string) : bool :=
  match patterns with
  | [] => true
  | pattern :: rest =>
      if strings.Contains line pattern then false
      else isCriticalLoop rest line
  end.

Definition isCriticalPostgreSQLError (line : string) : bool :=
  isCriticalLoop nonCriticalPatterns line.

(** The first loop of [validatePostgreSQLRestore]: [criticalErrors] is
    appended to, line after line. *)
Fixpoint collectCritical (lines : list string) (criticalErrors : list string)
  : list string :=
  match lines with
  | [] => criticalErrors
  | line :: rest =>
      if negb (strings.Contains line "ERROR:") then
        collectCritical rest criticalErrors            (* continue *)
      else if isCriticalPostgreSQLError line then
        collectCritical rest (criticalErrors ++ [line])
      else
        collectCritical rest criticalErrors
  end.

(** The second loop: return at the first "already exists". *)
Fixpoint scanAlreadyExists (criticalErrors : list string) : bool :=
  match criticalErrors with
  | [] => false
  | errLine :: rest =>
      if strings.Contains errLine "already exists" then true
      else scanAlreadyExists rest
  end.

(** [cmdErr] is the error of [cmd.CombinedOutput()]: [Some _] when the
    process exited non-zero.  The function never looks at it. *)
Definition validatePostgreSQLRestore (output : string) (cmdErr : option string)
  : option RestoreError :=
  let lines := strings.SplitByte "010" output in
  let criticalErrors := collectCritical lines [] in
  if (0 <? Z.of_nat (length criticalErrors)) then
    if scanAlreadyExists criticalErrors then Some ErrRestoreTargetNotEmpty
    else Some (ErrRestoreFailed (length criticalErrors))
  else None.

End restore.

(** ** Package [backup]: the paginated listing (backup_service.go) *)

Module listing.

(** Modelled from the spec: [type BackupListOptions struct] is declared in
    a file that is not under src/; the fields are the ones the handler
    fills in and the repository reads. *)
Record BackupListOptions : Type := mkBackupListOptions {
  UserID : UUID;
  Limit : Z;
  Offset : Z;
  Search : string
}.

(** [BackupService.GetAllBackupsWithPagination]; [repo] is
    [s.backupRepo.GetAllBackupsWithPagination], which receives the
    options after the three assignments. *)
Definition GetAllBackupsWithPagination {R : Type}
    (repo : BackupListOptions -> R) (opts : BackupListOptions) : R :=
  let opts :=
    if Limit opts <=? 0
    then mkBackupListOptions (UserID opts) 10 (Offset opts) (Search opts)
    else opts in
  let opts :=
    if 100 <? Limit opts
    then mkBackupListOptions (UserID opts) 100 (Offset opts) (Search opts)
    else opts in
  let opts :=
    if Offset opts <? 0
    then mkBackupListOptions (UserID opts) (Limit opts) 0 (Search opts)
    else opts in
  repo opts.

End listing.

(** ** Errors, statements and external collaborators *)

(** Statements sent to the SQL store.  The driver may refuse any of them;
    the environment says which. *)
Inductive DbOp : Type :=
| QGetConnection (id : string)
| XSaveConnection (id : string)
| XUpdateSelectedDatabases (id : string)
| QGetBackupSchedule (connectionID : string)
| XUpdateBackupSchedule (id : UUID)
| XCreateBackupSchedule (id : UUID)
| XCreateBackup (id : UUID)
| QGetBackupsOlderThan (connectionID : string)
| XDeleteBackup (id : UUID).

(** Go [error] values: the sentinel [sql.ErrNoRows], failures of the
    collaborators, and the [fmt.Errorf] sites, named by their message
    (with the wrapped cause where the format has a [%v] or [%w] for it). *)
Inductive error : Type :=
| ErrNoRows
| ErrDriver (op : DbOp)
| ErrVault
| ErrExternal (what : string)
| Errorf (msg : string)
| Wrapf (msg : string) (cause : error)
| ErrAllFailed (failedDatabases : list string).

Abbreviation res := (result error).

(** ** Package [connection] *)

Module StoredConnection.
(** [type StoredConnection struct]; every field carries a [json] tag
    and none is omitted from the encoding. *)
Record t : Type := mk {
  ID : string;
  Name : string;
  Type_ : string;
  Host : string;
  Port : Z;
  Username : string;
  Password : string;
  DatabaseName : string;
  SelectedDatabases : list string;
  SSL : bool;
  SSHEnabled : bool;
  SSHHost : string;
  SSHPort : Z;
  SSHUsername : string;
  SSHPassword : string;
  SSHPrivateKey : string;
  S3CleanupOnRetention : bool;
  CreatedAt : string;
  UpdatedAt : string;
  LastConnectedAt : option Time;
  UserID : UUID;
  Status : string;
  DatabaseSize : Z
}.
End StoredConnection.

Module ConnRow.
(** A row of table [connections].  The columns added by later
    migrations are nullable. *)
Record t : Type := mk {
  id : string;
  name : string;
  type_ : string;
  host : string;
  port : Z;
  username : string;                 (* ciphertext *)
  password : string;                 (* ciphertext *)
  database_name : string;
  ssl : Z;
  database_size : Z;
  created_at : string;
  updated_at : string;
  last_connected_at : option Time;
  user_id : UUID;
  status : string;
  ssh_enabled : Z;
  ssh_host : string;
  ssh_port : Z;
  ssh_username : string;
  ssh_password : option string;      (* ciphertext or NULL *)
  ssh_private_key : option string;   (* ciphertext or NULL *)
  selected_databases : option string;
  s3_cleanup_on_retention : option Z
}.

(** [UPDATE connections SET selected_databases = $1,
    updated_at = datetime('now')]. *)
Definition set_selected_databases (r : t) (v now_text : string) : t :=
  mk (id r) (name r) (type_ r) (host r) (port r) (username r) (password r)
     (database_name r) (ssl r) (database_size r) (created_at r) now_text
     (last_connected_at r) (user_id r) (status r) (ssh_enabled r)
     (ssh_host r) (ssh_port r) (ssh_username r) (ssh_password r)
     (ssh_private_key r) (Some v) (s3_cleanup_on_retention r).
End ConnRow.

(** The credential vault ([common.EncryptionService]) and the clock of the
    SQL engine, as the connection repository sees them. *)
Module Vault.
Record t : Type := mk {
  Encrypt : string -> res string;
  Decrypt : string -> res string;
  db_fails : DbOp -> bool;
  sql_now : string
}.
End Vault.

Module connection.
Import StoredConnection.

(** *** connection_repository.go *)

(** The loop of [UpdateSelectedDatabases] building [dbString]; [i] is
    the index of the head of [databases]. *)
Fixpoint joinLoop (i : nat) (databases : list string) (dbString : string)
  : string :=
  match databases with
  | [] => dbString
  | db :: rest =>
      let dbString := if (0 <? i)%nat then dbString +:+ "," else dbString in
      joinLoop (S i) rest (dbString +:+ db)
  end.

Definition encodeSelectedDatabases (databases : list string) : string :=
  if (0 <? length databases)%nat then joinLoop 0 databases "" else "".

(** [UPDATE ... WHERE id = $2]: no row, no change, and no error. *)
Definition UpdateSelectedDatabases (V : Vault.t)
    (tbl : gmap string ConnRow.t) (id : string) (databases : list string)
  : option error * gmap string ConnRow.t :=
  let dbString := encodeSelectedDatabases databases in
  if Vault.db_fails V (XUpdateSelectedDatabases id)
  then (Some (ErrDriver (XUpdateSelectedDatabases id)), tbl)
  else match tbl !! id with
       | Some r =>
           (None, <[id := ConnRow.set_selected_databases r dbString
                            (Vault.sql_now V)]> tbl)
       | None => (None, tbl)
       end.

(** The inner loop of the parser in [GetConnection]: from index [i],
    [end] advances while it is inside the string and not on a comma.
    The argument is the string from [i] on; the result is [s[i:end]] and
    the string from [end] on. *)
Fixpoint scanSegment (s : string) : string * string :=
  match s with
  | EmptyString => (EmptyString, EmptyString)
  | String c s' =>
      if Ascii.eqb c "," then (EmptyString, s)
      else let '(seg, rest) := scanSegment s' in (String c seg, rest)
  end.

(** The outer loop, [for i := 0; i < len(str); { ...; i = end + 1 }];
    the argument is again the string from [i] on.  Each round consumes
    at least one byte, so [fuel] above the length is never used up. *)
Fixpoint parseLoop (fuel : nat) (s : string) (acc : list string)
  : list string :=
  match fuel with
  | O => acc
  | S fuel' =>
      match s with
      | EmptyString => acc
      | String _ _ =>
          let '(seg, rest) := scanSegment s in
          let acc := if String.eqb seg "" then acc else acc ++ [seg] in
          match rest with
          | EmptyString => acc        (* end = len: i = len + 1 *)
          | String _ rest' => parseLoop fuel' rest' acc
          end
      end
  end.

Definition parseSelectedDatabases (s : string) : list string :=
  parseLoop (S (String.length s)) s [].

(** [if ns.Valid && ns.String != "" { v, err = Decrypt(ns.String) }]:
    the field keeps its zero value otherwise. *)
Definition decryptOptional (V : Vault.t) (ns : option string) : res string :=
  match ns with
  | Some c => if String.eqb c "" then Ok "" else Vault.Decrypt V c
  | None => Ok ""
  end.

Definition GetConnection (V : Vault.t) (tbl : gmap string ConnRow.t)
    (id : string) : res StoredConnection.t :=
  if Vault.db_fails V (QGetConnection id) then Fail (ErrDriver (QGetConnection id))
  else
  match tbl !! id with
  | None => Fail ErrNoRows
  | Some r =>
      let selectedDatabasesStr := default "" (ConnRow.selected_databases r) in
      let s3CleanupInt := default 1 (ConnRow.s3_cleanup_on_retention r) in
      let selected :=
        if String.eqb selectedDatabasesStr "" then []
        else parseSelectedDatabases selectedDatabasesStr in
      match Vault.Decrypt V (ConnRow.username r) with
      | Fail e => Fail e
      | Ok username =>
      match Vault.Decrypt V (ConnRow.password r) with
      | Fail e => Fail e
      | Ok password =>
      match decryptOptional V (ConnRow.ssh_password r) with
      | Fail e => Fail e
      | Ok sshPassword =>
      match decryptOptional V (ConnRow.ssh_private_key r) with
      | Fail e => Fail e
      | Ok sshPrivateKey =>
          Ok (mk (ConnRow.id r) (ConnRow.name r) (ConnRow.type_ r)
                 (ConnRow.host r) (ConnRow.port r) username password
                 (ConnRow.database_name r) selected
                 (negb (ConnRow.ssl r =? 0))
                 (negb (ConnRow.ssh_enabled r =? 0))
                 (ConnRow.ssh_host r) (ConnRow.ssh_port r)
                 (ConnRow.ssh_username r) sshPassword sshPrivateKey
                 (negb (s3CleanupInt =? 0))
                 (ConnRow.created_at r) (ConnRow.updated_at r)
                 (ConnRow.last_connected_at r) (ConnRow.user_id r)
                 (ConnRow.status r) (ConnRow.database_size r))
      end end end end
  end.

(** [if conn.X != "" { x, err = Encrypt(conn.X) }]. *)
Definition encryptOptional (V : Vault.t) (plain : string) : res string :=
  if String.eqb plain "" then Ok "" else Vault.Encrypt V plain.

(** [Save]: the INSERT leaves [selected_databases] NULL; the primary key
    refuses a second row with the same id. *)
Definition Save (V : Vault.t) (tbl : gmap string ConnRow.t)
    (conn : StoredConnection.t) : option error * gmap string ConnRow.t :=
  match Vault.Encrypt V (Username conn) with
  | Fail e => (Some e, tbl)
  | Ok username =>
  match Vault.Encrypt V (Password conn) with
  | Fail e => (Some e, tbl)
  | Ok password =>
  match encryptOptional V (SSHPassword conn) with
  | Fail e => (Some e, tbl)
  | Ok sshPassword =>
  match encryptOptional V (SSHPrivateKey conn) with
  | Fail e => (Some e, tbl)
  | Ok sshPrivateKey =>
      let sslInt := if SSL conn then 1 else 0 in
      let sshEnabledInt := if SSHEnabled conn then 1 else 0 in
      let s3CleanupInt := if negb (S3CleanupOnRetention conn) then 0 else 1 in
      if Vault.db_fails V (XSaveConnection (ID conn)) ||
         bool_decide (is_Some (tbl !! ID conn))
      then (Some (ErrDriver (XSaveConnection (ID conn))), tbl)
      else
        (None,
         <[ID conn :=
             ConnRow.mk (ID conn) (Name conn) (Type_ conn) (Host conn)
               (Port conn) username password (DatabaseName conn) sslInt
               (DatabaseSize conn) (CreatedAt conn) (UpdatedAt conn)
               (LastConnectedAt conn) (UserID conn) (Status conn)
               sshEnabledInt (SSHHost conn) (SSHPort conn)
               (SSHUsername conn) (Some sshPassword) (Some sshPrivateKey)
               None (Some s3CleanupInt)]> tbl)
  end end end end.

(** *** connection_service.go *)

Definition Service_GetConnection := GetConnection.
Definition Service_UpdateSelectedDatabases := UpdateSelectedDatabases.

(** *** connection_handler.go *)

(** What a handler writes: an error envelope, or a status with the JSON
    encoding of a value. *)
Inductive Response (A : Type) : Type :=
| SendError (status : Z) (message : string + error)
| Encode (status : Z) (body : A).
Arguments SendError {A} status message.
Arguments Encode {A} status body.

(** [ConnectionHandler.GetConnection]; [id] is [mux.Vars(r)["id"]]. *)
Definition Handler_GetConnection (V : Vault.t)
    (tbl : gmap string ConnRow.t) (id : string)
  : Response StoredConnection.t :=
  if String.eqb id "" then SendError 400 (inl "connection id is required")
  else match Service_GetConnection V tbl id with
       | Fail err => SendError 500 (inr err)
       | Ok connection => Encode 200 connection
       end.

End connection.

(** ** Package [backup]: records and collaborators *)

Module UserSettings.
(** The S3 half of [type UserSettings struct] (settings/model.go); a Go
    [*string] is an [option string]. *)
Record t : Type := mk {
  S3Enabled : bool;
  S3Endpoint : option string;
  S3Region : option string;
  S3Bucket : option string;
  S3AccessKey : option string;
  S3SecretKey : option string;          (* ciphertext *)
  S3UseSSL : bool;
  S3PathPrefix : option string;
  S3PurgeLocal : bool
}.
End UserSettings.

Module S3Config.
Record t : Type := mk {
  Endpoint : string;
  Region : string;
  Bucket : string;
  AccessKey : string;
  SecretKey : string;
  UseSSL : bool;
  PathPrefix : string
}.
End S3Config.

Module S3Storage.
(** [type S3Storage struct], without the client handle. *)
Record t : Type := mk {
  bucket : string;
  prefix : string
}.
End S3Storage.

Module Backup.
(** Modelled from the spec: [type Backup struct] is declared in a file of
    package [backup] that is not under src/; the fields are the ones the
    repository binds to the columns of table [backups] (spec section 3). *)
Record t : Type := mk {
  ID : UUID;
  ConnectionID : string;
  ScheduleID : option string;
  Status : string;
  Path : string;
  S3ObjectKey : option string;
  Size : Z;
  StartedTime : Time;
  CompletedTime : option Time;
  CreatedAt : Time;
  UpdatedAt : Time
}.

Definition set_S3ObjectKey (b : t) (key : option string) : t :=
  mk (ID b) (ConnectionID b) (ScheduleID b) (Status b) (Path b) key (Size b)
     (StartedTime b) (CompletedTime b) (CreatedAt b) (UpdatedAt b).

(** [backup.Size = ...; backup.Status = "completed"; backup.CompletedTime = &now]. *)
Definition complete (b : t) (size : Z) (now : Time) : t :=
  mk (ID b) (ConnectionID b) (ScheduleID b) "completed" (Path b)
     (S3ObjectKey b) size (StartedTime b) (Some now) (CreatedAt b)
     (UpdatedAt b).
End Backup.

Module BackupSchedule.
(** Modelled from the spec: [type BackupSchedule struct] is declared in a
    file of package [backup] that is not under src/; the fields are the
    ones the repository binds to the columns of table [backup_schedules]
    (spec section 3). *)
Record t : Type := mk {
  ID : UUID;
  ConnectionID : string;
  Enabled : bool;
  CronSchedule : string;
  RetentionDays : Z;
  NextRunTime : option Time;
  LastBackupTime : option Time;
  CreatedAt : Time;
  UpdatedAt : Time
}.
End BackupSchedule.

Module ScheduleBackupRequest.
(** Modelled from the spec: [type ScheduleBackupRequest struct] is declared
    in a file that is not under src/; the fields are the ones
    [ScheduleBackup] and its handler read. *)
Record t : Type := mk {
  ConnectionID : string;
  CronSchedule : string;
  RetentionDays : Z
}.
End ScheduleBackupRequest.

Module Cmd.
(** An [*exec.Cmd] ready to run: the binary and its argument vector. *)
Record t : Type := mk {
  Path : string;
  Args : list string
}.
End Cmd.

Module CmdOutcome.
(** What [cmd.CombinedOutput()] gives back, and what the dump tool left at
    the path it was told to write ([None]: no file). *)
Record t : Type := mk {
  output : string;
  err : option error;
  written : option Z
}.
End CmdOutcome.

(** A parsed [cron.Schedule] is its [Next] method. *)
Definition cron_Schedule := Time -> Time.

Module Env.
(** Everything the service reaches outside its own code: the clock, the
    vault, the settings service, the helpers of package [common] and the
    command builders (none of them under src/), the operating system, the
    dump tools, the S3 endpoint and the cron library.  A field named
    [..._fails] says whether that call returns an error. *)
Record t : Type := mk {
  vault : Vault.t;
  Now : Time;                                   (* time.Now() *)
  Timestamp : string;        (* time.Now().Format("20060102_150405") *)
  AddDate : Time -> Z -> Time;                  (* t.AddDate(0, 0, days) *)
  backupDir : string;                           (* s.backupDir *)
  TempDir : string;                             (* os.TempDir() *)
  Join : string -> string -> string;            (* filepath.Join *)
  Base : string -> string;                      (* filepath.Base *)
  SanitizeConnectionName : string -> string;
  MkdirAll_fails : string -> bool;
  Remove_fails : string -> bool;
  Create_fails : string -> bool;
  GetUserSettingsInternal : UUID -> res UserSettings.t;
  verifyBackupTools : string -> option error;
  setupSSHTunnelIfNeeded : StoredConnection.t -> res (option (string * Z));
  createPgDumpCmd : StoredConnection.t -> string -> option Cmd.t;
  createMySQLDumpCmd : StoredConnection.t -> string -> option Cmd.t;
  createMongoDumpCmd : StoredConnection.t -> string -> option Cmd.t;
  createRedisDumpCmd : StoredConnection.t -> string -> option Cmd.t;
  CombinedOutput : Cmd.t -> CmdOutcome.t;
  minio_New_fails : S3Config.t -> bool;   (* client, bucket check or creation *)
  PutObject_fails : string -> bool;
  GetObject_fails : string -> bool;
  RemoveObject_fails : string -> bool;
  cron_Parse : string -> option cron_Schedule;   (* the six-field parser *)
  cron_AddFunc_fails : string -> bool           (* the manager's own parser *)
}.

Definition db_fails (E : t) : DbOp -> bool := Vault.db_fails (vault E).
Definition Decrypt (E : t) : string -> res string := Vault.Decrypt (vault E).
End Env.

Module World.
(** The stores the service works on: three SQL tables, the local spool
    (path to size), the bucket (object key to size), the supply of fresh
    identifiers, and the scheduler state ([s.cronEntries] and the entries
    of [s.cronManager]). *)
Record t : Type := mk {
  connections : gmap string ConnRow.t;
  schedules : list BackupSchedule.t;
  backups : list Backup.t;
  files : gmap string Z;
  s3 : gmap string Z;
  uuids : nat;
  cronEntries : gmap UUID nat;
  cronJobs : gmap nat (string * UUID);
  nextEntry : nat
}.

Definition set_schedules (w : t) (v : list BackupSchedule.t) : t :=
  mk (connections w) v (backups w) (files w) (s3 w) (uuids w)
     (cronEntries w) (cronJobs w) (nextEntry w).

Definition set_backups (w : t) (v : list Backup.t) : t :=
  mk (connections w) (schedules w) v (files w) (s3 w) (uuids w)
     (cronEntries w) (cronJobs w) (nextEntry w).

Definition set_files (w : t) (v : gmap string Z) : t :=
  mk (connections w) (schedules w) (backups w) v (s3 w) (uuids w)
     (cronEntries w) (cronJobs w) (nextEntry w).

Definition set_s3 (w : t) (v : gmap string Z) : t :=
  mk (connections w) (schedules w) (backups w) (files w) v (uuids w)
     (cronEntries w) (cronJobs w) (nextEntry w).

Definition set_cron (w : t) (entries : gmap UUID nat)
    (jobs : gmap nat (string * UUID)) (next : nat) : t :=
  mk (connections w) (schedules w) (backups w) (files w) (s3 w) (uuids w)
     entries jobs next.

(** [uuid.New()]. *)
Definition uuid_New (w : t) : UUID * t :=
  (uuids w,
   mk (connections w) (schedules w) (backups w) (files w) (s3 w)
      (S (uuids w)) (cronEntries w) (cronJobs w) (nextEntry w)).
End World.

(** ** Package [os] *)

Module os.

(** [os.Stat(path)]: the size, or an error when nothing is there. *)
Definition Stat (w : World.t) (path : string) : res Z :=
  match World.files w !! path with
  | Some size => Ok size
  | None => Fail (ErrExternal "stat: no such file or directory")
  end.

(** [os.Remove(path)]. *)
Definition Remove (E : Env.t) (w : World.t) (path : string)
  : option error * World.t :=
  match World.files w !! path with
  | None => (Some (ErrExternal "remove: no such file or directory"), w)
  | Some _ =>
      if Env.Remove_fails E path
      then (Some (ErrExternal "remove: operation not permitted"), w)
      else (None, World.set_files w (delete path (World.files w)))
  end.

(** [os.MkdirAll(path, 0755)]; directories are not tracked in the spool. *)
Definition MkdirAll (E : Env.t) (path : string) : option error :=
  if Env.MkdirAll_fails E path then Some (ErrExternal "mkdir") else None.

End os.

(** ** Package [backup]: s3_storage.go *)

Module s3storage.

Definition NewS3Storage (E : Env.t) (config : S3Config.t) : res S3Storage.t :=
  if Env.minio_New_fails E config
  then Fail (Wrapf "failed to create S3 client" (ErrExternal "minio"))
  else Ok (S3Storage.mk (S3Config.Bucket config) (S3Config.PathPrefix config)).

(** [getObjectKeyWithPath]: prefix/subfolder/fileName. *)
Definition getObjectKeyWithPath (s : S3Storage.t) (fileName subfolder : string)
  : string :=
  let parts := [] in
  let parts :=
    if negb (String.eqb (S3Storage.prefix s) "")
    then parts ++ [strings.TrimSuffixSlash (S3Storage.prefix s)] else parts in
  let parts :=
    if negb (String.eqb subfolder "")
    then parts ++ [strings.TrimSlashes subfolder] else parts in
  let parts := parts ++ [strings.TrimPrefixSlash fileName] in
  strings.Join parts "/".

(** [UploadFileWithPath]: open and stat the local file, then [PutObject]. *)
Definition UploadFileWithPath (E : Env.t) (s : S3Storage.t) (w : World.t)
    (localPath subfolder : string) : res string * World.t :=
  match os.Stat w localPath with
  | Fail e => (Fail (Wrapf "failed to open file" e), w)
  | Ok size =>
      let fileName := Env.Base E localPath in
      let objectKey := getObjectKeyWithPath s fileName subfolder in
      if Env.PutObject_fails E objectKey
      then (Fail (Wrapf "failed to upload to S3" (ErrExternal "PutObject")), w)
      else (Ok objectKey,
            World.set_s3 w (<[objectKey := size]> (World.s3 w)))
  end.

(** [DownloadFile]: [GetObject], [os.Create], [io.Copy].  The local file
    exists, empty, once it is created, whether the copy succeeds or not;
    the copy fails when the object is not in the bucket. *)
Definition DownloadFile (E : Env.t) (s : S3Storage.t) (w : World.t)
    (objectKey localPath : string) : option error * World.t :=
  if Env.GetObject_fails E objectKey
  then (Some (Wrapf "failed to get object from S3" (ErrExternal "GetObject")), w)
  else if Env.Create_fails E localPath
  then (Some (Wrapf "failed to create local file" (ErrExternal "create")), w)
  else match World.s3 w !! objectKey with
       | None =>
           (Some (Wrapf "failed to download from S3" (ErrExternal "NoSuchKey")),
            World.set_files w (<[localPath := 0]> (World.files w)))
       | Some size =>
           (None, World.set_files w (<[localPath := size]> (World.files w)))
       end.

(** [DeleteFile]: [RemoveObject]; removing an absent key is no error. *)
Definition DeleteFile (E : Env.t) (s : S3Storage.t) (w : World.t)
    (objectKey : string) : option error * World.t :=
  if Env.RemoveObject_fails E objectKey
  then (Some (Wrapf "failed to delete object from S3"
                (ErrExternal "RemoveObject")), w)
  else (None, World.set_s3 w (delete objectKey (World.s3 w))).

End s3storage.

(** ** Package [backup]: backup_repository.go *)

Module repo.

(** [CreateBackup]: INSERT INTO backups. *)
Definition CreateBackup (E : Env.t) (w : World.t) (backup : Backup.t)
  : option error * World.t :=
  if Env.db_fails E (XCreateBackup (Backup.ID backup))
  then (Some (ErrDriver (XCreateBackup (Backup.ID backup))), w)
  else (None, World.set_backups w (World.backups w ++ [backup])).

(** The WHERE clause of [GetBackupsOlderThan]. *)
Definition olderThan (connectionID : string) (cutoffTime : Time)
    (b : Backup.t) : bool :=
  String.eqb (Backup.ConnectionID b) connectionID &&
  (Backup.CreatedAt b <? cutoffTime) &&
  String.eqb (Backup.Status b) "completed".

(** The rows come back with four columns scanned into an otherwise zero
    [Backup]. *)
Definition scanOld (b : Backup.t) : Backup.t :=
  Backup.mk (Backup.ID b) "" None "" (Backup.Path b) (Backup.S3ObjectKey b)
            0 0 None (Backup.CreatedAt b) 0.

Definition GetBackupsOlderThan (E : Env.t) (w : World.t)
    (connectionID : string) (cutoffTime : Time) : res (list Backup.t) :=
  if Env.db_fails E (QGetBackupsOlderThan connectionID)
  then Fail (ErrDriver (QGetBackupsOlderThan connectionID))
  else Ok (map scanOld
             (List.filter (olderThan connectionID cutoffTime)
                          (World.backups w))).

(** [DeleteBackup]: DELETE FROM backups WHERE id = $1. *)
Definition DeleteBackup (E : Env.t) (w : World.t) (id : UUID)
  : option error * World.t :=
  if Env.db_fails E (XDeleteBackup id)
  then (Some (ErrDriver (XDeleteBackup id)), w)
  else (None,
        World.set_backups w
          (List.filter (fun b => negb (Nat.eqb (Backup.ID b) id))
                       (World.backups w))).

(** ORDER BY created_at DESC LIMIT 1 over the rows of a connection: the
    row created last (the first such row of the table among equals). *)
Fixpoint latest (best : option BackupSchedule.t) (rows : list BackupSchedule.t)
  : option BackupSchedule.t :=
  match rows with
  | [] => best
  | r :: rest =>
      match best with
      | None => latest (Some r) rest
      | Some b =>
          if BackupSchedule.CreatedAt b <? BackupSchedule.CreatedAt r
          then latest (Some r) rest else latest best rest
      end
  end.

Definition GetBackupSchedule (E : Env.t) (w : World.t) (connectionID : string)
  : res BackupSchedule.t :=
  if Env.db_fails E (QGetBackupSchedule connectionID)
  then Fail (ErrDriver (QGetBackupSchedule connectionID))
  else
    match latest None
            (List.filter
               (fun r => String.eqb (BackupSchedule.ConnectionID r) connectionID)
               (World.schedules w)) with
    | Some r => Ok r
    | None => Fail ErrNoRows
    end.

(** [UpdateBackupSchedule]: UPDATE ... SET enabled, cron_schedule,
    retention_days, next_run_time, last_backup_time, updated_at
    WHERE id = $7; [updated_at] is the clock of the repository. *)
Definition updateRow (E : Env.t) (schedule r : BackupSchedule.t)
  : BackupSchedule.t :=
  if Nat.eqb (BackupSchedule.ID r) (BackupSchedule.ID schedule)
  then BackupSchedule.mk (BackupSchedule.ID r) (BackupSchedule.ConnectionID r)
         (BackupSchedule.Enabled schedule)
         (BackupSchedule.CronSchedule schedule)
         (BackupSchedule.RetentionDays schedule)
         (BackupSchedule.NextRunTime schedule)
         (BackupSchedule.LastBackupTime schedule)
         (BackupSchedule.CreatedAt r) (Env.Now E)
  else r.

Definition UpdateBackupSchedule (E : Env.t) (w : World.t)
    (schedule : BackupSchedule.t) : option error * World.t :=
  if Env.db_fails E (XUpdateBackupSchedule (BackupSchedule.ID schedule))
  then (Some (Wrapf "failed to update backup schedule"
                (ErrDriver (XUpdateBackupSchedule (BackupSchedule.ID schedule)))),
        w)
  else (None,
        World.set_schedules w (map (updateRow E schedule) (World.schedules w))).

(** [CreateBackupSchedule]: INSERT; both timestamps are the clock of the
    repository. *)
Definition CreateBackupSchedule (E : Env.t) (w : World.t)
    (schedule : BackupSchedule.t) : option error * World.t :=
  if Env.db_fails E (XCreateBackupSchedule (BackupSchedule.ID schedule))
  then (Some (ErrDriver (XCreateBackupSchedule (BackupSchedule.ID schedule))), w)
  else
    (None,
     World.set_schedules w
       (World.schedules w ++
        [BackupSchedule.mk (BackupSchedule.ID schedule)
           (BackupSchedule.ConnectionID schedule)
           (BackupSchedule.Enabled schedule)
           (BackupSchedule.CronSchedule schedule)
           (BackupSchedule.RetentionDays schedule)
           (BackupSchedule.NextRunTime schedule)
           (BackupSchedule.LastBackupTime schedule)
           (Env.Now E) (Env.Now E)])).

End repo.

(** ** Package [backup]: backup_service.go *)

Module service.
Import StoredConnection.

(** [p == nil || *p == ""]. *)
Definition blank (p : option string) : bool :=
  match p with
  | None => true
  | Some v => String.eqb v ""
  end.

(** The block that fills [s3Config] from the settings and the decrypted
    secret; the region falls back to us-east-1 and the prefix to "". *)
Definition buildS3Config (us : UserSettings.t) (secretKey : string)
  : S3Config.t :=
  let region :=
    if negb (blank (UserSettings.S3Region us))
    then default "" (UserSettings.S3Region us) else "us-east-1" in
  let pathPrefix := default "" (UserSettings.S3PathPrefix us) in
  S3Config.mk (default "" (UserSettings.S3Endpoint us)) region
              (default "" (UserSettings.S3Bucket us))
              (default "" (UserSettings.S3AccessKey us)) secretKey
              (UserSettings.S3UseSSL us) pathPrefix.

(** The four checks that [uploadToS3IfEnabled] and
    [ensureBackupFileAvailable] share, in their order. *)
Definition checkS3Fields (us : UserSettings.t) : option error :=
  if blank (UserSettings.S3Endpoint us)
  then Some (Errorf "S3 endpoint not configured")
  else if blank (UserSettings.S3Bucket us)
  then Some (Errorf "S3 bucket not configured")
  else if blank (UserSettings.S3AccessKey us)
  then Some (Errorf "S3 access key not configured")
  else if blank (UserSettings.S3SecretKey us)
  then Some (Errorf "S3 secret key not configured")
  else None.

(** [uploadToS3IfEnabled]; the backup is passed by pointer, so the value
    with the object key set comes back with the error. *)
Definition uploadToS3IfEnabled (E : Env.t) (w : World.t) (backup : Backup.t)
    (userID : UUID) (connectionName : string)
  : option error * Backup.t * World.t :=
  match Env.GetUserSettingsInternal E userID with
  | Fail err => (Some (Wrapf "failed to get user settings" err), backup, w)
  | Ok userSettings =>
  if negb (UserSettings.S3Enabled userSettings) then (None, backup, w)
  else
  match checkS3Fields userSettings with
  | Some err => (Some err, backup, w)
  | None =>
  match Env.Decrypt E (default "" (UserSettings.S3SecretKey userSettings)) with
  | Fail err => (Some (Wrapf "failed to decrypt S3 secret key" err), backup, w)
  | Ok secretKey =>
  match s3storage.NewS3Storage E (buildS3Config userSettings secretKey) with
  | Fail err =>
      (Some (Wrapf "failed to create S3 storage client" err), backup, w)
  | Ok s3Storage =>
      let sanitizedConnectionName :=
        Env.SanitizeConnectionName E connectionName in
      match s3storage.UploadFileWithPath E s3Storage w (Backup.Path backup)
              sanitizedConnectionName with
      | (Fail err, w) =>
          (Some (Wrapf "failed to upload backup to S3" err), backup, w)
      | (Ok objectKey, w) =>
          let backup := Backup.set_S3ObjectKey backup (Some objectKey) in
          (* Purge local backup file if enabled *)
          if UserSettings.S3PurgeLocal userSettings then
            match os.Remove E w (Backup.Path backup) with
            | (Some _, w) => (None, backup, w)     (* warning only *)
            | (None, w) => (None, backup, w)
            end
          else (None, backup, w)
      end
  end end end end.

(** The [switch conn.Type] that picks the dump command builder. *)
Inductive DumpCmd : Type :=
| Unsupported
| ToolNotFound                      (* the builder returned nil *)
| Built (cmd : Cmd.t).

Definition dumpCmdFor (E : Env.t) (type_ : string)
    (conn : StoredConnection.t) (backupPath : string) : DumpCmd :=
  let built (c : option Cmd.t) :=
    match c with Some cmd => Built cmd | None => ToolNotFound end in
  if String.eqb type_ "postgresql" then built (Env.createPgDumpCmd E conn backupPath)
  else if String.eqb type_ "mysql" || String.eqb type_ "mariadb"
  then built (Env.createMySQLDumpCmd E conn backupPath)
  else if String.eqb type_ "mongodb" then built (Env.createMongoDumpCmd E conn backupPath)
  else if String.eqb type_ "redis" then built (Env.createRedisDumpCmd E conn backupPath)
  else Unsupported.

(** [cmd.CombinedOutput()]: the tool runs and leaves its file, if any, at
    the backup path. *)
Definition runDump (E : Env.t) (w : World.t) (cmd : Cmd.t) (backupPath : string)
  : CmdOutcome.t * World.t :=
  let out := Env.CombinedOutput E cmd in
  (out,
   match CmdOutcome.written out with
   | Some size => World.set_files w (<[backupPath := size]> (World.files w))
   | None => w
   end).

(** [conn.Host = effectiveHost; conn.Port = effectivePort] when a tunnel
    was opened. *)
Definition throughTunnel (conn : StoredConnection.t)
    (tunnel : option (string * Z)) : StoredConnection.t :=
  match tunnel with
  | None => conn
  | Some (effectiveHost, effectivePort) =>
      mk (ID conn) (Name conn) (Type_ conn) effectiveHost effectivePort
         (Username conn) (Password conn) (DatabaseName conn)
         (SelectedDatabases conn) (SSL conn) (SSHEnabled conn) (SSHHost conn)
         (SSHPort conn) (SSHUsername conn) (SSHPassword conn)
         (SSHPrivateKey conn) (S3CleanupOnRetention conn) (CreatedAt conn)
         (UpdatedAt conn) (LastConnectedAt conn) (UserID conn) (Status conn)
         (DatabaseSize conn)
  end.

(** [tempConn := *conn; tempConn.DatabaseName = dbName]. *)
Definition withDatabaseName (conn : StoredConnection.t) (dbName : string)
  : StoredConnection.t :=
  mk (ID conn) (Name conn) (Type_ conn) (Host conn) (Port conn)
     (Username conn) (Password conn) dbName
     (SelectedDatabases conn) (SSL conn) (SSHEnabled conn) (SSHHost conn)
     (SSHPort conn) (SSHUsername conn) (SSHPassword conn)
     (SSHPrivateKey conn) (S3CleanupOnRetention conn) (CreatedAt conn)
     (UpdatedAt conn) (LastConnectedAt conn) (UserID conn) (Status conn)
     (DatabaseSize conn).

Definition backupFileName (E : Env.t) (dbName : string) : string :=
  dbName +:+ "_" +:+ Env.Timestamp E +:+ ".sql".

Definition createSingleDatabaseBackup (E : Env.t) (w : World.t)
    (conn : StoredConnection.t) (dbName : string) : res Backup.t * World.t :=
  match Env.verifyBackupTools E (Type_ conn) with
  | Some err => (Fail err, w)
  | None =>
  match Env.setupSSHTunnelIfNeeded E conn with
  | Fail err => (Fail (Wrapf "failed to setup SSH tunnel" err), w)
  | Ok tunnel =>
  let conn := throughTunnel conn tunnel in
  let '(backupID, w) := World.uuid_New w in
  let filename := backupFileName E dbName in
  let connectionFolder :=
    Env.Join E (Env.backupDir E) (Env.SanitizeConnectionName E (Name conn)) in
  match os.MkdirAll E connectionFolder with
  | Some err =>
      (Fail (Wrapf "failed to create connection backup folder" err), w)
  | None =>
  let backupPath := Env.Join E connectionFolder filename in
  let backup :=
    Backup.mk backupID (ID conn) None "in_progress" backupPath None 0
              (Env.Now E) None (Env.Now E) (Env.Now E) in
  match dumpCmdFor E (Type_ conn) conn backupPath with
  | Unsupported => (Fail (Errorf "unsupported database type for backup"), w)
  | ToolNotFound => (Fail (Errorf "backup tool not found"), w)
  | Built cmd =>
  let '(out, w) := runDump E w cmd backupPath in
  match CmdOutcome.err out with
  | Some err =>
      let errorMsg :=
        if String.eqb (CmdOutcome.output out) "" then Wrapf "backup failed" err
        else Errorf ("backup failed: " +:+ CmdOutcome.output out) in
      (Fail errorMsg, w)
  | None =>
  (* Get file size *)
  match os.Stat w backupPath with
  | Fail err => (Fail (Wrapf "failed to get backup file info" err), w)
  | Ok size =>
  let backup := Backup.complete backup size (Env.Now E) in
  let '(_, backup, w) :=
    uploadToS3IfEnabled E w backup (UserID conn) (Name conn) in
  match repo.CreateBackup E w backup with
  | (Some err, w) => (Fail (Wrapf "failed to save backup" err), w)
  | (None, w) => (Ok backup, w)
  end end end end end end end.

(** One round of the loop of [createMultiDatabaseBackup]: the round
    returns from the function, or fails and continues, or persists a
    backup. *)
Inductive Round : Type :=
| Return (err : error)
| Failed
| Done (backup : Backup.t).

Definition dumpOne (E : Env.t) (w : World.t) (conn : StoredConnection.t)
    (connectionFolder : string) (startTime : Time) (dbName : string)
  : Round * World.t :=
  let '(backupID, w) := World.uuid_New w in
  let filename := backupFileName E dbName in
  let backupPath := Env.Join E connectionFolder filename in
  let tempConn := withDatabaseName conn dbName in
  match dumpCmdFor E (Type_ conn) tempConn backupPath with
  | Unsupported => (Return (Errorf "unsupported database type for backup"), w)
  | ToolNotFound => (Failed, w)
  | Built cmd =>
  let '(out, w) := runDump E w cmd backupPath in
  match CmdOutcome.err out with
  | Some _ => (Failed, w)
  | None =>
  match os.Stat w backupPath with
  | Fail _ => (Failed, w)
  | Ok size =>
  let backup :=
    Backup.mk backupID (ID conn) None "completed" backupPath None size
              startTime (Some (Env.Now E)) (Env.Now E) (Env.Now E) in
  let '(_, backup, w) :=
    uploadToS3IfEnabled E w backup (UserID conn) (Name conn) in
  match repo.CreateBackup E w backup with
  | (Some _, w) => (Failed, w)
  | (None, w) => (Done backup, w)
  end end end end.

(** [for _, dbName := range conn.SelectedDatabases], with the two slices
    the loop appends to. *)
Fixpoint multiLoop (E : Env.t) (w : World.t) (conn : StoredConnection.t)
    (connectionFolder : string) (startTime : Time) (dbs : list string)
    (failedDatabases : list string) (successfulBackups : list Backup.t)
  : res (list string * list Backup.t) * World.t :=
  match dbs with
  | [] => (Ok (failedDatabases, successfulBackups), w)
  | dbName :: rest =>
      match dumpOne E w conn connectionFolder startTime dbName with
      | (Return err, w) => (Fail err, w)
      | (Failed, w) =>
          multiLoop E w conn connectionFolder startTime rest
                    (failedDatabases ++ [dbName]) successfulBackups
      | (Done backup, w) =>
          multiLoop E w conn connectionFolder startTime rest
                    failedDatabases (successfulBackups ++ [backup])
      end
  end.

Definition createMultiDatabaseBackup (E : Env.t) (w : World.t)
    (conn : StoredConnection.t) : res Backup.t * World.t :=
  match Env.verifyBackupTools E (Type_ conn) with
  | Some err => (Fail err, w)
  | None =>
  match Env.setupSSHTunnelIfNeeded E conn with
  | Fail err => (Fail (Wrapf "failed to setup SSH tunnel" err), w)
  | Ok tunnel =>
  let conn := throughTunnel conn tunnel in
  let connectionFolder :=
    Env.Join E (Env.backupDir E) (Env.SanitizeConnectionName E (Name conn)) in
  match os.MkdirAll E connectionFolder with
  | Some err =>
      (Fail (Wrapf "failed to create connection backup folder" err), w)
  | None =>
  let startTime := Env.Now E in
  match multiLoop E w conn connectionFolder startTime
                  (SelectedDatabases conn) [] [] with
  | (Fail err, w) => (Fail err, w)
  | (Ok (failedDatabases, successfulBackups), w) =>
      match successfulBackups with
      | [] =>
          if (0 <? length failedDatabases)%nat
          then (Fail (ErrAllFailed failedDatabases), w)
          else (Fail (Errorf "all database backups failed"), w)
      | first :: _ => (Ok first, w)
      end
  end end end end.

Definition CreateBackup (E : Env.t) (w : World.t) (connectionID : string)
  : res Backup.t * World.t :=
  match connection.GetConnection (Env.vault E) (World.connections w)
          connectionID with
  | Fail err => (Fail (Wrapf "failed to get connection" err), w)
  | Ok conn =>
      (* Check if multi-database backup is needed *)
      if (0 <? length (SelectedDatabases conn))%nat
      then createMultiDatabaseBackup E w conn
      else createSingleDatabaseBackup E w conn (DatabaseName conn)
  end.

(** [ensureBackupFileAvailable]: the path to use and whether it is a
    temporary file. *)
Definition ensureBackupFileAvailable (E : Env.t) (w : World.t)
    (backup : Backup.t) (userID : UUID) : res (string * bool) * World.t :=
  (* Check if local file exists *)
  match os.Stat w (Backup.Path backup) with
  | Ok _ => (Ok (Backup.Path backup, false), w)
  | Fail _ =>
  if blank (Backup.S3ObjectKey backup)
  then (Fail (Errorf "backup file not found locally and no S3 object key available"), w)
  else
  match Env.GetUserSettingsInternal E userID with
  | Fail err => (Fail (Wrapf "failed to get user settings" err), w)
  | Ok userSettings =>
  if negb (UserSettings.S3Enabled userSettings)
  then (Fail (Errorf "backup file not found locally and S3 is not enabled"), w)
  else
  match checkS3Fields userSettings with
  | Some err => (Fail err, w)
  | None =>
  match Env.Decrypt E (default "" (UserSettings.S3SecretKey userSettings)) with
  | Fail err => (Fail (Wrapf "failed to decrypt S3 secret key" err), w)
  | Ok secretKey =>
  match s3storage.NewS3Storage E (buildS3Config userSettings secretKey) with
  | Fail err => (Fail (Wrapf "failed to create S3 storage client" err), w)
  | Ok s3Storage =>
  (* Create temp file path *)
  let tempDir := Env.Join E (Env.TempDir E) "velld-s3-downloads" in
  match os.MkdirAll E tempDir with
  | Some err => (Fail (Wrapf "failed to create temp directory" err), w)
  | None =>
  let tempFilePath := Env.Join E tempDir (Env.Base E (Backup.Path backup)) in
  match s3storage.DownloadFile E s3Storage w
          (default "" (Backup.S3ObjectKey backup)) tempFilePath with
  | (Some err, w) => (Fail (Wrapf "failed to download backup from S3" err), w)
  | (None, w) => (Ok (tempFilePath, true), w)
  end end end end end end end.

(** *** backup_scheduler.go *)

(** The S3 client of [cleanupOldBackups]: non-nil only when the settings
    were read, S3 is enabled, the four fields are set, the secret
    decrypts and the client can be made. *)
Definition cleanupS3Storage (E : Env.t) (userID : UUID) : option S3Storage.t :=
  match Env.GetUserSettingsInternal E userID with
  | Fail _ => None                                 (* userSettings == nil *)
  | Ok userSettings =>
      if UserSettings.S3Enabled userSettings &&
         negb (blank (UserSettings.S3Endpoint userSettings)) &&
         negb (blank (UserSettings.S3Bucket userSettings)) &&
         negb (blank (UserSettings.S3AccessKey userSettings)) &&
         negb (blank (UserSettings.S3SecretKey userSettings))
      then
        match Env.Decrypt E
                (default "" (UserSettings.S3SecretKey userSettings)) with
        | Fail _ => None
        | Ok secretKey =>
            match s3storage.NewS3Storage E
                    (buildS3Config userSettings secretKey) with
            | Fail _ => None
            | Ok s3Storage => Some s3Storage
            end
        end
      else None
  end.

(** The body of the loop over [oldBackups]; every error is only printed. *)
Definition cleanupOne (E : Env.t) (s3Storage : option S3Storage.t)
    (conn : StoredConnection.t) (w : World.t) (backup : Backup.t) : World.t :=
  (* Delete from S3 if object key exists, S3 is configured, and connection
     has S3 cleanup enabled *)
  let w :=
    match s3Storage with
    | Some s3 =>
        if negb (blank (Backup.S3ObjectKey backup)) &&
           S3CleanupOnRetention conn
        then snd (s3storage.DeleteFile E s3 w
                    (default "" (Backup.S3ObjectKey backup)))
        else w
    | None => w
    end in
  (* Delete local file if it exists *)
  let w :=
    match os.Stat w (Backup.Path backup) with
    | Ok _ => snd (os.Remove E w (Backup.Path backup))
    | Fail _ => w
    end in
  (* Delete backup record from database *)
  snd (repo.DeleteBackup E w (Backup.ID backup)).

Definition cleanupOldBackups (E : Env.t) (w : World.t)
    (connectionID : string) (retentionDays : Z) : World.t :=
  let cutoffTime := Env.AddDate E (Env.Now E) (- retentionDays) in
  match repo.GetBackupsOlderThan E w connectionID cutoffTime with
  | Fail _ => w
  | Ok oldBackups =>
  if Nat.eqb (length oldBackups) 0 then w
  else
  match connection.GetConnection (Env.vault E) (World.connections w)
          connectionID with
  | Fail _ => w
  | Ok conn =>
  let s3Storage := cleanupS3Storage E (UserID conn) in
  fold_left (cleanupOne E s3Storage conn) oldBackups w
  end end.

(** [s.cronManager.AddFunc(spec, job)]: the manager parses the spec with
    its own parser and hands out the next entry id. *)
Definition AddFunc (E : Env.t) (w : World.t) (spec : string)
    (scheduleID : UUID) : res nat * World.t :=
  if Env.cron_AddFunc_fails E spec then (Fail (ErrExternal "cron"), w)
  else
    let entryID := World.nextEntry w in
    (Ok entryID,
     World.set_cron w (World.cronEntries w)
       (<[entryID := (spec, scheduleID)]> (World.cronJobs w)) (S entryID)).

(** [err != nil && err != sql.ErrNoRows]. *)
Definition otherThanNoRows (err : error) : bool :=
  match err with
  | ErrNoRows => false
  | _ => true
  end.

Definition ScheduleBackup (E : Env.t) (w : World.t)
    (req : ScheduleBackupRequest.t) : option error * World.t :=
  let connectionID := ScheduleBackupRequest.ConnectionID req in
  let cronSchedule := ScheduleBackupRequest.CronSchedule req in
  (* Check if a schedule already exists for this connection *)
  let lookup := repo.GetBackupSchedule E w connectionID in
  let refused :=
    match lookup with
    | Fail err =>
        if otherThanNoRows err
        then Some (Wrapf "failed to check existing schedule" err) else None
    | Ok _ => None
    end in
  match refused with
  | Some err => (Some err, w)
  | None =>
  match Env.cron_Parse E cronSchedule with
  | None => (Some (Errorf "invalid cron schedule"), w)
  | Some schedule =>
  let nextRun := schedule (Env.Now E) in
  match lookup with
  | Ok existingSchedule =>
      (* Update existing schedule *)
      let existingSchedule :=
        BackupSchedule.mk (BackupSchedule.ID existingSchedule)
          (BackupSchedule.ConnectionID existingSchedule) true cronSchedule
          (ScheduleBackupRequest.RetentionDays req) (Some nextRun)
          (BackupSchedule.LastBackupTime existingSchedule)
          (BackupSchedule.CreatedAt existingSchedule) (Env.Now E) in
      match repo.UpdateBackupSchedule E w existingSchedule with
      | (Some err, w) =>
          (Some (Wrapf "failed to update backup schedule" err), w)
      | (None, w) =>
          (* Update cron job *)
          let scheduleID := BackupSchedule.ID existingSchedule in
          let w :=
            match World.cronEntries w !! scheduleID with
            | Some oldEntryID =>
                World.set_cron w (World.cronEntries w)
                  (delete oldEntryID (World.cronJobs w)) (World.nextEntry w)
            | None => w
            end in
          match AddFunc E w cronSchedule scheduleID with
          | (Fail err, w) => (Some (Wrapf "failed to schedule backup" err), w)
          | (Ok entryID, w) =>
              (None,
               World.set_cron w (<[scheduleID := entryID]> (World.cronEntries w))
                 (World.cronJobs w) (World.nextEntry w))
          end
      end
  | Fail _ =>
      (* Create new schedule if none exists *)
      let '(id, w) := World.uuid_New w in
      let backupSchedule :=
        BackupSchedule.mk id connectionID true cronSchedule
          (ScheduleBackupRequest.RetentionDays req) (Some nextRun) None
          (Env.Now E) (Env.Now E) in
      match repo.CreateBackupSchedule E w backupSchedule with
      | (Some err, w) => (Some (Wrapf "failed to save backup schedule" err), w)
      | (None, w) =>
          let scheduleID := BackupSchedule.ID backupSchedule in
          match AddFunc E w cronSchedule scheduleID with
          | (Fail err, w) => (Some (Wrapf "failed to schedule backup" err), w)
          | (Ok entryID, w) =>
              (None,
               World.set_cron w (<[scheduleID := entryID]> (World.cronEntries w))
                 (World.cronJobs w) (World.nextEntry w))
          end
      end
  end end end.

End service.

(** ** Vocabulary of the properties *)

(** A restore output line that names one of the four tolerated patterns,
    and a line that counts as a critical error. *)
Definition nonCritical (line : string) : bool :=
  strings.Contains line "WARNING:" || strings.Contains line "NOTICE:" ||
  strings.Contains line "must be member of role" ||
  strings.Contains line "no privileges".

Definition critical (line : string) : bool :=
  strings.Contains line "ERROR:" && negb (nonCritical line).

(** The options the store is consulted with, as the clamping rule of the
    listing describes them. *)
Definition clamp_limit (limit : Z) : Z :=
  if limit <=? 0 then 10 else if 100 <? limit then 100 else limit.

Definition clamp_offset (offset : Z) : Z :=
  if offset <? 0 then 0 else offset.

(** A database name with a comma in it, and a name that is not empty. *)
Fixpoint hasComma (s : string) : bool :=
  match s with
  | EmptyString => false
  | String c s' => Ascii.eqb c "," || hasComma s'
  end.

Definition nonEmpty (s : string) : bool := negb (String.eqb s "").

Definition plainName (s : string) : Prop := s <> "" /\ hasComma s = false.

(** A stored connection with another list of selected databases and another
    [updated_at], everything else as it was. *)
Definition withSelectedDatabases (c : StoredConnection.t)
    (dbs : list string) (updatedAt : string) : StoredConnection.t :=
  let (id, name, type_, host, port, username, password, databaseName, _,
       ssl, sshEnabled, sshHost, sshPort, sshUsername, sshPassword,
       sshPrivateKey, s3Cleanup, createdAt, _, lastConnectedAt, userID,
       status, databaseSize) := c in
  StoredConnection.mk id name type_ host port username password databaseName
    dbs ssl sshEnabled sshHost sshPort sshUsername sshPassword sshPrivateKey
    s3Cleanup createdAt updatedAt lastConnectedAt userID status databaseSize.

(** A vault for the examples: the ciphertext is the plaintext behind a
    marker, and the store accepts every statement. *)
Definition demoDecrypt (c : string) : res string :=
  match c with
  | String "e" (String "n" (String "c" (String ":" plain))) => Ok plain
  | _ => Fail ErrVault
  end.

Definition demoVault : Vault.t :=
  Vault.mk (fun plain => Ok ("enc:" +:+ plain)) demoDecrypt
           (fun _ => false) "2025-11-14 12:00:00".

Definition demoConnection : StoredConnection.t :=
  StoredConnection.mk "c1" "pg1" "postgresql" "db.internal" 5432 "admin"
    "hunter2" "shop" [] true true "jump.internal" 22 "ops" "sshpw" "KEY"
    true "2025-11-01" "2025-11-01" None 7%nat "connected" 0.

Definition demoConnections : gmap string ConnRow.t :=
  snd (connection.Save demoVault ∅ demoConnection).

(** The sensitive fields of a connection are blank. *)
Definition secretsBlank (c : StoredConnection.t) : Prop :=
  StoredConnection.Password c = "" /\
  StoredConnection.SSHPassword c = "" /\
  StoredConnection.SSHPrivateKey c = "".

(** The contract of the vault: what it encrypts it decrypts, and a
    ciphertext is never the empty string. *)
Definition vaultRoundTrips (V : Vault.t) : Prop :=
  forall plain cipher,
    Vault.Encrypt V plain = Ok cipher ->
    cipher <> "" /\ Vault.Decrypt V cipher = Ok plain.

(** Sample settings, environment and world for the examples: S3 enabled
    and fully configured with purge of the local file; the environment is
    given the outcome of the dump tool and says whether removing a local
    file, putting an object and reaching the bucket fail. *)
Definition demoSettings : UserSettings.t :=
  UserSettings.mk true (Some "localhost:9000") None (Some "b") (Some "k")
                  (Some "enc:s") false (Some "p") true.

Definition demoBase (path : string) : string :=
  List.last (strings.SplitByte "/" path) "".

Definition demoEnvWith (dump : Cmd.t -> CmdOutcome.t)
    (removeFails putFails minioFails : bool) : Env.t :=
  Env.mk demoVault 1763121600 "20251114_120000"
         (fun t days => t + 86400 * days) "./backups" "/tmp"
         (fun a b => a +:+ "/" +:+ b) demoBase (fun name => name)
         (fun _ => false) (fun _ => removeFails) (fun _ => false)
         (fun _ => Ok demoSettings) (fun _ => None) (fun _ => Ok None)
         (fun _ path => Some (Cmd.mk "pg_dump" ["-f"; path]))
         (fun _ path => Some (Cmd.mk "mysqldump" [path]))
         (fun _ path => Some (Cmd.mk "mongodump" [path]))
         (fun _ path => Some (Cmd.mk "redis-cli" [path]))
         dump (fun _ => minioFails) (fun _ => putFails)
         (fun _ => false) (fun _ => false)
         (fun spec => if String.eqb spec "0 0 0 * * *"
                      then Some (fun t => (t / 86400 + 1) * 86400) else None)
         (fun _ => false).

Definition demoEnv (dump : CmdOutcome.t)
    (removeFails putFails minioFails : bool) : Env.t :=
  demoEnvWith (fun _ => dump) removeFails putFails minioFails.

Definition dumpWritten : CmdOutcome.t := CmdOutcome.mk "" None (Some 2048).

Definition dumpRefused : CmdOutcome.t :=
  CmdOutcome.mk "pg_dump: error: connection to server failed"
                (Some (ErrExternal "exit status 1")) None.

Definition demoWorld : World.t :=
  World.mk demoConnections [] [] ∅ ∅ 0 ∅ ∅ 0.

(** The sample connection with two selected databases, and a dump tool
    that writes the first and refuses the second. *)
Definition demoConnectionMulti : StoredConnection.t :=
  withSelectedDatabases demoConnection ["shop"; "crm"] "2025-11-14 12:00:00".

Definition demoWorldMulti : World.t :=
  World.mk (snd (connection.UpdateSelectedDatabases demoVault demoConnections
                   "c1" ["shop"; "crm"]))
           [] [] ∅ ∅ 0 ∅ ∅ 0.

Definition dumpMixed (cmd : Cmd.t) : CmdOutcome.t :=
  if existsb (fun arg => strings.Contains arg "/crm_") (Cmd.Args cmd)
  then dumpRefused else dumpWritten.

(** The folder and the file of a dump, as both backup paths name them. *)
Definition backupFolder (E : Env.t) (conn : StoredConnection.t) : string :=
  Env.Join E (Env.backupDir E)
           (Env.SanitizeConnectionName E (StoredConnection.Name conn)).

Definition backupPath (E : Env.t) (conn : StoredConnection.t)
    (dbName : string) : string :=
  Env.Join E (backupFolder E conn) (service.backupFileName E dbName).

(** The dump tool of a single-database backup was started and exited
    non-zero: the tools are there, the tunnel (if any) is up, the folder
    exists, the command was built, and its run ends in an error. *)
Definition dumpExitsNonZero (E : Env.t) (conn : StoredConnection.t)
    (dbName : string) : Prop :=
  exists tunnel cmd err,
    Env.verifyBackupTools E (StoredConnection.Type_ conn) = None /\
    Env.setupSSHTunnelIfNeeded E conn = Ok tunnel /\
    Env.MkdirAll_fails E (backupFolder E conn) = false /\
    service.dumpCmdFor E (StoredConnection.Type_ conn)
      (service.throughTunnel conn tunnel) (backupPath E conn dbName)
      = service.Built cmd /\
    CmdOutcome.err (Env.CombinedOutput E cmd) = Some err.

(** The local file of a backup is on the spool. *)
Definition localExists (w : World.t) (b : Backup.t) : Prop :=
  is_Some (World.files w !! Backup.Path b).

(** S3 is fully configured: endpoint, bucket, access key and secret key
    are all set and not empty. *)
Definition fullyConfigured (us : UserSettings.t) : Prop :=
  service.blank (UserSettings.S3Endpoint us) = false /\
  service.blank (UserSettings.S3Bucket us) = false /\
  service.blank (UserSettings.S3AccessKey us) = false /\
  service.blank (UserSettings.S3SecretKey us) = false.

(** Where a backup is downloaded to: <tmp>/velld-s3-downloads/<basename>. *)
Definition tempPath (E : Env.t) (b : Backup.t) : string :=
  Env.Join E (Env.Join E (Env.TempDir E) "velld-s3-downloads")
           (Env.Base E (Backup.Path b)).

(** The backup has an object key and S3 is enabled and fully configured
    for the user. *)
Definition s3Configured (E : Env.t) (b : Backup.t) (userID : UUID)
    (us : UserSettings.t) (key : string) : Prop :=
  Backup.S3ObjectKey b = Some key /\ key <> "" /\
  Env.GetUserSettingsInternal E userID = Ok us /\
  UserSettings.S3Enabled us = true /\
  fullyConfigured us.

(** The download of the object goes through: the secret decrypts, the
    bucket is reached, the temporary directory and file can be made, and
    the object is there. *)
Definition downloadSucceeds (E : Env.t) (w : World.t) (b : Backup.t)
    (us : UserSettings.t) (key : string) : Prop :=
  exists secretKey,
    Env.Decrypt E (default "" (UserSettings.S3SecretKey us)) = Ok secretKey /\
    Env.minio_New_fails E (service.buildS3Config us secretKey) = false /\
    Env.MkdirAll_fails E (Env.Join E (Env.TempDir E) "velld-s3-downloads")
      = false /\
    Env.GetObject_fails E key = false /\
    Env.Create_fails E (tempPath E b) = false /\
    is_Some (World.s3 w !! key).

Definition rehydratable (E : Env.t) (w : World.t) (b : Backup.t)
    (userID : UUID) : Prop :=
  exists us key, s3Configured E b userID us key /\ downloadSucceeds E w b us key.

(** A backup record whose local file is gone and whose object is in the
    bucket. *)
Definition demoBackup : Backup.t :=
  Backup.mk 1%nat "c1" None "completed"
            "./backups/pg1/shop_20251114_120000.sql"
            (Some "p/pg1/shop_20251114_120000.sql") 2048
            1763121600 (Some 1763121605) 1763121600 1763121600.

Definition demoWorldPurged : World.t :=
  World.mk demoConnections [] [demoBackup] ∅
           {[ "p/pg1/shop_20251114_120000.sql" := 2048 ]} 2 ∅ ∅ 0.

(** The engines the dump switch knows. *)
Definition supportedType (type_ : string) : bool :=
  String.eqb type_ "postgresql" || String.eqb type_ "mysql" ||
  String.eqb type_ "mariadb" || String.eqb type_ "mongodb" ||
  String.eqb type_ "redis".

(** The sub-dumps of a multi-database run, in the order they were run, each
    with its outcome; the world is threaded from one to the next, and a
    round that returns from the function ends the run. *)
Fixpoint subDumps (E : Env.t) (w : World.t) (conn : StoredConnection.t)
    (connectionFolder : string) (startTime : Time) (dbs : list string)
  : list (string * service.Round) :=
  match dbs with
  | [] => []
  | dbName :: rest =>
      let '(round, w) :=
        service.dumpOne E w conn connectionFolder startTime dbName in
      (dbName, round) ::
      match round with
      | service.Return _ => []
      | _ => subDumps E w conn connectionFolder startTime rest
      end
  end.

(** The tools are there, the tunnel (if any) is up and the connection
    folder exists. *)
Definition multiSetup (E : Env.t) (conn : StoredConnection.t)
  : option StoredConnection.t :=
  match Env.verifyBackupTools E (StoredConnection.Type_ conn) with
  | Some _ => None
  | None =>
      match Env.setupSSHTunnelIfNeeded E conn with
      | Fail _ => None
      | Ok tunnel =>
          if Env.MkdirAll_fails E (backupFolder E conn) then None
          else Some (service.throughTunnel conn tunnel)
      end
  end.

(** The sub-dumps of a run: none when the setup fails. *)
Definition multiTrace (E : Env.t) (w : World.t) (conn : StoredConnection.t)
  : list (string * service.Round) :=
  match multiSetup E conn with
  | None => []
  | Some conn' =>
      subDumps E w conn' (backupFolder E conn) (Env.Now E)
               (StoredConnection.SelectedDatabases conn)
  end.

(** The backup a sub-dump persisted, if it succeeded. *)
Definition persisted (round : service.Round) : option Backup.t :=
  match round with
  | service.Done backup => Some backup
  | _ => None
  end.

Definition successes (trace : list (string * service.Round)) : list Backup.t :=
  omap (fun x => persisted (snd x)) trace.

Definition failures (trace : list (string * service.Round)) : list string :=
  omap (fun x => match snd x with
                 | service.Done _ => None
                 | _ => Some (fst x)
                 end) trace.

(** The worlds the sub-dumps of a run start in, in the order of the
    run. *)
Fixpoint subDumpStarts (E : Env.t) (w : World.t) (conn : StoredConnection.t)
    (connectionFolder : string) (startTime : Time) (dbs : list string)
  : list World.t :=
  match dbs with
  | [] => []
  | dbName :: rest =>
      let '(round, w') :=
        service.dumpOne E w conn connectionFolder startTime dbName in
      w ::
      match round with
      | service.Return _ => []
      | _ => subDumpStarts E w' conn connectionFolder startTime rest
      end
  end.

Definition multiStarts (E : Env.t) (w : World.t) (conn : StoredConnection.t)
  : list World.t :=
  match multiSetup E conn with
  | None => []
  | Some conn' =>
      subDumpStarts E w conn' (backupFolder E conn) (Env.Now E)
                    (StoredConnection.SelectedDatabases conn)
  end.

(** The file a sub-dump writes. *)
Definition subDumpPath (E : Env.t) (conn : StoredConnection.t)
    (dbName : string) : string :=
  Env.Join E (backupFolder E conn) (service.backupFileName E dbName).

(** The sub-dump of one database goes through, said of the dump tool,
    the spool and the store, not of the code: a command for the database
    was built (the engine is supported and its tool was found), the tool
    exited with status zero, its file is on the spool afterwards (the run
    wrote it, or it was there), and the store accepts the record under
    the id that is next in the world the sub-dump starts in.  A sub-dump
    fails when any of these does not hold. *)
Definition subDumpGoesThrough (E : Env.t) (w : World.t)
    (conn conn' : StoredConnection.t) (dbName : string) : Prop :=
  exists cmd,
    service.dumpCmdFor E (StoredConnection.Type_ conn')
      (service.withDatabaseName conn' dbName) (subDumpPath E conn dbName)
      = service.Built cmd /\
    CmdOutcome.err (Env.CombinedOutput E cmd) = None /\
    (is_Some (CmdOutcome.written (Env.CombinedOutput E cmd)) \/
     is_Some (World.files w !! subDumpPath E conn dbName)) /\
    Env.db_fails E (XCreateBackup (World.uuids w)) = false.

(** The record of a sub-dump is the completed backup of the connection
    under that id, with the file of the sub-dump as its path. *)
Definition recordOfSubDump (E : Env.t) (w : World.t)
    (conn : StoredConnection.t) (dbName : string) (b : Backup.t) : Prop :=
  Backup.ID b = World.uuids w /\
  Backup.ConnectionID b = StoredConnection.ID conn /\
  Backup.Path b = subDumpPath E conn dbName /\
  Backup.Status b = "completed".

(** A sub-dump is accounted for: it persisted a backup exactly when it
    went through, and the backup is the record of the sub-dump. *)
Definition subDumpAccounted (E : Env.t) (conn conn' : StoredConnection.t)
    (w : World.t) (x : string * service.Round) : Prop :=
  (is_Some (persisted (snd x)) <-> subDumpGoesThrough E w conn conn' (fst x)) /\
  (forall b, persisted (snd x) = Some b ->
     recordOfSubDump E w conn (fst x) b).

(** A backup that retention collects: of the connection, completed, and
    created before the cutoff. *)
Definition expired (connectionID : string) (cutoffTime : Time)
    (b : Backup.t) : Prop :=
  Backup.ConnectionID b = connectionID /\
  Backup.Status b = "completed" /\
  Backup.CreatedAt b < cutoffTime.

(** S3 is configured for the user: the settings can be read, S3 is enabled
    and fully configured, the secret decrypts and the client can be made. *)
Definition s3Ready (E : Env.t) (userID : UUID) : Prop :=
  exists us secretKey,
    Env.GetUserSettingsInternal E userID = Ok us /\
    UserSettings.S3Enabled us = true /\
    fullyConfigured us /\
    Env.Decrypt E (default "" (UserSettings.S3SecretKey us)) = Ok secretKey /\
    Env.minio_New_fails E (service.buildS3Config us secretKey) = false.

(** Retention asks S3 to delete the object [key] of backup [b], and S3
    does. *)
Definition s3ObjectDeleted (E : Env.t) (conn : StoredConnection.t)
    (b : Backup.t) (key : string) : Prop :=
  Backup.S3ObjectKey b = Some key /\ key <> "" /\
  s3Ready E (StoredConnection.UserID conn) /\
  StoredConnection.S3CleanupOnRetention conn = true /\
  Env.RemoveObject_fails E key = false.

(** A store for the retention examples: an old completed backup with its
    file and its object, an old backup still in progress, and a recent
    completed one. *)
Definition demoOld : Backup.t :=
  Backup.mk 1%nat "c1" None "completed" "./backups/pg1/shop_old.sql"
            (Some "p/pg1/shop_old.sql") 2048
            1760443200 (Some 1760443205) 1760443200 1760443200.

Definition demoStuck : Backup.t :=
  Backup.mk 2%nat "c1" None "in_progress" "./backups/pg1/shop_stuck.sql"
            None 0 1760443300 None 1760443300 1760443300.

Definition demoRecent : Backup.t :=
  Backup.mk 3%nat "c1" None "completed" "./backups/pg1/shop_new.sql"
            None 1024 1763000000 (Some 1763000005) 1763000000 1763000000.

Definition demoWorldRetention : World.t :=
  World.mk demoConnections [] [demoOld; demoStuck; demoRecent]
           {[ "./backups/pg1/shop_old.sql" := 2048;
              "./backups/pg1/shop_new.sql" := 1024 ]}
           {[ "p/pg1/shop_old.sql" := 2048 ]} 4 ∅ ∅ 0.

(** The schedule of a connection, and the record [ScheduleBackup] leaves
    for a request: enabled, with the cron expression and retention of the
    request and the next run computed from now. *)
Definition scheduleOf (rows : list BackupSchedule.t) (connectionID : string)
  : option BackupSchedule.t :=
  List.find (fun r => String.eqb (BackupSchedule.ConnectionID r) connectionID)
            rows.

Definition scheduled (E : Env.t) (req : ScheduleBackupRequest.t)
    (next : cron_Schedule) (id : UUID) (lastBackupTime : option Time)
    (createdAt : Time) : BackupSchedule.t :=
  BackupSchedule.mk id (ScheduleBackupRequest.ConnectionID req) true
    (ScheduleBackupRequest.CronSchedule req)
    (ScheduleBackupRequest.RetentionDays req) (Some (next (Env.Now E)))
    lastBackupTime createdAt (Env.Now E).

(** The schedule store is sound: one schedule per connection at most, and
    distinct ids (the primary key). *)
Definition schedulesSound (w : World.t) : Prop :=
  List.NoDup (map BackupSchedule.ConnectionID (World.schedules w)) /\
  List.NoDup (map BackupSchedule.ID (World.schedules w)).

(** The store accepts the statements of [ScheduleBackup]. *)
Definition scheduleStoreUp (E : Env.t) (connectionID : string) : Prop :=
  Env.db_fails E (QGetBackupSchedule connectionID) = false /\
  (forall id, Env.db_fails E (XUpdateBackupSchedule id) = false) /\
  (forall id, Env.db_fails E (XCreateBackupSchedule id) = false).

(** A world with a disabled schedule for the sample connection, and a
    request to schedule it at midnight with thirty days of retention. *)
Definition demoDisabledSchedule : BackupSchedule.t :=
  BackupSchedule.mk 9%nat "c1" false "0 30 2 * * *" 7 (Some 1763087400)
                    (Some 1763001000) 1760000000 1763001000.

Definition demoWorldScheduled : World.t :=
  World.mk demoConnections [demoDisabledSchedule] [] ∅ ∅ 10 ∅ ∅ 0.

Definition demoRequest : ScheduleBackupRequest.t :=
  ScheduleBackupRequest.mk "c1" "0 0 0 * * *" 30.


(** The text after the first name of a joined list: a comma before each
    further name. *)
Fixpoint commaTail (dbs : list string) : string :=
  match dbs with
  | [] => ""
  | d :: ds => "," +:+ d +:+ commaTail ds
  end.

(** ** Further statements and collaborators *)

(** The statements of the repositories used below; a driver error on one
    of them, or a row it cannot scan, is [ErrExternal "sql"]. *)
Inductive SqlOp : Type :=
| QGetBackup (id : UUID)
| QGetBackupsByConnectionID (connectionID : string)
| XUpdateBackupS3ObjectKey (id : UUID)
| XUpdateBackupStatusAndSchedule (id : UUID)
| XUpdateConnection (id : string)
| XDeleteConnection (id : string).

Module RestoreCmd.
(** An [*exec.Cmd] of a restore: the binary, its arguments, the
    environment when the command is given one, and the file on its
    standard input. *)
Record t : Type := mk {
  Path : string;
  Args : list string;
  Env : option (list string);
  Stdin : option string
}.
End RestoreCmd.

Module Host.
(** What the functions below reach outside their own code, besides
    [Env.t]: the statements above, the helpers of package [common] that
    find the client tools (not under src/), the process environment,
    [filepath.Dir], [os.Open], the run of a restore command (its combined
    output and the text of its error, if it failed), [CopyObject] of the
    S3 endpoint, the notification of a failed scheduled backup (its
    table is not part of the world) and [uuid.UUID.String]. *)
Record t : Type := mk {
  sql_fails : SqlOp -> bool;
  FindBinaryPath : string -> string -> string;
  GetPlatformExecutableName : string -> string;
  Environ : list string;
  Dir : string -> string;
  Open_fails : string -> bool;
  CombinedOutput : RestoreCmd.t -> string * option string;
  CopyObject_fails : string -> string -> bool;
  createFailureNotification : string -> error -> option error;
  UUID_String : UUID -> string
}.
End Host.

(** [fmt.Sprintf("%d", n)]. *)
Definition Sprintf_d (n : Z) : string := NilZero.string_of_int (Z.to_int n).

(** Further functions of package [strings]. *)
Module strings2.

(** [s[n:]]. *)
Fixpoint drop (n : nat) (s : string) : string :=
  match n, s with
  | O, _ => s
  | S n', String _ s' => drop n' s'
  | S _, EmptyString => EmptyString
  end.

(** [strings.Replace(s, old, new, 1)]: the leftmost [old] gives way to
    [new]; an empty [old] matches at the start. *)
Fixpoint Replace1 (s old new : string) : string :=
  if String.prefix old s then new +:+ drop (String.length old) s
  else match s with
       | EmptyString => s
       | String c s' => String c (Replace1 s' old new)
       end.

End strings2.

(** A host for the examples: every statement goes through, the client
    tools are under /usr/bin, and a restore command gives the outcome it
    is told to. *)
Definition demoHostWith (run : RestoreCmd.t -> string * option string)
  : Host.t :=
  Host.mk (fun _ => false) (fun _ _ => "/usr/bin") (fun tool => tool)
          ["PATH=/usr/bin"] (fun path => path) (fun _ => false)
          run (fun _ _ => false) (fun _ _ => None)
          (fun id => "uuid-" +:+ Sprintf_d (Z.of_nat id)).

Definition demoHost : Host.t := demoHostWith (fun _ => ("", None)).

(** ** Package [backup]: the comparison of two dumps (backup_diff.go) *)

Module diff.

(** [type DiffChange struct] and [type DiffResponse struct].  The Go
    [int]s of this file count lines and entries of slices held in memory,
    so they are natural numbers and never wrap. *)
Record DiffChange : Type := mkDiffChange {
  Type_ : string;
  Content : string;
  LineNumber : nat;
  OldLine : nat;
  NewLine : nat
}.

Record DiffResponse : Type := mkDiffResponse {
  Added : nat;
  Removed : nat;
  Modified : nat;
  Unchanged : nat;
  Changes : list DiffChange
}.

Definition min (a b : nat) : nat := if (a <? b)%nat then a else b.

(** The loop of [shouldShowLine], fed the entries it visits: [i] runs
    from [len(changes)-1] down while [i >= 0 && i >= len(changes)-10]. *)
Fixpoint countRecent (visited : list DiffChange) (recentChanges : nat) : nat :=
  match visited with
  | [] => recentChanges
  | c :: rest =>
      countRecent rest
        (if negb (String.eqb (Type_ c) "unchanged")
         then S recentChanges else recentChanges)
  end.

Definition shouldShowLine (changes : list DiffChange) (lineNumber : nat)
  : bool :=
  let contextLines := 3%nat in
  if (lineNumber <=? contextLines)%nat then true
  else
    let recentChanges := countRecent (take 10 (rev changes)) 0 in
    (0 <? recentChanges)%nat.

(** The variables of the loop of [generateDiff]. *)
Record Vars : Type := mkVars {
  i : nat;
  j : nat;
  lineNumber : nat;
  added : nat;
  removed : nat;
  unchanged : nat;
  changes : list DiffChange
}.

(** [for k := j + 1; k < min(j+5, len(targetLines)); k++]: the first [k]
    with [sourceLines[i] == targetLines[k]]; [count] is the number of
    rounds left. *)
Fixpoint findMatch (line : string) (targetLines : list string) (k count : nat)
  : option nat :=
  match count with
  | O => None
  | S count' =>
      match targetLines !! k with
      | Some t =>
          if String.eqb line t then Some k
          else findMatch line targetLines (S k) count'
      | None => None
      end
  end.

(** [for l := j; l < k; l++]: each line of the target before the match is
    an addition; [count] is the number of rounds left. *)
Fixpoint addRun (targetLines : list string) (l count : nat)
    (lineNumber added : nat) (changes : list DiffChange)
  : nat * nat * list DiffChange :=
  match count with
  | O => (lineNumber, added, changes)
  | S count' =>
      let lineNumber := S lineNumber in
      let added := S added in
      let changes :=
        changes ++ [mkDiffChange "added"
                      ("+ " +:+ default "" (targetLines !! l))
                      lineNumber 0 l] in
      addRun targetLines (S l) count' lineNumber added changes
  end.

(** The body of the loop, up to the check of the limit. *)
Definition step (sourceLines targetLines : list string) (v : Vars) : Vars :=
  let lineNumber := S (lineNumber v) in
  match sourceLines !! i v, targetLines !! j v with
  | None, None => v                   (* excluded by the loop condition *)
  | None, Some t =>
      (* Only target lines remaining (additions) *)
      mkVars (i v) (S (j v)) lineNumber (S (added v)) (removed v)
             (unchanged v)
             (changes v ++ [mkDiffChange "added" ("+ " +:+ t) lineNumber
                              0 (j v)])
  | Some s, None =>
      (* Only source lines remaining (deletions) *)
      mkVars (S (i v)) (j v) lineNumber (added v) (S (removed v))
             (unchanged v)
             (changes v ++ [mkDiffChange "removed" ("- " +:+ s) lineNumber
                              (i v) 0])
  | Some s, Some t =>
      if String.eqb s t then
        (* Lines are the same *)
        if shouldShowLine (changes v) lineNumber then
          mkVars (S (i v)) (S (j v)) lineNumber (added v) (removed v)
                 (S (unchanged v))
                 (changes v ++ [mkDiffChange "unchanged" ("  " +:+ s)
                                  lineNumber (i v) (j v)])
        else
          mkVars (S (i v)) (S (j v)) lineNumber (added v) (removed v)
                 (S (unchanged v)) (changes v)
      else
        let nextMatch :=
          match sourceLines !! S (i v), targetLines !! S (j v) with
          | Some s1, Some t1 => String.eqb s1 t1
          | _, _ => false
          end in
        if nextMatch then
          (* Modified line *)
          let removed := S (removed v) in
          let changes :=
            changes v ++ [mkDiffChange "removed" ("- " +:+ s) lineNumber
                            (i v) 0] in
          let lineNumber := S lineNumber in
          let added := S (added v) in
          let changes :=
            changes ++ [mkDiffChange "added" ("+ " +:+ t) lineNumber
                          0 (j v)] in
          mkVars (S (i v)) (S (j v)) lineNumber added removed (unchanged v)
                 changes
        else
          (* Try to find matching line in target *)
          match findMatch s targetLines (S (j v))
                  (min (j v + 5) (length targetLines) - S (j v)) with
          | Some k =>
              let '(lineNumber, added, changes) :=
                addRun targetLines (j v) (k - j v) lineNumber (added v)
                       (changes v) in
              mkVars (i v) k lineNumber added (removed v) (unchanged v)
                     changes
          | None =>
              (* Just mark as removed *)
              mkVars (S (i v)) (j v) lineNumber (added v) (S (removed v))
                     (unchanged v)
                     (changes v ++ [mkDiffChange "removed" ("- " +:+ s)
                                      lineNumber (i v) 0])
          end
  end.

(** [for i < len(sourceLines) || j < len(targetLines)], with the [break]
    at more than a thousand entries.  Every round moves [i] or [j]
    forward, so the loop ends within [len(sourceLines) + len(targetLines)]
    rounds; [fuel] is the number of rounds allowed. *)
Fixpoint loop (fuel : nat) (sourceLines targetLines : list string) (v : Vars)
  : Vars :=
  match fuel with
  | O => v
  | S fuel' =>
      if (i v <? length sourceLines)%nat || (j v <? length targetLines)%nat
      then
        let v := step sourceLines targetLines v in
        (* Limit to prevent memory issues *)
        if (1000 <? length (changes v))%nat then v
        else loop fuel' sourceLines targetLines v
      else v
  end.

Definition generateDiff (source target : string) : DiffResponse :=
  let sourceLines := strings.SplitByte "010" source in
  let targetLines := strings.SplitByte "010" target in
  let v := loop (length sourceLines + length targetLines)
                sourceLines targetLines (mkVars 0 0 0 0 0 0 []) in
  mkDiffResponse (added v) (removed v) 0 (unchanged v) (changes v).

End diff.

(** The entries of a change list of one type, and what an entry says of
    the two texts: an addition shows a line of the target, a removal a
    line of the source, an unchanged entry a line both have. *)
Definition ofType (type_ : string) (changes : list diff.DiffChange)
  : list diff.DiffChange :=
  List.filter (fun c => String.eqb (diff.Type_ c) type_) changes.

Definition showsLine (sourceLines targetLines : list string)
    (c : diff.DiffChange) : Prop :=
  (diff.Type_ c = "added" /\
   exists t, targetLines !! diff.NewLine c = Some t /\
             diff.Content c = "+ " +:+ t) \/
  (diff.Type_ c = "removed" /\
   exists s, sourceLines !! diff.OldLine c = Some s /\
             diff.Content c = "- " +:+ s) \/
  (diff.Type_ c = "unchanged" /\
   exists s, sourceLines !! diff.OldLine c = Some s /\
             targetLines !! diff.NewLine c = Some s /\
             diff.Content c = "  " +:+ s).

(** The entries a comparison of a text with itself shows: its first
    lines, numbered from one. *)
Fixpoint sameLines (k : nat) (lines : list string) : list diff.DiffChange :=
  match lines with
  | [] => []
  | line :: rest =>
      diff.mkDiffChange "unchanged" ("  " +:+ line) (S k) k k
      :: sameLines (S k) rest
  end.

(** What the loop of [generateDiff] keeps true of its counters and of the
    change list: the counters count the entries, every entry shows a line
    of the texts, and the line numbers go up. *)
Definition changesInv (sourceLines targetLines : list string)
    (lineNumber added removed unchanged : nat)
    (changes : list diff.DiffChange) : Prop :=
  added = length (ofType "added" changes) /\
  removed = length (ofType "removed" changes) /\
  (length (ofType "unchanged" changes) <= unchanged)%nat /\
  Forall (showsLine sourceLines targetLines) changes /\
  StronglySorted lt (map diff.LineNumber changes) /\
  Forall (fun n => (1 <= n <= lineNumber)%nat) (map diff.LineNumber changes).

Definition diffInv (sourceLines targetLines : list string) (v : diff.Vars)
  : Prop :=
  (diff.i v <= length sourceLines)%nat /\
  (diff.j v <= length targetLines)%nat /\
  (diff.removed v + diff.unchanged v = diff.i v)%nat /\
  (diff.added v + diff.unchanged v = diff.j v)%nat /\
  changesInv sourceLines targetLines (diff.lineNumber v) (diff.added v)
             (diff.removed v) (diff.unchanged v) (diff.changes v).

(** ** Package [backup]: restoring (backup_restore.go) *)

Module restoring.
Import StoredConnection.

(** [var restoreTools = map[string]string{...}]. *)
Definition restoreTools (dbType : string) : option string :=
  if String.eqb dbType "postgresql" then Some "psql"
  else if String.eqb dbType "mysql" then Some "mysql"
  else if String.eqb dbType "mariadb" then Some "mysql"
  else if String.eqb dbType "mongodb" then Some "mongorestore"
  else None.

(** The [fmt.Errorf] sites of this file, named by their message. *)
Inductive RestoreError : Type :=
| ErrGetBackup (cause : error)         (* "failed to get backup: %v" *)
| ErrGetConnection (cause : error)     (* "failed to get connection: %v" *)
| ErrFile (cause : error)              (* of ensureBackupFileAvailable *)
| ErrTunnel (cause : error)            (* "failed to setup SSH tunnel: %v" *)
| ErrUnsupportedType (dbType : string) (* "unsupported database type: %s" *)
| ErrUnsupportedRestore (dbType : string)
    (* "unsupported database type for restore: %s" *)
| ErrToolNotFound (dbType tool : string)
    (* "restore tool not found for %s. Please ensure %s is installed" *)
| ErrPostgreSQL (e : restore.RestoreError)
| ErrRestoreFailedFor (dbName outputStr : string)
    (* "restore failed for database '%s': %s" *).

(** [BackupRepository.GetBackup] (backup_repository.go): the row with
    the id, or [sql.ErrNoRows].  The table holds the times as values; a
    row whose times do not parse counts with the statements that fail. *)
Definition GetBackup (H : Host.t) (w : World.t) (id : UUID) : res Backup.t :=
  if Host.sql_fails H (QGetBackup id) then Fail (ErrExternal "sql")
  else match List.find (fun b => Nat.eqb (Backup.ID b) id) (World.backups w) with
       | Some b => Ok b
       | None => Fail ErrNoRows
       end.

Definition verifyRestoreTools (dbType : string) : option RestoreError :=
  match restoreTools dbType with
  | None => Some (ErrUnsupportedType dbType)
  | Some _ => None
  end.

(** [restoreTools[dbType]]: the empty string for a type that is not a key. *)
Definition restoreTool (dbType : string) : string :=
  default "" (restoreTools dbType).

Definition findDatabaseRestorePath (H : Host.t) (dbType : string) : string :=
  let path := Host.FindBinaryPath H dbType (restoreTool dbType) in
  if negb (String.eqb path "") then path else "".

Definition createPsqlRestoreCmd (E : Env.t) (H : Host.t)
    (conn : StoredConnection.t) (backupPath : string) : option RestoreCmd.t :=
  let binaryPath := findDatabaseRestorePath H "postgresql" in
  if String.eqb binaryPath "" then None
  else
    let binPath :=
      Env.Join E binaryPath
        (Host.GetPlatformExecutableName H (restoreTool "postgresql")) in
    Some (RestoreCmd.mk binPath
            [ "-h"; Host conn;
              "-p"; Sprintf_d (Port conn);
              "-U"; Username conn;
              "-d"; DatabaseName conn;
              "-f"; backupPath;
              "-v"; "ON_ERROR_STOP=1" ]
            (Some (Host.Environ H ++ ["PGPASSWORD=" +:+ Password conn]))
            None).

Definition createMySQLRestoreCmd (E : Env.t) (H : Host.t) (w : World.t)
    (conn : StoredConnection.t) (backupPath : string) : option RestoreCmd.t :=
  let binaryPath := findDatabaseRestorePath H (Type_ conn) in
  if String.eqb binaryPath "" then None
  else
    let binPath :=
      Env.Join E binaryPath
        (Host.GetPlatformExecutableName H (restoreTool (Type_ conn))) in
    let args :=
      [ "-h"; Host conn;
        "-P"; Sprintf_d (Port conn);
        "-u"; Username conn;
        "-p" +:+ Password conn;
        DatabaseName conn ] in
    (* file, err := os.Open(backupPath) *)
    match World.files w !! backupPath with
    | None => None
    | Some _ =>
        if Host.Open_fails H backupPath then None
        else Some (RestoreCmd.mk binPath args None (Some backupPath))
    end.

Definition createMongoRestoreCmd (E : Env.t) (H : Host.t)
    (conn : StoredConnection.t) (backupPath : string) : option RestoreCmd.t :=
  let binaryPath := findDatabaseRestorePath H "mongodb" in
  if String.eqb binaryPath "" then None
  else
    let binPath :=
      Env.Join E binaryPath
        (Host.GetPlatformExecutableName H (restoreTool "mongodb")) in
    let backupDir := Host.Dir H backupPath in
    let args :=
      [ "--host"; Host conn;
        "--port"; Sprintf_d (Port conn);
        "--db"; DatabaseName conn;
        backupDir ] in
    let args :=
      if negb (String.eqb (Username conn) "")
      then args ++ ["--username"; Username conn] else args in
    let args :=
      if negb (String.eqb (Password conn) "")
      then args ++ ["--password"; Password conn] else args in
    Some (RestoreCmd.mk binPath args None None).

(** [validateMySQLRestore] and [validateMongoDBRestore] have the same
    body. *)
Definition validateMySQLRestore (dbName output : string)
    (cmdErr : option string) : option RestoreError :=
  match cmdErr with
  | Some cmdErrText =>
      let outputStr := output in
      let outputStr :=
        if String.eqb outputStr "" then cmdErrText else outputStr in
      Some (ErrRestoreFailedFor dbName outputStr)
  | None => None
  end.

Definition validateMongoDBRestore (dbName output : string)
    (cmdErr : option string) : option RestoreError :=
  match cmdErr with
  | Some cmdErrText =>
      let outputStr := output in
      let outputStr :=
        if String.eqb outputStr "" then cmdErrText else outputStr in
      Some (ErrRestoreFailedFor dbName outputStr)
  | None => None
  end.

Definition validateRestoreOutput (dbType dbName output : string)
    (cmdErr : option string) : option RestoreError :=
  if String.eqb dbType "postgresql" then
    match restore.validatePostgreSQLRestore output cmdErr with
    | Some e => Some (ErrPostgreSQL e)
    | None => None
    end
  else if String.eqb dbType "mysql" || String.eqb dbType "mariadb" then
    validateMySQLRestore dbName output cmdErr
  else if String.eqb dbType "mongodb" then
    validateMongoDBRestore dbName output cmdErr
  else Some (ErrUnsupportedType dbType).

(** The [switch conn.Type] of [RestoreBackup]. *)
Inductive RestoreCmdFor : Type :=
| NoRestoreFor
| Cmd (cmd : option RestoreCmd.t).

Definition restoreCmdFor (E : Env.t) (H : Host.t) (w : World.t)
    (conn : StoredConnection.t) (filePath : string) : RestoreCmdFor :=
  if String.eqb (Type_ conn) "postgresql"
  then Cmd (createPsqlRestoreCmd E H conn filePath)
  else if String.eqb (Type_ conn) "mysql" || String.eqb (Type_ conn) "mariadb"
  then Cmd (createMySQLRestoreCmd E H w conn filePath)
  else if String.eqb (Type_ conn) "mongodb"
  then Cmd (createMongoRestoreCmd E H conn filePath)
  else NoRestoreFor.

(** [RestoreBackup] from the point where the file is available, that is
    the part the deferred removal of the temporary file covers. *)
Definition restoreFrom (E : Env.t) (H : Host.t) (w : World.t)
    (conn : StoredConnection.t) (filePath : string) : option RestoreError :=
  match verifyRestoreTools (Type_ conn) with
  | Some err => Some err
  | None =>
  match Env.setupSSHTunnelIfNeeded E conn with
  | Fail err => Some (ErrTunnel err)
  | Ok tunnel =>
  let conn := service.throughTunnel conn tunnel in
  match restoreCmdFor E H w conn filePath with
  | NoRestoreFor => Some (ErrUnsupportedRestore (Type_ conn))
  | Cmd None => Some (ErrToolNotFound (Type_ conn) (restoreTool (Type_ conn)))
  | Cmd (Some cmd) =>
      let '(output, err) := Host.CombinedOutput H cmd in
      validateRestoreOutput (Type_ conn) (DatabaseName conn) output err
  end end end.

Definition RestoreBackup (E : Env.t) (H : Host.t) (w : World.t)
    (backupID : UUID) (connectionID : string)
  : option RestoreError * World.t :=
  match GetBackup H w backupID with
  | Fail err => (Some (ErrGetBackup err), w)
  | Ok backup =>
  match connection.GetConnection (Env.vault E) (World.connections w)
          connectionID with
  | Fail err => (Some (ErrGetConnection err), w)
  | Ok conn =>
  (* Ensure backup file is available (local or download from S3) *)
  match service.ensureBackupFileAvailable E w backup (UserID conn) with
  | (Fail err, w) => (Some (ErrFile err), w)
  | (Ok (filePath, isTemp), w) =>
      let result := restoreFrom E H w conn filePath in
      (* Clean up temp file after restore if needed *)
      if isTemp then (result, snd (os.Remove E w filePath))
      else (result, w)
  end end end.

End restoring.

(** A redis connection of the sample user and a backup of it whose file
    is on the spool. *)
Definition demoConnectionRedis : StoredConnection.t :=
  StoredConnection.mk "c2" "cache" "redis" "cache.internal" 6379 "default"
    "pw" "0" [] false false "" 0 "" "" "" true "2025-11-01" "2025-11-01"
    None 7%nat "connected" 0.

Definition demoBackupRedis : Backup.t :=
  Backup.mk 5%nat "c2" None "completed" "./backups/cache/0_20251114_120000.sql"
            None 512 1763121600 (Some 1763121601) 1763121600 1763121600.

Definition demoWorldRedis : World.t :=
  World.mk (snd (connection.Save demoVault demoConnections demoConnectionRedis))
           [] [demoBackup; demoBackupRedis]
           {[ "./backups/cache/0_20251114_120000.sql" := 512 ]}
           {[ "p/pg1/shop_20251114_120000.sql" := 2048 ]} 6 ∅ ∅ 0.

(** ** Package [backup]: s3_storage.go, the other operations *)

Module s3more.

(** [getObjectKey]: prefix/fileName, or the file name as it is without a
    prefix. *)
Definition getObjectKey (s : S3Storage.t) (fileName : string) : string :=
  if String.eqb (S3Storage.prefix s) "" then fileName
  else
    (* Ensure prefix doesn't end with / and fileName doesn't start with / *)
    let prefix := strings.TrimSuffixSlash (S3Storage.prefix s) in
    let fileName := strings.TrimPrefixSlash fileName in
    prefix +:+ "/" +:+ fileName.

(** [UploadFile]: as [UploadFileWithPath], with the key of [getObjectKey]. *)
Definition UploadFile (E : Env.t) (s : S3Storage.t) (w : World.t)
    (localPath : string) : res string * World.t :=
  match os.Stat w localPath with
  | Fail e => (Fail (Wrapf "failed to open file" e), w)
  | Ok size =>
      let fileName := Env.Base E localPath in
      let objectKey := getObjectKey s fileName in
      if Env.PutObject_fails E objectKey
      then (Fail (Wrapf "failed to upload to S3" (ErrExternal "PutObject")), w)
      else (Ok objectKey,
            World.set_s3 w (<[objectKey := size]> (World.s3 w)))
  end.

(** [MoveFile]: [CopyObject] to the new key, then [RemoveObject] of the
    old one.  The copy fails when the source is not in the bucket. *)
Definition MoveFile (E : Env.t) (H : Host.t) (s : S3Storage.t) (w : World.t)
    (oldKey newKey : string) : option error * World.t :=
  (* Copy to new location *)
  match World.s3 w !! oldKey with
  | None => (Some (Wrapf "failed to copy object" (ErrExternal "NoSuchKey")), w)
  | Some size =>
      if Host.CopyObject_fails H oldKey newKey
      then (Some (Wrapf "failed to copy object" (ErrExternal "CopyObject")), w)
      else
        let w := World.set_s3 w (<[newKey := size]> (World.s3 w)) in
        (* Delete old object *)
        if Env.RemoveObject_fails E oldKey
        then (Some (Wrapf "failed to delete old object"
                      (ErrExternal "RemoveObject")), w)
        else (None, World.set_s3 w (delete oldKey (World.s3 w)))
  end.

End s3more.

(** ** Package [backup]: the S3 objects of a connection
    (backup_repository.go, backup_service.go) *)

(** ORDER BY created_at DESC. *)
Definition newerFirst (a b : Backup.t) : Prop :=
  Backup.CreatedAt b <= Backup.CreatedAt a.

#[global] Instance newerFirst_dec a b : Decision (newerFirst a b) :=
  Z_le_dec (Backup.CreatedAt b) (Backup.CreatedAt a).

Module s3conn.
Import StoredConnection.

(** [GetBackupsByConnectionID]: the rows of the connection, the newest
    first.  A row whose times do not parse counts with the statements
    that fail. *)
Definition GetBackupsByConnectionID (H : Host.t) (w : World.t)
    (connectionID : string) : res (list Backup.t) :=
  if Host.sql_fails H (QGetBackupsByConnectionID connectionID)
  then Fail (ErrExternal "sql")
  else Ok (merge_sort newerFirst
             (List.filter
                (fun b => String.eqb (Backup.ConnectionID b) connectionID)
                (World.backups w))).

(** [UpdateBackupS3ObjectKey]: UPDATE backups SET s3_object_key = $1,
    updated_at = datetime('now') WHERE id = $2. *)
Definition setKey (E : Env.t) (backupID : UUID) (s3ObjectKey : string)
    (b : Backup.t) : Backup.t :=
  if Nat.eqb (Backup.ID b) backupID
  then Backup.mk (Backup.ID b) (Backup.ConnectionID b) (Backup.ScheduleID b)
         (Backup.Status b) (Backup.Path b) (Some s3ObjectKey) (Backup.Size b)
         (Backup.StartedTime b) (Backup.CompletedTime b) (Backup.CreatedAt b)
         (Env.Now E)
  else b.

Definition UpdateBackupS3ObjectKey (E : Env.t) (H : Host.t) (w : World.t)
    (backupID : UUID) (s3ObjectKey : string) : option error * World.t :=
  if Host.sql_fails H (XUpdateBackupS3ObjectKey backupID)
  then (Some (ErrExternal "sql"), w)
  else (None,
        World.set_backups w (map (setKey E backupID s3ObjectKey)
                                 (World.backups w))).

(** The condition under which both functions below go on to S3:
    [!userSettings.S3Enabled || ... == nil || ... == ""] is false. *)
Definition s3NotConfigured (us : UserSettings.t) : bool :=
  negb (UserSettings.S3Enabled us) ||
  service.blank (UserSettings.S3Endpoint us) ||
  service.blank (UserSettings.S3Bucket us) ||
  service.blank (UserSettings.S3AccessKey us) ||
  service.blank (UserSettings.S3SecretKey us).

(** The body of the loop of [CleanupS3BackupsForConnection]; a failed
    deletion is only printed. *)
Definition deleteObjectOf (E : Env.t) (s3Storage : S3Storage.t)
    (w : World.t) (backup : Backup.t) : World.t :=
  if negb (service.blank (Backup.S3ObjectKey backup))
  then snd (s3storage.DeleteFile E s3Storage w
              (default "" (Backup.S3ObjectKey backup)))
  else w.

Definition CleanupS3BackupsForConnection (E : Env.t) (H : Host.t)
    (w : World.t) (connectionID : string) : option error * World.t :=
  (* Get all backups for this connection *)
  match GetBackupsByConnectionID H w connectionID with
  | Fail err => (Some (Wrapf "failed to get backups for connection" err), w)
  | Ok backups =>
  if Nat.eqb (length backups) 0 then (None, w)
  else
  match connection.GetConnection (Env.vault E) (World.connections w)
          connectionID with
  | Fail err => (Some (Wrapf "failed to get connection" err), w)
  | Ok conn =>
  match Env.GetUserSettingsInternal E (UserID conn) with
  | Fail err => (Some (Wrapf "failed to get user settings" err), w)
  | Ok userSettings =>
  if s3NotConfigured userSettings then (None, w)
  else
  match Env.Decrypt E (default "" (UserSettings.S3SecretKey userSettings)) with
  | Fail err => (Some (Wrapf "failed to decrypt S3 secret key" err), w)
  | Ok secretKey =>
  match s3storage.NewS3Storage E
          (service.buildS3Config userSettings secretKey) with
  | Fail err => (Some (Wrapf "failed to create S3 storage client" err), w)
  | Ok s3Storage =>
      (* Delete S3 objects for all backups *)
      (None, fold_left (deleteObjectOf E s3Storage) backups w)
  end end end end end.

(** The body of the loop of [RenameS3FolderForConnection]; a failed move
    and a failed update are only printed. *)
Definition renameObjectOf (E : Env.t) (H : Host.t) (s3Storage : S3Storage.t)
    (oldFolder newFolder : string) (w : World.t) (backup : Backup.t)
  : World.t :=
  if service.blank (Backup.S3ObjectKey backup) then w
  else
    let oldKey := default "" (Backup.S3ObjectKey backup) in
    (* Replace old folder with new folder in the object key *)
    let newKey := strings2.Replace1 oldKey oldFolder newFolder in
    if String.eqb oldKey newKey then w
    else
      (* Move object in S3 *)
      match s3more.MoveFile E H s3Storage w oldKey newKey with
      | (Some _, w) => w
      | (None, w) =>
          (* Update database record with new S3 object key *)
          snd (UpdateBackupS3ObjectKey E H w (Backup.ID backup) newKey)
      end.

Definition RenameS3FolderForConnection (E : Env.t) (H : Host.t)
    (w : World.t) (connectionID oldName newName : string)
  : option error * World.t :=
  match GetBackupsByConnectionID H w connectionID with
  | Fail err => (Some (Wrapf "failed to get backups" err), w)
  | Ok backups =>
  if Nat.eqb (length backups) 0 then (None, w)
  else
  match connection.GetConnection (Env.vault E) (World.connections w)
          connectionID with
  | Fail err => (Some (Wrapf "failed to get connection" err), w)
  | Ok conn =>
  match Env.GetUserSettingsInternal E (UserID conn) with
  | Fail err => (Some (Wrapf "failed to get user settings" err), w)
  | Ok userSettings =>
  if s3NotConfigured userSettings then (None, w)
  else
  match Env.Decrypt E (default "" (UserSettings.S3SecretKey userSettings)) with
  | Fail err => (Some (Wrapf "failed to decrypt S3 secret key" err), w)
  | Ok secretKey =>
  match s3storage.NewS3Storage E
          (service.buildS3Config userSettings secretKey) with
  | Fail err => (Some (Wrapf "failed to create S3 storage client" err), w)
  | Ok s3Storage =>
      (* Sanitize old and new folder names *)
      let oldFolder := Env.SanitizeConnectionName E oldName in
      let newFolder := Env.SanitizeConnectionName E newName in
      if String.eqb oldFolder newFolder then (None, w)
      else
        (None,
         fold_left (renameObjectOf E H s3Storage oldFolder newFolder)
                   backups w)
  end end end end end.

End s3conn.

(** The object key of a backup record, when it has one that is not
    empty. *)
Definition objectKey (b : Backup.t) : option string :=
  match Backup.S3ObjectKey b with
  | Some key => if String.eqb key "" then None else Some key
  | None => None
  end.

(** The key a record of the store has now, by the id of the record. *)
Definition keyOfRecord (w : World.t) (id : UUID) : option string :=
  match List.find (fun b => Nat.eqb (Backup.ID b) id) (World.backups w) with
  | Some b => Backup.S3ObjectKey b
  | None => None
  end.

(** The keys of the records of a connection do not collide under a
    rename: two records have different keys, and the new key of one is
    neither the old nor the new key of the other. *)
Definition keysApart (rows : list Backup.t) (rename : string -> string)
  : Prop :=
  forall b c k kc,
    In b rows -> In c rows -> Backup.ID b <> Backup.ID c ->
    objectKey b = Some k -> objectKey c = Some kc ->
    k <> kc /\ rename k <> kc /\ rename k <> rename kc.

(** The move of the object under [key] goes through: the key changes
    under the rename, the object is in the bucket, and the endpoint
    copies and deletes. *)
Definition moveGoesThrough (E : Env.t) (H : Host.t) (w : World.t)
    (rename : string -> string) (key : string) : Prop :=
  rename key <> key /\ is_Some (World.s3 w !! key) /\
  Host.CopyObject_fails H key (rename key) = false /\
  Env.RemoveObject_fails E key = false.

(** What the loop of the rename keeps true, with [rest] still to visit:
    every record of the connection names its old key or the renamed one,
    and the bucket holds under that key what it held under the old key at
    the start; a record still to visit is untouched, and a visited one
    whose move goes through has the renamed key, the old one gone. *)
Definition renameInv (E : Env.t) (H : Host.t) (rename : string -> string)
    (w0 : World.t) (rows rest : list Backup.t) (w : World.t) : Prop :=
  map Backup.ID (World.backups w) = map Backup.ID (World.backups w0) /\
  World.files w = World.files w0 /\
  World.connections w = World.connections w0 /\
  World.schedules w = World.schedules w0 /\
  forall b k,
    In b rows -> objectKey b = Some k ->
    exists k',
      keyOfRecord w (Backup.ID b) = Some k' /\
      (k' = k \/ k' = rename k) /\
      World.s3 w !! k' = World.s3 w0 !! k /\
      (In b rest -> k' = k) /\
      (~ In b rest -> moveGoesThrough E H w0 rename k ->
       k' = rename k /\ World.s3 w !! k = None).

(** A record whose object lies under the prefix "backups" in the folder of
    a connection named "back", and the store that holds it. *)
Definition demoBackupPrefixed : Backup.t :=
  Backup.mk 8%nat "c1" None "completed" "./backups/back/shop.sql"
            (Some "backups/back/shop.sql") 2048
            1763121600 (Some 1763121605) 1763121600 1763121600.

Definition demoWorldPrefixed : World.t :=
  World.mk demoConnections [] [demoBackupPrefixed] ∅
           {[ "backups/back/shop.sql" := 2048 ]} 9 ∅ ∅ 0.

(** ** Package [backup]: the other operations of the scheduler
    (backup_scheduler.go, backup_repository.go) *)

Module UpdateScheduleRequest.
(** Modelled from the spec: [type UpdateScheduleRequest struct] is declared
    in a file that is not under src/; the fields are the ones
    [UpdateBackupSchedule] and its handler read. *)
Record t : Type := mk {
  CronSchedule : string;
  RetentionDays : Z
}.
End UpdateScheduleRequest.

Module scheduler.

(** [if entryID, exists := s.cronEntries[scheduleID]; exists {
       s.cronManager.Remove(entryID); delete(s.cronEntries, scheduleID) }]. *)
Definition removeEntry (w : World.t) (scheduleID : UUID) : World.t :=
  match World.cronEntries w !! scheduleID with
  | Some entryID =>
      World.set_cron w (delete scheduleID (World.cronEntries w))
                     (delete entryID (World.cronJobs w)) (World.nextEntry w)
  | None => w
  end.

Definition DisableBackupSchedule (E : Env.t) (w : World.t)
    (connectionID : string) : option error * World.t :=
  match repo.GetBackupSchedule E w connectionID with
  | Fail err => (Some err, w)
  | Ok schedule =>
      let scheduleID := BackupSchedule.ID schedule in
      let w := removeEntry w scheduleID in
      let schedule :=
        BackupSchedule.mk (BackupSchedule.ID schedule)
          (BackupSchedule.ConnectionID schedule) false
          (BackupSchedule.CronSchedule schedule)
          (BackupSchedule.RetentionDays schedule)
          (BackupSchedule.NextRunTime schedule)
          (BackupSchedule.LastBackupTime schedule)
          (BackupSchedule.CreatedAt schedule) (Env.Now E) in
      match repo.UpdateBackupSchedule E w schedule with
      | (Some err, w) => (Some err, w)
      | (None, w) => (None, w)
      end
  end.

Definition UpdateBackupSchedule (E : Env.t) (w : World.t)
    (connectionID : string) (req : UpdateScheduleRequest.t)
  : option error * World.t :=
  match repo.GetBackupSchedule E w connectionID with
  | Fail err => (Some err, w)
  | Ok schedule =>
  match Env.cron_Parse E (UpdateScheduleRequest.CronSchedule req) with
  | None => (Some (Errorf "invalid cron schedule"), w)
  | Some _ =>
  let schedule :=
    BackupSchedule.mk (BackupSchedule.ID schedule)
      (BackupSchedule.ConnectionID schedule) (BackupSchedule.Enabled schedule)
      (UpdateScheduleRequest.CronSchedule req)
      (UpdateScheduleRequest.RetentionDays req)
      (BackupSchedule.NextRunTime schedule)
      (BackupSchedule.LastBackupTime schedule)
      (BackupSchedule.CreatedAt schedule) (BackupSchedule.UpdatedAt schedule) in
  match repo.UpdateBackupSchedule E w schedule with
  | (Some err, w) => (Some err, w)
  | (None, w) =>
      (* Remove old cron job *)
      let w := removeEntry w (BackupSchedule.ID schedule) in
      (* Add new cron job *)
      match service.AddFunc E w (BackupSchedule.CronSchedule schedule)
              (BackupSchedule.ID schedule) with
      | (Fail err, w) => (Some (Wrapf "failed to register cron job" err), w)
      | (Ok entryID, w) =>
          (* Store the new entry ID *)
          (None,
           World.set_cron w
             (<[BackupSchedule.ID schedule := entryID]> (World.cronEntries w))
             (World.cronJobs w) (World.nextEntry w))
      end
  end end end.

(** [UpdateBackupStatusAndSchedule]: UPDATE backups SET status = $1,
    schedule_id = $2, updated_at = $3 WHERE id = $4. *)
Definition setStatusAndSchedule (E : Env.t) (id : UUID)
    (status scheduleID : string) (b : Backup.t) : Backup.t :=
  if Nat.eqb (Backup.ID b) id
  then Backup.mk (Backup.ID b) (Backup.ConnectionID b) (Some scheduleID)
         status (Backup.Path b) (Backup.S3ObjectKey b) (Backup.Size b)
         (Backup.StartedTime b) (Backup.CompletedTime b) (Backup.CreatedAt b)
         (Env.Now E)
  else b.

Definition UpdateBackupStatusAndSchedule (E : Env.t) (H : Host.t)
    (w : World.t) (id : UUID) (status scheduleID : string)
  : option error * World.t :=
  if Host.sql_fails H (XUpdateBackupStatusAndSchedule id)
  then (Some (ErrExternal "sql"), w)
  else (None,
        World.set_backups w
          (map (setStatusAndSchedule E id status scheduleID)
               (World.backups w))).

(** How a cron job ends: it returns, or it stops in a run-time panic. *)
Inductive Ran : Type :=
| Returned (w : World.t)
| Panicked (w : World.t).

(** [executeCronBackup]; every error is only printed.  The error of the
    parser is dropped, so a schedule whose expression does not parse ends
    in the nil dereference of [cronSchedule.Next]. *)
Definition executeCronBackup (E : Env.t) (H : Host.t) (w : World.t)
    (schedule : BackupSchedule.t) : Ran :=
  let '(r, w) := service.CreateBackup E w (BackupSchedule.ConnectionID schedule) in
  let w :=
    match r with
    | Fail err =>
        let _ := Host.createFailureNotification H
                   (BackupSchedule.ConnectionID schedule) err in
        w
    | Ok backup =>
        let scheduleIDStr := Host.UUID_String H (BackupSchedule.ID schedule) in
        snd (UpdateBackupStatusAndSchedule E H w (Backup.ID backup)
               (Backup.Status backup) scheduleIDStr)
    end in
  (* Update schedule's next run time and last backup time *)
  match Env.cron_Parse E (BackupSchedule.CronSchedule schedule) with
  | None => Panicked w
  | Some cronSchedule =>
      let nextRun := cronSchedule (Env.Now E) in
      let now := Env.Now E in
      let schedule :=
        BackupSchedule.mk (BackupSchedule.ID schedule)
          (BackupSchedule.ConnectionID schedule)
          (BackupSchedule.Enabled schedule)
          (BackupSchedule.CronSchedule schedule)
          (BackupSchedule.RetentionDays schedule)
          (Some nextRun) (Some now)
          (BackupSchedule.CreatedAt schedule) now in
      let w := snd (repo.UpdateBackupSchedule E w schedule) in
      if 0 <? BackupSchedule.RetentionDays schedule
      then Returned (service.cleanupOldBackups E w
                       (BackupSchedule.ConnectionID schedule)
                       (BackupSchedule.RetentionDays schedule))
      else Returned w
  end.

End scheduler.

(** The cron manager is sound: every job is the registered entry of its
    schedule, an entry registered for a schedule holds a job of that
    schedule or none, the entry ids still to hand out are free and not
    registered, and the ids of the jobs' schedules and of the stored
    schedules have been handed out. *)
Definition cronSound (w : World.t) : Prop :=
  (forall e spec sid,
     World.cronJobs w !! e = Some (spec, sid) ->
     World.cronEntries w !! sid = Some e) /\
  (forall e spec sid sid',
     World.cronEntries w !! sid = Some e ->
     World.cronJobs w !! e = Some (spec, sid') -> sid' = sid) /\
  (forall e, (World.nextEntry w <= e)%nat -> World.cronJobs w !! e = None) /\
  (forall e sid,
     World.cronEntries w !! sid = Some e -> (e < World.nextEntry w)%nat) /\
  (forall e spec sid,
     World.cronJobs w !! e = Some (spec, sid) -> (sid < World.uuids w)%nat) /\
  (forall r, In r (World.schedules w) ->
     (BackupSchedule.ID r < World.uuids w)%nat).

(** The record of a schedule after it was disabled, and after its cron
    expression and retention were replaced; [updated_at] is the clock of
    the repository. *)
Definition disabledRow (E : Env.t) (r : BackupSchedule.t) : BackupSchedule.t :=
  BackupSchedule.mk (BackupSchedule.ID r) (BackupSchedule.ConnectionID r)
    false (BackupSchedule.CronSchedule r) (BackupSchedule.RetentionDays r)
    (BackupSchedule.NextRunTime r) (BackupSchedule.LastBackupTime r)
    (BackupSchedule.CreatedAt r) (Env.Now E).

Definition rescheduledRow (E : Env.t) (req : UpdateScheduleRequest.t)
    (r : BackupSchedule.t) : BackupSchedule.t :=
  BackupSchedule.mk (BackupSchedule.ID r) (BackupSchedule.ConnectionID r)
    (BackupSchedule.Enabled r) (UpdateScheduleRequest.CronSchedule req)
    (UpdateScheduleRequest.RetentionDays req)
    (BackupSchedule.NextRunTime r) (BackupSchedule.LastBackupTime r)
    (BackupSchedule.CreatedAt r) (Env.Now E).

(** The rows of a table with the row of one id replaced. *)
Definition withRow (f : BackupSchedule.t -> BackupSchedule.t) (id : UUID)
    (rows : list BackupSchedule.t) : list BackupSchedule.t :=
  map (fun r => if Nat.eqb (BackupSchedule.ID r) id then f r else r) rows.

(** A request to run the sample schedule at midnight and keep two weeks. *)
Definition demoUpdateRequest : UpdateScheduleRequest.t :=
  UpdateScheduleRequest.mk "0 0 0 * * *" 14.

(** The record of a schedule after a run of its job: the job's copy of
    the schedule gives the switch, the expression and the retention, the
    run gives the two times. *)
Definition stampedRow (E : Env.t) (schedule : BackupSchedule.t)
    (nextRun : Time) (r : BackupSchedule.t) : BackupSchedule.t :=
  BackupSchedule.mk (BackupSchedule.ID r) (BackupSchedule.ConnectionID r)
    (BackupSchedule.Enabled schedule) (BackupSchedule.CronSchedule schedule)
    (BackupSchedule.RetentionDays schedule)
    (Some nextRun) (Some (Env.Now E))
    (BackupSchedule.CreatedAt r) (Env.Now E).

(** A schedule that runs at midnight, and the store that holds it. *)
Definition demoMidnightSchedule : BackupSchedule.t :=
  BackupSchedule.mk 9%nat "c1" true "0 0 0 * * *" 7 (Some 1763078400)
                    (Some 1763001000) 1760000000 1763001000.

Definition demoWorldMidnight : World.t :=
  World.mk demoConnections [demoMidnightSchedule] [] ∅ ∅ 10 ∅ ∅ 0.

(** ** Package [connection]: the other operations
    (connection_repository.go, connection_service.go,
    connection_handler.go) *)

Module ConnectionConfig.
(** [type ConnectionConfig struct]; the last field is a [*bool]. *)
Record t : Type := mk {
  ID : string;
  Name : string;
  Type_ : string;
  Host : string;
  Port : Z;
  Username : string;
  Password : string;
  Database : string;
  SSL : bool;
  SSHEnabled : bool;
  SSHHost : string;
  SSHPort : Z;
  SSHUsername : string;
  SSHPassword : string;
  SSHPrivateKey : string;
  S3CleanupOnRetention : option bool
}.

(** [config.ID = id]. *)
Definition set_ID (config : t) (id : string) : t :=
  mk id (Name config) (Type_ config) (Host config) (Port config)
     (Username config) (Password config) (Database config) (SSL config)
     (SSHEnabled config) (SSHHost config) (SSHPort config)
     (SSHUsername config) (SSHPassword config) (SSHPrivateKey config)
     (S3CleanupOnRetention config).
End ConnectionConfig.

Module Manager.
(** [*ConnectionManager], whose code is not under src/: whether
    [Connect(config)] reaches the database, and what [GetDatabaseSize]
    answers for the connection it then holds under the id of [config]. *)
Record t : Type := mk {
  Connect : ConnectionConfig.t -> option error;
  GetDatabaseSize : ConnectionConfig.t -> res Z
}.
End Manager.

Module connections.
Import StoredConnection.

(** *** connection_repository.go *)

(** [Update]: the UPDATE names sixteen columns and the clock; the id,
    [created_at], [last_connected_at], [user_id], [status] and
    [selected_databases] of the row stay.  No row, no change, and no
    error. *)
Definition Update (V : Vault.t) (H : Host.t) (tbl : gmap string ConnRow.t)
    (conn : StoredConnection.t) : option error * gmap string ConnRow.t :=
  match Vault.Encrypt V (Username conn) with
  | Fail e => (Some e, tbl)
  | Ok username =>
  match Vault.Encrypt V (Password conn) with
  | Fail e => (Some e, tbl)
  | Ok password =>
  match connection.encryptOptional V (SSHPassword conn) with
  | Fail e => (Some e, tbl)
  | Ok sshPassword =>
  match connection.encryptOptional V (SSHPrivateKey conn) with
  | Fail e => (Some e, tbl)
  | Ok sshPrivateKey =>
      let sslInt := if SSL conn then 1 else 0 in
      let sshEnabledInt := if SSHEnabled conn then 1 else 0 in
      let s3CleanupInt := if S3CleanupOnRetention conn then 1 else 0 in
      if Host.sql_fails H (XUpdateConnection (ID conn))
      then (Some (ErrExternal "sql"), tbl)
      else
        match tbl !! ID conn with
        | None => (None, tbl)
        | Some r =>
            (None,
             <[ID conn :=
                 ConnRow.mk (ConnRow.id r) (Name conn) (Type_ conn)
                   (Host conn) (Port conn) username password
                   (DatabaseName conn) sslInt (DatabaseSize conn)
                   (ConnRow.created_at r) (Vault.sql_now V)
                   (ConnRow.last_connected_at r) (ConnRow.user_id r)
                   (ConnRow.status r) sshEnabledInt (SSHHost conn)
                   (SSHPort conn) (SSHUsername conn) (Some sshPassword)
                   (Some sshPrivateKey) (ConnRow.selected_databases r)
                   (Some s3CleanupInt)]> tbl)
        end
  end end end end.

(** *** connection_service.go *)

Definition set_connections (w : World.t) (v : gmap string ConnRow.t)
  : World.t :=
  World.mk v (World.schedules w) (World.backups w) (World.files w)
           (World.s3 w) (World.uuids w) (World.cronEntries w)
           (World.cronJobs w) (World.nextEntry w).

(** [dbSize, err := s.manager.GetDatabaseSize(config.ID);
     if err != nil { dbSize = 0 }]. *)
Definition sizeOrZero (M : Manager.t) (config : ConnectionConfig.t) : Z :=
  match Manager.GetDatabaseSize M config with
  | Ok dbSize => dbSize
  | Fail _ => 0
  end.

(** The composite literal of [SaveConnection]; the fields it does not
    name have their zero values. *)
Definition storedOfConfig (config : ConnectionConfig.t) (userID : UUID)
    (dbSize : Z) (s3CleanupOnRetention : bool) : StoredConnection.t :=
  mk (ConnectionConfig.ID config) (ConnectionConfig.Name config)
     (ConnectionConfig.Type_ config) (ConnectionConfig.Host config)
     (ConnectionConfig.Port config) (ConnectionConfig.Username config)
     (ConnectionConfig.Password config) (ConnectionConfig.Database config)
     [] (ConnectionConfig.SSL config) (ConnectionConfig.SSHEnabled config)
     (ConnectionConfig.SSHHost config) (ConnectionConfig.SSHPort config)
     (ConnectionConfig.SSHUsername config)
     (ConnectionConfig.SSHPassword config)
     (ConnectionConfig.SSHPrivateKey config) s3CleanupOnRetention
     "" "" None userID "connected" dbSize.

Definition SaveConnection (E : Env.t) (H : Host.t) (M : Manager.t)
    (w : World.t) (config : ConnectionConfig.t) (userID : UUID)
  : res StoredConnection.t * World.t :=
  let '(config, w) :=
    if String.eqb (ConnectionConfig.ID config) ""
    then let '(id, w) := World.uuid_New w in
         (ConnectionConfig.set_ID config (Host.UUID_String H id), w)
    else (config, w) in
  match Manager.Connect M config with
  | Some err => (Fail err, w)
  | None =>
  let dbSize := sizeOrZero M config in
  let storedConn := storedOfConfig config userID dbSize false in
  match connection.Save (Env.vault E) (World.connections w) storedConn with
  | (Some err, _) => (Fail err, w)
  | (None, tbl) => (Ok storedConn, set_connections w tbl)
  end end.

Definition UpdateConnection (E : Env.t) (H : Host.t) (M : Manager.t)
    (w : World.t) (config : ConnectionConfig.t) (userID : UUID)
  : res StoredConnection.t * World.t :=
  match Manager.Connect M config with
  | Some err => (Fail err, w)
  | None =>
  let dbSize := sizeOrZero M config in
  (* Get existing connection to preserve fields that aren't being updated *)
  match connection.GetConnection (Env.vault E) (World.connections w)
          (ConnectionConfig.ID config) with
  | Fail err => (Fail (Wrapf "failed to get existing connection" err), w)
  | Ok existingConn =>
  let storedConn :=
    storedOfConfig config userID dbSize
      (* Update S3 cleanup setting if provided *)
      (match ConnectionConfig.S3CleanupOnRetention config with
       | Some b => b
       | None => S3CleanupOnRetention existingConn
       end) in
  match Update (Env.vault E) H (World.connections w) storedConn with
  | (Some err, _) => (Fail err, w)
  | (None, tbl) => (Ok storedConn, set_connections w tbl)
  end end end.

(** [existingConn.S3CleanupOnRetention = *s3CleanupOnRetention]. *)
Definition set_S3CleanupOnRetention (conn : StoredConnection.t) (b : bool)
  : StoredConnection.t :=
  mk (ID conn) (Name conn) (Type_ conn) (Host conn) (Port conn)
     (Username conn) (Password conn) (DatabaseName conn)
     (SelectedDatabases conn) (SSL conn) (SSHEnabled conn) (SSHHost conn)
     (SSHPort conn) (SSHUsername conn) (SSHPassword conn)
     (SSHPrivateKey conn) b (CreatedAt conn) (UpdatedAt conn)
     (LastConnectedAt conn) (UserID conn) (Status conn) (DatabaseSize conn).

(** [UpdateConnectionSettings] updates the settings of a connection
    without testing the connection. *)
Definition UpdateConnectionSettings (E : Env.t) (H : Host.t) (w : World.t)
    (id : string) (s3CleanupOnRetention : option bool)
  : option error * World.t :=
  match connection.GetConnection (Env.vault E) (World.connections w) id with
  | Fail err => (Some (Wrapf "failed to get connection" err), w)
  | Ok existingConn =>
      let existingConn :=
        match s3CleanupOnRetention with
        | Some b => set_S3CleanupOnRetention existingConn b
        | None => existingConn
        end in
      match Update (Env.vault E) H (World.connections w) existingConn with
      | (Some err, _) => (Some err, w)
      | (None, tbl) => (None, set_connections w tbl)
      end
  end.

(** Modelled from the spec: the tables are declared in files that are
    not under src/, and the data model of the spec has the deletion of a
    connection cascade to its schedules and backup records.  So
    [Delete], the statement DELETE FROM connections WHERE id = $1 of the
    repository, takes the row and with it the schedules and the backup
    records of the connection; nothing else is in its reach. *)
Definition Delete (H : Host.t) (w : World.t) (id : string)
  : option error * World.t :=
  if Host.sql_fails H (XDeleteConnection id)
  then (Some (ErrExternal "sql"), w)
  else
    (None,
     World.mk (delete id (World.connections w))
       (List.filter
          (fun s => negb (String.eqb (BackupSchedule.ConnectionID s) id))
          (World.schedules w))
       (List.filter
          (fun b => negb (String.eqb (Backup.ConnectionID b) id))
          (World.backups w))
       (World.files w) (World.s3 w) (World.uuids w) (World.cronEntries w)
       (World.cronJobs w) (World.nextEntry w)).

(** [DeleteConnection] of the service hands the id to the repository. *)
Definition DeleteConnection (H : Host.t) (w : World.t) (id : string)
  : option error * World.t :=
  Delete H w id.

(** *** connection_handler.go *)

(** What a handler writes: an error envelope, a status line alone, or a
    status with the JSON encoding of a value. *)
Inductive Answer (A : Type) : Type :=
| AnswerError (status : Z) (message : string + error)
| AnswerStatus (status : Z)
| AnswerJSON (status : Z) (body : A).
Arguments AnswerError {A} status message.
Arguments AnswerStatus {A} status.
Arguments AnswerJSON {A} status body.

(** [ConnectionHandler.DeleteConnection]; [id] is [mux.Vars(r)["id"]],
    [cleanup_s3] the query parameter of that name, and [backupService]
    says whether the handler was given a backup service. *)
Definition Handler_DeleteConnection (E : Env.t) (H : Host.t)
    (backupService : bool) (w : World.t) (id cleanup_s3 : string)
  : Answer unit * World.t :=
  if String.eqb id "" then (AnswerError 400 (inl "connection id is required"), w)
  else
    (* Check if cleanup_s3 query parameter is provided *)
    let cleanupS3 := String.eqb cleanup_s3 "true" in
    (* Cleanup S3 backups if requested *)
    let w :=
      if cleanupS3 && backupService
      then snd (s3conn.CleanupS3BackupsForConnection E H w id)
           (* Continue with connection deletion even if S3 cleanup fails *)
      else w in
    match DeleteConnection H w id with
    | (Some err, w) => (AnswerError 500 (inr err), w)
    | (None, w) => (AnswerStatus 204, w)
    end.

(** [ConnectionHandler.UpdateConnection]; [config] is what the decoder
    made of the body and [userID] what the context gave. *)
Definition Handler_UpdateConnection (E : Env.t) (H : Host.t) (M : Manager.t)
    (backupService : bool) (w : World.t) (config : res ConnectionConfig.t)
    (userID : res UUID) : Answer StoredConnection.t * World.t :=
  match config with
  | Fail err => (AnswerError 400 (inr err), w)
  | Ok config =>
  match userID with
  | Fail err => (AnswerError 400 (inr err), w)
  | Ok userID =>
  (* Get existing connection to check if name changed *)
  match connection.Service_GetConnection (Env.vault E) (World.connections w)
          (ConnectionConfig.ID config) with
  | Fail _ => (AnswerError 500 (inl "Failed to get existing connection"), w)
  | Ok existingConn =>
  match UpdateConnection E H M w config userID with
  | (Fail err, w) => (AnswerError 500 (inr err), w)
  | (Ok storedConn, w) =>
      (* Rename S3 folder if connection name changed *)
      let w :=
        if negb (String.eqb (Name existingConn) (ConnectionConfig.Name config))
           && backupService
        then snd (s3conn.RenameS3FolderForConnection E H w
                    (ConnectionConfig.ID config) (Name existingConn)
                    (ConnectionConfig.Name config))
             (* Continue even if S3 rename fails *)
        else w in
      (AnswerJSON 200 storedConn, w)
  end end end end.

End connections.

(** What is read of a connection after [Update] wrote [conn] over the
    row that read as [old]: the columns the UPDATE names come from
    [conn], the clock stamps the row, and the rest stays. *)
Definition updatedOver (V : Vault.t) (old conn : StoredConnection.t)
  : StoredConnection.t :=
  StoredConnection.mk (StoredConnection.ID old) (StoredConnection.Name conn)
    (StoredConnection.Type_ conn) (StoredConnection.Host conn)
    (StoredConnection.Port conn) (StoredConnection.Username conn)
    (StoredConnection.Password conn) (StoredConnection.DatabaseName conn)
    (StoredConnection.SelectedDatabases old) (StoredConnection.SSL conn)
    (StoredConnection.SSHEnabled conn) (StoredConnection.SSHHost conn)
    (StoredConnection.SSHPort conn) (StoredConnection.SSHUsername conn)
    (StoredConnection.SSHPassword conn)
    (StoredConnection.SSHPrivateKey conn)
    (StoredConnection.S3CleanupOnRetention conn)
    (StoredConnection.CreatedAt old) (Vault.sql_now V)
    (StoredConnection.LastConnectedAt old) (StoredConnection.UserID old)
    (StoredConnection.Status old) (StoredConnection.DatabaseSize conn).

(** A manager that reaches every database and measures 4096 bytes, and a
    request to save a connection that has no id yet. *)
Definition demoManager : Manager.t :=
  Manager.mk (fun _ => None) (fun _ => Ok 4096).

Definition demoConfig (id name : string) (flag : option bool)
  : ConnectionConfig.t :=
  ConnectionConfig.mk id name "postgresql" "db.internal" 5432 "admin"
    "hunter2" "shop" true false "" 0 "" "" "" flag.

(** Two stores that differ in the bucket at most. *)
Definition sameButBucket (w w' : World.t) : Prop :=
  World.connections w' = World.connections w /\
  World.schedules w' = World.schedules w /\
  World.backups w' = World.backups w /\
  World.files w' = World.files w /\
  World.uuids w' = World.uuids w /\
  World.cronEntries w' = World.cronEntries w /\
  World.cronJobs w' = World.cronJobs w /\
  World.nextEntry w' = World.nextEntry w.

(** The sample store with the midnight schedule, its job registered in
    the cron manager, and a backup of the sample connection in the
    bucket. *)
Definition demoWorldRunning : World.t :=
  World.mk demoConnections [demoMidnightSchedule] [demoBackupPrefixed] ∅
           {[ "backups/back/shop.sql" := 2048 ]} 10
           {[ 9%nat := 0%nat ]} {[ 0%nat := ("0 0 0 * * *", 9%nat) ]} 1.

(** ** Package [settings] (model.go, settings_repository.go,
    settings_service.go) *)

Module Settings.
(** [type UserSettings struct], all of it; a Go pointer is an [option],
    and [EnvConfigured] is the set of the keys the map sends to [true]
    (the code stores no other value; a nil map has no key). *)
Record t : Type := mk {
  ID : UUID;
  UserID : UUID;
  NotifyDashboard : bool;
  NotifyEmail : bool;
  NotifyWebhook : bool;
  WebhookURL : option string;
  Email : option string;
  SMTPHost : option string;
  SMTPPort : option Z;
  SMTPUsername : option string;
  SMTPPassword : option string;
  S3Enabled : bool;
  S3Endpoint : option string;
  S3Region : option string;
  S3Bucket : option string;
  S3AccessKey : option string;
  S3SecretKey : option string;
  S3UseSSL : bool;
  S3PathPrefix : option string;
  S3PurgeLocal : bool;
  CreatedAt : Time;
  UpdatedAt : Time;
  EnvConfigured : gset string
}.
End Settings.

Module UpdateSettingsRequest.
(** [type UpdateSettingsRequest struct]: every field is a pointer. *)
Record t : Type := mk {
  NotifyDashboard : option bool;
  NotifyEmail : option bool;
  NotifyWebhook : option bool;
  WebhookURL : option string;
  Email : option string;
  SMTPHost : option string;
  SMTPPort : option Z;
  SMTPUsername : option string;
  SMTPPassword : option string;
  S3Enabled : option bool;
  S3Endpoint : option string;
  S3Region : option string;
  S3Bucket : option string;
  S3AccessKey : option string;
  S3SecretKey : option string;
  S3UseSSL : option bool;
  S3PathPrefix : option string;
  S3PurgeLocal : option bool
}.
End UpdateSettingsRequest.

Module SettingsRow.
(** A row of table [user_settings]; the two timestamps are read as
    text. *)
Record t : Type := mk {
  id : UUID;
  user_id : UUID;
  notify_dashboard : bool;
  notify_email : bool;
  notify_webhook : bool;
  webhook_url : option string;
  email : option string;
  smtp_host : option string;
  smtp_port : option Z;
  smtp_username : option string;
  smtp_password : option string;
  s3_enabled : bool;
  s3_endpoint : option string;
  s3_region : option string;
  s3_bucket : option string;
  s3_access_key : option string;
  s3_secret_key : option string;
  s3_use_ssl : bool;
  s3_path_prefix : option string;
  s3_purge_local : bool;
  created_at : string;
  updated_at : string
}.
End SettingsRow.

(** The statements of the settings repository. *)
Inductive SettingsOp : Type :=
| QGetUserSettings (userID : UUID)
| XCreateUserSettings (userID : UUID)
| XUpdateUserSettings (userID : UUID).

Module Sys.
(** What package [settings] reaches outside its own code, besides the
    vault and the clock of [Env.t]: the driver (which statements it
    refuses, and the text it stores for a [time.Time]),
    [common.ParseTime] (not under src/), [os.Getenv] and
    [strconv.Atoi]. *)
Record t : Type := mk {
  sql_fails : SettingsOp -> bool;
  FormatTime : Time -> string;
  ParseTime : string -> res Time;
  Getenv : string -> string;
  Atoi : string -> option Z
}.
End Sys.

Module SettingsStore.
(** Table [user_settings], by [user_id] (the code inserts a row for a
    user only after it found none), and the ids handed out so far. *)
Record t : Type := mk {
  rows : gmap UUID SettingsRow.t;
  uuids : UUID
}.
End SettingsStore.

Module settings.
Import Settings.

(** *** settings_repository.go *)

(** The columns of the INSERT, in its order. *)
Definition rowOf (sys : Sys.t) (settings : Settings.t) : SettingsRow.t :=
  SettingsRow.mk (ID settings) (UserID settings) (NotifyDashboard settings)
    (NotifyEmail settings) (NotifyWebhook settings) (WebhookURL settings)
    (Email settings) (SMTPHost settings) (SMTPPort settings)
    (SMTPUsername settings) (SMTPPassword settings) (S3Enabled settings)
    (S3Endpoint settings) (S3Region settings) (S3Bucket settings)
    (S3AccessKey settings) (S3SecretKey settings) (S3UseSSL settings)
    (S3PathPrefix settings) (S3PurgeLocal settings)
    (Sys.FormatTime sys (CreatedAt settings))
    (Sys.FormatTime sys (UpdatedAt settings)).

Definition CreateUserSettings (sys : Sys.t) (st : SettingsStore.t)
    (settings : Settings.t) : option error * SettingsStore.t :=
  if Sys.sql_fails sys (XCreateUserSettings (UserID settings))
  then (Some (ErrExternal "sql"), st)
  else (None,
        SettingsStore.mk
          (<[UserID settings := rowOf sys settings]> (SettingsStore.rows st))
          (SettingsStore.uuids st)).

(** The struct the Scan fills, the two timestamps parsed. *)
Definition scanned (row : SettingsRow.t) (createdAt updatedAt : Time)
  : Settings.t :=
  mk (SettingsRow.id row) (SettingsRow.user_id row)
     (SettingsRow.notify_dashboard row) (SettingsRow.notify_email row)
     (SettingsRow.notify_webhook row) (SettingsRow.webhook_url row)
     (SettingsRow.email row) (SettingsRow.smtp_host row)
     (SettingsRow.smtp_port row) (SettingsRow.smtp_username row)
     (SettingsRow.smtp_password row) (SettingsRow.s3_enabled row)
     (SettingsRow.s3_endpoint row) (SettingsRow.s3_region row)
     (SettingsRow.s3_bucket row) (SettingsRow.s3_access_key row)
     (SettingsRow.s3_secret_key row) (SettingsRow.s3_use_ssl row)
     (SettingsRow.s3_path_prefix row) (SettingsRow.s3_purge_local row)
     createdAt updatedAt ∅.

Definition GetUserSettings (E : Env.t) (sys : Sys.t) (st : SettingsStore.t)
    (userID : UUID) : res Settings.t * SettingsStore.t :=
  if Sys.sql_fails sys (QGetUserSettings userID)
  then (Fail (ErrExternal "sql"), st)
  else
    match SettingsStore.rows st !! userID with
    | None =>
        (* Create default settings if none exist *)
        let now := Env.Now E in
        let id := SettingsStore.uuids st in
        let st := SettingsStore.mk (SettingsStore.rows st) (S id) in
        let settings :=
          mk id userID true false false None None None None None None
             false None None None None None true None false now now ∅ in
        match CreateUserSettings sys st settings with
        | (Some err, st) => (Fail err, st)
        | (None, st) => (Ok settings, st)
        end
    | Some row =>
        (* Parse timestamps *)
        match Sys.ParseTime sys (SettingsRow.created_at row) with
        | Fail err => (Fail err, st)
        | Ok createdAt =>
        match Sys.ParseTime sys (SettingsRow.updated_at row) with
        | Fail err => (Fail err, st)
        | Ok updatedAt => (Ok (scanned row createdAt updatedAt), st)
        end end
    end.

(** [settings.UpdatedAt = time.Now()]. *)
Definition stamped (E : Env.t) (s : Settings.t) : Settings.t :=
  mk (ID s) (UserID s) (NotifyDashboard s) (NotifyEmail s) (NotifyWebhook s)
     (WebhookURL s) (Email s) (SMTPHost s) (SMTPPort s) (SMTPUsername s)
     (SMTPPassword s) (S3Enabled s) (S3Endpoint s) (S3Region s) (S3Bucket s)
     (S3AccessKey s) (S3SecretKey s) (S3UseSSL s) (S3PathPrefix s)
     (S3PurgeLocal s) (CreatedAt s) (Env.Now E) (EnvConfigured s).

(** The UPDATE names every column but [id], [user_id] and [created_at];
    no row, no change, and no error. *)
Definition updatedRow (sys : Sys.t) (settings : Settings.t)
    (row : SettingsRow.t) : SettingsRow.t :=
  SettingsRow.mk (SettingsRow.id row) (SettingsRow.user_id row)
    (NotifyDashboard settings) (NotifyEmail settings)
    (NotifyWebhook settings) (WebhookURL settings) (Email settings)
    (SMTPHost settings) (SMTPPort settings) (SMTPUsername settings)
    (SMTPPassword settings) (S3Enabled settings) (S3Endpoint settings)
    (S3Region settings) (S3Bucket settings) (S3AccessKey settings)
    (S3SecretKey settings) (S3UseSSL settings) (S3PathPrefix settings)
    (S3PurgeLocal settings) (SettingsRow.created_at row)
    (Sys.FormatTime sys (UpdatedAt settings)).

(** [UpdateUserSettings] of the repository; the struct is stamped
    through the pointer, so the caller sees the new update time. *)
Definition Repo_UpdateUserSettings (E : Env.t) (sys : Sys.t)
    (st : SettingsStore.t) (settings : Settings.t)
  : option error * Settings.t * SettingsStore.t :=
  let settings := stamped E settings in
  if Sys.sql_fails sys (XUpdateUserSettings (UserID settings))
  then (Some (ErrExternal "sql"), settings, st)
  else
    (None, settings,
     match SettingsStore.rows st !! UserID settings with
     | Some row =>
         SettingsStore.mk
           (<[UserID settings := updatedRow sys settings row]>
              (SettingsStore.rows st))
           (SettingsStore.uuids st)
     | None => st
     end).

(** *** settings_service.go *)

(** The field setters of [applyDefaults] and of the two services. *)
Definition withMail (s : Settings.t) (email smtpHost : option string)
    (smtpPort : option Z) (smtpUsername smtpPassword : option string)
    (envConfigured : gset string) : Settings.t :=
  mk (ID s) (UserID s) (NotifyDashboard s) (NotifyEmail s) (NotifyWebhook s)
     (WebhookURL s) email smtpHost smtpPort smtpUsername smtpPassword
     (S3Enabled s) (S3Endpoint s) (S3Region s) (S3Bucket s) (S3AccessKey s)
     (S3SecretKey s) (S3UseSSL s) (S3PathPrefix s) (S3PurgeLocal s)
     (CreatedAt s) (UpdatedAt s) envConfigured.

(** [settings.SMTPPassword = nil; settings.S3SecretKey = nil]. *)
Definition withoutSecrets (s : Settings.t) : Settings.t :=
  mk (ID s) (UserID s) (NotifyDashboard s) (NotifyEmail s) (NotifyWebhook s)
     (WebhookURL s) (Email s) (SMTPHost s) (SMTPPort s) (SMTPUsername s)
     None (S3Enabled s) (S3Endpoint s) (S3Region s) (S3Bucket s)
     (S3AccessKey s) None (S3UseSSL s) (S3PathPrefix s) (S3PurgeLocal s)
     (CreatedAt s) (UpdatedAt s) (EnvConfigured s).

(** [applyDefaults]: the variables of the process that are set take the
    place of the stored values and are marked. *)
Definition applyDefaults (sys : Sys.t) (settings : Settings.t) : Settings.t :=
  let envConfigured : gset string := ∅ in
  let smtpHost := Sys.Getenv sys "SMTP_HOST" in
  let '(host, envConfigured) :=
    if negb (String.eqb smtpHost "")
    then (Some smtpHost, envConfigured ∪ {["smtp_host"]})
    else (SMTPHost settings, envConfigured) in
  let smtpPortStr := Sys.Getenv sys "SMTP_PORT" in
  let '(port, envConfigured) :=
    if negb (String.eqb smtpPortStr "")
    then match Sys.Atoi sys smtpPortStr with
         | Some port => (Some port, envConfigured ∪ {["smtp_port"]})
         | None => (SMTPPort settings, envConfigured)
         end
    else (SMTPPort settings, envConfigured) in
  let smtpUser := Sys.Getenv sys "SMTP_USER" in
  let '(user, envConfigured) :=
    if negb (String.eqb smtpUser "")
    then (Some smtpUser, envConfigured ∪ {["smtp_username"]})
    else (SMTPUsername settings, envConfigured) in
  let smtpPass := Sys.Getenv sys "SMTP_PASSWORD" in
  let '(pass, envConfigured) :=
    if negb (String.eqb smtpPass "")
    then (Some smtpPass, envConfigured ∪ {["smtp_password"]})
    else (SMTPPassword settings, envConfigured) in
  let smtpFrom := Sys.Getenv sys "SMTP_FROM" in
  let '(from, envConfigured) :=
    if negb (String.eqb smtpFrom "")
    then (Some smtpFrom, envConfigured ∪ {["email"]})
    else (Email settings, envConfigured) in
  withMail settings from host port user pass envConfigured.

Definition Service_GetUserSettings (E : Env.t) (sys : Sys.t)
    (st : SettingsStore.t) (userID : UUID)
  : res Settings.t * SettingsStore.t :=
  match GetUserSettings E sys st userID with
  | (Fail err, st) => (Fail err, st)
  | (Ok settings, st) =>
      (* Apply environment variable overrides *)
      let settings := applyDefaults sys settings in
      (* Remove sensitive data before returning *)
      (Ok (withoutSecrets settings), st)
  end.

Definition GetUserSettingsInternal (E : Env.t) (sys : Sys.t)
    (st : SettingsStore.t) (userID : UUID)
  : res Settings.t * SettingsStore.t :=
  match GetUserSettings E sys st userID with
  | (Fail err, st) => (Fail err, st)
  | (Ok settings, st) => (Ok (applyDefaults sys settings), st)
  end.

(** [if req.X != nil { settings.X = *req.X }] and
    [if req.X != nil { settings.X = req.X }]. *)
Definition orKeep {A} (req : option A) (old : A) : A :=
  match req with Some v => v | None => old end.

Definition orKeepPtr {A} (locked : bool) (req old : option A) : option A :=
  match req with
  | Some v => if locked then old else Some v
  | None => old
  end.

(** [if req.X != nil && !locked { c, err := Encrypt of it; settings.X = &c }]. *)
Definition orKeepSecret (E : Env.t) (locked : bool) (req old : option string)
  : res (option string) :=
  match req with
  | Some v =>
      if locked then Ok old
      else match Vault.Encrypt (Env.vault E) v with
           | Fail err => Fail err
           | Ok encrypted => Ok (Some encrypted)
           end
  | None => Ok old
  end.

(** The assignments of [UpdateUserSettings], the two secrets already
    encrypted: a field of the request that is not nil replaces the stored
    one, unless its variable is set in the process. *)
Definition applyRequest (sys : Sys.t) (req : UpdateSettingsRequest.t)
    (settings : Settings.t) (smtpPassword s3SecretKey : option string)
  : Settings.t :=
  let envSMTPHost := negb (String.eqb (Sys.Getenv sys "SMTP_HOST") "") in
  let envSMTPPort := negb (String.eqb (Sys.Getenv sys "SMTP_PORT") "") in
  let envSMTPUser := negb (String.eqb (Sys.Getenv sys "SMTP_USER") "") in
  let envSMTPFrom := negb (String.eqb (Sys.Getenv sys "SMTP_FROM") "") in
  mk (ID settings) (UserID settings)
     (orKeep (UpdateSettingsRequest.NotifyDashboard req)
             (NotifyDashboard settings))
     (orKeep (UpdateSettingsRequest.NotifyEmail req) (NotifyEmail settings))
     (orKeep (UpdateSettingsRequest.NotifyWebhook req)
             (NotifyWebhook settings))
     (orKeepPtr false (UpdateSettingsRequest.WebhookURL req)
                (WebhookURL settings))
     (orKeepPtr envSMTPFrom (UpdateSettingsRequest.Email req)
                (Email settings))
     (orKeepPtr envSMTPHost (UpdateSettingsRequest.SMTPHost req)
                (SMTPHost settings))
     (orKeepPtr envSMTPPort (UpdateSettingsRequest.SMTPPort req)
                (SMTPPort settings))
     (orKeepPtr envSMTPUser (UpdateSettingsRequest.SMTPUsername req)
                (SMTPUsername settings))
     smtpPassword
     (orKeep (UpdateSettingsRequest.S3Enabled req) (S3Enabled settings))
     (orKeepPtr false (UpdateSettingsRequest.S3Endpoint req)
                (S3Endpoint settings))
     (orKeepPtr false (UpdateSettingsRequest.S3Region req)
                (S3Region settings))
     (orKeepPtr false (UpdateSettingsRequest.S3Bucket req)
                (S3Bucket settings))
     (orKeepPtr false (UpdateSettingsRequest.S3AccessKey req)
                (S3AccessKey settings))
     s3SecretKey
     (orKeep (UpdateSettingsRequest.S3UseSSL req) (S3UseSSL settings))
     (orKeepPtr false (UpdateSettingsRequest.S3PathPrefix req)
                (S3PathPrefix settings))
     (orKeep (UpdateSettingsRequest.S3PurgeLocal req)
             (S3PurgeLocal settings))
     (CreatedAt settings) (UpdatedAt settings) (EnvConfigured settings).

Definition UpdateUserSettings (E : Env.t) (sys : Sys.t)
    (st : SettingsStore.t) (userID : UUID) (req : UpdateSettingsRequest.t)
  : res Settings.t * SettingsStore.t :=
  match GetUserSettings E sys st userID with
  | (Fail err, st) => (Fail err, st)
  | (Ok settings, st) =>
  let envSMTPPass := negb (String.eqb (Sys.Getenv sys "SMTP_PASSWORD") "") in
  (* Encrypt SMTP password before storing *)
  match orKeepSecret E envSMTPPass (UpdateSettingsRequest.SMTPPassword req)
          (SMTPPassword settings) with
  | Fail err => (Fail err, st)
  | Ok smtpPassword =>
  (* Encrypt S3 secret key before storing *)
  match orKeepSecret E false (UpdateSettingsRequest.S3SecretKey req)
          (S3SecretKey settings) with
  | Fail err => (Fail err, st)
  | Ok s3SecretKey =>
  let settings := applyRequest sys req settings smtpPassword s3SecretKey in
  match Repo_UpdateUserSettings E sys st settings with
  | (Some err, _, st) => (Fail err, st)
  | (None, settings, st) =>
      (* Remove sensitive data before returning *)
      (Ok (withoutSecrets settings), st)
  end end end
  end.

End settings.

(** The store is keyed by the user of each row. *)
Definition storeKeyed (st : SettingsStore.t) : Prop :=
  forall userID row,
    SettingsStore.rows st !! userID = Some row ->
    SettingsRow.user_id row = userID.

(** [common.ParseTime] reads what the driver writes. *)
Definition timeRoundTrips (sys : Sys.t) : Prop :=
  forall t, Sys.ParseTime sys (Sys.FormatTime sys t) = Ok t.

(** The settings the repository makes up for a user that has none. *)
Definition defaultSettings (E : Env.t) (id userID : UUID) : Settings.t :=
  Settings.mk id userID true false false None None None None None None
    false None None None None None true None false (Env.Now E) (Env.Now E) ∅.

(** A request that asks for nothing, and one that sets the S3 secret. *)
Definition emptyRequest : UpdateSettingsRequest.t :=
  UpdateSettingsRequest.mk None None None None None None None None None
    None None None None None None None None None.

Definition secretRequest (key : string) : UpdateSettingsRequest.t :=
  UpdateSettingsRequest.mk None None None None None (Some "mail.example")
    None None None (Some true) None None (Some "bucket") None (Some key)
    None None None.

(** A process for the examples: the driver accepts every statement and
    writes times as decimal seconds, and the variables in [env] are
    set. *)
Definition demoSys (env : list (string * string)) : Sys.t :=
  Sys.mk (fun _ => false) Sprintf_d
         (fun s => match NilZero.int_of_string s with
                   | Some n => Ok (Z.of_int n)
                   | None => Fail (ErrExternal "parse time")
                   end)
         (fun name =>
            match List.find (fun kv => String.eqb (fst kv) name) env with
            | Some kv => snd kv
            | None => ""
            end)
         (fun s => Z.of_int <$> NilZero.int_of_string s).

Definition demoSettingsStore : SettingsStore.t := SettingsStore.mk ∅ 0%nat.

(** ** Package [backup]: the handler of the listing (backup.go) *)

Module listpage.

(** A Go [int] on the 64-bit targets: the product of the handler wraps
    around. *)
Definition wrap64 (z : Z) : Z := (z + 2^63) mod 2^64 - 2^63.

(** What [ListBackups] writes: an error envelope, or the page envelope of
    [response.SendPaginatedSuccess] (not under src/) with the rows, the
    page, the limit and the total it is given. *)
Inductive ListAnswer (R : Type) : Type :=
| ListError (status : Z) (err : error)
| ListPage (backups : R) (page limit total : Z).
Arguments ListError {R} status err.
Arguments ListPage {R} backups page limit total.

(** [if s := r.URL.Query().Get(name); s != "" {
       if v, err := strconv.Atoi(s); err == nil && v > 0 { x = v } }]. *)
Definition positiveOr (Atoi : string -> option Z) (s : string) (x : Z) : Z :=
  if String.eqb s "" then x
  else match Atoi s with
       | Some v => if 0 <? v then v else x
       | None => x
       end.

(** [BackupHandler.ListBackups]; [userID] is what the context gave,
    [query] the parameters of the URL, [repo] the listing of the
    repository behind the service. *)
Definition ListBackups {R : Type} (Atoi : string -> option Z)
    (repo : listing.BackupListOptions -> res (R * Z))
    (userID : res UUID) (query : string -> string) : ListAnswer R :=
  match userID with
  | Fail err => ListError 400 err
  | Ok userID =>
      let page := positiveOr Atoi (query "page") 1 in
      let limit := positiveOr Atoi (query "limit") 10 in
      let search := query "search" in
      let offset := wrap64 ((page - 1) * limit) in
      let opts := listing.mkBackupListOptions userID limit offset search in
      match listing.GetAllBackupsWithPagination repo opts with
      | Fail err => ListError 500 err
      | Ok (backups, total) => ListPage backups page limit total
      end
  end.

End listpage.

(** The rows a page of the listing shows: the window the repository is
    asked for, from its offset on and as many as its limit. *)
Definition windowOf (opts : listing.BackupListOptions) : Z * Z :=
  (listing.Offset opts, listing.Offset opts + listing.Limit opts).

(** A repository for the examples: it answers the numbers of the rows of
    the window it is asked for, out of 1000. *)
Definition demoListing (opts : listing.BackupListOptions)
  : res (Z * Z * Z) :=
  Ok (listing.Offset opts, listing.Limit opts, 1000).

Definition demoQuery (page limit : string) (name : string) : string :=
  if String.eqb name "page" then page
  else if String.eqb name "limit" then limit else "".

Definition demoAtoi (s : string) : option Z :=
  Z.of_int <$> NilZero.int_of_string s.

(* ===================================================================== *)
(** * Part II: properties                                                *)
(* ===================================================================== *)

(** The steps of the service are taken apart by their equations, not by
    unfolding them in place. *)
Arguments World.uuid_New : simpl never.
Arguments World.set_files : simpl never.
Arguments World.set_s3 : simpl never.
Arguments World.set_backups : simpl never.
Arguments World.set_schedules : simpl never.
Arguments World.set_cron : simpl never.
Arguments service.runDump : simpl never.
Arguments service.uploadToS3IfEnabled : simpl never.
Arguments service.dumpCmdFor : simpl never.
Arguments service.throughTunnel : simpl never.
Arguments service.withDatabaseName : simpl never.
Arguments service.backupFileName : simpl never.
Arguments service.dumpOne : simpl never.
Arguments service.cleanupOne : simpl never.
Arguments service.cleanupS3Storage : simpl never.
Arguments repo.CreateBackup : simpl never.
Arguments repo.DeleteBackup : simpl never.
Arguments os.Stat : simpl never.
Arguments os.Remove : simpl never.
Arguments os.MkdirAll : simpl never.
Arguments s3storage.NewS3Storage : simpl never.
Arguments s3storage.UploadFileWithPath : simpl never.
Arguments s3storage.DownloadFile : simpl never.
Arguments s3storage.DeleteFile : simpl never.

(** The fields of a world after one of its updates. *)
Lemma uuid_New_fields w :
  let w' := snd (World.uuid_New w) in
  fst (World.uuid_New w) = World.uuids w /\
  World.connections w' = World.connections w /\
  World.schedules w' = World.schedules w /\
  World.backups w' = World.backups w /\
  World.files w' = World.files w /\
  World.s3 w' = World.s3 w.
Proof. done. Qed.

Lemma set_files_fields w v :
  World.files (World.set_files w v) = v /\
  World.connections (World.set_files w v) = World.connections w /\
  World.schedules (World.set_files w v) = World.schedules w /\
  World.backups (World.set_files w v) = World.backups w /\
  World.s3 (World.set_files w v) = World.s3 w.
Proof. done. Qed.

Lemma set_s3_fields w v :
  World.s3 (World.set_s3 w v) = v /\
  World.connections (World.set_s3 w v) = World.connections w /\
  World.schedules (World.set_s3 w v) = World.schedules w /\
  World.backups (World.set_s3 w v) = World.backups w /\
  World.files (World.set_s3 w v) = World.files w.
Proof. done. Qed.

Lemma set_backups_fields w v :
  World.backups (World.set_backups w v) = v /\
  World.connections (World.set_backups w v) = World.connections w /\
  World.schedules (World.set_backups w v) = World.schedules w /\
  World.files (World.set_backups w v) = World.files w /\
  World.s3 (World.set_backups w v) = World.s3 w.
Proof. done. Qed.

(** ** PostgreSQL restore output classification *)

Section RestoreClassification.
Import restore.

Lemma isCritical_nonCritical line :
  isCriticalPostgreSQLError line = negb (nonCritical line).
Proof.
  unfold isCriticalPostgreSQLError, nonCritical, nonCriticalPatterns; simpl.
  destruct (strings.Contains line "WARNING:"),
           (strings.Contains line "must be member of role"),
           (strings.Contains line "no privileges"),
           (strings.Contains line "NOTICE:"); reflexivity.
Qed.

Lemma collectCritical_filter lines acc :
  collectCritical lines acc = acc ++ List.filter critical lines.
Proof.
  revert acc; induction lines as [|l ls IH]; intros acc; simpl.
  - by rewrite app_nil_r.
  - unfold critical at 1. rewrite isCritical_nonCritical.
    destruct (strings.Contains l "ERROR:"); simpl.
    + destruct (nonCritical l); simpl; rewrite IH; [done|].
      by rewrite <- app_assoc.
    + apply IH.
Qed.

Lemma scanAlreadyExists_existsb ls :
  scanAlreadyExists ls =
  existsb (fun l => strings.Contains l "already exists") ls.
Proof.
  induction ls as [|l ls IH]; simpl; [done|].
  destruct (strings.Contains l "already exists"); simpl; auto.
Qed.

End RestoreClassification.

(** C7. The output of a PostgreSQL restore is judged line by line and the
    exit status plays no part: a line is critical when it contains
    [ERROR:] and none of [WARNING:], [NOTICE:], [must be member of role],
    [no privileges]; no critical line means success, a critical line with
    [already exists] means the target-not-empty error, and otherwise the
    failure carries the number of critical lines. *)
Theorem validatePostgreSQLRestore_classifies :
  forall (output : string) (cmdErr : option string),
    let lines := strings.SplitByte "010" output in
    let crit := List.filter critical lines in
    restore.validatePostgreSQLRestore output cmdErr =
      match crit with
      | [] => None
      | _ :: _ =>
          if existsb (fun l => strings.Contains l "already exists") crit
          then Some restore.ErrRestoreTargetNotEmpty
          else Some (restore.ErrRestoreFailed (length crit))
      end.
Proof.
  intros output cmdErr lines crit.
  unfold restore.validatePostgreSQLRestore.
  rewrite collectCritical_filter, scanAlreadyExists_existsb; simpl.
  fold lines; fold crit.
  destruct crit as [|c cs]; [reflexivity|].
  replace (0 <? Z.of_nat (length (c :: cs))) with true; [reflexivity|].
  symmetry; apply Z.ltb_lt. rewrite length_cons. lia.
Qed.

(** ** The paginated listing *)

(** C10. Whatever options the caller passes, the store is consulted with
    clamped ones: a limit of zero or less becomes 10, a limit above 100
    becomes 100, a negative offset becomes 0; so the limit in force lies
    between 1 and 100 and the offset is never negative. *)
Theorem GetAllBackupsWithPagination_clamps :
  forall (R : Type) (repo : listing.BackupListOptions -> R)
         (opts : listing.BackupListOptions),
    let eff := listing.mkBackupListOptions (listing.UserID opts)
                 (clamp_limit (listing.Limit opts))
                 (clamp_offset (listing.Offset opts)) (listing.Search opts) in
    listing.GetAllBackupsWithPagination repo opts = repo eff /\
    1 <= listing.Limit eff <= 100 /\
    0 <= listing.Offset eff /\
    (listing.Limit opts <= 0 -> listing.Limit eff = 10) /\
    (100 < listing.Limit opts -> listing.Limit eff = 100) /\
    (0 < listing.Limit opts <= 100 -> listing.Limit eff = listing.Limit opts) /\
    (listing.Offset opts < 0 -> listing.Offset eff = 0) /\
    (0 <= listing.Offset opts -> listing.Offset eff = listing.Offset opts).
Proof.
  intros R repo [u l o q]; simpl.
  unfold listing.GetAllBackupsWithPagination, clamp_limit, clamp_offset; simpl.
  destruct (Z.leb_spec l 0) as [Hl|Hl]; simpl;
    destruct (Z.ltb_spec 100 l) as [Hh|Hh]; simpl;
    destruct (Z.ltb_spec o 0) as [Ho|Ho]; simpl;
    repeat split; intros; try lia; try reflexivity.
Qed.

(** ** The comma-joined encoding of [selected_databases] *)

Section SelectedDatabasesEncoding.
Import connection.

Lemma append_cons c (a b : string) : String c a +:+ b = String c (a +:+ b).
Proof. reflexivity. Qed.

Lemma append_nil_l (a : string) : "" +:+ a = a.
Proof. reflexivity. Qed.

Lemma append_assoc (a b c : string) : (a +:+ b) +:+ c = a +:+ (b +:+ c).
Proof.
  induction a as [|x a IH]; [done|].
  by rewrite !append_cons, IH.
Qed.

Lemma append_nil_r (a : string) : a +:+ "" = a.
Proof. induction a as [|x a IH]; [done | by rewrite append_cons, IH]. Qed.

Lemma joinLoop_S i dbs acc :
  joinLoop (S i) dbs acc = acc +:+ commaTail dbs.
Proof.
  revert i acc; induction dbs as [|d ds IH]; intros i acc; simpl.
  - by rewrite append_nil_r.
  - by rewrite IH, !append_assoc.
Qed.

Lemma Join_commaTail d ds :
  strings.Join (d :: ds) "," = d +:+ commaTail ds.
Proof.
  revert d; induction ds as [|d' ds IH]; intros d.
  - simpl. by rewrite append_nil_r.
  - change (strings.Join (d :: d' :: ds) ",")
      with (d +:+ "," +:+ strings.Join (d' :: ds) ",").
    by rewrite IH.
Qed.

(** The accumulating loop computes [strings.Join(databases, ",")]. *)
Lemma encodeSelectedDatabases_Join dbs :
  encodeSelectedDatabases dbs = strings.Join dbs ",".
Proof.
  unfold encodeSelectedDatabases. destruct dbs as [|d ds]; [done|].
  rewrite Join_commaTail. simpl. by rewrite joinLoop_S.
Qed.

Lemma SplitByte_not_nil sep s : strings.SplitByte sep s <> [].
Proof.
  destruct s as [|c s]; simpl; [done|].
  destruct (Ascii.eqb c sep); [done|].
  destruct (strings.SplitByte sep s); done.
Qed.

Lemma SplitByte_cons_other sep c s :
  Ascii.eqb c sep = false ->
  exists seg rest, strings.SplitByte sep s = seg :: rest /\
                   strings.SplitByte sep (String c s) = String c seg :: rest.
Proof.
  intros Hc. simpl. rewrite Hc.
  destruct (strings.SplitByte sep s) as [|seg rest] eqn:E.
  - by apply SplitByte_not_nil in E.
  - eauto.
Qed.

(** Splitting distributes over a separator placed between two strings. *)
Lemma SplitByte_app_sep sep a b :
  strings.SplitByte sep (a +:+ String sep b) =
  strings.SplitByte sep a ++ strings.SplitByte sep b.
Proof.
  induction a as [|c a IH].
  - rewrite append_nil_l. simpl. by rewrite Ascii.eqb_refl.
  - rewrite append_cons. simpl. destruct (Ascii.eqb c sep) eqn:Hc.
    + by rewrite IH.
    + rewrite IH. destruct (strings.SplitByte sep a) as [|seg rest] eqn:E.
      * by apply SplitByte_not_nil in E.
      * done.
Qed.

Lemma SplitByte_Join d ds :
  strings.SplitByte "," (strings.Join (d :: ds) ",") =
  flat_map (strings.SplitByte ",") (d :: ds).
Proof.
  revert d; induction ds as [|d' ds IH]; intros d.
  - simpl. by rewrite app_nil_r.
  - change (strings.Join (d :: d' :: ds) ",")
      with (d +:+ String "," (strings.Join (d' :: ds) ",")).
    rewrite SplitByte_app_sep, IH. done.
Qed.

Lemma SplitByte_plain d : hasComma d = false -> strings.SplitByte "," d = [d].
Proof.
  induction d as [|c d IH]; simpl; [done|].
  intros [Hc Hd]%orb_false_iff. rewrite Hc, (IH Hd). done.
Qed.

Lemma SplitByte_comma_free s :
  Forall (fun seg => hasComma seg = false) (strings.SplitByte "," s).
Proof.
  induction s as [|c s IH]; simpl.
  - by constructor.
  - destruct (Ascii.eqb c ",") eqn:Hc.
    + by constructor.
    + destruct (strings.SplitByte "," s) as [|seg rest]; constructor.
      * simpl. by rewrite Hc.
      * constructor.
      * simpl. rewrite Hc. by inversion IH.
      * by inversion IH.
Qed.

(** One round of the inner loop against the splitter. *)
Lemma scanSegment_SplitByte s :
  let '(seg, rest) := scanSegment s in
  strings.SplitByte "," s =
    seg :: match rest with
           | EmptyString => []
           | String _ rest' => strings.SplitByte "," rest'
           end /\
  (String.length rest <= String.length s)%nat.
Proof.
  induction s as [|c s IH]; simpl; [done|].
  destruct (Ascii.eqb c ",") eqn:Hc; simpl.
  - split; [done | lia].
  - destruct (scanSegment s) as [seg rest]. destruct IH as [-> Hlen].
    split; [done | lia].
Qed.

Lemma parseLoop_SplitByte fuel s acc :
  (String.length s < fuel)%nat ->
  parseLoop fuel s acc =
  acc ++ List.filter nonEmpty (strings.SplitByte "," s).
Proof.
  revert s acc; induction fuel as [|fuel IH]; intros s acc Hfuel; [lia|].
  destruct s as [|c s]; [simpl; by rewrite app_nil_r|].
  cbn [parseLoop].
  pose proof (scanSegment_SplitByte (String c s)) as Hscan.
  destruct (scanSegment (String c s)) as [seg rest].
  destruct Hscan as [-> Hlen]. cbn [List.filter]. unfold nonEmpty at 1.
  destruct rest as [|c' rest].
  - destruct (String.eqb seg ""); simpl; by rewrite ?app_nil_r.
  - rewrite IH by (simpl in *; lia).
    destruct (String.eqb seg ""); simpl; [done|].
    by rewrite <- app_assoc.
Qed.

(** What the parser of [GetConnection] reads back: the comma-separated
    segments of the column, the empty ones dropped. *)
Lemma parseSelectedDatabases_spec s :
  parseSelectedDatabases s = List.filter nonEmpty (strings.SplitByte "," s).
Proof. unfold parseSelectedDatabases. by rewrite parseLoop_SplitByte by lia. Qed.

Lemma filter_nonEmpty_plain dbs :
  Forall plainName dbs ->
  List.filter nonEmpty (flat_map (strings.SplitByte ",") dbs) = dbs.
Proof.
  induction 1 as [|d ds [Hne Hcf] _ IH]; [done|].
  simpl. rewrite (SplitByte_plain d Hcf). simpl. unfold nonEmpty at 1.
  apply String.eqb_neq in Hne. rewrite Hne. simpl. by rewrite IH.
Qed.

Lemma read_back_plain dbs :
  Forall plainName (List.filter nonEmpty (flat_map (strings.SplitByte ",") dbs)).
Proof.
  apply List.Forall_forall. intros d [Hin Hne]%filter_In.
  apply in_flat_map in Hin as (x & _ & Hin).
  split.
  - unfold nonEmpty in Hne. apply negb_true_iff in Hne.
    by apply String.eqb_neq.
  - pose proof (SplitByte_comma_free x) as Hall.
    rewrite List.Forall_forall in Hall. by apply Hall.
Qed.

Lemma selected_of_encoded dbs :
  (if String.eqb (encodeSelectedDatabases dbs) "" then []
   else parseSelectedDatabases (encodeSelectedDatabases dbs)) =
  List.filter nonEmpty (flat_map (strings.SplitByte ",") dbs).
Proof.
  rewrite encodeSelectedDatabases_Join. destruct dbs as [|d ds]; [done|].
  rewrite <- SplitByte_Join, parseSelectedDatabases_spec.
  destruct (String.eqb_spec (strings.Join (d :: ds) ",") "") as [->|_]; done.
Qed.

(** A successful read fixes the row and the four decryptions. *)
Lemma GetConnection_Ok_inv V tbl id c :
  GetConnection V tbl id = Ok c ->
  exists r username password sshPassword sshPrivateKey,
    Vault.db_fails V (QGetConnection id) = false /\
    tbl !! id = Some r /\
    Vault.Decrypt V (ConnRow.username r) = Ok username /\
    Vault.Decrypt V (ConnRow.password r) = Ok password /\
    decryptOptional V (ConnRow.ssh_password r) = Ok sshPassword /\
    decryptOptional V (ConnRow.ssh_private_key r) = Ok sshPrivateKey /\
    StoredConnection.Username c = username /\
    StoredConnection.Password c = password /\
    StoredConnection.SSHPassword c = sshPassword /\
    StoredConnection.SSHPrivateKey c = sshPrivateKey.
Proof.
  unfold GetConnection. intros H.
  destruct (Vault.db_fails V (QGetConnection id)); [done|].
  destruct (tbl !! id) as [r|]; [|done].
  destruct (Vault.Decrypt V (ConnRow.username r)) as [u|] eqn:Hu; [|done].
  destruct (Vault.Decrypt V (ConnRow.password r)) as [pw|] eqn:Hpw; [|done].
  destruct (decryptOptional V (ConnRow.ssh_password r)) as [sp|] eqn:Hsp;
    [|done].
  destruct (decryptOptional V (ConnRow.ssh_private_key r)) as [sk|] eqn:Hsk;
    [|done].
  injection H as <-. by exists r, u, pw, sp, sk.
Qed.

End SelectedDatabasesEncoding.

(** C9. On an existing connection, [UpdateSelectedDatabases] followed by
    [GetConnection] reads back the comma-separated segments of the given
    names, without the empty ones: a list of non-empty names without a
    comma comes back as it was, in order; a list with a name that has a
    comma in it does not come back (the name is split at the comma); and
    no name read back is empty. *)
Theorem selected_databases_round_trip :
  forall (V : Vault.t) (tbl : gmap string ConnRow.t) (id : string)
         (dbs : list string) (c : StoredConnection.t),
    connection.GetConnection V tbl id = Ok c ->
    Vault.db_fails V (XUpdateSelectedDatabases id) = false ->
    let readBack :=
      List.filter nonEmpty (flat_map (strings.SplitByte ",") dbs) in
    exists tbl',
      connection.UpdateSelectedDatabases V tbl id dbs = (None, tbl') /\
      connection.GetConnection V tbl' id =
        Ok (withSelectedDatabases c readBack (Vault.sql_now V)) /\
      (Forall plainName dbs -> readBack = dbs) /\
      (Exists (fun d => hasComma d = true) dbs -> readBack <> dbs) /\
      Forall plainName readBack.
Proof.
  intros V tbl id dbs c Hget Hdb readBack.
  pose proof Hget as Hinv.
  apply GetConnection_Ok_inv in Hinv
    as (r & u & pw & sp & sk & Hq & Hr & Hu & Hpw & Hsp & Hsk & _).
  unfold connection.UpdateSelectedDatabases. rewrite Hdb, Hr.
  eexists; split; [reflexivity|]. split; [|split; [|split]].
  - unfold connection.GetConnection in *. rewrite Hq in *.
    rewrite lookup_insert_eq. rewrite Hr in Hget.
    destruct r; simpl in *. rewrite Hu, Hpw, Hsp, Hsk in *.
    injection Hget as <-. simpl. by rewrite selected_of_encoded.
  - apply filter_nonEmpty_plain.
  - intros Hex Heq. pose proof (read_back_plain dbs) as Hall.
    fold readBack in Hall. rewrite Heq in Hall.
    apply List.Exists_exists in Hex as (d & Hin & Hd).
    rewrite List.Forall_forall in Hall. destruct (Hall d Hin) as [_ Hcf].
    congruence.
  - apply read_back_plain.
Qed.

(** The round trip on the sample connection: two plain names come back,
    and the hypotheses of the theorem hold there. *)
Lemma selected_databases_round_trip_witness :
  connection.GetConnection demoVault demoConnections "c1" = Ok demoConnection /\
  exists tbl',
    connection.UpdateSelectedDatabases demoVault demoConnections "c1"
      ["shop"; "crm"] = (None, tbl') /\
    connection.GetConnection demoVault tbl' "c1" =
      Ok (withSelectedDatabases demoConnection ["shop"; "crm"]
            "2025-11-14 12:00:00").
Proof.
  assert (Hget : connection.GetConnection demoVault demoConnections "c1"
                 = Ok demoConnection) by (vm_compute; reflexivity).
  split; [exact Hget|].
  destruct (selected_databases_round_trip demoVault demoConnections "c1"
              ["shop"; "crm"] demoConnection Hget eq_refl)
    as (tbl' & Hupd & Hread & _).
  exists tbl'. split; [exact Hupd | exact Hread].
Defined.

(** ** Secrets of a connection on the API *)

(** C2, as stated, fails: the handler of [GET /connections/{id}] answers
    with the stored connection as the repository decrypted it.  On the
    sample connection the body carries the password, the SSH password and
    the SSH private key in plaintext. *)
Lemma GetConnection_blank_secrets_counterexample :
  connection.Handler_GetConnection demoVault demoConnections "c1"
    = connection.Encode 200 demoConnection /\
  StoredConnection.Password demoConnection = "hunter2" /\
  ~ secretsBlank demoConnection.
Proof.
  split; [vm_compute; reflexivity|]. split; [reflexivity|].
  intros [H _]. discriminate H.
Qed.

Section ConnectionSecrets.
Import connection.

Lemma decryptOptional_encryptOptional V plain cipher :
  vaultRoundTrips V ->
  encryptOptional V plain = Ok cipher ->
  decryptOptional V (Some cipher) = Ok plain.
Proof.
  intros HV. unfold encryptOptional, decryptOptional.
  destruct (String.eqb_spec plain "") as [->|Hne].
  - by intros [= <-].
  - intros Henc. destruct (HV _ _ Henc) as [Hc Hdec].
    apply String.eqb_neq in Hc. by rewrite Hc.
Qed.

End ConnectionSecrets.

(** C2, amended.  A connection saved through the repository and read back
    on the API comes with its secrets decrypted, not blanked: the answer
    is 200 and its body has the password, the SSH password and the SSH
    private key that were saved. *)
Theorem GetConnection_returns_secrets :
  forall (V : Vault.t) (tbl tbl' : gmap string ConnRow.t)
         (conn : StoredConnection.t),
    vaultRoundTrips V ->
    StoredConnection.ID conn <> "" ->
    Vault.db_fails V (QGetConnection (StoredConnection.ID conn)) = false ->
    connection.Save V tbl conn = (None, tbl') ->
    exists body,
      connection.Handler_GetConnection V tbl' (StoredConnection.ID conn)
        = connection.Encode 200 body /\
      StoredConnection.Password body = StoredConnection.Password conn /\
      StoredConnection.SSHPassword body = StoredConnection.SSHPassword conn /\
      StoredConnection.SSHPrivateKey body = StoredConnection.SSHPrivateKey conn.
Proof.
  intros V tbl tbl' conn HV Hid Hq Hsave.
  unfold connection.Save in Hsave.
  destruct (Vault.Encrypt V (StoredConnection.Username conn))
    as [cu|] eqn:Hcu; [|done].
  destruct (Vault.Encrypt V (StoredConnection.Password conn))
    as [cp|] eqn:Hcp; [|done].
  destruct (connection.encryptOptional V (StoredConnection.SSHPassword conn))
    as [csp|] eqn:Hcsp; [|done].
  destruct (connection.encryptOptional V (StoredConnection.SSHPrivateKey conn))
    as [csk|] eqn:Hcsk; [|done].
  destruct (_ || _); [done|]. injection Hsave as <-.
  unfold connection.Handler_GetConnection, connection.Service_GetConnection,
    connection.GetConnection.
  apply String.eqb_neq in Hid. rewrite Hid, Hq, lookup_insert_eq. simpl.
  destruct (HV _ _ Hcu) as [_ ->]. destruct (HV _ _ Hcp) as [_ ->].
  pose proof (decryptOptional_encryptOptional V _ _ HV Hcsp) as Hsp.
  pose proof (decryptOptional_encryptOptional V _ _ HV Hcsk) as Hsk.
  unfold connection.decryptOptional in Hsp, Hsk. rewrite Hsp, Hsk.
  eexists; split; [reflexivity|]. simpl. auto.
Qed.

(** The sample vault and connection meet the hypotheses, and the body is
    the connection with its three secrets. *)
Lemma GetConnection_returns_secrets_witness :
  exists body,
    connection.Handler_GetConnection demoVault demoConnections "c1"
      = connection.Encode 200 body /\
    StoredConnection.Password body = "hunter2" /\
    StoredConnection.SSHPassword body = "sshpw" /\
    StoredConnection.SSHPrivateKey body = "KEY".
Proof.
  assert (HV : vaultRoundTrips demoVault).
  { intros plain cipher [= <-]. split; [discriminate | reflexivity]. }
  apply (GetConnection_returns_secrets demoVault ∅ demoConnections
           demoConnection HV).
  - discriminate.
  - reflexivity.
  - vm_compute; reflexivity.
Defined.

(** ** A single-database backup *)

Section SingleBackup.
Import service.

(** What the upload step does to the backup and to the world: nothing
    (S3 disabled, or an error before or during the upload), or the object
    is in the bucket, the key is on the backup, and the local file is gone
    exactly when the purge is on and the removal went through. *)
Lemma uploadToS3IfEnabled_spec E w b uid name :
  let '(err, b', w') := uploadToS3IfEnabled E w b uid name in
  World.backups w' = World.backups w /\
  ((b' = b /\ w' = w /\
    (err = None ->
     exists us, Env.GetUserSettingsInternal E uid = Ok us /\
                UserSettings.S3Enabled us = false))
   \/
   (exists us key size,
      err = None /\
      Env.GetUserSettingsInternal E uid = Ok us /\
      UserSettings.S3Enabled us = true /\
      World.files w !! Backup.Path b = Some size /\
      b' = Backup.set_S3ObjectKey b (Some key) /\
      World.s3 w' = <[key := size]> (World.s3 w) /\
      World.files w' =
        if UserSettings.S3PurgeLocal us &&
           negb (Env.Remove_fails E (Backup.Path b))
        then delete (Backup.Path b) (World.files w) else World.files w)).
Proof.
  unfold uploadToS3IfEnabled.
  destruct (Env.GetUserSettingsInternal E uid) as [us|e] eqn:Hus;
    [|split; [done|left; done]].
  destruct (UserSettings.S3Enabled us) eqn:Hen; simpl;
    [|split; [done|left; eauto]].
  destruct (checkS3Fields us); [split; [done|left; done]|].
  destruct (Env.Decrypt E _) as [sk|]; [|split; [done|left; done]].
  destruct (s3storage.NewS3Storage E _) as [st|]; [|split; [done|left; done]].
  unfold s3storage.UploadFileWithPath, os.Stat.
  destruct (World.files w !! Backup.Path b) as [size|] eqn:Hf;
    [|split; [done|left; done]].
  destruct (Env.PutObject_fails E _) eqn:Hput; [split; [done|left; done]|].
  destruct (UserSettings.S3PurgeLocal us) eqn:Hp.
  - unfold os.Remove.
    change (Backup.Path (Backup.set_S3ObjectKey b ?k)) with (Backup.Path b).
    change (World.files (World.set_s3 w ?v)) with (World.files w).
    rewrite Hf.
    destruct (Env.Remove_fails E (Backup.Path b)) eqn:Hr;
      (split; [done|right]); exists us; do 2 eexists;
      rewrite ?Hp, ?Hr; simpl; eauto 10.
  - split; [done|right]. exists us; do 2 eexists. rewrite Hp. eauto 10.
Qed.

Lemma throughTunnel_owner conn tunnel :
  StoredConnection.UserID (throughTunnel conn tunnel)
    = StoredConnection.UserID conn /\
  StoredConnection.Name (throughTunnel conn tunnel)
    = StoredConnection.Name conn /\
  StoredConnection.Type_ (throughTunnel conn tunnel)
    = StoredConnection.Type_ conn /\
  StoredConnection.ID (throughTunnel conn tunnel)
    = StoredConnection.ID conn.
Proof. destruct tunnel as [[h p]|]; done. Qed.

Lemma runDump_backups E w cmd path :
  World.backups (snd (runDump E w cmd path)) = World.backups w.
Proof. unfold runDump; simpl. by destruct (CmdOutcome.written _). Qed.


Lemma CreateBackup_backups E w b err w' :
  repo.CreateBackup E w b = (err, w') ->
  World.files w' = World.files w /\ World.s3 w' = World.s3 w /\
  match err with
  | Some _ => World.backups w' = World.backups w
  | None => World.backups w' = World.backups w ++ [b]
  end.
Proof.
  unfold repo.CreateBackup. destruct (Env.db_fails E _); by intros [= <- <-].
Qed.


Lemma uploadToS3IfEnabled_Status E w b uid name :
  Backup.Status (snd (fst (uploadToS3IfEnabled E w b uid name)))
    = Backup.Status b.
Proof.
  pose proof (uploadToS3IfEnabled_spec E w b uid name) as H.
  destruct (uploadToS3IfEnabled E w b uid name) as [[err b'] w'].
  destruct H as [_ [(-> & _)|(us & key & size & _ & _ & _ & _ & -> & _)]];
    done.
Qed.

(** The store after a single-database backup. *)
Lemma createSingleDatabaseBackup_store E w conn dbName :
  let '(r, w') := createSingleDatabaseBackup E w conn dbName in
  match r with
  | Fail _ => World.backups w' = World.backups w
  | Ok b => World.backups w' = World.backups w ++ [b] /\
            Backup.Status b = "completed"
  end.
Proof.
  unfold createSingleDatabaseBackup.
  destruct (Env.verifyBackupTools E _); [done|].
  destruct (Env.setupSSHTunnelIfNeeded E conn) as [tunnel|]; [|done].
  cbv zeta.
  pose proof (uuid_New_fields w) as Hid.
  destruct (World.uuid_New w) as [backupID w0]. cbv zeta in Hid.
  destruct Hid as (_ & _ & _ & Hb0 & _). simpl in Hb0.
  destruct (os.MkdirAll E _); [done|].
  destruct (dumpCmdFor E _ _ _) as [| |cmd]; [done..|].
  match goal with
  | |- context [runDump E w0 cmd ?p] =>
      pose proof (runDump_backups E w0 cmd p) as Hrun;
      destruct (runDump E w0 cmd p) as [out w1]
  end.
  simpl in Hrun.
  destruct (CmdOutcome.err out); [congruence|].
  destruct (os.Stat w1 _) as [size|]; [|congruence].
  match goal with
  | |- context [uploadToS3IfEnabled E w1 ?b ?u ?n] =>
      pose proof (uploadToS3IfEnabled_spec E w1 b u n) as Hup;
      pose proof (uploadToS3IfEnabled_Status E w1 b u n) as Hst;
      destruct (uploadToS3IfEnabled E w1 b u n) as [[uerr b1] w2]
  end.
  destruct Hup as [Hb2 _]. simpl in Hst.
  destruct (repo.CreateBackup E w2 b1) as [[e|] w3] eqn:Hins;
    apply CreateBackup_backups in Hins as (_ & _ & Hb3).
  - congruence.
  - split; [congruence|done].
Qed.

(** A dump tool that exits non-zero makes the call fail. *)
Lemma createSingleDatabaseBackup_dump_error E w conn dbName :
  dumpExitsNonZero E conn dbName ->
  is_fail (fst (createSingleDatabaseBackup E w conn dbName)) = true.
Proof.
  intros (tunnel & cmd & err & Hv & Ht & Hmk & Hcmd & Herr).
  unfold backupPath, backupFolder in *.
  unfold createSingleDatabaseBackup. rewrite Hv, Ht.
  destruct (throughTunnel_owner conn tunnel) as (_ & Hn & Hty & _).
  cbv zeta. rewrite Hn, Hty.
  destruct (World.uuid_New w) as [backupID w0].
  unfold os.MkdirAll. rewrite Hmk, Hcmd.
  unfold runDump. rewrite Herr. done.
Qed.

End SingleBackup.

(** C1, as stated, fails: no record is written before the dump runs.  With
    a dump tool that exits non-zero, [CreateBackup] on the sample
    connection returns the error and the store holds no record at all, so
    none with status [in_progress]. *)
Lemma CreateBackup_in_progress_record_counterexample :
  let E := demoEnv dumpRefused false false false in
  let '(r, w') := service.CreateBackup E demoWorld "c1" in
  dumpExitsNonZero E demoConnection "shop" /\
  is_fail r = true /\
  World.backups w' = [] /\
  ~ (exists b, In b (World.backups w') /\ Backup.Status b = "in_progress").
Proof.
  vm_compute. split; [|split; [reflexivity|split; [reflexivity|]]].
  - exists None. eexists. eexists. repeat split; reflexivity.
  - intros (b & [] & _).
Qed.

(** C1, amended.  The backup with status [in_progress] lives in memory
    only.  A single-database backup writes to the store at most once, at
    its very end: when it returns an error the store is as it was, and
    when it returns a backup that backup is the one record added, with
    status [completed].  When the dump tool exits non-zero the call
    returns an error (so nothing was stored). *)
Theorem createSingleDatabaseBackup_stores_on_success_only :
  forall (E : Env.t) (w : World.t) (conn : StoredConnection.t)
         (dbName : string),
    let '(r, w') := service.createSingleDatabaseBackup E w conn dbName in
    match r with
    | Fail _ => World.backups w' = World.backups w
    | Ok b => World.backups w' = World.backups w ++ [b] /\
              Backup.Status b = "completed"
    end /\
    (dumpExitsNonZero E conn dbName ->
     is_fail r = true /\ World.backups w' = World.backups w).
Proof.
  intros E w conn dbName.
  pose proof (createSingleDatabaseBackup_store E w conn dbName) as Hstore.
  pose proof (createSingleDatabaseBackup_dump_error E w conn dbName) as Hdump.
  destruct (service.createSingleDatabaseBackup E w conn dbName) as [r w'].
  split; [exact Hstore|]. intros Hexit. specialize (Hdump Hexit).
  simpl in Hdump. split; [exact Hdump|].
  destruct r; [discriminate Hdump | exact Hstore].
Qed.

(** On the sample connection with a dump tool that exits non-zero: the
    hypothesis holds, the call fails and the store stays empty. *)
Lemma createSingleDatabaseBackup_stores_on_success_only_witness :
  let E := demoEnv dumpRefused false false false in
  dumpExitsNonZero E demoConnection "shop" /\
  is_fail (fst (service.createSingleDatabaseBackup E demoWorld
                  demoConnection "shop")) = true /\
  World.backups (snd (service.createSingleDatabaseBackup E demoWorld
                        demoConnection "shop")) = [].
Proof.
  intros E.
  assert (H : dumpExitsNonZero E demoConnection "shop").
  { exists None. eexists. eexists. repeat split; reflexivity. }
  split; [exact H|].
  pose proof (createSingleDatabaseBackup_stores_on_success_only E demoWorld
                demoConnection "shop") as Hthm.
  destruct (service.createSingleDatabaseBackup E demoWorld demoConnection
              "shop") as [r w'].
  destruct Hthm as [_ Hfail]. exact (Hfail H).
Defined.

(** ** Upload and purge of the local file *)


Section UploadThenPurge.
Import service.




End UploadThenPurge.



(** ** Rehydration of a backup file *)

Section Rehydration.
Import service.

Lemma checkS3Fields_None us : checkS3Fields us = None <-> fullyConfigured us.
Proof.
  unfold checkS3Fields, fullyConfigured.
  destruct (blank (UserSettings.S3Endpoint us)),
           (blank (UserSettings.S3Bucket us)),
           (blank (UserSettings.S3AccessKey us)),
           (blank (UserSettings.S3SecretKey us));
    (split; [intros H; try discriminate H; auto
            |intros (? & ? & ? & ?); congruence]).
Qed.

Lemma blank_false_Some p : blank p = false <-> exists v, p = Some v /\ v <> "".
Proof.
  destruct p as [v|]; simpl.
  - rewrite String.eqb_neq. split; [eauto|]. by intros (? & [= <-] & ?).
  - split; [done|]. by intros (? & ? & _).
Qed.

(** The three ways out of [ensureBackupFileAvailable]. *)
Lemma ensureBackupFileAvailable_cases E w b uid :
  let r := fst (ensureBackupFileAvailable E w b uid) in
  let w' := snd (ensureBackupFileAvailable E w b uid) in
  (localExists w b -> r = Ok (Backup.Path b, false) /\ w' = w) /\
  (~ localExists w b -> rehydratable E w b uid ->
   r = Ok (tempPath E b, true) /\
   exists key, Backup.S3ObjectKey b = Some key /\
               World.files w' !! tempPath E b = World.s3 w !! key) /\
  (~ localExists w b -> ~ rehydratable E w b uid -> is_fail r = true).
Proof.
  cbv zeta. unfold ensureBackupFileAvailable, localExists, os.Stat.
  destruct (World.files w !! Backup.Path b) as [sz|] eqn:Hf; cbv beta iota zeta.
  { split; [done|]. split; intros []; by eexists. }
  split; [by intros [? ?]|].
  unfold rehydratable, s3Configured, downloadSucceeds, tempPath.
  destruct (blank (Backup.S3ObjectKey b)) eqn:Hkey.
  { split; [|done]. intros _ (us & key & (Hk & Hne & _) & _).
    rewrite Hk in Hkey. simpl in Hkey. apply String.eqb_neq in Hne.
    by rewrite Hne in Hkey. }
  apply blank_false_Some in Hkey as (key & Hk & Hkne). rewrite Hk.
  destruct (Env.GetUserSettingsInternal E uid) as [us|] eqn:Hus.
  2:{ split; [|done]. by intros _ (us & k & (_ & _ & ? & _) & _). }
  destruct (UserSettings.S3Enabled us) eqn:Hen; cbv beta iota zeta delta [negb].
  2:{ split; [|done]. intros _ (us' & k & (_ & _ & [= <-] & ? & _) & _).
      congruence. }
  destruct (checkS3Fields us) as [e|] eqn:Hchk.
  { split; [|done]. intros _ (us' & k & (_ & _ & [= <-] & _ & Hfc) & _).
    apply checkS3Fields_None in Hfc. congruence. }
  apply checkS3Fields_None in Hchk.
  destruct (Env.Decrypt E _) as [sk|] eqn:Hdec.
  2:{ split; [|done].
      intros _ (us' & k & (_ & _ & [= <-] & _) & (sk & ? & _)). congruence. }
  unfold s3storage.NewS3Storage.
  destruct (Env.minio_New_fails E _) eqn:Hminio.
  { split; [|done].
    intros _ (us' & k & (_ & _ & [= <-] & _) & (sk' & Hd & Hm & _)).
    rewrite Hdec in Hd. injection Hd as <-. congruence. }
  unfold os.MkdirAll.
  destruct (Env.MkdirAll_fails E _) eqn:Hmk.
  { split; [|done].
    intros _ (us' & k & _ & (sk' & _ & _ & ? & _)). congruence. }
  unfold s3storage.DownloadFile. cbn [from_option id].
  destruct (Env.GetObject_fails E key) eqn:Hget.
  { split; [|done].
    intros _ (us' & k & ([= <-] & _) & (sk' & _ & _ & _ & ? & _)).
    congruence. }
  destruct (Env.Create_fails E _) eqn:Hcr.
  { split; [|done].
    intros _ (us' & k & _ & (sk' & _ & _ & _ & _ & ? & _)). congruence. }
  destruct (World.s3 w !! key) as [size|] eqn:Hobj.
  - split.
    + intros _ _. split; [done|]. exists key. split; [done|].
      rewrite Hobj.
      change (<[Env.Join E (Env.Join E (Env.TempDir E) "velld-s3-downloads")
                  (Env.Base E (Backup.Path b)) := size]> (World.files w)
              !! Env.Join E (Env.Join E (Env.TempDir E) "velld-s3-downloads")
                   (Env.Base E (Backup.Path b)) = Some size).
      apply lookup_insert_eq.
    + intros _ Hno. exfalso. apply Hno. exists us, key.
      split; [done|]. exists sk. by rewrite Hobj.
  - split; [|done].
    intros _ (us' & k & ([= <-] & _) & (sk' & _ & _ & _ & _ & _ & Hs)).
    rewrite Hobj in Hs. by destruct Hs.
Qed.

End Rehydration.

(** C5, as stated, fails: an object key and an S3 that is enabled and fully
    configured do not make the download succeed.  For the sample record
    (local file gone, object in the bucket, settings complete) and an
    endpoint that cannot be reached, the call returns an error and no
    temporary path. *)
Lemma ensureBackupFileAvailable_configured_counterexample :
  let E := demoEnv dumpWritten false false true in
  ~ localExists demoWorldPurged demoBackup /\
  s3Configured E demoBackup 7%nat demoSettings
    "p/pg1/shop_20251114_120000.sql" /\
  fst (service.ensureBackupFileAvailable E demoWorldPurged demoBackup 7%nat)
    <> Ok (tempPath E demoBackup, true) /\
  is_fail (fst (service.ensureBackupFileAvailable E demoWorldPurged
                  demoBackup 7%nat)) = true.
Proof.
  split; [|split; [|split]].
  - intros [? H]. vm_compute in H. discriminate H.
  - repeat split; try reflexivity; discriminate.
  - vm_compute. discriminate.
  - vm_compute. reflexivity.
Qed.

(** C5, amended.  [ensureBackupFileAvailable] returns the local path, not
    temporary, when the file at it exists.  Otherwise, when the backup has
    an object key, S3 is enabled and fully configured for the user and the
    download goes through, it returns
    <tmp>/velld-s3-downloads/<basename(local_path)>, temporary, and the
    object is at that path.  In every other case it returns an error. *)
Theorem ensureBackupFileAvailable_three_ways :
  forall (E : Env.t) (w : World.t) (b : Backup.t) (userID : UUID),
    let '(r, w') := service.ensureBackupFileAvailable E w b userID in
    (localExists w b -> r = Ok (Backup.Path b, false) /\ w' = w) /\
    (~ localExists w b -> rehydratable E w b userID ->
     r = Ok (tempPath E b, true) /\
     exists key, Backup.S3ObjectKey b = Some key /\
                 World.files w' !! tempPath E b = World.s3 w !! key) /\
    (~ localExists w b -> ~ rehydratable E w b userID -> is_fail r = true).
Proof.
  intros E w b userID.
  pose proof (ensureBackupFileAvailable_cases E w b userID) as H.
  by destruct (service.ensureBackupFileAvailable E w b userID) as [r w'].
Qed.

(** The sample record with a reachable endpoint is rehydratable, and the
    call returns the temporary path. *)
Lemma ensureBackupFileAvailable_three_ways_witness :
  let E := demoEnv dumpWritten false false false in
  ~ localExists demoWorldPurged demoBackup /\
  rehydratable E demoWorldPurged demoBackup 7%nat /\
  fst (service.ensureBackupFileAvailable E demoWorldPurged demoBackup 7%nat)
    = Ok ("/tmp/velld-s3-downloads/shop_20251114_120000.sql", true).
Proof.
  intros E.
  assert (Hgone : ~ localExists demoWorldPurged demoBackup).
  { intros [? H]. vm_compute in H. discriminate H. }
  assert (Hre : rehydratable E demoWorldPurged demoBackup 7%nat).
  { exists demoSettings, "p/pg1/shop_20251114_120000.sql". split.
    - repeat split; try reflexivity; discriminate.
    - exists "s". repeat split; try reflexivity. by eexists. }
  split; [exact Hgone|]. split; [exact Hre|].
  pose proof (ensureBackupFileAvailable_three_ways E demoWorldPurged
                demoBackup 7%nat) as H.
  destruct (service.ensureBackupFileAvailable E demoWorldPurged demoBackup
              7%nat) as [r w'].
  destruct H as (_ & Hdl & _). destruct (Hdl Hgone Hre) as [-> _].
  reflexivity.
Defined.

(** ** A multi-database backup *)

Section MultiBackup.
Import service.

Lemma dumpCmdFor_Unsupported E ty conn path :
  dumpCmdFor E ty conn path = Unsupported <-> supportedType ty = false.
Proof.
  unfold dumpCmdFor, supportedType.
  destruct (String.eqb ty "postgresql"), (String.eqb ty "mysql"),
    (String.eqb ty "mariadb"), (String.eqb ty "mongodb"),
    (String.eqb ty "redis"); simpl;
    repeat match goal with
    | |- context [match ?c with Some _ => _ | None => _ end] => destruct c
    end; split; intros H; try discriminate H; reflexivity.
Qed.

(** One round: the store gains the backup of a round that succeeds and is
    untouched by any other; a round returns from the function exactly when
    the engine is not supported. *)
Lemma dumpOne_spec E w conn folder start dbName :
  let round := fst (dumpOne E w conn folder start dbName) in
  let w' := snd (dumpOne E w conn folder start dbName) in
  World.backups w' = World.backups w ++ option_list (persisted round) /\
  ((exists err, round = Return err) <->
   supportedType (StoredConnection.Type_ conn) = false).
Proof.
  cbv zeta. unfold dumpOne.
  pose proof (uuid_New_fields w) as Hid.
  destruct (World.uuid_New w) as [backupID w0]. cbv zeta in Hid.
  destruct Hid as (_ & _ & _ & Hb0 & _). simpl in Hb0.
  pose proof (dumpCmdFor_Unsupported E (StoredConnection.Type_ conn)
                (withDatabaseName conn dbName)
                (Env.Join E folder (backupFileName E dbName))) as Hsup.
  destruct (dumpCmdFor E _ _ _) as [| |cmd]; cbv beta iota zeta.
  - simpl. rewrite app_nil_r. split; [done|].
    split; [intros _; by apply Hsup | eauto].
  - simpl. rewrite app_nil_r. split; [done|]. split.
    + by intros [? ?].
    + intros H. by apply Hsup in H.
  - assert (Hno : forall r : Round,
              (forall e, r <> Return e) ->
              ((exists err, r = Return err) <->
               supportedType (StoredConnection.Type_ conn) = false)).
    { intros r Hr. split; [by intros [e He%Hr]|].
      intros H. by apply Hsup in H. }
    match goal with
    | |- context [runDump E w0 cmd ?p] =>
        pose proof (runDump_backups E w0 cmd p) as Hrun;
        destruct (runDump E w0 cmd p) as [out w1]
    end.
    simpl in Hrun.
    destruct (CmdOutcome.err out); cbv beta iota zeta.
    { simpl. rewrite app_nil_r. split; [congruence|]. by apply Hno. }
    destruct (os.Stat w1 _) as [size|]; cbv beta iota zeta.
    2:{ simpl. rewrite app_nil_r. split; [congruence|]. by apply Hno. }
    match goal with
    | |- context [uploadToS3IfEnabled E w1 ?b ?u ?n] =>
        pose proof (uploadToS3IfEnabled_spec E w1 b u n) as Hup;
        destruct (uploadToS3IfEnabled E w1 b u n) as [[uerr b1] w2]
    end.
    destruct Hup as [Hb2 _].
    destruct (repo.CreateBackup E w2 b1) as [[e|] w3] eqn:Hins;
      apply CreateBackup_backups in Hins as (_ & _ & Hb3); simpl.
    + rewrite app_nil_r. split; [congruence|]. by apply Hno.
    + split; [congruence|]. by apply Hno.
Qed.

Lemma successes_cons db round trace :
  successes ((db, round) :: trace) =
  option_list (persisted round) ++ successes trace.
Proof. unfold successes. simpl. by destruct (persisted round). Qed.

Lemma failures_cons db round trace :
  failures ((db, round) :: trace) =
  match round with Done _ => [] | _ => [db] end ++ failures trace.
Proof. unfold failures. simpl. by destruct round. Qed.

Lemma multiLoop_spec E conn folder start dbs :
  forall w failed succ,
    let trace := subDumps E w conn folder start dbs in
    let r := fst (multiLoop E w conn folder start dbs failed succ) in
    let w' := snd (multiLoop E w conn folder start dbs failed succ) in
    World.backups w' = World.backups w ++ successes trace /\
    (supportedType (StoredConnection.Type_ conn) = true ->
     r = Ok (failed ++ failures trace, succ ++ successes trace) /\
     map fst trace = dbs) /\
    (supportedType (StoredConnection.Type_ conn) = false -> dbs <> [] ->
     is_fail r = true /\ successes trace = []).
Proof.
  induction dbs as [|dbName rest IH]; intros w failed succ; cbv zeta.
  - simpl. rewrite !app_nil_r. done.
  - cbn [multiLoop subDumps].
    pose proof (dumpOne_spec E w conn folder start dbName) as Hone.
    destruct (dumpOne E w conn folder start dbName) as [round w1].
    cbv zeta in Hone. cbn [fst snd] in Hone. destruct Hone as [Hb1 Hret].
    rewrite successes_cons, failures_cons, map_cons. cbn [fst].
    destruct round as [err| |backup]; cbv beta iota zeta;
      simpl in Hb1 |- *; rewrite ?app_nil_r in Hb1.
    + assert (Hun : supportedType (StoredConnection.Type_ conn) = false)
        by (apply Hret; eauto).
      cbn [fst snd]. rewrite app_nil_r.
      split; [done|]. split; [congruence|done].
    + assert (Hsup : supportedType (StoredConnection.Type_ conn) = true).
      { destruct (supportedType _) eqn:Hs; [done|].
        destruct Hret as [_ Hr]. by destruct (Hr eq_refl) as [? ?]. }
      specialize (IH w1 (failed ++ [dbName]) succ). cbv zeta in IH.
      destruct IH as (Hb & Hok & _).
      split; [congruence|]. split; [|congruence].
      intros _. destruct (Hok Hsup) as [-> ->].
      by rewrite <- app_assoc.
    + assert (Hsup : supportedType (StoredConnection.Type_ conn) = true).
      { destruct (supportedType _) eqn:Hs; [done|].
        destruct Hret as [_ Hr]. by destruct (Hr eq_refl) as [? ?]. }
      specialize (IH w1 failed (succ ++ [backup])). cbv zeta in IH.
      destruct IH as (Hb & Hok & _).
      split; [rewrite Hb, Hb1; by rewrite <- app_assoc|].
      split; [|congruence].
      intros _. destruct (Hok Hsup) as [-> ->].
      by rewrite <- app_assoc.
Qed.

(** The whole multi-database run against its sub-dumps. *)
Lemma createMultiDatabaseBackup_spec E w conn :
  let trace := multiTrace E w conn in
  let r := fst (createMultiDatabaseBackup E w conn) in
  let w' := snd (createMultiDatabaseBackup E w conn) in
  (is_fail r = true <-> successes trace = []) /\
  (forall b, r = Ok b <-> head (successes trace) = Some b) /\
  World.backups w' = World.backups w ++ successes trace /\
  (forall conn', multiSetup E conn = Some conn' ->
   supportedType (StoredConnection.Type_ conn) = true ->
   map fst trace = StoredConnection.SelectedDatabases conn).
Proof.
  cbv zeta. unfold createMultiDatabaseBackup, multiTrace, multiSetup,
    backupFolder, os.MkdirAll.
  destruct (Env.verifyBackupTools E _);
    [simpl; rewrite app_nil_r; repeat split; done|].
  destruct (Env.setupSSHTunnelIfNeeded E conn) as [tunnel|];
    [|simpl; rewrite app_nil_r; repeat split; done].
  destruct (throughTunnel_owner conn tunnel) as (_ & Hn & Hty & _).
  cbv zeta. rewrite Hn.
  destruct (Env.MkdirAll_fails E _);
    [simpl; rewrite app_nil_r; repeat split; done|].
  assert (Hsel : StoredConnection.SelectedDatabases (throughTunnel conn tunnel)
                 = StoredConnection.SelectedDatabases conn)
    by (by destruct tunnel as [[? ?]|]).
  rewrite Hsel.
  destruct (StoredConnection.SelectedDatabases conn) as [|d ds] eqn:Hdbs.
  { simpl. rewrite app_nil_r. repeat split; done. }
  pose proof (multiLoop_spec E (throughTunnel conn tunnel)
    (Env.Join E (Env.backupDir E)
       (Env.SanitizeConnectionName E (StoredConnection.Name conn)))
    (Env.Now E) (d :: ds) w [] []) as Hloop.
  cbv zeta in Hloop. rewrite Hty in Hloop.
  destruct (multiLoop E w _ _ _ _ [] []) as [r w'].
  cbn [fst snd] in Hloop. destruct Hloop as (Hb & Hok & Hun).
  set (trace := subDumps E w (throughTunnel conn tunnel) _ _ _) in *.
  destruct (supportedType (StoredConnection.Type_ conn)) eqn:Hsup.
  - destruct (Hok eq_refl) as [-> Hnames]. cbv beta iota. cbn [app].
    destruct (successes trace) as [|first more] eqn:Hs.
    + destruct (0 <? length (failures trace))%nat; cbn [fst snd];
        repeat split; intros; simplify_eq/=; eauto.
    + cbn [fst snd]. repeat split; intros; simplify_eq/=; eauto.
  - destruct (Hun eq_refl) as [Hf Hs]; [done|]. rewrite Hs in *.
    destruct r as [[fs ss]|e]; [done|]. cbn [fst snd].
    repeat split; intros; simplify_eq/=; eauto.
Qed.

End MultiBackup.

Section MultiRounds.
Import service.

Lemma uploadToS3IfEnabled_frame E w b uid name :
  let '(_, b', w') := uploadToS3IfEnabled E w b uid name in
  World.uuids w' = World.uuids w /\
  Backup.ID b' = Backup.ID b /\
  Backup.ConnectionID b' = Backup.ConnectionID b /\
  Backup.Path b' = Backup.Path b /\
  Backup.Status b' = Backup.Status b.
Proof.
  unfold uploadToS3IfEnabled.
  destruct (Env.GetUserSettingsInternal E uid) as [us|]; [|done].
  destruct (negb (UserSettings.S3Enabled us)); [done|].
  destruct (checkS3Fields us); [done|].
  destruct (Env.Decrypt E _); [|done].
  destruct (s3storage.NewS3Storage E _); [|done].
  unfold s3storage.UploadFileWithPath.
  destruct (os.Stat w _); [|done].
  destruct (Env.PutObject_fails E _); [done|].
  destruct (UserSettings.S3PurgeLocal us); [|done].
  unfold os.Remove.
  destruct (World.files _ !! _); [|done].
  by destruct (Env.Remove_fails E _).
Qed.

(** One round against the dump tool, the spool and the store. *)
Lemma dumpOne_outcome E w conn conn' dbName :
  StoredConnection.ID conn' = StoredConnection.ID conn ->
  let run := dumpOne E w conn' (backupFolder E conn) (Env.Now E) dbName in
  subDumpAccounted E conn conn' w (dbName, fst run) /\
  World.uuids (snd run) = S (World.uuids w).
Proof.
  intros Hid. cbv zeta. unfold subDumpAccounted, subDumpGoesThrough,
    recordOfSubDump, subDumpPath, dumpOne. cbn [fst snd].
  assert (Hnew : World.uuid_New w
                 = (World.uuids w,
                    World.mk (World.connections w) (World.schedules w)
                      (World.backups w) (World.files w) (World.s3 w)
                      (S (World.uuids w)) (World.cronEntries w)
                      (World.cronJobs w) (World.nextEntry w))) by done.
  rewrite Hnew. cbv zeta. clear Hnew.
  set (w0 := World.mk _ _ _ _ _ _ _ _ _).
  set (path := Env.Join E (backupFolder E conn) (backupFileName E dbName)).
  destruct (dumpCmdFor E _ _ path) as [| |cmd] eqn:Hcmd; cbn [fst snd persisted].
  1,2: split; [split; [split; [by intros [? [=]]|by intros (? & [=] & _)]
                      |done]|done].
  unfold runDump. cbv zeta.
  set (out := Env.CombinedOutput E cmd).
  set (w1 := match CmdOutcome.written out with Some _ => _ | None => _ end).
  assert (Hw1 : World.uuids w1 = S (World.uuids w))
    by (subst w1; by destruct (CmdOutcome.written out)).
  assert (Hstat : is_Some (World.files w1 !! path) <->
                  is_Some (CmdOutcome.written out) \/
                  is_Some (World.files w !! path)).
  { subst w1. destruct (CmdOutcome.written out) as [size|].
    - unfold World.set_files. cbn [World.files]. rewrite lookup_insert_eq.
      split; [eauto|eauto].
    - split; [by right|]. by intros [[? [=]]|?]. }
  destruct (CmdOutcome.err out) as [e|] eqn:Herr; cbn [fst snd persisted].
  { split; [|done]. split; [|done]. split; [by intros [? [=]]|].
    intros (cmd' & [= <-] & Herr' & _). fold out in Herr'. congruence. }
  unfold os.Stat.
  destruct (World.files w1 !! path) as [size|] eqn:Hfile;
    cbn [fst snd persisted].
  2:{ split; [|done]. split; [|done]. split; [by intros [? [=]]|].
      intros (cmd' & [= <-] & _ & Hthere & _). fold out in Hthere.
      apply Hstat in Hthere. by destruct Hthere as [? [=]]. }
  match goal with
  | |- context [uploadToS3IfEnabled E w1 ?b ?u ?n] =>
      pose proof (uploadToS3IfEnabled_frame E w1 b u n) as Hup;
      destruct (uploadToS3IfEnabled E w1 b u n) as [[uerr b1] w2]
  end.
  cbn [Backup.ID Backup.ConnectionID Backup.Path Backup.Status] in Hup.
  destruct Hup as (Hu2 & Hbid & Hbc & Hbp & Hbs).
  unfold repo.CreateBackup. rewrite Hbid.
  destruct (Env.db_fails E (XCreateBackup (World.uuids w))) eqn:Hdb;
    cbn [fst snd persisted].
  { split; [|congruence]. split; [|done]. split; [by intros [? [=]]|].
    intros (cmd' & _ & _ & _ & [=]). }
  split; [|unfold World.set_backups; cbn [World.uuids]; congruence].
  split.
  - split; [|eauto]. intros _. exists cmd. split; [done|].
    split; [exact Herr|]. split; [|done]. apply Hstat. eauto.
  - intros b [= <-]. rewrite Hbid, Hbc, Hbp, Hbs, Hid. done.
Qed.

Lemma subDumps_accounted E conn conn' dbs :
  StoredConnection.ID conn' = StoredConnection.ID conn ->
  forall w,
    Forall2 (subDumpAccounted E conn conn')
      (subDumpStarts E w conn' (backupFolder E conn) (Env.Now E) dbs)
      (subDumps E w conn' (backupFolder E conn) (Env.Now E) dbs) /\
    map World.uuids
      (subDumpStarts E w conn' (backupFolder E conn) (Env.Now E) dbs)
    = seq (World.uuids w)
        (length (subDumps E w conn' (backupFolder E conn) (Env.Now E) dbs)).
Proof.
  intros Hid. induction dbs as [|dbName rest IH]; intros w.
  { split; [constructor|done]. }
  cbn [subDumpStarts subDumps].
  pose proof (dumpOne_outcome E w conn conn' dbName Hid) as Hone.
  cbv zeta in Hone.
  destruct (dumpOne E w conn' (backupFolder E conn) (Env.Now E) dbName)
    as [round w1].
  cbn [fst snd] in Hone. destruct Hone as [Hacc Hu].
  destruct round as [err| |b].
  - split; [constructor; [exact Hacc|constructor]|done].
  - destruct (IH w1) as [Hrest Hids]. split; [by constructor|].
    cbn [map length seq]. by rewrite Hids, Hu.
  - destruct (IH w1) as [Hrest Hids]. split; [by constructor|].
    cbn [map length seq]. by rewrite Hids, Hu.
Qed.

Lemma multiSetup_ID E conn conn' :
  multiSetup E conn = Some conn' ->
  StoredConnection.ID conn' = StoredConnection.ID conn.
Proof.
  unfold multiSetup.
  destruct (Env.verifyBackupTools E _); [done|].
  destruct (Env.setupSSHTunnelIfNeeded E conn) as [tunnel|]; [|done].
  destruct (Env.MkdirAll_fails E _); [done|]. intros [= <-].
  apply throughTunnel_owner.
Qed.

Lemma multiTrace_accounted E w conn conn' :
  multiSetup E conn = Some conn' ->
  Forall2 (subDumpAccounted E conn conn')
          (multiStarts E w conn) (multiTrace E w conn) /\
  map World.uuids (multiStarts E w conn)
  = seq (World.uuids w) (length (multiTrace E w conn)).
Proof.
  intros Hs. unfold multiStarts, multiTrace. rewrite Hs.
  apply subDumps_accounted. by apply (multiSetup_ID E).
Qed.

End MultiRounds.

Lemma all_failed_accounted E conn conn' starts trace :
  Forall2 (subDumpAccounted E conn conn') starts trace ->
  Forall (fun x => persisted (snd x) = None) trace <->
  Forall2 (fun w x => ~ subDumpGoesThrough E w conn conn' (fst x))
          starts trace.
Proof.
  induction 1 as [|w x starts trace [Hiff _] _ IH].
  - split; constructor.
  - split.
    + intros Hall. inversion Hall as [|? ? Hx Hrest]; subst.
      constructor; [|by apply IH].
      intros Hgo%Hiff. rewrite Hx in Hgo. by destruct Hgo.
    + intros Hall. inversion Hall as [|? ? ? ? Hx Hrest]; subst.
      constructor; [|by apply IH].
      destruct (persisted (snd x)) eqn:Hp; [|done].
      exfalso. apply Hx, Hiff. eauto.
Qed.

(** C3. A [CreateBackup] on a connection with selected databases is a
    multi-database run.  A sub-dump goes through when the dump tool of
    its database was started and exited with status zero, its file is on
    the spool and the store took its record; it fails otherwise.  The
    call returns an error exactly when every sub-dump failed; otherwise
    it returns the backup of the first sub-dump that went through.  The
    records added to the store are the backups of the sub-dumps that went
    through, one each and in their order, each the completed record of
    its sub-dump, so a failed sub-dump leaves none.  When the setup goes
    through and the engine is supported there is one sub-dump per
    selected database. *)
Theorem CreateBackup_multi_database :
  forall (E : Env.t) (w : World.t) (connectionID : string)
         (conn : StoredConnection.t),
    connection.GetConnection (Env.vault E) (World.connections w) connectionID
      = Ok conn ->
    StoredConnection.SelectedDatabases conn <> [] ->
    let trace := multiTrace E w conn in
    let starts := multiStarts E w conn in
    let '(r, w') := service.CreateBackup E w connectionID in
    (is_fail r = true <-> Forall (fun x => persisted (snd x) = None) trace) /\
    (forall b, r = Ok b <-> head (successes trace) = Some b) /\
    World.backups w' = World.backups w ++ successes trace /\
    (forall conn', multiSetup E conn = Some conn' ->
     Forall2 (subDumpAccounted E conn conn') starts trace /\
     map World.uuids starts = seq (World.uuids w) (length trace) /\
     (is_fail r = true <->
      Forall2 (fun w x => ~ subDumpGoesThrough E w conn conn' (fst x))
              starts trace) /\
     (supportedType (StoredConnection.Type_ conn) = true ->
      map fst trace = StoredConnection.SelectedDatabases conn)).
Proof.
  intros E w connectionID conn Hget Hsel trace starts.
  unfold service.CreateBackup. rewrite Hget.
  destruct (StoredConnection.SelectedDatabases conn) as [|d ds] eqn:Hdbs;
    [done|].
  cbn [length Nat.ltb Nat.leb].
  pose proof (createMultiDatabaseBackup_spec E w conn) as H.
  cbv zeta in H. fold trace in H.
  destruct (service.createMultiDatabaseBackup E w conn) as [r w'].
  simpl in H. destruct H as (Hfail & Hfirst & Hstore & Hall).
  assert (Hnone : is_fail r = true <->
                  Forall (fun x => persisted (snd x) = None) trace).
  { rewrite Hfail. unfold successes. clear.
    induction trace as [|[db round] t IH]; simpl.
    + split; [constructor|done].
    + destruct (persisted round) eqn:Hp; simpl.
      * split; [done|]. intros H. inversion H; simpl in *; congruence.
      * rewrite IH. split; [by constructor|]. by intros H; inversion H. }
  split; [exact Hnone|split; [exact Hfirst|split; [exact Hstore|]]].
  intros conn' Hs.
  destruct (multiTrace_accounted E w conn conn' Hs) as [Hacc Hids].
  split; [exact Hacc|]. split; [exact Hids|]. split.
  - rewrite Hnone. by apply all_failed_accounted.
  - intros Hsup. rewrite (Hall conn' Hs Hsup). by rewrite Hdbs.
Qed.

(** On the sample connection with databases shop and crm, where the dump
    of crm is refused: the hypotheses hold, both sub-dumps were run, the
    one of shop went through and the one of crm did not, and the call
    returns the backup of shop, the only record stored. *)
Lemma CreateBackup_multi_database_witness :
  let E := demoEnvWith dumpMixed false false false in
  connection.GetConnection (Env.vault E) (World.connections demoWorldMulti)
    "c1" = Ok demoConnectionMulti /\
  StoredConnection.SelectedDatabases demoConnectionMulti <> [] /\
  map fst (multiTrace E demoWorldMulti demoConnectionMulti) = ["shop"; "crm"] /\
  (exists w1 w2,
     multiStarts E demoWorldMulti demoConnectionMulti = [w1; w2] /\
     subDumpGoesThrough E w1 demoConnectionMulti demoConnectionMulti "shop" /\
     ~ subDumpGoesThrough E w2 demoConnectionMulti demoConnectionMulti "crm") /\
  exists b,
    fst (service.CreateBackup E demoWorldMulti "c1") = Ok b /\
    Backup.Path b = "./backups/pg1/shop_20251114_120000.sql" /\
    World.backups (snd (service.CreateBackup E demoWorldMulti "c1")) = [b].
Proof.
  intros E.
  assert (Hget : connection.GetConnection (Env.vault E)
                   (World.connections demoWorldMulti) "c1"
                 = Ok demoConnectionMulti) by (vm_compute; reflexivity).
  assert (Hsel : StoredConnection.SelectedDatabases demoConnectionMulti <> [])
    by discriminate.
  split; [exact Hget|]. split; [exact Hsel|].
  pose proof (CreateBackup_multi_database E demoWorldMulti "c1"
                demoConnectionMulti Hget Hsel) as H.
  cbv zeta in H.
  destruct (service.CreateBackup E demoWorldMulti "c1") as [r w'].
  destruct H as (_ & Hfirst & Hstore & Hall).
  assert (Hsetup : multiSetup E demoConnectionMulti = Some demoConnectionMulti)
    by (vm_compute; reflexivity).
  destruct (Hall demoConnectionMulti Hsetup) as (Hacc & _ & _ & Hnames).
  split; [apply Hnames; vm_compute; reflexivity|].
  assert (Hs : exists b,
    multiTrace E demoWorldMulti demoConnectionMulti
    = [("shop", service.Done b); ("crm", service.Failed)] /\
    Backup.Path b = "./backups/pg1/shop_20251114_120000.sql").
  { vm_compute. eexists. split; reflexivity. }
  destruct Hs as (b & Hs & Hpath). rewrite Hs in Hacc, Hfirst, Hstore.
  split.
  - remember (multiStarts E demoWorldMulti demoConnectionMulti) as starts
      eqn:Hstarts.
    inversion Hacc as [|w1 x1 l1 t1 [Hshop _] Hrest]; subst.
    inversion Hrest as [|w2 x2 l2 t2 [Hcrm _] Hnil]; subst.
    inversion Hnil; subst. exists w1, w2. split; [reflexivity|]. split.
    + apply Hshop. by eexists.
    + intros Hgo%Hcrm. by destruct Hgo.
  - exists b. cbn [fst snd].
    split; [by apply Hfirst|]. split; [exact Hpath|exact Hstore].
Defined.

(** ** Retention *)

Section Retention.
Import service.

Lemma olderThan_expired cid cutoffTime b :
  repo.olderThan cid cutoffTime b = true <-> expired cid cutoffTime b.
Proof.
  unfold repo.olderThan, expired.
  rewrite !andb_true_iff, !String.eqb_eq, Z.ltb_lt. tauto.
Qed.

Lemma cleanupS3Storage_ready E uid :
  is_Some (cleanupS3Storage E uid) <-> s3Ready E uid.
Proof.
  unfold cleanupS3Storage, s3Ready, fullyConfigured, s3storage.NewS3Storage.
  destruct (Env.GetUserSettingsInternal E uid) as [us|e].
  2:{ split; [by intros [? ?] | by intros (? & ? & ? & _)]. }
  destruct (UserSettings.S3Enabled us) eqn:H0,
           (blank (UserSettings.S3Endpoint us)) eqn:H1,
           (blank (UserSettings.S3Bucket us)) eqn:H2,
           (blank (UserSettings.S3AccessKey us)) eqn:H3,
           (blank (UserSettings.S3SecretKey us)) eqn:H4; cbn [andb negb];
    try (split; [by intros [? ?]
                |intros (? & ? & [= <-] & ? & (? & ? & ? & ?) & _);
                 congruence]).
  destruct (Env.Decrypt E (default "" (UserSettings.S3SecretKey us)))
    as [sk|] eqn:Hd.
  2:{ split; [by intros [? ?]
             |intros (? & ? & [= <-] & _ & _ & ? & _); congruence]. }
  destruct (Env.minio_New_fails E (buildS3Config us sk)) eqn:Hm.
  - split; [by intros [? ?]|].
    intros (? & sk' & [= <-] & _ & _ & Hd' & Hm').
    rewrite Hd in Hd'. injection Hd' as <-. congruence.
  - split; [intros _; by exists us, sk | intros _; by eexists].
Qed.

(** What one round of the cleanup loop does to the three stores. *)
Lemma cleanupOne_spec E st conn w b :
  let w' := cleanupOne E st conn w b in
  World.connections w' = World.connections w /\
  World.backups w' =
    (if Env.db_fails E (XDeleteBackup (Backup.ID b)) then World.backups w
     else List.filter (fun x => negb (Nat.eqb (Backup.ID x) (Backup.ID b)))
                      (World.backups w)) /\
  World.s3 w' =
    (if bool_decide (is_Some st) && negb (blank (Backup.S3ObjectKey b)) &&
        StoredConnection.S3CleanupOnRetention conn &&
        negb (Env.RemoveObject_fails E (default "" (Backup.S3ObjectKey b)))
     then delete (default "" (Backup.S3ObjectKey b)) (World.s3 w)
     else World.s3 w) /\
  World.files w' =
    (if Env.Remove_fails E (Backup.Path b) then World.files w
     else delete (Backup.Path b) (World.files w)).
Proof.
  cbv zeta. unfold cleanupOne.
  set (w1 := match st with Some s3 => _ | None => w end).
  assert (H1 : World.connections w1 = World.connections w /\
               World.backups w1 = World.backups w /\
               World.files w1 = World.files w /\
               World.s3 w1 =
                 (if bool_decide (is_Some st) &&
                     negb (blank (Backup.S3ObjectKey b)) &&
                     StoredConnection.S3CleanupOnRetention conn &&
                     negb (Env.RemoveObject_fails E
                             (default "" (Backup.S3ObjectKey b)))
                  then delete (default "" (Backup.S3ObjectKey b)) (World.s3 w)
                  else World.s3 w)).
  { subst w1. destruct st as [s3|]; [|done].
    rewrite bool_decide_eq_true_2 by eauto. cbn [andb].
    destruct (negb (blank (Backup.S3ObjectKey b))); [|done].
    destruct (StoredConnection.S3CleanupOnRetention conn); [|done].
    cbn [andb]. unfold s3storage.DeleteFile.
    by destruct (Env.RemoveObject_fails E _). }
  destruct H1 as (Hc1 & Hb1 & Hf1 & Hs1). clearbody w1.
  set (w2 := match os.Stat w1 (Backup.Path b) with Ok _ => _ | Fail _ => w1 end).
  assert (H2 : World.connections w2 = World.connections w1 /\
               World.backups w2 = World.backups w1 /\
               World.s3 w2 = World.s3 w1 /\
               World.files w2 =
                 (if Env.Remove_fails E (Backup.Path b) then World.files w1
                  else delete (Backup.Path b) (World.files w1))).
  { subst w2. unfold os.Stat, os.Remove.
    destruct (World.files w1 !! Backup.Path b) as [sz|] eqn:Hsz.
    - by destruct (Env.Remove_fails E _).
    - rewrite delete_id by done. by destruct (Env.Remove_fails E _). }
  destruct H2 as (Hc2 & Hb2 & Hs2 & Hf2). clearbody w2.
  unfold repo.DeleteBackup.
  destruct (Env.db_fails E (XDeleteBackup (Backup.ID b))); cbn [snd].
  - by rewrite Hc2, Hb2, Hs2, Hf2, Hc1, Hb1, Hs1, Hf1.
  - unfold World.set_backups. cbn [World.connections World.backups World.s3
      World.files].
    by rewrite Hc2, Hb2, Hs2, Hf2, Hc1, Hb1, Hs1, Hf1.
Qed.

Lemma filter_twice {A} (f g : A -> bool) l :
  List.filter f (List.filter g l) = List.filter (fun x => g x && f x) l.
Proof.
  induction l as [|x l IH]; simpl; [done|].
  destruct (g x); simpl; [|done]. destruct (f x); by rewrite IH.
Qed.

(** The rounds of the loop, folded. *)
Lemma cleanupFold_spec E st conn olds :
  forall w,
    let w' := fold_left (cleanupOne E st conn) olds w in
    World.connections w' = World.connections w /\
    World.backups w' =
      List.filter
        (fun x => negb (existsb
           (fun o => Nat.eqb (Backup.ID x) (Backup.ID o) &&
                     negb (Env.db_fails E (XDeleteBackup (Backup.ID o))))
           olds))
        (World.backups w) /\
    (forall k,
       World.s3 w' !! k =
       if existsb
            (fun o => bool_decide (is_Some st) &&
                      negb (blank (Backup.S3ObjectKey o)) &&
                      StoredConnection.S3CleanupOnRetention conn &&
                      negb (Env.RemoveObject_fails E
                              (default "" (Backup.S3ObjectKey o))) &&
                      String.eqb (default "" (Backup.S3ObjectKey o)) k)
            olds
       then None else World.s3 w !! k) /\
    (forall p,
       World.files w' !! p =
       if existsb
            (fun o => negb (Env.Remove_fails E (Backup.Path o)) &&
                      String.eqb (Backup.Path o) p)
            olds
       then None else World.files w !! p).
Proof.
  induction olds as [|b olds IH]; intros w; cbv zeta.
  - simpl. split; [done|]. split; [|done].
    induction (World.backups w) as [|x xs IHx]; simpl; [done|].
    by rewrite <- IHx.
  - cbn [fold_left].
    pose proof (cleanupOne_spec E st conn w b) as H1. cbv zeta in H1.
    destruct H1 as (Hc1 & Hb1 & Hs1 & Hf1).
    specialize (IH (cleanupOne E st conn w b)). cbv zeta in IH.
    destruct IH as (Hc & Hb & Hs & Hf).
    split; [congruence|]. split; [|split].
    + rewrite Hb, Hb1. cbn [existsb].
      destruct (Env.db_fails E (XDeleteBackup (Backup.ID b))).
      * apply filter_ext. intros x. by rewrite andb_false_r.
      * rewrite filter_twice. apply filter_ext. intros x.
        cbn [negb]. rewrite andb_true_r.
        by destruct (Nat.eqb (Backup.ID x) (Backup.ID b)).
    + intros k. rewrite Hs, Hs1. cbn [existsb].
      destruct (existsb _ olds); [by rewrite orb_true_r|].
      rewrite orb_false_r.
      destruct (bool_decide (is_Some st) &&
                negb (blank (Backup.S3ObjectKey b)) &&
                StoredConnection.S3CleanupOnRetention conn &&
                negb (Env.RemoveObject_fails E
                        (default "" (Backup.S3ObjectKey b)))); cbn [andb];
        [|done].
      destruct (String.eqb_spec (default "" (Backup.S3ObjectKey b)) k)
        as [->|Hne].
      * apply lookup_delete_eq.
      * by apply lookup_delete_ne.
    + intros p. rewrite Hf, Hf1. cbn [existsb].
      destruct (existsb _ olds); [by rewrite orb_true_r|].
      rewrite orb_false_r.
      destruct (Env.Remove_fails E (Backup.Path b)); cbn [negb andb]; [done|].
      destruct (String.eqb_spec (Backup.Path b) p) as [->|Hne].
      * apply lookup_delete_eq.
      * by apply lookup_delete_ne.
Qed.

Lemma NoDup_ID_inj (l : list Backup.t) a b :
  List.NoDup (map Backup.ID l) -> In a l -> In b l ->
  Backup.ID a = Backup.ID b -> a = b.
Proof.
  induction l as [|x l IH]; simpl; [done|].
  intros Hnd [->|Ha] [->|Hb] Hid; inversion Hnd as [|? ? Hnotin Hnd']; subst.
  - done.
  - exfalso. apply Hnotin. rewrite Hid. by apply in_map.
  - exfalso. apply Hnotin. rewrite <- Hid. by apply in_map.
  - by apply IH.
Qed.

(** The run is the loop over the expired backups, whether or not there
    are any. *)
Lemma cleanupOldBackups_fold E w cid days conn :
  connection.GetConnection (Env.vault E) (World.connections w) cid = Ok conn ->
  Env.db_fails E (QGetBackupsOlderThan cid) = false ->
  cleanupOldBackups E w cid days =
  fold_left
    (cleanupOne E (cleanupS3Storage E (StoredConnection.UserID conn)) conn)
    (map repo.scanOld
       (List.filter
          (repo.olderThan cid (Env.AddDate E (Env.Now E) (- days)))
          (World.backups w)))
    w.
Proof.
  intros Hget Hdb. unfold cleanupOldBackups, repo.GetBackupsOlderThan.
  rewrite Hdb.
  destruct (map repo.scanOld _) as [|o olds]; [done|].
  cbn [length Nat.eqb]. by rewrite Hget.
Qed.

End Retention.

(** C6. Retention for a connection that can be loaded, over a store whose
    backup ids are distinct.  The records it removes are exactly the
    completed backups of the connection created before the cutoff (unless
    the store refuses the delete), so a record that is [in_progress]
    stays.  An object leaves the bucket exactly when it is the object of
    such a backup, S3 is configured, the connection has
    [s3_cleanup_on_retention] and S3 accepts the delete; a local file
    leaves the spool exactly when it is the file of such a backup and the
    removal goes through.  Nothing else in the bucket or on the spool
    changes. *)
Theorem cleanupOldBackups_retention :
  forall (E : Env.t) (w : World.t) (connectionID : string)
         (retentionDays : Z) (conn : StoredConnection.t),
    connection.GetConnection (Env.vault E) (World.connections w) connectionID
      = Ok conn ->
    Env.db_fails E (QGetBackupsOlderThan connectionID) = false ->
    List.NoDup (map Backup.ID (World.backups w)) ->
    let cutoffTime := Env.AddDate E (Env.Now E) (- retentionDays) in
    let w' := service.cleanupOldBackups E w connectionID retentionDays in
    (forall b,
       In b (World.backups w') <->
       In b (World.backups w) /\
       ~ (expired connectionID cutoffTime b /\
          Env.db_fails E (XDeleteBackup (Backup.ID b)) = false)) /\
    (forall b,
       In b (World.backups w) -> Backup.Status b = "in_progress" ->
       In b (World.backups w')) /\
    (forall key,
       World.s3 w' !! key = None <->
       World.s3 w !! key = None \/
       exists b, In b (World.backups w) /\
                 expired connectionID cutoffTime b /\
                 s3ObjectDeleted E conn b key) /\
    (forall path,
       World.files w' !! path = None <->
       World.files w !! path = None \/
       exists b, In b (World.backups w) /\
                 expired connectionID cutoffTime b /\
                 Backup.Path b = path /\
                 Env.Remove_fails E path = false) /\
    (forall key size,
       World.s3 w' !! key = Some size -> World.s3 w !! key = Some size) /\
    (forall path size,
       World.files w' !! path = Some size ->
       World.files w !! path = Some size).
Proof.
  intros E w cid days conn Hget Hdb Hnd cutoffTime w'. subst w'.
  rewrite (cleanupOldBackups_fold E w cid days conn Hget Hdb).
  fold cutoffTime.
  set (old := List.filter (repo.olderThan cid cutoffTime) (World.backups w)).
  pose proof (cleanupFold_spec E
    (service.cleanupS3Storage E (StoredConnection.UserID conn)) conn
    (map repo.scanOld old) w) as H.
  cbv zeta in H. destruct H as (_ & Hb & Hs & Hf).
  assert (Hold : forall b, In b old <->
                   In b (World.backups w) /\ expired cid cutoffTime b).
  { intros b. unfold old. by rewrite filter_In, olderThan_expired. }
  assert (Hrec : forall b, In b (World.backups w) ->
    existsb (fun o => Nat.eqb (Backup.ID b) (Backup.ID o) &&
                      negb (Env.db_fails E (XDeleteBackup (Backup.ID o))))
            (map repo.scanOld old) = true <->
    expired cid cutoffTime b /\
    Env.db_fails E (XDeleteBackup (Backup.ID b)) = false).
  { intros b Hin. rewrite existsb_exists. split.
    - intros (o & Ho & Hcond). apply in_map_iff in Ho as (b' & <- & Hb').
      apply andb_true_iff in Hcond as [Hid Hok]. apply Nat.eqb_eq in Hid.
      apply negb_true_iff in Hok. cbn [repo.scanOld Backup.ID] in Hid, Hok.
      apply Hold in Hb' as [Hin' Hexp].
      assert (b = b') as <- by (by apply (NoDup_ID_inj _ _ _ Hnd)).
      done.
    - intros [Hexp Hok]. exists (repo.scanOld b). split.
      + apply in_map. apply Hold. done.
      + cbn [repo.scanOld Backup.ID]. by rewrite Nat.eqb_refl, Hok. }
  assert (Hdue : forall key,
    existsb
      (fun o =>
         bool_decide (is_Some (service.cleanupS3Storage E
                                 (StoredConnection.UserID conn))) &&
         negb (service.blank (Backup.S3ObjectKey o)) &&
         StoredConnection.S3CleanupOnRetention conn &&
         negb (Env.RemoveObject_fails E (default "" (Backup.S3ObjectKey o))) &&
         String.eqb (default "" (Backup.S3ObjectKey o)) key)
      (map repo.scanOld old) = true <->
    exists b, In b (World.backups w) /\ expired cid cutoffTime b /\
              s3ObjectDeleted E conn b key).
  { intros key. rewrite existsb_exists. unfold s3ObjectDeleted.
    setoid_rewrite <- cleanupS3Storage_ready. split.
    - intros (o & Ho & Hcond). apply in_map_iff in Ho as (b & <- & Hb').
      apply Hold in Hb' as [Hin Hexp]. exists b.
      cbn [repo.scanOld Backup.S3ObjectKey] in Hcond.
      rewrite !andb_true_iff in Hcond.
      destruct Hcond as ((((Hst & Hk) & Hflag) & Hrm) & Heq).
      apply bool_decide_eq_true in Hst. apply negb_true_iff in Hk, Hrm.
      apply blank_false_Some in Hk as (k & Hk & Hne). rewrite Hk in *.
      cbn [from_option id] in *. apply String.eqb_eq in Heq. subst k.
      done.
    - intros (b & Hin & Hexp & Hk & Hne & Hst & Hflag & Hrm).
      exists (repo.scanOld b). split; [apply in_map; by apply Hold|].
      cbn [repo.scanOld Backup.S3ObjectKey]. rewrite Hk.
      cbn [from_option id service.blank].
      rewrite bool_decide_eq_true_2 by done.
      apply String.eqb_neq in Hne. by rewrite Hne, Hflag, Hrm, String.eqb_refl. }
  assert (Hgone : forall path,
    existsb (fun o => negb (Env.Remove_fails E (Backup.Path o)) &&
                      String.eqb (Backup.Path o) path)
            (map repo.scanOld old) = true <->
    exists b, In b (World.backups w) /\ expired cid cutoffTime b /\
              Backup.Path b = path /\ Env.Remove_fails E path = false).
  { intros path. rewrite existsb_exists. split.
    - intros (o & Ho & Hcond). apply in_map_iff in Ho as (b & <- & Hb').
      apply Hold in Hb' as [Hin Hexp]. exists b.
      cbn [repo.scanOld Backup.Path] in Hcond.
      apply andb_true_iff in Hcond as [Hrm Heq].
      apply negb_true_iff in Hrm. apply String.eqb_eq in Heq. by subst path.
    - intros (b & Hin & Hexp & <- & Hrm).
      exists (repo.scanOld b). split; [apply in_map; by apply Hold|].
      cbn [repo.scanOld Backup.Path]. by rewrite Hrm, String.eqb_refl. }
  assert (Hrecords : forall b,
    In b (World.backups
            (fold_left
               (service.cleanupOne E
                  (service.cleanupS3Storage E (StoredConnection.UserID conn))
                  conn) (map repo.scanOld old) w)) <->
    In b (World.backups w) /\
    ~ (expired cid cutoffTime b /\
       Env.db_fails E (XDeleteBackup (Backup.ID b)) = false)).
  { intros b. rewrite Hb, filter_In, negb_true_iff. split.
    - intros [Hin Hno]. split; [done|]. intros Hyes.
      apply (Hrec b Hin) in Hyes. congruence.
    - intros [Hin Hno]. split; [done|].
      destruct (existsb _ _) eqn:Hex; [|done].
      exfalso. apply Hno. by apply (Hrec b Hin). }
  split; [exact Hrecords|]. split; [|split; [|split; [|split]]].
  - intros b Hin Hst. apply Hrecords. split; [done|].
    intros [(_ & Hc & _) _]. congruence.
  - intros key. rewrite Hs. destruct (existsb _ _) eqn:Hex.
    + split; [|done]. intros _. right. by apply Hdue.
    + split; [by left|]. intros [Hn|Hd]; [done|].
      apply Hdue in Hd. congruence.
  - intros path. rewrite Hf. destruct (existsb _ _) eqn:Hex.
    + split; [|done]. intros _. right. by apply Hgone.
    + split; [by left|]. intros [Hn|Hd]; [done|].
      apply Hgone in Hd. congruence.
  - intros key size. rewrite Hs. by destruct (existsb _ _).
  - intros path size. rewrite Hf. by destruct (existsb _ _).
Qed.

(** On the sample store with a retention of 30 days: the hypotheses hold,
    the old completed backup is the one record removed, the record in
    progress and the recent one stay, and the object and the file of the
    old backup are gone. *)
Lemma cleanupOldBackups_retention_witness :
  let E := demoEnv dumpWritten false false false in
  let w' := service.cleanupOldBackups E demoWorldRetention "c1" 30 in
  connection.GetConnection (Env.vault E)
    (World.connections demoWorldRetention) "c1" = Ok demoConnection /\
  List.NoDup (map Backup.ID (World.backups demoWorldRetention)) /\
  In demoStuck (World.backups w') /\
  In demoRecent (World.backups w') /\
  ~ In demoOld (World.backups w') /\
  World.s3 w' !! "p/pg1/shop_old.sql" = None /\
  World.files w' !! "./backups/pg1/shop_old.sql" = None.
Proof.
  intros E w'.
  assert (Hget : connection.GetConnection (Env.vault E)
                   (World.connections demoWorldRetention) "c1"
                 = Ok demoConnection) by (vm_compute; reflexivity).
  assert (Hnd : List.NoDup (map Backup.ID (World.backups demoWorldRetention))).
  { repeat constructor; simpl; intuition discriminate. }
  assert (Hexp : expired "c1" (Env.AddDate E (Env.Now E) (- 30)) demoOld).
  { repeat split. }
  assert (Hready : s3Ready E 7%nat).
  { exists demoSettings, "s". repeat split. }
  destruct (cleanupOldBackups_retention E demoWorldRetention "c1" 30
              demoConnection Hget eq_refl Hnd)
    as (Hrec & Hprog & Hs3 & Hfiles & _).
  fold w' in Hrec, Hprog, Hs3, Hfiles.
  split; [exact Hget|]. split; [exact Hnd|].
  split; [apply Hprog; [simpl; auto | reflexivity]|].
  split.
  { apply Hrec. split; [simpl; auto|]. intros [(_ & _ & Hlt) _].
    vm_compute in Hlt. discriminate Hlt. }
  split.
  { intros Hin. apply Hrec in Hin as [_ Hno]. apply Hno. by split. }
  split.
  - apply Hs3. right. exists demoOld. split; [simpl; auto|].
    split; [exact Hexp|]. repeat split; try done.
  - apply Hfiles. right. exists demoOld. split; [simpl; auto|].
    split; [exact Hexp|]. by split.
Defined.

(** ** Scheduling *)

Section Scheduling.
Import service.

Lemma set_cron_schedules w entries jobs next :
  World.schedules (World.set_cron w entries jobs next) = World.schedules w.
Proof. done. Qed.

(** Registering the job does not touch the schedule table. *)
Lemma AddFunc_schedules E w spec id :
  World.schedules (snd (AddFunc E w spec id)) = World.schedules w.
Proof. unfold AddFunc. by destruct (Env.cron_AddFunc_fails E spec). Qed.

(** With one schedule per connection, the newest schedule of a connection
    is its only one. *)
Lemma latest_scheduleOf rows cid :
  List.NoDup (map BackupSchedule.ConnectionID rows) ->
  repo.latest None
    (List.filter (fun r => String.eqb (BackupSchedule.ConnectionID r) cid) rows)
  = scheduleOf rows cid.
Proof.
  unfold scheduleOf. induction rows as [|r rows IH]; [done|].
  intros Hnd. inversion Hnd as [|? ? Hnotin Hnd']; subst.
  cbn [List.filter List.find].
  destruct (String.eqb_spec (BackupSchedule.ConnectionID r) cid) as [Heq|Hne].
  - assert (Hnone : List.filter
              (fun r0 => String.eqb (BackupSchedule.ConnectionID r0) cid) rows
              = []).
    { clear -Hnotin Heq. induction rows as [|x xs IHx]; [done|]. simpl.
      destruct (String.eqb_spec (BackupSchedule.ConnectionID x) cid) as [Hx|_].
      - exfalso. apply Hnotin. left. congruence.
      - apply IHx. intros Hin. apply Hnotin. by right. }
    by rewrite Hnone.
  - by apply IH.
Qed.

Lemma scheduleOf_Some rows cid r :
  scheduleOf rows cid = Some r ->
  In r rows /\ BackupSchedule.ConnectionID r = cid.
Proof.
  unfold scheduleOf. intros H. apply find_some in H as [Hin Heq].
  by apply String.eqb_eq in Heq.
Qed.

Lemma scheduleOf_None rows cid :
  scheduleOf rows cid = None ->
  ~ In cid (map BackupSchedule.ConnectionID rows).
Proof.
  unfold scheduleOf. intros H Hin. apply in_map_iff in Hin as (r & Hr & Hin).
  pose proof (find_none _ _ H r Hin) as Hno. simpl in Hno.
  apply String.eqb_neq in Hno. done.
Qed.

Lemma scheduleOf_map f rows cid :
  (forall r, BackupSchedule.ConnectionID (f r) = BackupSchedule.ConnectionID r) ->
  scheduleOf (map f rows) cid = f <$> scheduleOf rows cid.
Proof.
  intros Hf. unfold scheduleOf. induction rows as [|r rows IH]; [done|].
  cbn [map List.find]. rewrite Hf.
  by destruct (String.eqb (BackupSchedule.ConnectionID r) cid).
Qed.

Lemma scheduleOf_app_new rows cid r :
  scheduleOf rows cid = None ->
  BackupSchedule.ConnectionID r = cid ->
  scheduleOf (rows ++ [r]) cid = Some r.
Proof.
  unfold scheduleOf. intros Hnone Hr. induction rows as [|x xs IH].
  - simpl. apply String.eqb_eq in Hr. by rewrite Hr.
  - simpl in *. destruct (String.eqb (BackupSchedule.ConnectionID x) cid);
      [done | by apply IH].
Qed.

Lemma updateRow_ConnectionID E schedule r :
  BackupSchedule.ConnectionID (repo.updateRow E schedule r)
  = BackupSchedule.ConnectionID r.
Proof.
  unfold repo.updateRow.
  by destruct (Nat.eqb (BackupSchedule.ID r) (BackupSchedule.ID schedule)).
Qed.

Lemma NoDup_schedule_ID_inj (rows : list BackupSchedule.t) a b :
  List.NoDup (map BackupSchedule.ID rows) -> In a rows -> In b rows ->
  BackupSchedule.ID a = BackupSchedule.ID b -> a = b.
Proof.
  induction rows as [|x l IH]; simpl; [done|].
  intros Hnd [->|Ha] [->|Hb] Hid; inversion Hnd as [|? ? Hnotin Hnd']; subst.
  - done.
  - exfalso. apply Hnotin. rewrite Hid. by apply in_map.
  - exfalso. apply Hnotin. rewrite <- Hid. by apply in_map.
  - by apply IH.
Qed.

Lemma NoDup_app_singleton {A} (l : list A) x :
  List.NoDup l -> ~ In x l -> List.NoDup (l ++ [x]).
Proof.
  induction l as [|y l IH]; intros Hnd Hx; simpl.
  - constructor; [by intros []|constructor].
  - inversion Hnd as [|? ? Hy Hnd']; subst. constructor.
    + rewrite in_app_iff. intros [Hin|[->|[]]]; [done|].
      apply Hx. by left.
    + apply IH; [done|]. intros Hin. apply Hx. by right.
Qed.

(** An invalid expression: an error, and the world as it was. *)
Lemma ScheduleBackup_invalid E w req :
  Env.cron_Parse E (ScheduleBackupRequest.CronSchedule req) = None ->
  is_Some (fst (ScheduleBackup E w req)) /\ snd (ScheduleBackup E w req) = w.
Proof.
  intros Hparse. unfold ScheduleBackup. rewrite Hparse.
  destruct (repo.GetBackupSchedule E w _) as [r|e]; [by split; eauto|].
  destruct (otherThanNoRows e); by split; eauto.
Qed.

(** A valid expression over a sound store that is up: the schedule table
    after the call. *)
Lemma ScheduleBackup_valid E w req next :
  let cid := ScheduleBackupRequest.ConnectionID req in
  Env.cron_Parse E (ScheduleBackupRequest.CronSchedule req) = Some next ->
  scheduleStoreUp E cid ->
  schedulesSound w ->
  World.schedules (snd (ScheduleBackup E w req)) =
    match scheduleOf (World.schedules w) cid with
    | Some old =>
        map (fun r =>
               if Nat.eqb (BackupSchedule.ID r) (BackupSchedule.ID old)
               then scheduled E req next (BackupSchedule.ID old)
                      (BackupSchedule.LastBackupTime old)
                      (BackupSchedule.CreatedAt old)
               else r)
            (World.schedules w)
    | None =>
        World.schedules w ++
        [scheduled E req next (World.uuids w) None (Env.Now E)]
    end.
Proof.
  intros cid Hparse (Hq & Hu & Hc) (Hconn & Hids).
  unfold ScheduleBackup, repo.GetBackupSchedule. fold cid.
  rewrite Hq, (latest_scheduleOf _ cid Hconn), Hparse.
  destruct (scheduleOf (World.schedules w) cid) as [old|] eqn:Hold;
    cbv beta iota zeta.
  - apply scheduleOf_Some in Hold as [Hin Hcid].
    assert (Hmap :
      map (repo.updateRow E
             (BackupSchedule.mk (BackupSchedule.ID old)
                (BackupSchedule.ConnectionID old) true
                (ScheduleBackupRequest.CronSchedule req)
                (ScheduleBackupRequest.RetentionDays req)
                (Some (next (Env.Now E))) (BackupSchedule.LastBackupTime old)
                (BackupSchedule.CreatedAt old) (Env.Now E)))
          (World.schedules w) =
      map (fun r =>
             if Nat.eqb (BackupSchedule.ID r) (BackupSchedule.ID old)
             then scheduled E req next (BackupSchedule.ID old)
                    (BackupSchedule.LastBackupTime old)
                    (BackupSchedule.CreatedAt old)
             else r)
          (World.schedules w)).
    { apply map_ext_in. intros r Hr. unfold repo.updateRow, scheduled.
      cbn [BackupSchedule.ID BackupSchedule.Enabled
           BackupSchedule.CronSchedule BackupSchedule.RetentionDays
           BackupSchedule.NextRunTime BackupSchedule.LastBackupTime].
      destruct (Nat.eqb_spec (BackupSchedule.ID r) (BackupSchedule.ID old))
        as [Heq|Hne]; [|done].
      assert (r = old) as -> by (by apply (NoDup_schedule_ID_inj _ _ _ Hids)).
      by rewrite Hcid. }
    unfold repo.UpdateBackupSchedule. rewrite Hu. cbv beta iota zeta.
    cbn [BackupSchedule.ID].
    destruct (World.cronEntries _ !! _); unfold AddFunc;
      destruct (Env.cron_AddFunc_fails E _); cbn [snd];
      unfold World.set_cron, World.set_schedules; cbn [World.schedules];
      exact Hmap.
  - cbn [otherThanNoRows].
    pose proof (uuid_New_fields w) as Hid.
    destruct (World.uuid_New w) as [id w0]. cbv zeta in Hid.
    cbn [fst snd] in Hid. destruct Hid as (-> & _ & Hs0 & _).
    unfold repo.CreateBackupSchedule. rewrite Hc. cbv beta iota zeta.
    cbn [BackupSchedule.ID]. unfold AddFunc.
    destruct (Env.cron_AddFunc_fails E _); cbn [snd];
      unfold World.set_cron, World.set_schedules; cbn [World.schedules];
      by rewrite Hs0.
Qed.

End Scheduling.

(** C8. [ScheduleBackup] is an upsert.  An invalid cron expression is
    rejected with an error and nothing changes.  With a valid expression,
    a store that accepts the statements and at most one schedule per
    connection before the call: the schedule of the connection, if there
    is one, is set to enabled with the cron expression and the retention
    of the request and [next_run_time = Next(cron_expr, now)], all other
    schedules staying as they are, and otherwise a new schedule with these
    values is added; either way there is still at most one schedule per
    connection, and it is the one described. *)
Theorem ScheduleBackup_upsert :
  forall (E : Env.t) (w : World.t) (req : ScheduleBackupRequest.t),
    let cid := ScheduleBackupRequest.ConnectionID req in
    let '(err, w') := service.ScheduleBackup E w req in
    (Env.cron_Parse E (ScheduleBackupRequest.CronSchedule req) = None ->
     is_Some err /\ w' = w) /\
    (forall next,
       Env.cron_Parse E (ScheduleBackupRequest.CronSchedule req) = Some next ->
       scheduleStoreUp E cid ->
       schedulesSound w ->
       World.schedules w' =
         match scheduleOf (World.schedules w) cid with
         | Some old =>
             map (fun r =>
                    if Nat.eqb (BackupSchedule.ID r) (BackupSchedule.ID old)
                    then scheduled E req next (BackupSchedule.ID old)
                           (BackupSchedule.LastBackupTime old)
                           (BackupSchedule.CreatedAt old)
                    else r)
                 (World.schedules w)
         | None =>
             World.schedules w ++
             [scheduled E req next (World.uuids w) None (Env.Now E)]
         end /\
       List.NoDup (map BackupSchedule.ConnectionID (World.schedules w')) /\
       exists r,
         scheduleOf (World.schedules w') cid = Some r /\
         BackupSchedule.Enabled r = true /\
         BackupSchedule.CronSchedule r = ScheduleBackupRequest.CronSchedule req /\
         BackupSchedule.RetentionDays r
           = ScheduleBackupRequest.RetentionDays req /\
         BackupSchedule.NextRunTime r = Some (next (Env.Now E))).
Proof.
  intros E w req cid.
  pose proof (ScheduleBackup_invalid E w req) as Hinv.
  pose proof (ScheduleBackup_valid E w req) as Hval.
  destruct (service.ScheduleBackup E w req) as [err w'].
  cbn [fst snd] in Hinv, Hval. split; [exact Hinv|].
  intros next Hparse Hup Hsound.
  specialize (Hval next Hparse Hup Hsound). fold cid in Hval.
  split; [exact Hval|]. rewrite Hval.
  destruct Hsound as (Hconn & Hids).
  destruct (scheduleOf (World.schedules w) cid) as [old|] eqn:Hold.
  - pose proof (scheduleOf_Some _ _ _ Hold) as [Hin Hcid].
    assert (Hkeep : forall r,
      In r (World.schedules w) ->
      BackupSchedule.ConnectionID
        (if Nat.eqb (BackupSchedule.ID r) (BackupSchedule.ID old)
         then scheduled E req next (BackupSchedule.ID old)
                (BackupSchedule.LastBackupTime old)
                (BackupSchedule.CreatedAt old)
         else r) = BackupSchedule.ConnectionID r).
    { intros r Hr.
      destruct (Nat.eqb_spec (BackupSchedule.ID r) (BackupSchedule.ID old));
        [|done].
      assert (r = old) as -> by
        (by apply (NoDup_schedule_ID_inj _ _ _ Hids)).
      done. }
    split.
    + rewrite map_map.
      erewrite map_ext_in; [exact Hconn|]. intros r Hr. cbv beta.
      by apply Hkeep.
    + exists (scheduled E req next (BackupSchedule.ID old)
                (BackupSchedule.LastBackupTime old)
                (BackupSchedule.CreatedAt old)).
      split; [|done].
      clear Hval Hkeep. unfold scheduleOf in *.
      induction (World.schedules w) as [|x xs IHx]; [done|].
      cbn [map List.find] in *.
      inversion Hids as [|? ? Hnotin Hids']; subst.
      inversion Hconn as [|? ? Hcnotin Hconn']; subst.
      destruct (String.eqb_spec (BackupSchedule.ConnectionID x) cid)
        as [Hx|Hx].
      * injection Hold as ->. rewrite Nat.eqb_refl.
        cbn [scheduled BackupSchedule.ConnectionID]. fold cid.
        by rewrite String.eqb_refl.
      * destruct Hin as [->|Hin]; [done|].
        destruct (Nat.eqb_spec (BackupSchedule.ID x) (BackupSchedule.ID old))
          as [Hid|_].
        { exfalso. apply Hnotin. rewrite Hid. by apply in_map. }
        apply String.eqb_neq in Hx. rewrite Hx. by apply IHx.
  - split.
    + rewrite map_app. cbn [map scheduled BackupSchedule.ConnectionID].
      fold cid. apply NoDup_app_singleton; [exact Hconn|].
      by apply scheduleOf_None.
    + eexists. split; [by apply scheduleOf_app_new|done].
Qed.

(** On the sample world: the store is up and sound, the expression
    parses, and the disabled schedule of the connection comes out
    enabled, at midnight, with the next run at the coming midnight. *)
Lemma ScheduleBackup_upsert_witness :
  let E := demoEnv dumpWritten false false false in
  let w' := snd (service.ScheduleBackup E demoWorldScheduled demoRequest) in
  scheduleStoreUp E "c1" /\
  schedulesSound demoWorldScheduled /\
  exists r,
    scheduleOf (World.schedules w') "c1" = Some r /\
    BackupSchedule.ID r = 9%nat /\
    BackupSchedule.Enabled r = true /\
    BackupSchedule.CronSchedule r = "0 0 0 * * *" /\
    BackupSchedule.RetentionDays r = 30 /\
    BackupSchedule.NextRunTime r = Some 1763164800.
Proof.
  intros E w'.
  assert (Hup : scheduleStoreUp E "c1") by (by repeat split).
  assert (Hsound : schedulesSound demoWorldScheduled).
  { split; simpl; repeat constructor; simpl; tauto. }
  split; [exact Hup|]. split; [exact Hsound|].
  pose proof (ScheduleBackup_upsert E demoWorldScheduled demoRequest) as H.
  cbv zeta in H. subst w'.
  destruct (service.ScheduleBackup E demoWorldScheduled demoRequest)
    as [err w'].
  destruct H as [_ H].
  destruct (H (fun t => (t / 86400 + 1) * 86400) eq_refl Hup Hsound)
    as (Htable & _ & r & Hr & Hen & Hcron & Hdays & Hnext).
  cbn [snd]. exists r. repeat split; try assumption.
  rewrite Htable in Hr. vm_compute in Hr. by injection Hr as <-.
Defined.

Arguments diff.step : simpl never.

(** ** The comparison of two dumps *)

Section DiffProperties.
Import diff.
Variables sourceLines targetLines : list string.

Lemma ofType_app type_ l c :
  ofType type_ (l ++ [c]) =
  ofType type_ l ++ (if String.eqb (Type_ c) type_ then [c] else []).
Proof.
  unfold ofType. rewrite List.filter_app. simpl.
  by destruct (String.eqb (Type_ c) type_).
Qed.

Lemma StronglySorted_snoc (l : list nat) x :
  StronglySorted lt l -> Forall (fun n => (n < x)%nat) l ->
  StronglySorted lt (l ++ [x]).
Proof.
  induction l as [|a l IH]; simpl; intros Hs Hf.
  - repeat constructor.
  - apply StronglySorted_inv in Hs as [Hs Ha].
    apply Forall_cons in Hf as [Hax Hf].
    constructor; [by apply IH|].
    apply Forall_app. split; [exact Ha|by repeat constructor].
Qed.

(** One more entry, numbered past everything before it. *)
Lemma changesInv_snoc ln ln' a r u ch c :
  changesInv sourceLines targetLines ln a r u ch ->
  (ln < ln')%nat ->
  showsLine sourceLines targetLines c ->
  LineNumber c = ln' ->
  changesInv sourceLines targetLines ln'
    (if String.eqb (Type_ c) "added" then S a else a)
    (if String.eqb (Type_ c) "removed" then S r else r)
    (if String.eqb (Type_ c) "unchanged" then S u else u)
    (ch ++ [c]).
Proof.
  intros (Ha & Hr & Hu & Hshow & Hsort & Hle) Hln Hc Hnum.
  unfold changesInv. rewrite !ofType_app, map_app, !length_app. simpl.
  repeat split.
  - destruct (String.eqb (Type_ c) "added"); simpl; lia.
  - destruct (String.eqb (Type_ c) "removed"); simpl; lia.
  - destruct (String.eqb (Type_ c) "unchanged"); simpl; lia.
  - apply Forall_app. split; [exact Hshow|].
    constructor; [exact Hc|constructor].
  - apply StronglySorted_snoc; [exact Hsort|].
    eapply Forall_impl; [exact Hle|]. simpl. intros n Hn. lia.
  - apply Forall_app. split.
    + eapply Forall_impl; [exact Hle|]. simpl. intros n Hn. lia.
    + repeat constructor; lia.
Qed.

(** A round that shows nothing: the number moves on, an unchanged line
    may be counted. *)
Lemma changesInv_skip ln ln' a r u u' ch :
  changesInv sourceLines targetLines ln a r u ch ->
  (ln <= ln')%nat -> (u <= u')%nat ->
  changesInv sourceLines targetLines ln' a r u' ch.
Proof.
  intros (Ha & Hr & Hu & Hshow & Hsort & Hle) Hln Hu'.
  repeat split; try done; [lia|].
  eapply Forall_impl; [exact Hle|]. simpl. intros n Hn. lia.
Qed.

Lemma changesInv_added ln ln' a r u ch t l :
  changesInv sourceLines targetLines ln a r u ch ->
  (ln < ln')%nat -> targetLines !! l = Some t ->
  changesInv sourceLines targetLines ln' (S a) r u
    (ch ++ [mkDiffChange "added" ("+ " +:+ t) ln' 0 l]).
Proof.
  intros Hinv Hln Ht.
  apply (changesInv_snoc ln ln' a r u ch
           (mkDiffChange "added" ("+ " +:+ t) ln' 0 l) Hinv Hln);
    [|done].
  left. split; [done|]. by exists t.
Qed.

Lemma changesInv_removed ln ln' a r u ch s l :
  changesInv sourceLines targetLines ln a r u ch ->
  (ln < ln')%nat -> sourceLines !! l = Some s ->
  changesInv sourceLines targetLines ln' a (S r) u
    (ch ++ [mkDiffChange "removed" ("- " +:+ s) ln' l 0]).
Proof.
  intros Hinv Hln Hs.
  apply (changesInv_snoc ln ln' a r u ch
           (mkDiffChange "removed" ("- " +:+ s) ln' l 0) Hinv Hln);
    [|done].
  right. left. split; [done|]. by exists s.
Qed.

Lemma changesInv_unchanged ln ln' a r u ch s l l' :
  changesInv sourceLines targetLines ln a r u ch ->
  (ln < ln')%nat -> sourceLines !! l = Some s -> targetLines !! l' = Some s ->
  changesInv sourceLines targetLines ln' a r (S u)
    (ch ++ [mkDiffChange "unchanged" ("  " +:+ s) ln' l l']).
Proof.
  intros Hinv Hln Hs Ht.
  apply (changesInv_snoc ln ln' a r u ch
           (mkDiffChange "unchanged" ("  " +:+ s) ln' l l') Hinv Hln);
    [|done].
  right. right. split; [done|]. by exists s.
Qed.

Lemma findMatch_Some line k count k' :
  findMatch line targetLines k count = Some k' ->
  (k <= k' < k + count)%nat /\ targetLines !! k' = Some line.
Proof.
  revert k. induction count as [|count IH]; intros k; simpl; [done|].
  destruct (targetLines !! k) as [t|] eqn:Ht; [|done].
  destruct (String.eqb line t) eqn:Heq.
  - intros [= <-]. apply String.eqb_eq in Heq as ->. split; [lia|done].
  - intros H. apply IH in H as [H1 H2]. split; [lia|done].
Qed.

Lemma addRun_spec count : forall l ln a r u ch,
  changesInv sourceLines targetLines ln a r u ch ->
  (l + count <= length targetLines)%nat ->
  forall ln0, (ln <= ln0)%nat ->
  let '(ln', a', ch') := addRun targetLines l count ln0 a ch in
  ln' = (ln0 + count)%nat /\ a' = (a + count)%nat /\
  length ch' = (length ch + count)%nat /\
  changesInv sourceLines targetLines ln' a' r u ch'.
Proof.
  induction count as [|count IH]; intros l ln a r u ch Hinv Hlen ln0 Hln0;
    simpl.
  - split; [lia|]. split; [lia|]. split; [lia|].
    eapply changesInv_skip; [exact Hinv|lia|lia].
  - destruct (lookup_lt_is_Some_2 targetLines l) as [t Ht]; [lia|].
    rewrite Ht. simpl.
    pose proof (changesInv_added ln (S ln0) a r u ch t l Hinv
                  ltac:(lia) Ht) as Hinv'.
    specialize (IH (S l) (S ln0) (S a) r u _ Hinv' ltac:(lia) (S ln0)
                  ltac:(lia)).
    destruct (addRun targetLines (S l) count (S ln0) (S a) _)
      as [[ln' a'] ch'].
    destruct IH as (-> & -> & Hl & IH). rewrite Hl, length_app. simpl.
    split; [lia|]. split; [lia|]. split; [lia|]. exact IH.
Qed.

(** A round of the loop keeps the invariant, moves [i] or [j] forward and
    adds four entries at most. *)
Ltac diff_round :=
  split;
  [ split; [simpl; lia|]; split; [simpl; lia|]; split; [simpl; lia|];
    split; [simpl; lia|]; simpl
  | split; simpl; lia ].

Lemma step_spec v :
  diffInv sourceLines targetLines v ->
  (i v < length sourceLines)%nat \/ (j v < length targetLines)%nat ->
  let v' := step sourceLines targetLines v in
  diffInv sourceLines targetLines v' /\
  (i v + j v < i v' + j v')%nat /\
  (length (changes v') <= length (changes v) + 4)%nat.
Proof.
  intros (Hi & Hj & Hri & Haj & Hinv) Hgo. unfold step.
  destruct (sourceLines !! i v) as [s|] eqn:Hs;
    destruct (targetLines !! j v) as [t|] eqn:Ht.
  - pose proof (lookup_lt_Some _ _ _ Hs) as Hilt.
    pose proof (lookup_lt_Some _ _ _ Ht) as Hjlt.
    destruct (String.eqb s t) eqn:Heq.
    + apply String.eqb_eq in Heq as <-.
      destruct (shouldShowLine (changes v) (S (lineNumber v))); simpl.
      * rewrite length_app. simpl.
        diff_round.
        eapply changesInv_unchanged; eauto.
      * diff_round.
        eapply changesInv_skip; [exact Hinv|lia|lia].
    + match goal with
      | |- context [if ?b then _ else _] => destruct b eqn:Hnext
      end.
      * simpl. rewrite !length_app. simpl.
        diff_round.
        eapply changesInv_added; [|constructor|exact Ht].
        eapply changesInv_removed; [exact Hinv| |exact Hs]. lia.
      * destruct (findMatch s targetLines (S (j v)) _) as [k|] eqn:Hk.
        -- apply findMatch_Some in Hk as [Hk Htk].
           pose proof (lookup_lt_Some _ _ _ Htk) as Hklt.
           assert (Hk4 : (k - j v <= 4)%nat).
           { unfold min in Hk.
             destruct (j v + 5 <? length targetLines)%nat eqn:Hmin;
               [|apply Nat.ltb_ge in Hmin]; lia. }
           pose proof (addRun_spec (k - j v) (j v) (lineNumber v)
                         (added v) (removed v) (unchanged v) (changes v)
                         Hinv ltac:(lia) (S (lineNumber v)) ltac:(lia))
             as Hrun.
           destruct (addRun targetLines (j v) (k - j v) _ _ _)
             as [[ln' a'] ch'].
           destruct Hrun as (-> & -> & Hl & Hinv'). simpl.
           diff_round. exact Hinv'.
        -- simpl. rewrite length_app. simpl.
           diff_round.
           eapply changesInv_removed; [exact Hinv| |exact Hs]. lia.
  - pose proof (lookup_lt_Some _ _ _ Hs) as Hilt.
    simpl. rewrite length_app. simpl.
    diff_round.
    eapply changesInv_removed; [exact Hinv| |exact Hs]. lia.
  - pose proof (lookup_lt_Some _ _ _ Ht) as Hjlt.
    simpl. rewrite length_app. simpl.
    diff_round.
    eapply changesInv_added; [exact Hinv| |exact Ht]. lia.
  - apply lookup_ge_None in Hs, Ht. lia.
Qed.

(** The loop: the invariant at the end, four entries past the limit at
    most, and both texts read to their ends unless the limit cut the
    comparison short; the rounds allowed are enough. *)
Lemma loop_spec fuel : forall v,
  diffInv sourceLines targetLines v ->
  (length (changes v) <= 1000)%nat ->
  let v' := loop fuel sourceLines targetLines v in
  diffInv sourceLines targetLines v' /\
  (length (changes v') <= 1004)%nat /\
  ((length sourceLines - i v) + (length targetLines - j v) <= fuel ->
   length (changes v') <= 1000 ->
   i v' = length sourceLines /\ j v' = length targetLines)%nat.
Proof.
  induction fuel as [|fuel IH]; intros v Hinv Hlen; simpl.
  - split; [exact Hinv|]. split; [lia|]. intros Hfuel _.
    destruct Hinv as (Hi & Hj & _). lia.
  - destruct ((i v <? length sourceLines)%nat || (j v <? length targetLines)%nat)
      eqn:Hgo.
    + assert (Hgo' : (i v < length sourceLines)%nat \/
                     (j v < length targetLines)%nat).
      { apply orb_true_iff in Hgo as [H|H]; apply Nat.ltb_lt in H; auto. }
      destruct (step_spec v Hinv Hgo') as (Hinv' & Hmove & Hfour).
      destruct (1000 <? length (changes (step sourceLines targetLines v)))%nat
        eqn:Hlim.
      * apply Nat.ltb_lt in Hlim. split; [exact Hinv'|]. split; [lia|].
        intros _ Hle. lia.
      * apply Nat.ltb_ge in Hlim.
        destruct (IH _ Hinv' Hlim) as (Hinv'' & Hlen'' & Hend).
        split; [exact Hinv''|]. split; [exact Hlen''|].
        intros Hfuel Hle. apply Hend; [|exact Hle].
        destruct Hinv' as (Hi' & Hj' & _). lia.
    + apply orb_false_iff in Hgo as [H1 H2].
      apply Nat.ltb_ge in H1, H2.
      split; [exact Hinv|]. split; [lia|]. intros _ _.
      destruct Hinv as (Hi & Hj & _). lia.
Qed.

Lemma diffInv_init :
  diffInv sourceLines targetLines (mkVars 0 0 0 0 0 0 []).
Proof.
  repeat split; simpl; try lia; constructor.
Qed.

(** More rounds than the two lengths allow change nothing. *)
Lemma loop_fuel_enough fuel : forall v extra,
  diffInv sourceLines targetLines v ->
  ((length sourceLines - i v) + (length targetLines - j v) <= fuel)%nat ->
  loop (fuel + extra) sourceLines targetLines v
  = loop fuel sourceLines targetLines v.
Proof.
  induction fuel as [|fuel IH]; intros v extra Hinv Hfuel.
  - destruct Hinv as (Hi & Hj & _). simpl.
    destruct extra as [|extra]; [done|]. simpl.
    replace (i v <? length sourceLines)%nat with false
      by (symmetry; apply Nat.ltb_ge; lia).
    replace (j v <? length targetLines)%nat with false
      by (symmetry; apply Nat.ltb_ge; lia).
    done.
  - simpl.
    destruct ((i v <? length sourceLines)%nat || (j v <? length targetLines)%nat)
      eqn:Hgo; [|done].
    assert (Hgo' : (i v < length sourceLines)%nat \/
                   (j v < length targetLines)%nat).
    { apply orb_true_iff in Hgo as [H|H]; apply Nat.ltb_lt in H; auto. }
    destruct (step_spec v Hinv Hgo') as (Hinv' & Hmove & _).
    destruct (1000 <? length (changes (step sourceLines targetLines v)))%nat;
      [done|].
    apply IH; [exact Hinv'|].
    destruct Hinv' as (Hi' & Hj' & _). lia.
Qed.

End DiffProperties.

Section DiffSame.
Import diff.

Lemma sameLines_app k l x :
  sameLines k (l ++ [x]) =
  sameLines k l ++
  [mkDiffChange "unchanged" ("  " +:+ x) (S (k + length l)) (k + length l)
                (k + length l)].
Proof.
  revert k. induction l as [|a l IH]; intros k; simpl.
  - by rewrite Nat.add_0_r.
  - rewrite IH. by rewrite <- !Nat.add_succ_comm.
Qed.

Lemma sameLines_length k l : length (sameLines k l) = length l.
Proof. revert k. induction l as [|a l IH]; intros k; simpl; [done|]. by rewrite IH. Qed.

Lemma sameLines_unchanged k l :
  Forall (fun c => Type_ c = "unchanged") (sameLines k l).
Proof.
  revert k. induction l as [|a l IH]; intros k; simpl; constructor; auto.
Qed.

Lemma countRecent_unchanged visited n :
  Forall (fun c => Type_ c = "unchanged") visited ->
  countRecent visited n = n.
Proof.
  revert n. induction visited as [|c rest IH]; intros n Hall; simpl; [done|].
  apply Forall_cons in Hall as [Hc Hrest]. rewrite Hc. simpl. by apply IH.
Qed.

Lemma shouldShowLine_quiet changes lineNumber :
  Forall (fun c => Type_ c = "unchanged") changes ->
  shouldShowLine changes lineNumber = (lineNumber <=? 3)%nat.
Proof.
  intros Hall. unfold shouldShowLine.
  destruct (lineNumber <=? 3)%nat; [done|].
  rewrite countRecent_unchanged; [done|].
  apply Forall_take, Forall_rev, Hall.
Qed.

(** The loop on a text against itself, from any line on. *)
Lemma loop_same rest : forall fuel pre,
  (length rest <= fuel)%nat ->
  loop fuel (pre ++ rest) (pre ++ rest)
       (mkVars (length pre) (length pre) (length pre) 0 0 (length pre)
               (sameLines 0 (take 3 pre)))
  = mkVars (length (pre ++ rest)) (length (pre ++ rest))
           (length (pre ++ rest)) 0 0 (length (pre ++ rest))
           (sameLines 0 (take 3 (pre ++ rest))).
Proof.
  induction rest as [|x rest IH]; intros fuel pre Hfuel.
  - rewrite app_nil_r. destruct fuel as [|fuel]; simpl; [done|].
    by rewrite Nat.ltb_irrefl.
  - destruct fuel as [|fuel]; [simpl in Hfuel; lia|].
    cbn [loop i j].
    replace (length pre <? length (pre ++ x :: rest))%nat with true
      by (symmetry; apply Nat.ltb_lt; rewrite length_app; simpl; lia).
    cbn [orb]. unfold step. cbn [i j lineNumber changes added removed unchanged].
    assert (Hx : (pre ++ x :: rest) !! length pre = Some x).
    { rewrite lookup_app_r by lia. by rewrite Nat.sub_diag. }
    rewrite Hx, String.eqb_refl.
    rewrite shouldShowLine_quiet by apply sameLines_unchanged.
    assert (Hshift : pre ++ x :: rest = (pre ++ [x]) ++ rest)
      by (by rewrite <- app_assoc).
    assert (Hlen : S (length pre) = length (pre ++ [x]))
      by (rewrite length_app; simpl; lia).
    destruct (S (length pre) <=? 3)%nat eqn:Hshow.
    + apply Nat.leb_le in Hshow. cbn [changes].
      replace (1000 <? _)%nat with false.
      2:{ symmetry. apply Nat.ltb_ge.
          rewrite length_app, sameLines_length, length_take. cbn [length]. lia. }
      rewrite (take_ge pre) by lia.
      replace (sameLines 0 pre ++ _) with (sameLines 0 (take 3 (pre ++ [x]))).
      2:{ rewrite take_ge by (rewrite length_app; simpl; lia).
          by rewrite sameLines_app. }
      rewrite Hshift, Hlen. apply IH. simpl in Hfuel. lia.
    + apply Nat.leb_gt in Hshow. cbn [changes].
      replace (1000 <? _)%nat with false.
      2:{ symmetry. apply Nat.ltb_ge.
          rewrite sameLines_length, length_take. lia. }
      replace (take 3 pre) with (take 3 (pre ++ [x]))
        by (rewrite take_app_le by lia; done).
      rewrite Hshift, Hlen. apply IH. simpl in Hfuel. lia.
Qed.

End DiffSame.

(** X1.  [generateDiff] accounts for the lines it has read: the removed
    and the unchanged lines never exceed the lines of the source, the
    added and the unchanged lines never exceed the lines of the target,
    and unless the comparison was cut short at the limit of a thousand
    entries they add up to them exactly.  [Modified] is always zero. *)
Theorem generateDiff_accounts_for_lines :
  forall (source target : string),
    let r := diff.generateDiff source target in
    let n := length (strings.SplitByte "010" source) in
    let m := length (strings.SplitByte "010" target) in
    (diff.Removed r + diff.Unchanged r <= n)%nat /\
    (diff.Added r + diff.Unchanged r <= m)%nat /\
    diff.Modified r = 0%nat /\
    ((length (diff.Changes r) <= 1000)%nat ->
     (diff.Removed r + diff.Unchanged r = n)%nat /\
     (diff.Added r + diff.Unchanged r = m)%nat).
Proof.
  intros source target. unfold diff.generateDiff. cbv zeta.
  set (S := strings.SplitByte "010" source).
  set (T := strings.SplitByte "010" target).
  destruct (loop_spec S T (length S + length T) _ (diffInv_init S T)
              ltac:(simpl; lia)) as (Hinv & _ & Hend).
  destruct Hinv as (Hi & Hj & Hri & Haj & _). simpl.
  repeat split; try lia; intros Hle;
    destruct (Hend ltac:(simpl; lia) Hle); lia.
Qed.

(** X2.  The counters of [generateDiff] count the entries of its change
    list: as many additions and removals as entries of these types, and
    at least as many unchanged lines as unchanged entries.  Every entry
    shows an actual line: an addition a line of the target behind "+ ", a
    removal a line of the source behind "- ", an unchanged entry a line
    that both texts have at the positions it names. *)
Theorem generateDiff_changes_show_lines :
  forall (source target : string),
    let r := diff.generateDiff source target in
    let sourceLines := strings.SplitByte "010" source in
    let targetLines := strings.SplitByte "010" target in
    diff.Added r = length (ofType "added" (diff.Changes r)) /\
    diff.Removed r = length (ofType "removed" (diff.Changes r)) /\
    (length (ofType "unchanged" (diff.Changes r)) <= diff.Unchanged r)%nat /\
    Forall (showsLine sourceLines targetLines) (diff.Changes r).
Proof.
  intros source target. unfold diff.generateDiff. cbv zeta.
  set (S := strings.SplitByte "010" source).
  set (T := strings.SplitByte "010" target).
  destruct (loop_spec S T (length S + length T) _ (diffInv_init S T)
              ltac:(simpl; lia)) as (Hinv & _).
  destruct Hinv as (_ & _ & _ & _ & Ha & Hr & Hu & Hshow & _). simpl.
  auto.
Qed.

(** X3.  The change list of [generateDiff] never has more than 1004
    entries, and its line numbers start at one or later and go strictly
    up. *)
Theorem generateDiff_changes_bounded :
  forall (source target : string),
    let r := diff.generateDiff source target in
    (length (diff.Changes r) <= 1004)%nat /\
    StronglySorted lt (map diff.LineNumber (diff.Changes r)) /\
    Forall (fun n => (1 <= n)%nat) (map diff.LineNumber (diff.Changes r)).
Proof.
  intros source target. unfold diff.generateDiff. cbv zeta.
  set (S := strings.SplitByte "010" source).
  set (T := strings.SplitByte "010" target).
  destruct (loop_spec S T (length S + length T) _ (diffInv_init S T)
              ltac:(simpl; lia)) as (Hinv & Hlen & _).
  destruct Hinv as (_ & _ & _ & _ & _ & _ & _ & _ & Hsort & Hle). simpl.
  split; [exact Hlen|]. split; [exact Hsort|].
  eapply Forall_impl; [exact Hle|]. simpl. intros n Hn. lia.
Qed.

(** X4.  A text compared with itself: nothing added, nothing removed,
    every line counted as unchanged, and only its first three lines
    shown. *)
Theorem generateDiff_same_text :
  forall (text : string),
    let lines := strings.SplitByte "010" text in
    diff.generateDiff text text =
      diff.mkDiffResponse 0 0 0 (length lines) (sameLines 0 (take 3 lines)).
Proof.
  intros text. unfold diff.generateDiff. cbv zeta.
  set (L := strings.SplitByte "010" text).
  pose proof (loop_same L (length L + length L) [] ltac:(lia)) as Hloop.
  simpl in Hloop. rewrite Hloop. done.
Qed.

Arguments restoring.restoreFrom : simpl never.
Arguments restoring.GetBackup : simpl never.
Arguments service.ensureBackupFileAvailable : simpl never.

(** ** Restoring a backup *)

Section Restoring.
Import restoring.

Lemma validatePostgreSQLRestore_None output cmdErr :
  restore.validatePostgreSQLRestore output cmdErr = None <->
  List.filter critical (strings.SplitByte "010" output) = [].
Proof.
  unfold restore.validatePostgreSQLRestore.
  rewrite collectCritical_filter, scanAlreadyExists_existsb. simpl.
  destruct (List.filter critical (strings.SplitByte "010" output))
    as [|c cs]; [done|].
  replace (0 <? Z.of_nat (length (c :: cs))) with true.
  - split; [|done].
    by destruct (existsb _ _).
  - symmetry. apply Z.ltb_lt. rewrite length_cons. lia.
Qed.

(** What [ensureBackupFileAvailable] does to the world: nothing, or one
    file at the temporary path; a temporary result names that path. *)
Lemma ensureBackupFileAvailable_world E w b uid :
  let r := fst (service.ensureBackupFileAvailable E w b uid) in
  let w' := snd (service.ensureBackupFileAvailable E w b uid) in
  (w' = w \/
   exists size, w' = World.set_files w (<[tempPath E b := size]> (World.files w))) /\
  (forall path, r = Ok (path, false) -> w' = w) /\
  (forall path, r = Ok (path, true) ->
     path = tempPath E b /\ is_Some (World.files w' !! path)).
Proof.
  cbv zeta. unfold service.ensureBackupFileAvailable, os.Stat.
  destruct (World.files w !! Backup.Path b) as [sz|]; cbv beta iota zeta.
  { split; [by left|]. split; [done|]. by intros ? [=]. }
  destruct (service.blank (Backup.S3ObjectKey b)).
  { split; [by left|]. by split. }
  destruct (Env.GetUserSettingsInternal E uid) as [us|].
  2:{ split; [by left|]. by split. }
  destruct (negb (UserSettings.S3Enabled us)).
  { split; [by left|]. by split. }
  destruct (service.checkS3Fields us).
  { split; [by left|]. by split. }
  destruct (Env.Decrypt E _).
  2:{ split; [by left|]. by split. }
  destruct (s3storage.NewS3Storage E _).
  2:{ split; [by left|]. by split. }
  destruct (os.MkdirAll E _).
  { split; [by left|]. by split. }
  unfold s3storage.DownloadFile.
  destruct (Env.GetObject_fails E _).
  { split; [by left|]. by split. }
  destruct (Env.Create_fails E _).
  { split; [by left|]. by split. }
  destruct (World.s3 w !! _) as [size|]; cbv beta iota zeta; cbn [fst snd].
  - split; [right; by exists size|]. split; [done|].
    intros path [= <-]. split; [done|].
    change (is_Some (<[tempPath E b := size]> (World.files w)
                     !! tempPath E b)).
    rewrite lookup_insert_eq. by eexists.
  - split; [right; by exists 0|]. by split.
Qed.

Lemma Remove_temp E w path size :
  Env.Remove_fails E path = false ->
  snd (os.Remove E (World.set_files w (<[path := size]> (World.files w))) path)
  = World.set_files w (delete path (World.files w)).
Proof.
  intros Hrm. unfold os.Remove.
  change (World.files (World.set_files w (<[path:=size]> (World.files w))))
    with (<[path:=size]> (World.files w)).
  rewrite lookup_insert_eq, Hrm. cbn [snd].
  unfold World.set_files. cbn. by rewrite delete_insert_eq.
Qed.

Lemma Remove_stores E w path :
  let w' := snd (os.Remove E w path) in
  World.backups w' = World.backups w /\ World.s3 w' = World.s3 w /\
  World.connections w' = World.connections w /\
  World.schedules w' = World.schedules w /\
  (forall p, p <> path -> World.files w' !! p = World.files w !! p).
Proof.
  cbv zeta. unfold os.Remove.
  destruct (World.files w !! path); [|done].
  destruct (Env.Remove_fails E path); [done|]. cbn [snd].
  repeat split. intros p Hp.
  change (delete path (World.files w) !! p = World.files w !! p).
  by rewrite lookup_delete_ne.
Qed.

End Restoring.

(** X5.  When a restore counts as done.  For PostgreSQL the exit status of
    the tool plays no part: the restore is reported as done exactly when
    the output has no critical line.  For MySQL, MariaDB and MongoDB the
    output plays no part: it is reported as done exactly when the tool
    exited without error, and the error carries the output, or the text of
    the exit error when there is no output.  For every other engine the
    result is an error. *)
Theorem validateRestoreOutput_by_engine :
  forall (dbType dbName output : string) (cmdErr : option string),
    let r := restoring.validateRestoreOutput dbType dbName output cmdErr in
    (dbType = "postgresql" ->
     (r = None <->
      List.filter critical (strings.SplitByte "010" output) = [])) /\
    (dbType = "mysql" \/ dbType = "mariadb" \/ dbType = "mongodb" ->
     (r = None <-> cmdErr = None) /\
     (forall text, cmdErr = Some text ->
        r = Some (restoring.ErrRestoreFailedFor dbName
                    (if String.eqb output "" then text else output)))) /\
    (restoring.restoreTools dbType = None ->
     r = Some (restoring.ErrUnsupportedType dbType)).
Proof.
  intros dbType dbName output cmdErr. cbv zeta.
  unfold restoring.validateRestoreOutput, restoring.restoreTools.
  split; [|split].
  - intros ->. simpl.
    rewrite <- (validatePostgreSQLRestore_None output cmdErr).
    by destruct (restore.validatePostgreSQLRestore output cmdErr).
  - intros [-> | [-> | ->]]; simpl;
      unfold restoring.validateMySQLRestore, restoring.validateMongoDBRestore;
      (destruct cmdErr as [text|]; split;
       [done | by intros ? [= <-] | done | done]).
  - destruct (String.eqb dbType "postgresql"); [done|].
    destruct (String.eqb dbType "mysql"); [done|].
    destruct (String.eqb dbType "mariadb"); [done|].
    destruct (String.eqb dbType "mongodb"); done.
Qed.

(** X6.  [RestoreBackup] works on a copy and cleans up after itself.  It
    never changes the backup records, the bucket, the connections or the
    schedules.  With the file of the backup on the spool the whole world
    is as before.  With the file gone and the object downloaded, the
    temporary file is removed again whatever the restore came to, provided
    the removal goes through.  With neither, the call fails and only the
    temporary path may have changed. *)
Theorem RestoreBackup_leaves_no_file :
  forall (E : Env.t) (H : Host.t) (w : World.t) (backupID : UUID)
         (connectionID : string) (b : Backup.t) (conn : StoredConnection.t),
    restoring.GetBackup H w backupID = Ok b ->
    connection.GetConnection (Env.vault E) (World.connections w) connectionID
      = Ok conn ->
    let '(err, w') := restoring.RestoreBackup E H w backupID connectionID in
    (World.backups w' = World.backups w /\ World.s3 w' = World.s3 w /\
     World.connections w' = World.connections w /\
     World.schedules w' = World.schedules w) /\
    (localExists w b -> w' = w) /\
    (~ localExists w b ->
     rehydratable E w b (StoredConnection.UserID conn) ->
     Env.Remove_fails E (tempPath E b) = false ->
     w' = World.set_files w (delete (tempPath E b) (World.files w))) /\
    (~ localExists w b ->
     ~ rehydratable E w b (StoredConnection.UserID conn) ->
     is_Some err /\
     forall path, path <> tempPath E b ->
       World.files w' !! path = World.files w !! path).
Proof.
  intros E H w backupID connectionID b conn Hb Hconn.
  unfold restoring.RestoreBackup. rewrite Hb, Hconn.
  pose proof (ensureBackupFileAvailable_cases E w b
                (StoredConnection.UserID conn)) as Hcases.
  pose proof (ensureBackupFileAvailable_world E w b
                (StoredConnection.UserID conn)) as Hworld.
  destruct (service.ensureBackupFileAvailable E w b
              (StoredConnection.UserID conn)) as [r w1].
  cbv zeta in Hcases, Hworld. cbn [fst snd] in Hcases, Hworld.
  destruct Hcases as (Hlocal & Hdown & Hnone).
  destruct Hworld as (Hw1 & Hplain & Htemp).
  assert (Hstores :
            World.backups w1 = World.backups w /\ World.s3 w1 = World.s3 w /\
            World.connections w1 = World.connections w /\
            World.schedules w1 = World.schedules w /\
            forall path, path <> tempPath E b ->
              World.files w1 !! path = World.files w !! path).
  { destruct Hw1 as [-> | [size ->]]; [done|].
    repeat split. intros path Hp.
    change (<[tempPath E b := size]> (World.files w) !! path
            = World.files w !! path).
    by rewrite lookup_insert_ne. }
  destruct Hstores as (Hbk & Hs3 & Hcn & Hsc & Hfiles).
  destruct r as [[filePath [|]]|e].
  - destruct (Htemp filePath eq_refl) as [-> Hthere].
    pose proof (Remove_stores E w1 (tempPath E b)) as Hrm.
    cbv zeta in Hrm. destruct Hrm as (Hb2 & Hs2 & Hc2 & Hsc2 & Hf2).
    split; [repeat split; congruence|].
    split; [intros Hl; by destruct (Hlocal Hl)|].
    split.
    + intros Hgone Hre Hok.
      destruct Hw1 as [-> | [size ->]].
      * unfold os.Remove. destruct Hthere as [sz Hsz].
        by rewrite Hsz, Hok.
      * by apply Remove_temp.
    + intros Hgone Hno. by specialize (Hnone Hgone Hno).
  - specialize (Hplain filePath eq_refl). subst w1.
    split; [done|]. split; [done|]. split.
    + intros Hgone Hre _. by destruct (Hdown Hgone Hre).
    + intros Hgone Hno. by specialize (Hnone Hgone Hno).
  - split; [done|]. split; [intros Hl; by destruct (Hlocal Hl)|].
    split.
    + intros Hgone Hre _. by destruct (Hdown Hgone Hre).
    + intros Hgone Hno. split; [by eexists|]. exact Hfiles.
Qed.

(** The sample backup whose file is gone and whose object is in the
    bucket, restored into the sample connection: the hypotheses hold, the
    restore is done, and the world is as it was, the download removed. *)
Lemma RestoreBackup_leaves_no_file_witness :
  let E := demoEnv dumpWritten false false false in
  restoring.GetBackup demoHost demoWorldPurged 1%nat = Ok demoBackup /\
  connection.GetConnection (Env.vault E) (World.connections demoWorldPurged)
    "c1" = Ok demoConnection /\
  restoring.RestoreBackup E demoHost demoWorldPurged 1%nat "c1"
    = (None, demoWorldPurged).
Proof.
  intros E.
  assert (Hb : restoring.GetBackup demoHost demoWorldPurged 1%nat
               = Ok demoBackup) by reflexivity.
  assert (Hc : connection.GetConnection (Env.vault E)
                 (World.connections demoWorldPurged) "c1"
               = Ok demoConnection) by (vm_compute; reflexivity).
  split; [exact Hb|]. split; [exact Hc|].
  assert (Hgone : ~ localExists demoWorldPurged demoBackup).
  { intros [? Hf]. vm_compute in Hf. discriminate Hf. }
  assert (Hre : rehydratable E demoWorldPurged demoBackup
                  (StoredConnection.UserID demoConnection)).
  { exists demoSettings, "p/pg1/shop_20251114_120000.sql". split.
    - repeat split; try reflexivity; discriminate.
    - exists "s". repeat split; try reflexivity. by eexists. }
  pose proof (RestoreBackup_leaves_no_file E demoHost demoWorldPurged 1%nat
                "c1" demoBackup demoConnection Hb Hc) as Hrun.
  destruct (restoring.RestoreBackup E demoHost demoWorldPurged 1%nat "c1")
    as [err w'] eqn:Heq.
  destruct Hrun as (_ & _ & Hdl & _).
  rewrite (Hdl Hgone Hre eq_refl).
  apply (f_equal fst) in Heq. vm_compute in Heq. subst err.
  reflexivity.
Defined.

(** X7.  [RestoreBackup] refuses an engine that has no restore tool, and
    does so only after the file of the backup was made available.  Of the
    engines [CreateBackup] can dump, redis is the one it refuses. *)
Theorem RestoreBackup_refuses_redis :
  forall (E : Env.t) (H : Host.t) (w : World.t) (backupID : UUID)
         (connectionID : string) (b : Backup.t) (conn : StoredConnection.t),
    restoring.GetBackup H w backupID = Ok b ->
    connection.GetConnection (Env.vault E) (World.connections w) connectionID
      = Ok conn ->
    localExists w b \/ rehydratable E w b (StoredConnection.UserID conn) ->
    (restoring.restoreTools (StoredConnection.Type_ conn) = None ->
     fst (restoring.RestoreBackup E H w backupID connectionID)
     = Some (restoring.ErrUnsupportedType (StoredConnection.Type_ conn))) /\
    (supportedType (StoredConnection.Type_ conn) = true ->
     (restoring.restoreTools (StoredConnection.Type_ conn) = None <->
      StoredConnection.Type_ conn = "redis")).
Proof.
  intros E H w backupID connectionID b conn Hb Hconn Hfile. split.
  - intros Hnone. unfold restoring.RestoreBackup. rewrite Hb, Hconn.
    pose proof (ensureBackupFileAvailable_cases E w b
                  (StoredConnection.UserID conn)) as Hcases.
    destruct (service.ensureBackupFileAvailable E w b
                (StoredConnection.UserID conn)) as [r w1].
    cbv zeta in Hcases. cbn [fst snd] in Hcases.
    destruct Hcases as (Hlocal & Hdown & _).
    assert (Hr : exists filePath isTemp, r = Ok (filePath, isTemp)).
    { destruct (World.files w !! Backup.Path b) as [sz|] eqn:Hf.
      - destruct Hlocal as [-> _]; [by exists sz|]. eauto.
      - assert (Hgone : ~ localExists w b).
        { intros [? Hl]. unfold localExists in *. congruence. }
        destruct Hfile as [Hl|Hre]; [done|].
        destruct (Hdown Hgone Hre) as [-> _]. eauto. }
    destruct Hr as (filePath & isTemp & ->).
    assert (Hfrom : restoring.restoreFrom E H w1 conn filePath
                    = Some (restoring.ErrUnsupportedType
                              (StoredConnection.Type_ conn))).
    { unfold restoring.restoreFrom, restoring.verifyRestoreTools.
      by rewrite Hnone. }
    rewrite Hfrom. by destruct isTemp.
  - unfold supportedType, restoring.restoreTools.
    destruct (String.eqb_spec (StoredConnection.Type_ conn) "postgresql")
      as [->|_]; [done|].
    destruct (String.eqb_spec (StoredConnection.Type_ conn) "mysql")
      as [->|_]; [done|].
    destruct (String.eqb_spec (StoredConnection.Type_ conn) "mariadb")
      as [->|_]; [done|].
    destruct (String.eqb_spec (StoredConnection.Type_ conn) "mongodb")
      as [->|_]; [done|].
    destruct (String.eqb_spec (StoredConnection.Type_ conn) "redis")
      as [->|_]; [done|]. done.
Qed.

(** The redis backup of the sample store: its file is on the spool, and
    the restore is refused. *)
Lemma RestoreBackup_refuses_redis_witness :
  let E := demoEnv dumpWritten false false false in
  restoring.GetBackup demoHost demoWorldRedis 5%nat = Ok demoBackupRedis /\
  connection.GetConnection (Env.vault E) (World.connections demoWorldRedis)
    "c2" = Ok demoConnectionRedis /\
  localExists demoWorldRedis demoBackupRedis /\
  fst (restoring.RestoreBackup E demoHost demoWorldRedis 5%nat "c2")
    = Some (restoring.ErrUnsupportedType "redis").
Proof.
  intros E.
  assert (Hb : restoring.GetBackup demoHost demoWorldRedis 5%nat
               = Ok demoBackupRedis) by reflexivity.
  assert (Hc : connection.GetConnection (Env.vault E)
                 (World.connections demoWorldRedis) "c2"
               = Ok demoConnectionRedis) by (vm_compute; reflexivity).
  assert (Hl : localExists demoWorldRedis demoBackupRedis).
  { exists 512. vm_compute. reflexivity. }
  split; [exact Hb|]. split; [exact Hc|]. split; [exact Hl|].
  exact (proj1 (RestoreBackup_refuses_redis E demoHost demoWorldRedis 5%nat
                  "c2" demoBackupRedis demoConnectionRedis Hb Hc (or_introl Hl))
               eq_refl).
Defined.

Arguments s3more.MoveFile : simpl never.
Arguments s3conn.UpdateBackupS3ObjectKey : simpl never.
Arguments s3conn.GetBackupsByConnectionID : simpl never.
Arguments s3conn.deleteObjectOf : simpl never.
Arguments s3conn.renameObjectOf : simpl never.

(** ** The S3 objects of a connection *)

Section ObjectKeys.

Lemma prefix_length old s :
  String.prefix old s = true -> (String.length old <= String.length s)%nat.
Proof.
  revert s. induction old as [|a old IH]; intros [|b s]; simpl;
    try done; try lia.
  destruct (Ascii.ascii_dec a b); [|done]. intros H%IH. lia.
Qed.

Lemma Contains_length s old :
  strings.Contains s old = true ->
  (String.length old <= String.length s)%nat.
Proof.
  induction s as [|c s IH].
  - destruct old; simpl; [lia|done].
  - change (strings.Contains (String c s) old)
      with (String.prefix old (String c s) || strings.Contains s old).
    intros [H%prefix_length | H%IH]%orb_true_iff; simpl in *; lia.
Qed.

Lemma prefix_app old s r :
  (String.length old <= String.length s)%nat ->
  String.prefix old (s +:+ r) = String.prefix old s.
Proof.
  revert s. induction old as [|a old IH]; intros [|b s]; simpl;
    try done; try lia.
  - by destruct r.
  - intros Hlen.
    destruct (Ascii.ascii_dec a b); [|done]. apply IH. lia.
Qed.

Lemma drop_app n s r :
  (n <= String.length s)%nat ->
  strings2.drop n (s +:+ r) = strings2.drop n s +:+ r.
Proof.
  revert s. induction n as [|n IH]; intros [|b s]; simpl; try done; try lia.
  intros Hlen. apply IH. lia.
Qed.

(** An occurrence in the front part of a string is the one replaced. *)
Lemma Replace1_app s r old new :
  strings.Contains s old = true ->
  strings2.Replace1 (s +:+ r) old new = strings2.Replace1 s old new +:+ r.
Proof.
  induction s as [|c s IH]; intros Hin.
  - destruct old as [|a old]; [|by cbn in Hin].
    change ("" +:+ r) with r.
    replace (strings2.Replace1 r "" new) with (new +:+ r) by (by destruct r).
    replace (strings2.Replace1 "" "" new) with (new +:+ "") by done.
    by rewrite append_nil_r.
  - pose proof (Contains_length _ _ Hin) as Hlen.
    change (strings.Contains (String c s) old)
      with (String.prefix old (String c s) || strings.Contains s old) in Hin.
    change (strings2.Replace1 (String c s) old new)
      with (if String.prefix old (String c s)
            then new +:+ strings2.drop (String.length old) (String c s)
            else String c (strings2.Replace1 s old new)).
    rewrite append_cons.
    change (strings2.Replace1 (String c (s +:+ r)) old new)
      with (if String.prefix old (String c (s +:+ r))
            then new +:+ strings2.drop (String.length old) (String c (s +:+ r))
            else String c (strings2.Replace1 (s +:+ r) old new)).
    rewrite <- append_cons.
    rewrite prefix_app by exact Hlen.
    destruct (String.prefix old (String c s)) eqn:Hp.
    + rewrite drop_app by exact Hlen. by rewrite append_assoc.
    + simpl in Hin. rewrite append_cons. by rewrite IH.
Qed.

End ObjectKeys.

(** X8.  The two ways of naming an object agree when there is no
    subfolder, except for a file name with a leading slash under an empty
    prefix: [getObjectKey] keeps that slash, [getObjectKeyWithPath] drops
    it.  Where they agree, [UploadFile] and [UploadFileWithPath] do the
    same. *)
Theorem getObjectKey_agrees_without_subfolder :
  forall (E : Env.t) (s : S3Storage.t) (w : World.t) (fileName localPath : string),
    (s3storage.getObjectKeyWithPath s fileName "" = s3more.getObjectKey s fileName
     <->
     S3Storage.prefix s <> "" \/ strings.TrimPrefixSlash fileName = fileName) /\
    (S3Storage.prefix s <> "" \/
     strings.TrimPrefixSlash (Env.Base E localPath) = Env.Base E localPath ->
     s3more.UploadFile E s w localPath
     = s3storage.UploadFileWithPath E s w localPath "").
Proof.
  intros E s w fileName localPath.
  assert (Hkey : forall f,
            s3storage.getObjectKeyWithPath s f "" = s3more.getObjectKey s f
            <-> S3Storage.prefix s <> "" \/ strings.TrimPrefixSlash f = f).
  { intros f. unfold s3storage.getObjectKeyWithPath, s3more.getObjectKey.
    destruct (String.eqb_spec (S3Storage.prefix s) "") as [Hp|Hp]; simpl.
    - split; [by right|]. by intros [?|?].
    - split; [by left|done]. }
  split; [apply Hkey|].
  intros Hok%Hkey.
  unfold s3more.UploadFile, s3storage.UploadFileWithPath.
  destruct (os.Stat w localPath); [|done]. by rewrite Hok.
Qed.

(** X9.  [MoveFile] copies, then deletes.  It touches no key but the two
    it is given.  When it returns an error the old object is where it
    was, so a failed move loses nothing.  When it returns none and the
    keys differ, the object is under the new key and no longer under the
    old one.  Given the same key twice, a move that goes through deletes
    the object. *)
Theorem MoveFile_copies_then_deletes :
  forall (E : Env.t) (H : Host.t) (s : S3Storage.t) (w : World.t)
         (oldKey newKey : string),
    let '(err, w') := s3more.MoveFile E H s w oldKey newKey in
    (World.backups w' = World.backups w /\ World.files w' = World.files w) /\
    (forall key, key <> oldKey -> key <> newKey ->
       World.s3 w' !! key = World.s3 w !! key) /\
    (is_Some err -> World.s3 w' !! oldKey = World.s3 w !! oldKey) /\
    (err = None -> oldKey <> newKey ->
     is_Some (World.s3 w !! oldKey) /\
     World.s3 w' !! newKey = World.s3 w !! oldKey /\
     World.s3 w' !! oldKey = None) /\
    (err = None -> oldKey = newKey -> World.s3 w' !! oldKey = None).
Proof.
  intros E H s w oldKey newKey. unfold s3more.MoveFile.
  destruct (World.s3 w !! oldKey) as [size|] eqn:Hold.
  2:{ by repeat split. }
  destruct (Host.CopyObject_fails H oldKey newKey).
  { by repeat split. }
  destruct (Env.RemoveObject_fails E oldKey).
  - split; [done|]. split; [|split; [|done]].
    + intros key _ Hn.
      change (<[newKey := size]> (World.s3 w) !! key = World.s3 w !! key).
      by rewrite lookup_insert_ne.
    + intros _.
      change (<[newKey := size]> (World.s3 w) !! oldKey = Some size).
      destruct (decide (newKey = oldKey)) as [->|Hne].
      * by rewrite lookup_insert_eq.
      * by rewrite lookup_insert_ne.
  - split; [done|].
    change (World.s3 (World.set_s3 _ _))
      with (delete oldKey (<[newKey := size]> (World.s3 w))).
    split; [|split; [|split]].
    + intros key Ho Hn. by rewrite lookup_delete_ne, lookup_insert_ne.
    + by intros [? ?].
    + intros _ Hne. split; [by eexists|].
      rewrite lookup_delete_ne, lookup_insert_eq, lookup_delete_eq by done.
      done.
    + intros _ _. by rewrite lookup_delete_eq.
Qed.

Section ConnectionObjects.
Import s3conn.

Lemma objectKey_Some b key :
  objectKey b = Some key <-> Backup.S3ObjectKey b = Some key /\ key <> "".
Proof.
  unfold objectKey. destruct (Backup.S3ObjectKey b) as [k|]; [|by split; [|intros []]].
  destruct (String.eqb_spec k "") as [->|Hk].
  - split; [done|]. by intros [[= <-] ?].
  - split; [by intros [= <-]|]. by intros [[= <-] _].
Qed.

Lemma blank_objectKey b :
  service.blank (Backup.S3ObjectKey b) = false <->
  exists key, objectKey b = Some key /\ Backup.S3ObjectKey b = Some key.
Proof.
  unfold objectKey, service.blank.
  destruct (Backup.S3ObjectKey b) as [k|]; [|by split; [|intros (? & ? & ?)]].
  destruct (String.eqb k ""); [by split; [|intros (? & ? & ?)]|].
  split; [by exists k|done].
Qed.

(** S3 is ready for a user exactly when both functions get their
    client. *)
Lemma s3Ready_client E uid :
  s3Ready E uid <->
  exists us secretKey s3Storage,
    Env.GetUserSettingsInternal E uid = Ok us /\
    s3NotConfigured us = false /\
    Env.Decrypt E (default "" (UserSettings.S3SecretKey us)) = Ok secretKey /\
    s3storage.NewS3Storage E (service.buildS3Config us secretKey)
      = Ok s3Storage.
Proof.
  unfold s3Ready, fullyConfigured, s3NotConfigured, s3storage.NewS3Storage.
  split.
  - intros (us & sk & Hus & Hen & (H1 & H2 & H3 & H4) & Hd & Hm).
    exists us, sk. rewrite Hm, Hen, H1, H2, H3, H4. eauto.
  - intros (us & sk & st & Hus & Hcfg & Hd & Hst).
    exists us, sk.
    destruct (UserSettings.S3Enabled us); [|done].
    destruct (service.blank (UserSettings.S3Endpoint us)); [done|].
    destruct (service.blank (UserSettings.S3Bucket us)); [done|].
    destruct (service.blank (UserSettings.S3AccessKey us)); [done|].
    destruct (service.blank (UserSettings.S3SecretKey us)); [done|].
    destruct (Env.minio_New_fails E _); [done|]. done.
Qed.

(** The rows [GetBackupsByConnectionID] returns. *)
Lemma GetBackupsByConnectionID_In H w cid :
  Host.sql_fails H (QGetBackupsByConnectionID cid) = false ->
  exists rows,
    GetBackupsByConnectionID H w cid = Ok rows /\
    rows ≡ₚ List.filter (fun b => String.eqb (Backup.ConnectionID b) cid)
                        (World.backups w) /\
    forall b, In b rows <->
              In b (World.backups w) /\ Backup.ConnectionID b = cid.
Proof.
  intros Hsql. unfold GetBackupsByConnectionID. rewrite Hsql.
  eexists. split; [done|].
  pose proof (merge_sort_Permutation newerFirst
                (List.filter (fun b => String.eqb (Backup.ConnectionID b) cid)
                             (World.backups w))) as Hperm.
  split; [exact Hperm|]. intros b. split.
  - intros Hin. eapply Permutation_in in Hin; [|exact Hperm].
    apply List.filter_In in Hin as [Hin Hc]. by apply String.eqb_eq in Hc.
  - intros [Hin Hc]. eapply Permutation_in; [symmetry; exact Hperm|].
    apply List.filter_In. split; [done|]. by apply String.eqb_eq.
Qed.

(** One round of the loop of the cleanup. *)
Lemma deleteObjectOf_spec E st w b :
  let w' := deleteObjectOf E st w b in
  World.backups w' = World.backups w /\ World.files w' = World.files w /\
  World.connections w' = World.connections w /\
  World.schedules w' = World.schedules w /\
  World.s3 w' =
    match objectKey b with
    | Some key => if Env.RemoveObject_fails E key then World.s3 w
                  else delete key (World.s3 w)
    | None => World.s3 w
    end.
Proof.
  cbv zeta. unfold deleteObjectOf.
  destruct (service.blank (Backup.S3ObjectKey b)) eqn:Hb; simpl.
  - replace (objectKey b) with (@None string); [done|].
    unfold objectKey, service.blank in *.
    destruct (Backup.S3ObjectKey b) as [k|]; [|done]. by rewrite Hb.
  - apply blank_objectKey in Hb as (key & -> & ->).
    unfold s3storage.DeleteFile. cbn [from_option id].
    by destruct (Env.RemoveObject_fails E key).
Qed.

Lemma deleteFold_spec E st bs : forall w,
  let w' := fold_left (deleteObjectOf E st) bs w in
  World.backups w' = World.backups w /\ World.files w' = World.files w /\
  World.connections w' = World.connections w /\
  World.schedules w' = World.schedules w /\
  (forall key,
     World.s3 w' !! key = None <->
     World.s3 w !! key = None \/
     exists b, In b bs /\ objectKey b = Some key /\
               Env.RemoveObject_fails E key = false) /\
  (forall key size,
     World.s3 w' !! key = Some size -> World.s3 w !! key = Some size).
Proof.
  induction bs as [|b bs IH]; intros w; simpl.
  - repeat split; try done; [by left|]. by intros [?|(? & [] & _)].
  - destruct (deleteObjectOf_spec E st w b) as (Hb1 & Hf1 & Hc1 & Hs1 & Hs3).
    cbv zeta in IH.
    destruct (IH (deleteObjectOf E st w b)) as (Hb & Hf & Hc & Hs & Hnone & Hsome).
    split; [congruence|]. split; [congruence|]. split; [congruence|].
    split; [congruence|]. split.
    + intros key. rewrite Hnone, Hs3. split.
      * intros [Hk | (c & Hin & Hkey & Hrm)].
        -- destruct (objectKey b) as [kb|] eqn:Hkb; [|by left].
           destruct (Env.RemoveObject_fails E kb) eqn:Hrm; [by left|].
           destruct (decide (kb = key)) as [->|Hne].
           ++ right. exists b. auto.
           ++ left. by rewrite lookup_delete_ne in Hk.
        -- right. exists c. auto.
      * intros [Hk | (c & [<- | Hin] & Hkey & Hrm)].
        -- left. destruct (objectKey b) as [kb|]; [|done].
           destruct (Env.RemoveObject_fails E kb); [done|].
           destruct (decide (kb = key)) as [->|Hne].
           ++ by rewrite lookup_delete_eq.
           ++ by rewrite lookup_delete_ne.
        -- left. rewrite Hkey, Hrm. by rewrite lookup_delete_eq.
        -- right. exists c. auto.
    + intros key size Hk. apply Hsome in Hk. rewrite Hs3 in Hk.
      destruct (objectKey b) as [kb|]; [|done].
      destruct (Env.RemoveObject_fails E kb); [done|].
      destruct (decide (kb = key)) as [->|Hne].
      * by rewrite lookup_delete_eq in Hk.
      * by rewrite lookup_delete_ne in Hk.
Qed.

End ConnectionObjects.

(** X10.  [CleanupS3BackupsForConnection] works on the bucket only: the
    backup records, the spool, the connections and the schedules are left
    alone.  An object is gone afterwards exactly when it was not there
    before, or S3 is ready for the owner of the connection and the key is
    the object key of a backup of this connection (of any status, and
    whatever the retention flag of the connection says) and the endpoint
    deleted it.  No object appears or changes.  With S3 ready the call
    returns no error, failed deletions included. *)
Theorem CleanupS3BackupsForConnection_deletes_objects :
  forall (E : Env.t) (H : Host.t) (w : World.t) (connectionID : string)
         (conn : StoredConnection.t),
    Host.sql_fails H (QGetBackupsByConnectionID connectionID) = false ->
    connection.GetConnection (Env.vault E) (World.connections w) connectionID
      = Ok conn ->
    let '(err, w') :=
      s3conn.CleanupS3BackupsForConnection E H w connectionID in
    (World.backups w' = World.backups w /\ World.files w' = World.files w /\
     World.connections w' = World.connections w /\
     World.schedules w' = World.schedules w) /\
    (forall key,
       World.s3 w' !! key = None <->
       World.s3 w !! key = None \/
       (s3Ready E (StoredConnection.UserID conn) /\
        exists b, In b (World.backups w) /\
                  Backup.ConnectionID b = connectionID /\
                  objectKey b = Some key /\
                  Env.RemoveObject_fails E key = false)) /\
    (forall key size,
       World.s3 w' !! key = Some size -> World.s3 w !! key = Some size) /\
    (s3Ready E (StoredConnection.UserID conn) -> err = None).
Proof.
  intros E H w cid conn Hsql Hconn.
  unfold s3conn.CleanupS3BackupsForConnection.
  destruct (GetBackupsByConnectionID_In H w cid Hsql) as (rows & -> & _ & Hrows).
  assert (Hsame :
            (~ s3Ready E (StoredConnection.UserID conn) \/ rows = []) ->
            forall key,
              World.s3 w !! key = None <->
              World.s3 w !! key = None \/
              (s3Ready E (StoredConnection.UserID conn) /\
               exists b, In b (World.backups w) /\
                         Backup.ConnectionID b = cid /\
                         objectKey b = Some key /\
                         Env.RemoveObject_fails E key = false)).
  { intros Hno key. split; [by left|].
    intros [Hk | (Hready & b & Hin & Hc & _)]; [done|].
    destruct Hno as [Hno | ->]; [done|].
    exfalso. by apply (proj2 (Hrows b)). }
  destruct rows as [|r rows]; cbn [length Nat.eqb].
  { split; [done|]. split; [by apply Hsame; right|]. done. }
  rewrite Hconn.
  destruct (Env.GetUserSettingsInternal E (StoredConnection.UserID conn))
    as [us|e] eqn:Hus.
  2:{ assert (Hno : ~ s3Ready E (StoredConnection.UserID conn)).
      { intros (? & ? & ? & ? & ? & _)%s3Ready_client. congruence. }
      split; [done|]. split; [by apply Hsame; left|]. done. }
  destruct (s3conn.s3NotConfigured us) eqn:Hcfg.
  { assert (Hno : ~ s3Ready E (StoredConnection.UserID conn)).
    { intros (? & ? & ? & ? & ? & _)%s3Ready_client. congruence. }
    split; [done|]. split; [by apply Hsame; left|]. done. }
  destruct (Env.Decrypt E _) as [sk|e] eqn:Hd.
  2:{ assert (Hno : ~ s3Ready E (StoredConnection.UserID conn)).
      { intros (? & ? & ? & ? & ? & ? & _)%s3Ready_client. congruence. }
      split; [done|]. split; [by apply Hsame; left|]. done. }
  destruct (s3storage.NewS3Storage E _) as [st|e] eqn:Hst.
  2:{ assert (Hno : ~ s3Ready E (StoredConnection.UserID conn)).
      { intros (us' & sk' & st' & Hus' & _ & Hd' & Hst')%s3Ready_client.
        rewrite Hus in Hus'. injection Hus' as <-.
        rewrite Hd in Hd'. injection Hd' as <-. congruence. }
      split; [done|]. split; [by apply Hsame; left|]. done. }
  assert (Hready : s3Ready E (StoredConnection.UserID conn)).
  { apply s3Ready_client. by exists us, sk, st. }
  destruct (deleteFold_spec E st (r :: rows) w)
    as (Hb & Hf & Hc & Hs & Hnone & Hsome).
  split; [done|]. split; [|done].
  intros key. rewrite Hnone. split.
  - intros [Hk | (b & Hin & Hkey & Hrm)]; [by left|].
    right. split; [done|]. apply Hrows in Hin as [Hin Hcid]. eauto.
  - intros [Hk | (_ & b & Hin & Hcid & Hkey & Hrm)]; [by left|].
    right. exists b. split; [|done]. apply Hrows. done.
Qed.

(** With S3 ready for the sample user the cleanup of the retention store
    returns no error and the object of the old backup is gone. *)
Lemma CleanupS3BackupsForConnection_deletes_objects_witness :
  let E := demoEnv dumpWritten false false false in
  Host.sql_fails demoHost (QGetBackupsByConnectionID "c1") = false /\
  connection.GetConnection (Env.vault E) (World.connections demoWorldRetention)
    "c1" = Ok demoConnection /\
  fst (s3conn.CleanupS3BackupsForConnection E demoHost demoWorldRetention "c1")
    = None /\
  World.s3 (snd (s3conn.CleanupS3BackupsForConnection E demoHost
                   demoWorldRetention "c1")) !! "p/pg1/shop_old.sql" = None.
Proof.
  intros E.
  assert (Hc : connection.GetConnection (Env.vault E)
                 (World.connections demoWorldRetention) "c1"
               = Ok demoConnection) by (vm_compute; reflexivity).
  split; [reflexivity|]. split; [exact Hc|].
  assert (Hready : s3Ready E (StoredConnection.UserID demoConnection)).
  { exists demoSettings, "s". repeat split; reflexivity. }
  pose proof (CleanupS3BackupsForConnection_deletes_objects E demoHost
                demoWorldRetention "c1" demoConnection eq_refl Hc) as Hrun.
  destruct (s3conn.CleanupS3BackupsForConnection E demoHost
              demoWorldRetention "c1") as [err w'].
  destruct Hrun as (_ & Hnone & _ & Herr).
  split; [by apply Herr|].
  apply Hnone. right. split; [exact Hready|].
  exists demoOld. split; [by left|]. repeat split; reflexivity.
Defined.

Section Rename.
Import s3conn.
Variables (E : Env.t) (H : Host.t) (st : S3Storage.t).
Variables (oldFolder newFolder : string).

Let rename (k : string) : string :=
  strings2.Replace1 k oldFolder newFolder.

Hypothesis Hsql :
  forall id, Host.sql_fails H (XUpdateBackupS3ObjectKey id) = false.

Lemma find_setKey id key id' rows :
  List.find (fun b => Nat.eqb (Backup.ID b) id') (map (setKey E id key) rows)
  = setKey E id key <$>
    List.find (fun b => Nat.eqb (Backup.ID b) id') rows.
Proof.
  induction rows as [|r rows IH]; [done|]. simpl.
  assert (Hid : Backup.ID (setKey E id key r) = Backup.ID r).
  { unfold setKey. by destruct (Nat.eqb (Backup.ID r) id). }
  rewrite Hid. by destruct (Nat.eqb (Backup.ID r) id').
Qed.

Lemma map_ID_setKey id key rows :
  map Backup.ID (map (setKey E id key) rows) = map Backup.ID rows.
Proof.
  rewrite map_map. apply map_ext. intros r. unfold setKey.
  by destruct (Nat.eqb (Backup.ID r) id).
Qed.

(** One round of the loop of the rename: nothing, or the copy alone, or
    the move with the record updated. *)
Lemma renameObjectOf_spec w b :
  let w' := renameObjectOf E H st oldFolder newFolder w b in
  World.files w' = World.files w /\
  World.connections w' = World.connections w /\
  World.schedules w' = World.schedules w /\
  (w' = w \/
   exists k size,
     objectKey b = Some k /\ rename k <> k /\
     World.s3 w !! k = Some size /\
     ((World.backups w' = World.backups w /\
       World.s3 w' = <[rename k := size]> (World.s3 w))
      \/
      (World.backups w' = map (setKey E (Backup.ID b) (rename k))
                              (World.backups w) /\
       World.s3 w' = delete k (<[rename k := size]> (World.s3 w))))) /\
  (forall k,
     objectKey b = Some k -> rename k <> k ->
     is_Some (World.s3 w !! k) ->
     Host.CopyObject_fails H k (rename k) = false ->
     Env.RemoveObject_fails E k = false ->
     World.backups w' = map (setKey E (Backup.ID b) (rename k))
                            (World.backups w) /\
     exists size, World.s3 w !! k = Some size /\
       World.s3 w' = delete k (<[rename k := size]> (World.s3 w))).
Proof.
  cbv zeta. unfold renameObjectOf.
  destruct (service.blank (Backup.S3ObjectKey b)) eqn:Hb.
  { do 3 (split; [done|]). split; [by left|].
    intros k Hk. exfalso.
    apply objectKey_Some in Hk as [Hk Hne]. rewrite Hk in Hb.
    simpl in Hb. by apply String.eqb_neq in Hne; rewrite Hne in Hb. }
  apply blank_objectKey in Hb as (k & Hkey & Hk). rewrite Hk.
  cbn [from_option id]. fold (rename k).
  destruct (String.eqb_spec k (rename k)) as [Heq|Hne].
  { do 3 (split; [done|]). split; [by left|].
    intros k' Hk'. rewrite Hkey in Hk'. injection Hk' as <-. congruence. }
  unfold s3more.MoveFile.
  destruct (World.s3 w !! k) as [size|] eqn:Hobj.
  2:{ do 3 (split; [done|]). split; [by left|].
      intros k' Hk'. rewrite Hkey in Hk'. injection Hk' as <-.
      rewrite Hobj. by intros _ [? ?]. }
  destruct (Host.CopyObject_fails H k (rename k)) eqn:Hcopy.
  { do 3 (split; [done|]). split; [by left|].
    intros k' Hk'. rewrite Hkey in Hk'. injection Hk' as <-. congruence. }
  destruct (Env.RemoveObject_fails E k) eqn:Hrm.
  { do 3 (split; [done|]). split.
    - right. exists k, size.
      split; [done|]. split; [congruence|]. split; [done|]. by left.
    - intros k' Hk'. rewrite Hkey in Hk'. injection Hk' as <-. congruence. }
  unfold UpdateBackupS3ObjectKey. rewrite Hsql. cbn [snd].
  do 3 (split; [done|]). split.
  - right. exists k, size.
    split; [done|]. split; [congruence|]. split; [done|]. by right.
  - intros k' Hk'. rewrite Hkey in Hk'. injection Hk' as <-.
    intros _ _ _ _. split; [done|]. by exists size.
Qed.

Variables (w0 : World.t) (rows : list Backup.t).
Hypothesis Hrows : forall b, In b rows -> In b (World.backups w0).
Hypothesis Hnodup : List.NoDup (map Backup.ID (World.backups w0)).
Hypothesis Hapart : keysApart rows rename.

Lemma keyOfRecord_start b :
  In b (World.backups w0) ->
  keyOfRecord w0 (Backup.ID b) = Backup.S3ObjectKey b.
Proof.
  intros Hin. unfold keyOfRecord.
  destruct (List.find _ _) as [c|] eqn:Hfind.
  - apply List.find_some in Hfind as [Hc Hid]. apply Nat.eqb_eq in Hid.
    by rewrite (NoDup_ID_inj _ c b Hnodup Hc Hin Hid).
  - eapply List.find_none in Hfind; [|exact Hin].
    by rewrite Nat.eqb_refl in Hfind.
Qed.

Lemma renameInv_start : renameInv E H rename w0 rows rows w0.
Proof.
  do 4 (split; [done|]). intros b k Hin Hk. exists k.
  rewrite (keyOfRecord_start b (Hrows b Hin)).
  apply objectKey_Some in Hk as [Hk _].
  split; [done|]. split; [by left|]. split; [done|]. split; [done|].
  by intros Hn _.
Qed.

Lemma renameInv_step b rest w :
  List.NoDup (map Backup.ID (b :: rest)) ->
  (forall c, In c (b :: rest) -> In c rows) ->
  renameInv E H rename w0 rows (b :: rest) w ->
  renameInv E H rename w0 rows rest
            (renameObjectOf E H st oldFolder newFolder w b).
Proof.
  intros Hnd Hsub (Hids & Hf & Hc & Hs & Hinv).
  destruct (renameObjectOf_spec w b) as (Hf' & Hc' & Hs' & Hcases & Hmoves).
  cbv zeta in Hcases, Hmoves.
  set (w' := renameObjectOf E H st oldFolder newFolder w b) in *.
  assert (Hb : In b rows) by (apply Hsub; by left).
  assert (Hbrest : ~ In b rest).
  { inversion Hnd as [|? ? Hnotin _]; subst. intros Hin. apply Hnotin.
    by apply in_map. }
  split; [|split; [congruence|split; [congruence|split; [congruence|]]]].
  { destruct Hcases as [-> | (k & size & _ & _ & _ & [[-> _] | [-> _]])];
      [done|done|]. by rewrite map_ID_setKey. }
  intros c kc Hcin Hkc.
  destruct (Hinv c kc Hcin Hkc) as (k' & Hrec & Hk' & Hobj & Hrest & Hdone).
  destruct (decide (Backup.ID c = Backup.ID b)) as [Hsame|Hid].
  - (* the record of this round *)
    assert (c = b) as -> by (apply (NoDup_ID_inj _ c b Hnodup); auto).
    assert (k' = kc) as -> by (apply Hrest; by left).
    destruct Hcases as [Hw | (k & size & Hk & Hne & Hsz & Hcase)].
    + exists kc. rewrite Hw. split; [done|]. split; [by left|].
      split; [done|]. split; [done|].
      intros _ (Hne & Hthere & Hcopy & Hrm). exfalso.
      rewrite <- Hobj in Hthere.
      destruct (Hmoves kc Hkc Hne Hthere Hcopy Hrm) as (_ & sz & Hsz & Hs3).
      rewrite Hw in Hs3. rewrite Hs3, lookup_delete_eq in Hsz. done.
    + rewrite Hkc in Hk. injection Hk as <-.
      destruct Hcase as [[Hbk Hs3] | [Hbk Hs3]].
      * assert (Hnomove : ~ moveGoesThrough E H w0 rename kc).
        { intros (_ & Hthere & Hcopy & Hrm). rewrite <- Hobj in Hthere.
          destruct (Hmoves kc Hkc Hne Hthere Hcopy Hrm)
            as (_ & sz & _ & Hs3').
          assert (Hgone : World.s3 w' !! kc = None)
            by (rewrite Hs3'; apply lookup_delete_eq).
          rewrite Hs3, lookup_insert_ne, Hsz in Hgone; done. }
        exists kc. split; [unfold keyOfRecord in *; by rewrite Hbk|].
        split; [by left|].
        split; [by rewrite Hs3, lookup_insert_ne|].
        split; [done|]. by intros _ Hmv.
      * exists (rename kc). split.
        { unfold keyOfRecord in *. rewrite Hbk, find_setKey.
          destruct (List.find _ _) as [r|] eqn:Hfind; [|done]. simpl.
          apply List.find_some in Hfind as [_ Hid].
          unfold setKey. by rewrite Hid. }
        split; [by right|].
        split.
        { rewrite Hs3, lookup_delete_ne, lookup_insert_eq by done.
          by rewrite <- Hobj. }
        split; [done|]. intros _ _. split; [done|].
        rewrite Hs3. apply lookup_delete_eq.
  - (* another record *)
    assert (Hcb : c <> b) by congruence.
    assert (Hkeep : keyOfRecord w' (Backup.ID c) = keyOfRecord w (Backup.ID c)).
    { destruct Hcases as [-> | (k & size & _ & _ & _ & [[Hbk _] | [Hbk _]])];
        [done| |].
      - unfold keyOfRecord. by rewrite Hbk.
      - unfold keyOfRecord. rewrite Hbk, find_setKey.
        destruct (List.find _ _) as [r|] eqn:Hfind; [|done]. simpl.
        apply List.find_some in Hfind as [_ Hr]. apply Nat.eqb_eq in Hr.
        unfold setKey.
        destruct (Nat.eqb_spec (Backup.ID r) (Backup.ID b)); [congruence|done]. }
    assert (Hs3keep : forall key,
              (forall k, objectKey b = Some k -> key <> k /\ key <> rename k) ->
              World.s3 w' !! key = World.s3 w !! key).
    { intros key Hkey.
      destruct Hcases as [-> | (k & size & Hk & _ & _ & [[_ Hs3] | [_ Hs3]])];
        [done| |]; destruct (Hkey k Hk) as [H1 H2]; rewrite Hs3.
      - by rewrite lookup_insert_ne.
      - by rewrite lookup_delete_ne, lookup_insert_ne. }
    assert (Hfar : forall k, objectKey b = Some k ->
                     (kc <> k /\ kc <> rename k) /\
                     (rename kc <> k /\ rename kc <> rename k)).
    { intros k Hk.
      destruct (Hapart b c k kc Hb Hcin ltac:(congruence) Hk Hkc)
        as (H1 & H2 & H3).
      destruct (Hapart c b kc k Hcin Hb Hid Hkc Hk) as (H4 & H5 & H6).
      repeat split; congruence. }
    exists k'. rewrite Hkeep. split; [done|]. split; [done|].
    split; [|split].
    + rewrite Hs3keep; [done|]. intros k Hk.
      destruct (Hfar k Hk) as [[? ?] [? ?]]. by destruct Hk' as [->| ->].
    + intros Hin. apply Hrest. by right.
    + intros Hnot Hmv. destruct Hdone as [-> Hgone]; [|done|].
      { intros [<- | Hin]; [done|]. by apply Hnot. }
      split; [done|]. rewrite Hs3keep; [done|]. intros k Hk.
      by destruct (Hfar k Hk) as [[? ?] _].
Qed.

Lemma renameInv_fold rest : forall w,
  List.NoDup (map Backup.ID rest) ->
  (forall c, In c rest -> In c rows) ->
  renameInv E H rename w0 rows rest w ->
  renameInv E H rename w0 rows []
            (fold_left (renameObjectOf E H st oldFolder newFolder) rest w).
Proof.
  induction rest as [|b rest IH]; intros w Hnd Hsub Hinv; [done|].
  simpl. apply IH.
  - by inversion Hnd.
  - intros c Hc. apply Hsub. by right.
  - by apply renameInv_step.
Qed.

End Rename.

Lemma NoDup_map_filter {A B} (f : A -> B) (p : A -> bool) l :
  List.NoDup (map f l) -> List.NoDup (map f (List.filter p l)).
Proof.
  induction l as [|x l IH]; simpl; [done|].
  intros Hnd. inversion Hnd as [|? ? Hnotin Hnd']; subst.
  destruct (p x); simpl; [|by apply IH].
  constructor; [|by apply IH].
  intros Hin. apply Hnotin. apply in_map_iff in Hin as (y & <- & Hy).
  apply in_map. by apply List.filter_In in Hy as [? _].
Qed.

(** X11.  [RenameS3FolderForConnection] keeps every record of the
    connection pointing at its object, provided the records have different
    ids, their keys do not collide under the rename and the updates of the
    records go through: afterwards a record has its old key or the renamed
    one, and the bucket holds under that key what it held under the old
    key before.  Where S3 is ready, the folder names differ and the move
    of an object goes through, the record has the renamed key and the old
    key is gone.  The spool, the connections, the schedules and the ids of
    the records are as before. *)
Theorem RenameS3FolderForConnection_keeps_objects :
  forall (E : Env.t) (H : Host.t) (w : World.t)
         (connectionID oldName newName : string),
    let rename := fun key =>
      strings2.Replace1 key (Env.SanitizeConnectionName E oldName)
                        (Env.SanitizeConnectionName E newName) in
    Host.sql_fails H (QGetBackupsByConnectionID connectionID) = false ->
    (forall id, Host.sql_fails H (XUpdateBackupS3ObjectKey id) = false) ->
    List.NoDup (map Backup.ID (World.backups w)) ->
    keysApart (List.filter
                 (fun b => String.eqb (Backup.ConnectionID b) connectionID)
                 (World.backups w)) rename ->
    let '(err, w') :=
      s3conn.RenameS3FolderForConnection E H w connectionID oldName newName in
    (World.files w' = World.files w /\
     World.connections w' = World.connections w /\
     World.schedules w' = World.schedules w /\
     map Backup.ID (World.backups w') = map Backup.ID (World.backups w)) /\
    (forall b k,
       In b (World.backups w) -> Backup.ConnectionID b = connectionID ->
       objectKey b = Some k ->
       exists k',
         keyOfRecord w' (Backup.ID b) = Some k' /\
         (k' = k \/ k' = rename k) /\
         World.s3 w' !! k' = World.s3 w !! k /\
         (forall conn,
            connection.GetConnection (Env.vault E) (World.connections w)
              connectionID = Ok conn ->
            s3Ready E (StoredConnection.UserID conn) ->
            Env.SanitizeConnectionName E oldName
              <> Env.SanitizeConnectionName E newName ->
            moveGoesThrough E H w rename k ->
            k' = rename k /\ World.s3 w' !! k = None)).
Proof.
  intros E H w cid oldName newName rename Hget Hsql Hnodup Hapart.
  unfold s3conn.RenameS3FolderForConnection.
  destruct (GetBackupsByConnectionID_In H w cid Hget)
    as (rows & -> & Hperm & Hrows).
  (* a run that leaves the world as it is *)
  assert (Hsame :
    (forall b conn,
       In b rows ->
       connection.GetConnection (Env.vault E) (World.connections w) cid
         = Ok conn ->
       s3Ready E (StoredConnection.UserID conn) ->
       Env.SanitizeConnectionName E oldName
         <> Env.SanitizeConnectionName E newName -> False) ->
    (World.files w = World.files w /\
     World.connections w = World.connections w /\
     World.schedules w = World.schedules w /\
     map Backup.ID (World.backups w) = map Backup.ID (World.backups w)) /\
    (forall b k,
       In b (World.backups w) -> Backup.ConnectionID b = cid ->
       objectKey b = Some k ->
       exists k',
         keyOfRecord w (Backup.ID b) = Some k' /\
         (k' = k \/ k' = rename k) /\
         World.s3 w !! k' = World.s3 w !! k /\
         (forall conn,
            connection.GetConnection (Env.vault E) (World.connections w) cid
              = Ok conn ->
            s3Ready E (StoredConnection.UserID conn) ->
            Env.SanitizeConnectionName E oldName
              <> Env.SanitizeConnectionName E newName ->
            moveGoesThrough E H w rename k ->
            k' = rename k /\ World.s3 w !! k = None))).
  { intros Hno. split; [done|]. intros b k Hin Hcid Hk. exists k.
    rewrite (keyOfRecord_start w Hnodup b Hin).
    apply objectKey_Some in Hk as [Hk _].
    split; [done|]. split; [by left|]. split; [done|].
    intros conn Hc Hready Hne _. exfalso.
    apply (Hno b conn); auto. apply Hrows. done. }
  destruct rows as [|r rows]; cbn [length Nat.eqb].
  { apply Hsame. by intros b conn []. }
  destruct (connection.GetConnection _ _ cid) as [conn|e] eqn:Hconn.
  2:{ apply Hsame. by intros. }
  destruct (Env.GetUserSettingsInternal E (StoredConnection.UserID conn))
    as [us|e] eqn:Hus.
  2:{ apply Hsame. intros b conn' _ [= <-] Hready _.
      apply s3Ready_client in Hready as (? & ? & ? & ? & _). congruence. }
  destruct (s3conn.s3NotConfigured us) eqn:Hcfg.
  { apply Hsame. intros b conn' _ [= <-] Hready _.
    apply s3Ready_client in Hready as (? & ? & ? & ? & ? & _). congruence. }
  destruct (Env.Decrypt E _) as [sk|e] eqn:Hd.
  2:{ apply Hsame. intros b conn' _ [= <-] Hready _.
      apply s3Ready_client in Hready as (? & ? & ? & ? & ? & ? & _).
      congruence. }
  destruct (s3storage.NewS3Storage E _) as [st|e] eqn:Hst.
  2:{ apply Hsame. intros b conn' _ [= <-] Hready _.
      apply s3Ready_client in Hready
        as (us' & sk' & st' & Hus' & _ & Hd' & Hst').
      rewrite Hus in Hus'. injection Hus' as <-.
      rewrite Hd in Hd'. injection Hd' as <-. congruence. }
  destruct (String.eqb_spec (Env.SanitizeConnectionName E oldName)
                            (Env.SanitizeConnectionName E newName))
    as [Heq|Hne].
  { apply Hsame. by intros. }
  (* the loop *)
  assert (Hsub : forall b, In b (r :: rows) -> In b (World.backups w)).
  { intros b Hb. by apply Hrows in Hb as [? _]. }
  assert (Hnd : List.NoDup (map Backup.ID (r :: rows))).
  { eapply Permutation_NoDup.
    - apply Permutation_map. symmetry. exact Hperm.
    - by apply NoDup_map_filter. }
  assert (Hapart' : keysApart (r :: rows) rename).
  { intros b c k kc Hb Hc. apply Hapart.
    - apply List.filter_In. apply Hrows in Hb as [? ->].
      split; [done|]. apply String.eqb_refl.
    - apply List.filter_In. apply Hrows in Hc as [? ->].
      split; [done|]. apply String.eqb_refl. }
  pose proof (renameInv_fold E H st _ _ Hsql w (r :: rows) Hsub Hnodup Hapart'
                (r :: rows) w Hnd ltac:(done)
                (renameInv_start E H _ _ w (r :: rows) Hsub Hnodup))
    as (Hids & Hf & Hc & Hs & Hinv).
  split; [done|]. intros b k Hin Hcid Hk.
  destruct (Hinv b k ltac:(by apply Hrows) Hk)
    as (k' & Hrec & Hk' & Hobj & _ & Hdone).
  exists k'. split; [done|]. split; [done|]. split; [done|].
  intros conn' _ _ _ Hmv. apply Hdone; [by intros []|done].
Qed.

(** The sample connection renamed from pg1 to pg2: the hypotheses hold,
    the record has the key under the new folder, and the object is there
    and no longer under the old key. *)
Lemma RenameS3FolderForConnection_keeps_objects_witness :
  let E := demoEnv dumpWritten false false false in
  let w' := snd (s3conn.RenameS3FolderForConnection E demoHost demoWorldPurged
                   "c1" "pg1" "pg2") in
  List.NoDup (map Backup.ID (World.backups demoWorldPurged)) /\
  keyOfRecord w' 1%nat = Some "p/pg2/shop_20251114_120000.sql" /\
  World.s3 w' !! "p/pg2/shop_20251114_120000.sql" = Some 2048 /\
  World.s3 w' !! "p/pg1/shop_20251114_120000.sql" = None.
Proof.
  intros E w'.
  assert (Hnd : List.NoDup (map Backup.ID (World.backups demoWorldPurged))).
  { repeat constructor. by intros []. }
  split; [exact Hnd|].
  set (rename := fun key => strings2.Replace1 key
                   (Env.SanitizeConnectionName E "pg1")
                   (Env.SanitizeConnectionName E "pg2")).
  assert (Hapart : keysApart
            (List.filter (fun b => String.eqb (Backup.ConnectionID b) "c1")
                         (World.backups demoWorldPurged)) rename).
  { intros b c k kc [<-|[]] [<-|[]] Hne. done. }
  pose proof (RenameS3FolderForConnection_keeps_objects E demoHost
                demoWorldPurged "c1" "pg1" "pg2" eq_refl
                (fun _ => eq_refl) Hnd Hapart) as Hrun.
  subst w'.
  destruct (s3conn.RenameS3FolderForConnection E demoHost demoWorldPurged
              "c1" "pg1" "pg2") as [err w'].
  destruct Hrun as (_ & Hkeys).
  destruct (Hkeys demoBackup "p/pg1/shop_20251114_120000.sql"
              ltac:(by left) eq_refl eq_refl)
    as (k' & Hrec & _ & Hobj & Hmoved).
  destruct (Hmoved demoConnection) as [-> Hgone].
  - vm_compute. reflexivity.
  - exists demoSettings, "s". repeat split; reflexivity.
  - discriminate.
  - split; [discriminate|]. split; [by eexists|]. split; reflexivity.
  - assert (Hk : strings2.Replace1 "p/pg1/shop_20251114_120000.sql"
                   (Env.SanitizeConnectionName E "pg1")
                   (Env.SanitizeConnectionName E "pg2")
                 = "p/pg2/shop_20251114_120000.sql") by reflexivity.
    rewrite Hk in Hrec, Hobj.
    cbn [snd]. split; [exact Hrec|]. split; [|exact Hgone].
    rewrite Hobj. reflexivity.
Defined.

(** X12.  The new key of [RenameS3FolderForConnection] is the old key
    with the leftmost occurrence of the old folder name replaced.  For a
    key that [getObjectKeyWithPath] built under a prefix that contains
    the old folder name, that occurrence lies in the prefix: a move that
    goes through puts the object under the rewritten prefix, still in the
    old folder, and the record follows it there. *)
Theorem renameObjectOf_rewrites_the_prefix :
  forall (E : Env.t) (H : Host.t) (st s : S3Storage.t) (w : World.t)
         (b : Backup.t) (fileName oldFolder newFolder : string),
    let key := s3storage.getObjectKeyWithPath s fileName oldFolder in
    let newKey :=
      strings2.Replace1 (strings.TrimSuffixSlash (S3Storage.prefix s))
                        oldFolder newFolder
      +:+ "/" +:+ strings.TrimSlashes oldFolder
      +:+ "/" +:+ strings.TrimPrefixSlash fileName in
    (forall id, Host.sql_fails H (XUpdateBackupS3ObjectKey id) = false) ->
    S3Storage.prefix s <> "" -> oldFolder <> "" ->
    strings.Contains (strings.TrimSuffixSlash (S3Storage.prefix s)) oldFolder
      = true ->
    objectKey b = Some key ->
    newKey <> key ->
    is_Some (World.s3 w !! key) ->
    Host.CopyObject_fails H key newKey = false ->
    Env.RemoveObject_fails E key = false ->
    let w' := s3conn.renameObjectOf E H st oldFolder newFolder w b in
    strings2.Replace1 key oldFolder newFolder = newKey /\
    World.backups w' =
      map (s3conn.setKey E (Backup.ID b) newKey) (World.backups w) /\
    World.s3 w' !! newKey = World.s3 w !! key /\
    World.s3 w' !! key = None.
Proof.
  intros E H st s w b fileName oldFolder newFolder key newKey
         Hsql Hp Hold Hin Hkey Hne Hobj Hcopy Hrm w'.
  assert (Hnew : strings2.Replace1 key oldFolder newFolder = newKey).
  { unfold key, newKey, s3storage.getObjectKeyWithPath.
    apply String.eqb_neq in Hp, Hold. rewrite Hp, Hold. simpl.
    by rewrite Replace1_app. }
  split; [exact Hnew|].
  destruct (renameObjectOf_spec E H st oldFolder newFolder Hsql w b)
    as (_ & _ & _ & _ & Hmoves).
  pose proof (Hmoves key Hkey) as Hm. cbv beta zeta in Hm.
  rewrite Hnew in Hm.
  destruct (Hm Hne Hobj Hcopy Hrm) as (Hbk & size & Hsz & Hs3).
  split; [exact Hbk|]. fold w' in Hs3. rewrite Hs3. split.
  - rewrite lookup_delete_ne, lookup_insert_eq by done. done.
  - apply lookup_delete_eq.
Qed.

(** A connection named "back" under the prefix "backups", renamed to
    "front": the object moves to frontups/back/shop.sql. *)
Lemma renameObjectOf_rewrites_the_prefix_witness :
  let E := demoEnv dumpWritten false false false in
  let s := S3Storage.mk "b" "backups" in
  let w' := s3conn.renameObjectOf E demoHost s "back" "front"
              demoWorldPrefixed demoBackupPrefixed in
  s3storage.getObjectKeyWithPath s "shop.sql" "back" = "backups/back/shop.sql" /\
  keyOfRecord w' 8%nat = Some "frontups/back/shop.sql" /\
  World.s3 w' !! "frontups/back/shop.sql" = Some 2048 /\
  World.s3 w' !! "backups/back/shop.sql" = None.
Proof.
  intros E s w'. split; [reflexivity|].
  destruct (renameObjectOf_rewrites_the_prefix E demoHost s s
              demoWorldPrefixed demoBackupPrefixed "shop.sql" "back" "front"
              (fun _ => eq_refl) ltac:(discriminate) ltac:(discriminate)
              eq_refl eq_refl ltac:(discriminate) ltac:(by eexists)
              eq_refl eq_refl) as (_ & Hbk & Hnew & Hold).
  fold w' in Hbk, Hnew, Hold.
  split; [|split; [exact Hnew|exact Hold]].
  unfold keyOfRecord. rewrite Hbk. reflexivity.
Defined.

Arguments scheduler.removeEntry : simpl never.
Arguments service.AddFunc : simpl never.
Arguments repo.UpdateBackupSchedule : simpl never.
Arguments repo.CreateBackupSchedule : simpl never.
Arguments repo.GetBackupSchedule : simpl never.

(** ** The cron jobs of the schedules *)

Section CronJobs.
Import scheduler.

Ltac wfields :=
  unfold World.set_cron, World.set_schedules, World.set_backups;
  cbn [World.connections World.schedules World.backups World.files World.s3
       World.uuids World.cronEntries World.cronJobs World.nextEntry].

Lemma latest_In rows : forall best r,
  repo.latest best rows = Some r -> best = Some r \/ In r rows.
Proof.
  induction rows as [|x rows IH]; intros best r; simpl; [by left|].
  destruct best as [b|].
  - destruct (BackupSchedule.CreatedAt b <? BackupSchedule.CreatedAt x).
    + intros [[= <-] | Hin]%IH; right; [by left|by right].
    + intros [? | Hin]%IH; [by left|right; by right].
  - intros [[= <-] | Hin]%IH; right; [by left|by right].
Qed.

Lemma GetBackupSchedule_In E w cid r :
  repo.GetBackupSchedule E w cid = Ok r ->
  In r (World.schedules w) /\ BackupSchedule.ConnectionID r = cid.
Proof.
  unfold repo.GetBackupSchedule.
  destruct (Env.db_fails E _); [done|].
  destruct (repo.latest None _) as [x|] eqn:Hl; [|done].
  intros [= <-]. apply latest_In in Hl as [Hl|Hin]; [done|].
  apply List.filter_In in Hin as [Hin Hc]. by apply String.eqb_eq in Hc.
Qed.

Lemma UpdateBackupSchedule_fields E w s :
  let w' := snd (repo.UpdateBackupSchedule E w s) in
  World.cronEntries w' = World.cronEntries w /\
  World.cronJobs w' = World.cronJobs w /\
  World.nextEntry w' = World.nextEntry w /\
  World.uuids w' = World.uuids w /\
  World.backups w' = World.backups w /\
  World.files w' = World.files w /\
  World.s3 w' = World.s3 w /\
  World.connections w' = World.connections w /\
  map BackupSchedule.ID (World.schedules w')
  = map BackupSchedule.ID (World.schedules w).
Proof.
  cbv zeta. unfold repo.UpdateBackupSchedule.
  destruct (Env.db_fails E _); [done|]. cbn [snd]. wfields.
  repeat split. rewrite map_map. apply map_ext. intros r.
  unfold repo.updateRow. by destruct (Nat.eqb _ _).
Qed.

(** A world that differs from a sound one in its stores only, with the
    same schedule ids, is sound. *)
Lemma cronSound_same w w' :
  cronSound w ->
  World.cronEntries w' = World.cronEntries w ->
  World.cronJobs w' = World.cronJobs w ->
  World.nextEntry w' = World.nextEntry w ->
  (World.uuids w <= World.uuids w')%nat ->
  (forall r, In r (World.schedules w') ->
     (BackupSchedule.ID r < World.uuids w')%nat) ->
  cronSound w'.
Proof.
  intros (H1 & H2 & H3 & H4 & H5 & H6) He Hj Hn Hu Hs.
  unfold cronSound. rewrite He, Hj, Hn.
  split; [done|]. split; [done|]. split; [done|]. split; [done|].
  split; [|done].
  intros e spec sid Hjob. specialize (H5 e spec sid Hjob). lia.
Qed.

Lemma In_map_ID (rows rows' : list BackupSchedule.t) (n : nat) :
  map BackupSchedule.ID rows' = map BackupSchedule.ID rows ->
  (forall r, In r rows -> (BackupSchedule.ID r < n)%nat) ->
  forall r, In r rows' -> (BackupSchedule.ID r < n)%nat.
Proof.
  intros Hmap Hall r Hin.
  apply (in_map BackupSchedule.ID) in Hin. rewrite Hmap in Hin.
  apply in_map_iff in Hin as (x & <- & Hx). by apply Hall.
Qed.

(** Removing the entry of a schedule, with or without forgetting it,
    leaves no job for the schedule. *)
Lemma removeEntry_sound w sid :
  cronSound w ->
  cronSound (removeEntry w sid) /\
  (forall e spec,
     World.cronJobs (removeEntry w sid) !! e <> Some (spec, sid)) /\
  World.cronEntries (removeEntry w sid) !! sid = None /\
  (forall e spec sid',
     sid' <> sid ->
     World.cronJobs (removeEntry w sid) !! e = Some (spec, sid') <->
     World.cronJobs w !! e = Some (spec, sid')) /\
  World.uuids (removeEntry w sid) = World.uuids w /\
  World.schedules (removeEntry w sid) = World.schedules w.
Proof.
  intros (H1 & H2 & H3 & H4 & H5 & H6). unfold removeEntry.
  destruct (World.cronEntries w !! sid) as [old|] eqn:Hold.
  - wfields.
    assert (Hjobs : forall e spec s,
              delete old (World.cronJobs w) !! e = Some (spec, s) ->
              e <> old /\ World.cronJobs w !! e = Some (spec, s) /\ s <> sid).
    { intros e spec s Hjob.
      destruct (decide (old = e)) as [->|Hne];
        [by rewrite lookup_delete_eq in Hjob|].
      rewrite lookup_delete_ne in Hjob by done.
      split; [done|]. split; [done|]. intros ->.
      apply H1 in Hjob. congruence. }
    split; [|split; [|split; [apply lookup_delete_eq|split; [|done]]]].
    + split; [|split; [|split; [|split; [|split; [|done]]]]]; wfields.
      * intros e spec s Hjob. apply Hjobs in Hjob as (_ & Hjob & Hs).
        rewrite lookup_delete_ne by done. eauto.
      * intros e spec s s' He Hjob. apply Hjobs in Hjob as (_ & Hjob & _).
        destruct (decide (sid = s)) as [->|Hs];
          [by rewrite lookup_delete_eq in He|].
        rewrite lookup_delete_ne in He by done. eauto.
      * intros e He. destruct (decide (old = e)) as [->|Hne];
          [apply lookup_delete_eq|]. rewrite lookup_delete_ne by done. auto.
      * intros e s He.
        destruct (decide (sid = s)) as [->|Hs];
          [by rewrite lookup_delete_eq in He|].
        rewrite lookup_delete_ne in He by done. eauto.
      * intros e spec s Hjob. apply Hjobs in Hjob as (_ & Hjob & _). eauto.
    + intros e spec Hjob. by apply Hjobs in Hjob as (_ & _ & ?).
    + intros e spec s Hs. split.
      * intros Hjob. by apply Hjobs in Hjob as (_ & ? & _).
      * intros Hjob.
        destruct (decide (old = e)) as [->|Hne].
        -- exfalso. apply Hs. by eapply H2.
        -- by rewrite lookup_delete_ne.
  - split; [done|]. split; [|done].
    intros e spec Hjob. apply H1 in Hjob. congruence.
Qed.

Lemma unregister_sound w sid :
  cronSound w ->
  let w' :=
    match World.cronEntries w !! sid with
    | Some oldEntryID =>
        World.set_cron w (World.cronEntries w)
          (delete oldEntryID (World.cronJobs w)) (World.nextEntry w)
    | None => w
    end in
  cronSound w' /\
  (forall e spec, World.cronJobs w' !! e <> Some (spec, sid)) /\
  World.uuids w' = World.uuids w /\
  World.schedules w' = World.schedules w.
Proof.
  intros (H1 & H2 & H3 & H4 & H5 & H6). cbv zeta.
  destruct (World.cronEntries w !! sid) as [old|] eqn:Hold.
  - wfields.
    assert (Hjobs : forall e spec s,
              delete old (World.cronJobs w) !! e = Some (spec, s) ->
              e <> old /\ World.cronJobs w !! e = Some (spec, s) /\ s <> sid).
    { intros e spec s Hjob.
      destruct (decide (old = e)) as [->|Hne];
        [by rewrite lookup_delete_eq in Hjob|].
      rewrite lookup_delete_ne in Hjob by done.
      split; [done|]. split; [done|]. intros ->.
      apply H1 in Hjob. congruence. }
    split; [|split; [|done]].
    + split; [|split; [|split; [|split; [|split; [|done]]]]]; wfields.
      * intros e spec s Hjob. apply Hjobs in Hjob as (_ & Hjob & _). eauto.
      * intros e spec s s' He Hjob. apply Hjobs in Hjob as (_ & Hjob & _).
        eauto.
      * intros e He. destruct (decide (old = e)) as [->|Hne];
          [apply lookup_delete_eq|]. rewrite lookup_delete_ne by done. auto.
      * done.
      * intros e spec s Hjob. apply Hjobs in Hjob as (_ & Hjob & _). eauto.
    + intros e spec Hjob. by apply Hjobs in Hjob as (_ & _ & ?).
  - split; [done|]. split; [|done].
    intros e spec Hjob. apply H1 in Hjob. congruence.
Qed.

(** Registering a job for a schedule that has none. *)
Lemma register_sound E w spec sid :
  cronSound w ->
  (forall e spec', World.cronJobs w !! e <> Some (spec', sid)) ->
  (sid < World.uuids w)%nat ->
  let w' :=
    match service.AddFunc E w spec sid with
    | (Fail _, w) => w
    | (Ok entryID, w) =>
        World.set_cron w (<[sid := entryID]> (World.cronEntries w))
                       (World.cronJobs w) (World.nextEntry w)
    end in
  cronSound w' /\
  (Env.cron_AddFunc_fails E spec = false ->
   World.cronEntries w' !! sid = Some (World.nextEntry w) /\
   World.cronJobs w' !! World.nextEntry w = Some (spec, sid)) /\
  (forall e spec' sid',
     sid' <> sid ->
     World.cronJobs w' !! e = Some (spec', sid') <->
     World.cronJobs w !! e = Some (spec', sid')) /\
  World.schedules w' = World.schedules w.
Proof.
  intros (H1 & H2 & H3 & H4 & H5 & H6) Hnone Hsid. cbv zeta.
  unfold service.AddFunc.
  destruct (Env.cron_AddFunc_fails E spec); [by repeat split|].
  wfields. split; [|split; [|split; [|done]]].
  - split; [|split; [|split; [|split; [|split; [|done]]]]]; wfields.
    + intros e spec' s Hjob.
      destruct (decide (World.nextEntry w = e)) as [<-|Hne].
      * rewrite lookup_insert_eq in Hjob. injection Hjob as <- <-.
        apply lookup_insert_eq.
      * rewrite lookup_insert_ne in Hjob by done.
        destruct (decide (sid = s)) as [<-|Hs]; [by apply Hnone in Hjob|].
        rewrite lookup_insert_ne by done. eauto.
    + intros e spec' s s' He Hjob.
      destruct (decide (World.nextEntry w = e)) as [<-|Hne].
      * rewrite lookup_insert_eq in Hjob. injection Hjob as <- <-.
        destruct (decide (sid = s)) as [<-|Hs]; [done|].
        rewrite lookup_insert_ne in He by done. apply H4 in He. lia.
      * rewrite lookup_insert_ne in Hjob by done.
        destruct (decide (sid = s)) as [<-|Hs].
        -- rewrite lookup_insert_eq in He. congruence.
        -- rewrite lookup_insert_ne in He by done. eauto.
    + intros e He. rewrite lookup_insert_ne by lia. apply H3. lia.
    + intros e s He.
      destruct (decide (sid = s)) as [<-|Hs].
      * rewrite lookup_insert_eq in He. injection He as <-. lia.
      * rewrite lookup_insert_ne in He by done. apply H4 in He. lia.
    + intros e spec' s Hjob.
      destruct (decide (World.nextEntry w = e)) as [<-|Hne].
      * rewrite lookup_insert_eq in Hjob. by injection Hjob as <- <-.
      * rewrite lookup_insert_ne in Hjob by done. eauto.
  - intros _. by rewrite !lookup_insert_eq.
  - intros e spec' sid' Hs.
    destruct (decide (World.nextEntry w = e)) as [<-|Hne].
    + rewrite lookup_insert_eq. rewrite H3 by lia.
      split; [intros [= _ ?]; congruence|done].
    + by rewrite lookup_insert_ne.
Qed.

End CronJobs.

Section SchedulerOperations.
Import scheduler.

Ltac wfields :=
  unfold World.set_cron, World.set_schedules, World.set_backups;
  cbn [World.connections World.schedules World.backups World.files World.s3
       World.uuids World.cronEntries World.cronJobs World.nextEntry].

Lemma ScheduleBackup_cronSound E w req :
  cronSound w -> cronSound (snd (service.ScheduleBackup E w req)).
Proof.
  intros Hsound. unfold service.ScheduleBackup.
  destruct (repo.GetBackupSchedule E w _) as [existing|err] eqn:Hget.
  - destruct (Env.cron_Parse E _) as [next|]; [|done].
    apply GetBackupSchedule_In in Hget as [Hin _].
    cbv beta iota zeta. cbn [BackupSchedule.ID].
    match goal with
    | |- context [repo.UpdateBackupSchedule E w ?s] =>
        pose proof (UpdateBackupSchedule_fields E w s) as Hupd;
        destruct (repo.UpdateBackupSchedule E w s) as [[e|] w1]
    end; cbv zeta in Hupd; cbn [snd] in Hupd;
      destruct Hupd as (He & Hj & Hn & Hu & _ & _ & _ & _ & Hids).
    + cbn [snd]. apply (cronSound_same w); try done; [lia|].
      rewrite Hu. eapply In_map_ID; [exact Hids|]. apply Hsound.
    + assert (Hs1 : cronSound w1).
      { apply (cronSound_same w); try done; [lia|].
        rewrite Hu. eapply In_map_ID; [exact Hids|]. apply Hsound. }
      destruct (unregister_sound w1 (BackupSchedule.ID existing) Hs1)
        as (Hs2 & Hnone & Hu2 & _).
      cbv zeta in Hs2, Hnone, Hu2.
      set (w2 := match World.cronEntries w1 !! BackupSchedule.ID existing with
                 | Some oldEntryID => _
                 | None => w1
                 end) in *.
      assert (Hlt : (BackupSchedule.ID existing < World.uuids w2)%nat).
      { rewrite Hu2, Hu. by apply Hsound. }
      pose proof (register_sound E w2 (ScheduleBackupRequest.CronSchedule req)
                    (BackupSchedule.ID existing) Hs2 Hnone Hlt) as (Hs3 & _).
      cbv zeta in Hs3.
      by destruct (service.AddFunc E w2 _ _) as [[entryID|err] w3].
  - destruct (service.otherThanNoRows err); [done|].
    destruct (Env.cron_Parse E _) as [next|]; [|done].
    cbv beta iota zeta.
    pose proof (uuid_New_fields w) as Hid.
    assert (Hcron0 : World.cronEntries (snd (World.uuid_New w))
                     = World.cronEntries w /\
                     World.cronJobs (snd (World.uuid_New w))
                     = World.cronJobs w /\
                     World.nextEntry (snd (World.uuid_New w))
                     = World.nextEntry w /\
                     World.uuids (snd (World.uuid_New w))
                     = S (World.uuids w)) by done.
    destruct (World.uuid_New w) as [id w0]. cbv zeta in Hid.
    cbn [fst snd] in Hid, Hcron0.
    destruct Hid as (-> & _ & Hsch0 & _).
    destruct Hcron0 as (He0 & Hj0 & Hn0 & Hu0).
    assert (Hs0 : cronSound w0).
    { apply (cronSound_same w); try done; [lia|].
      rewrite Hsch0, Hu0. intros r Hr.
      destruct Hsound as (_ & _ & _ & _ & _ & H6). specialize (H6 r Hr). lia. }
    unfold repo.CreateBackupSchedule. cbn [BackupSchedule.ID].
    destruct (Env.db_fails E _); [done|]. cbv beta iota zeta.
    set (w1 := World.set_schedules w0 _).
    assert (Hs1 : cronSound w1).
    { apply (cronSound_same w0); try done.
      subst w1. wfields. intros r [Hr|[<-|[]]]%in_app_iff.
      - by apply Hs0.
      - cbn. rewrite Hu0. lia. }
    assert (Hnone : forall e spec',
              World.cronJobs w1 !! e <> Some (spec', World.uuids w)).
    { intros e spec' Hjob.
      change (World.cronJobs w1) with (World.cronJobs w0) in Hjob.
      rewrite Hj0 in Hjob.
      destruct Hsound as (_ & _ & _ & _ & H5 & _). apply H5 in Hjob. lia. }
    assert (Hlt : (World.uuids w < World.uuids w1)%nat).
    { change (World.uuids w1) with (World.uuids w0). rewrite Hu0. lia. }
    pose proof (register_sound E w1 (ScheduleBackupRequest.CronSchedule req)
                  (World.uuids w) Hs1 Hnone Hlt) as (Hs3 & _).
    cbv zeta in Hs3.
    by destruct (service.AddFunc E w1 _ _) as [[entryID|err'] w3].
Qed.

Lemma DisableBackupSchedule_cronSound E w cid :
  cronSound w -> cronSound (snd (DisableBackupSchedule E w cid)).
Proof.
  intros Hsound. unfold DisableBackupSchedule.
  destruct (repo.GetBackupSchedule E w cid) as [schedule|err]; [|done].
  cbv beta iota zeta. cbn [BackupSchedule.ID].
  destruct (removeEntry_sound w (BackupSchedule.ID schedule) Hsound)
    as (Hs1 & _).
  match goal with
  | |- context [repo.UpdateBackupSchedule E ?w1 ?s] =>
      pose proof (UpdateBackupSchedule_fields E w1 s) as Hupd;
      destruct (repo.UpdateBackupSchedule E w1 s) as [[e|] w2]
  end; cbv zeta in Hupd; cbn [snd] in Hupd;
    destruct Hupd as (He & Hj & Hn & Hu & _ & _ & _ & _ & Hids);
    cbn [snd];
    (apply (cronSound_same (removeEntry w (BackupSchedule.ID schedule)));
     try done; [lia|];
     rewrite Hu; eapply In_map_ID; [exact Hids|]; apply Hs1).
Qed.

Lemma UpdateBackupSchedule_cronSound E w cid req :
  cronSound w -> cronSound (snd (UpdateBackupSchedule E w cid req)).
Proof.
  intros Hsound. unfold UpdateBackupSchedule.
  destruct (repo.GetBackupSchedule E w cid) as [schedule|err] eqn:Hget;
    [|done].
  apply GetBackupSchedule_In in Hget as [Hin _].
  destruct (Env.cron_Parse E _) as [next|]; [|done].
  cbv beta iota zeta. cbn [BackupSchedule.ID BackupSchedule.CronSchedule].
  match goal with
  | |- context [repo.UpdateBackupSchedule E w ?s] =>
      pose proof (UpdateBackupSchedule_fields E w s) as Hupd;
      destruct (repo.UpdateBackupSchedule E w s) as [[e|] w1]
  end; cbv zeta in Hupd; cbn [snd] in Hupd;
    destruct Hupd as (He & Hj & Hn & Hu & _ & _ & _ & _ & Hids).
  - cbn [snd]. apply (cronSound_same w); try done; [lia|].
    rewrite Hu. eapply In_map_ID; [exact Hids|]. apply Hsound.
  - assert (Hs1 : cronSound w1).
    { apply (cronSound_same w); try done; [lia|].
      rewrite Hu. eapply In_map_ID; [exact Hids|]. apply Hsound. }
    destruct (removeEntry_sound w1 (BackupSchedule.ID schedule) Hs1)
      as (Hs2 & Hnone & _ & _ & Hu2 & _).
    assert (Hlt : (BackupSchedule.ID schedule
                   < World.uuids (removeEntry w1 (BackupSchedule.ID schedule)))%nat).
    { rewrite Hu2, Hu. by apply Hsound. }
    pose proof (register_sound E _ (UpdateScheduleRequest.CronSchedule req)
                  (BackupSchedule.ID schedule) Hs2 Hnone Hlt) as (Hs3 & _).
    cbv zeta in Hs3.
    by destruct (service.AddFunc E _ _ _) as [[entryID|err] w3].
Qed.

End SchedulerOperations.

(** X13.  No schedule ever has two cron jobs.  A cron manager in which
    every job is the registered entry of its schedule stays so under
    [ScheduleBackup], [DisableBackupSchedule] and [UpdateBackupSchedule],
    whatever they return; and in such a manager two jobs of one schedule
    are one and the same. *)
Theorem cron_jobs_stay_sound :
  forall (E : Env.t) (w : World.t),
    cronSound w ->
    (forall req, cronSound (snd (service.ScheduleBackup E w req))) /\
    (forall connectionID,
       cronSound (snd (scheduler.DisableBackupSchedule E w connectionID))) /\
    (forall connectionID req,
       cronSound (snd (scheduler.UpdateBackupSchedule E w connectionID req))) /\
    (forall e1 e2 spec1 spec2 scheduleID,
       World.cronJobs w !! e1 = Some (spec1, scheduleID) ->
       World.cronJobs w !! e2 = Some (spec2, scheduleID) ->
       e1 = e2).
Proof.
  intros E w Hsound.
  split; [intros; by apply ScheduleBackup_cronSound|].
  split; [intros; by apply DisableBackupSchedule_cronSound|].
  split; [intros; by apply UpdateBackupSchedule_cronSound|].
  intros e1 e2 spec1 spec2 sid H1 H2.
  destruct Hsound as (Hjobs & _).
  apply Hjobs in H1, H2. congruence.
Qed.

(** The sample store with one schedule and no job is sound; scheduling
    the connection twice leaves it sound. *)
Lemma cron_jobs_stay_sound_witness :
  let E := demoEnv dumpWritten false false false in
  cronSound demoWorldScheduled /\
  cronSound (snd (service.ScheduleBackup E
                    (snd (service.ScheduleBackup E demoWorldScheduled
                            demoRequest)) demoRequest)).
Proof.
  intros E.
  assert (Hsound : cronSound demoWorldScheduled).
  { split; [|split; [|split; [|split; [|split]]]]; try done.
    intros r [<-|[]]. cbn. lia. }
  split; [exact Hsound|].
  apply (cron_jobs_stay_sound E _
           (proj1 (cron_jobs_stay_sound E demoWorldScheduled Hsound)
                  demoRequest)).
Defined.

Section DisableAndUpdate.
Import scheduler.

Ltac wfields :=
  unfold World.set_cron, World.set_schedules, World.set_backups;
  cbn [World.connections World.schedules World.backups World.files World.s3
       World.uuids World.cronEntries World.cronJobs World.nextEntry].

(** The UPDATE of a schedule read from a sound store rewrites its row
    alone. *)
Lemma updateRow_withRow E (rows : list BackupSchedule.t) old s f :
  List.NoDup (map BackupSchedule.ID rows) ->
  In old rows ->
  BackupSchedule.ID s = BackupSchedule.ID old ->
  repo.updateRow E s old = f old ->
  map (repo.updateRow E s) rows = withRow f (BackupSchedule.ID old) rows.
Proof.
  intros Hnd Hin Hid Hf. unfold withRow. apply map_ext_in. intros r Hr.
  destruct (Nat.eqb_spec (BackupSchedule.ID r) (BackupSchedule.ID old))
    as [Heq|Hne].
  - assert (r = old) as -> by (by apply (NoDup_schedule_ID_inj rows)).
    exact Hf.
  - unfold repo.updateRow. rewrite Hid.
    by destruct (Nat.eqb_spec (BackupSchedule.ID r) (BackupSchedule.ID old)).
Qed.

Lemma GetBackupSchedule_scheduleOf E w cid :
  schedulesSound w ->
  Env.db_fails E (QGetBackupSchedule cid) = false ->
  repo.GetBackupSchedule E w cid =
    match scheduleOf (World.schedules w) cid with
    | Some r => Ok r
    | None => Fail ErrNoRows
    end.
Proof.
  intros [Hconn _] Hq. unfold repo.GetBackupSchedule.
  by rewrite Hq, (latest_scheduleOf _ cid Hconn).
Qed.

End DisableAndUpdate.

(** X14.  [DisableBackupSchedule] on a connection without a schedule
    returns [sql.ErrNoRows] and changes nothing.  Otherwise it takes the
    job of the schedule out of the cron manager before it touches the
    record, so no job of the schedule is left whether or not the update
    of the record goes through; the jobs of the other schedules stay.
    When the update goes through, the record is the old one with
    [enabled] false and nothing else changed but [updated_at]. *)
Theorem DisableBackupSchedule_disables :
  forall (E : Env.t) (w : World.t) (connectionID : string),
    cronSound w -> schedulesSound w ->
    Env.db_fails E (QGetBackupSchedule connectionID) = false ->
    let '(err, w') := scheduler.DisableBackupSchedule E w connectionID in
    match scheduleOf (World.schedules w) connectionID with
    | None => err = Some ErrNoRows /\ w' = w
    | Some old =>
        let id := BackupSchedule.ID old in
        (forall e spec, World.cronJobs w' !! e <> Some (spec, id)) /\
        World.cronEntries w' !! id = None /\
        (forall e spec sid,
           sid <> id ->
           World.cronJobs w' !! e = Some (spec, sid) <->
           World.cronJobs w !! e = Some (spec, sid)) /\
        (Env.db_fails E (XUpdateBackupSchedule id) = false ->
         err = None /\
         World.schedules w' = withRow (disabledRow E) id (World.schedules w)) /\
        (Env.db_fails E (XUpdateBackupSchedule id) = true ->
         is_Some err /\ World.schedules w' = World.schedules w)
    end.
Proof.
  intros E w cid Hcron Hsound Hq.
  unfold scheduler.DisableBackupSchedule.
  rewrite (GetBackupSchedule_scheduleOf E w cid Hsound Hq).
  destruct (scheduleOf (World.schedules w) cid) as [old|] eqn:Hold; [|done].
  apply scheduleOf_Some in Hold as [Hin Hcid].
  cbv beta iota zeta. cbn [BackupSchedule.ID].
  destruct (removeEntry_sound w (BackupSchedule.ID old) Hcron)
    as (_ & Hnone & Hentry & Hothers & _ & Hsch).
  set (w1 := scheduler.removeEntry w (BackupSchedule.ID old)) in *.
  unfold repo.UpdateBackupSchedule. cbn [BackupSchedule.ID].
  destruct (Env.db_fails E (XUpdateBackupSchedule (BackupSchedule.ID old)))
    eqn:Hu.
  - split; [done|]. split; [done|]. split; [done|]. split; [done|].
    intros _. split; [by eexists|done].
  - split; [done|]. split; [done|]. split; [done|]. split; [|done].
    intros _. split; [done|].
    unfold World.set_schedules. cbn [World.schedules].
    rewrite Hsch. destruct Hsound as [_ Hids].
    apply updateRow_withRow; try done.
    unfold repo.updateRow, disabledRow. cbn. by rewrite Nat.eqb_refl.
Qed.

(** The sample schedule, scheduled and then disabled: the hypotheses
    hold, no job is left for it and its record says disabled. *)
Lemma DisableBackupSchedule_disables_witness :
  let E := demoEnv dumpWritten false false false in
  let w := snd (service.ScheduleBackup E demoWorldScheduled demoRequest) in
  let w' := snd (scheduler.DisableBackupSchedule E w "c1") in
  cronSound w /\ schedulesSound w /\
  World.cronJobs w !! 0%nat = Some ("0 0 0 * * *", 9%nat) /\
  World.cronJobs w' !! 0%nat = None /\
  (BackupSchedule.Enabled <$> scheduleOf (World.schedules w') "c1")
  = Some false.
Proof.
  intros E w w'.
  assert (Hcron : cronSound w).
  { apply ScheduleBackup_cronSound.
    split; [|split; [|split; [|split; [|split]]]]; try done.
    intros r [<-|[]]. cbn. lia. }
  assert (Hsound : schedulesSound w).
  { split; vm_compute; repeat constructor; simpl; tauto. }
  split; [exact Hcron|]. split; [exact Hsound|].
  split; [reflexivity|].
  pose proof (DisableBackupSchedule_disables E w "c1" Hcron Hsound eq_refl)
    as Hrun.
  subst w'.
  destruct (scheduler.DisableBackupSchedule E w "c1") as [err w'].
  assert (Hold : exists old, scheduleOf (World.schedules w) "c1" = Some old /\
                             BackupSchedule.ID old = 9%nat).
  { eexists. split; reflexivity. }
  destruct Hold as (old & Hold & Hid). rewrite Hold in Hrun.
  cbv zeta in Hrun. rewrite Hid in Hrun.
  destruct Hrun as (Hnone & _ & Hothers & Hok & _). cbn [snd]. split.
  - destruct (World.cronJobs w' !! 0%nat) as [[spec sid]|] eqn:Hjob; [|done].
    exfalso.
    destruct (decide (sid = 9%nat)) as [->|Hne]; [by apply Hnone in Hjob|].
    apply (Hothers 0%nat spec sid Hne) in Hjob.
    vm_compute in Hjob. congruence.
  - destruct (Hok eq_refl) as [_ ->]. reflexivity.
Defined.

(** X15.  [UpdateBackupSchedule] on a connection without a schedule
    returns [sql.ErrNoRows] and changes nothing.  Otherwise, with a cron
    expression that both parsers accept and a store that takes the
    update, it replaces the cron expression and the retention of the
    record and nothing else but [updated_at]: [enabled], the next run time
    and the last backup time stay as stored.  It ends with exactly one job
    of the schedule in the cron manager, under the new expression, also
    for a schedule that is disabled; the jobs of the other schedules
    stay. *)
Theorem UpdateBackupSchedule_reschedules :
  forall (E : Env.t) (w : World.t) (connectionID : string)
         (req : UpdateScheduleRequest.t),
    cronSound w -> schedulesSound w ->
    Env.db_fails E (QGetBackupSchedule connectionID) = false ->
    (forall id, Env.db_fails E (XUpdateBackupSchedule id) = false) ->
    is_Some (Env.cron_Parse E (UpdateScheduleRequest.CronSchedule req)) ->
    Env.cron_AddFunc_fails E (UpdateScheduleRequest.CronSchedule req) = false ->
    let '(err, w') :=
      scheduler.UpdateBackupSchedule E w connectionID req in
    match scheduleOf (World.schedules w) connectionID with
    | None => err = Some ErrNoRows /\ w' = w
    | Some old =>
        let id := BackupSchedule.ID old in
        err = None /\
        World.schedules w' = withRow (rescheduledRow E req) id (World.schedules w) /\
        scheduleOf (World.schedules w') connectionID
          = Some (rescheduledRow E req old) /\
        (forall e spec,
           World.cronJobs w' !! e = Some (spec, id) <->
           e = World.nextEntry w /\
           spec = UpdateScheduleRequest.CronSchedule req) /\
        World.cronEntries w' !! id = Some (World.nextEntry w) /\
        (forall e spec sid,
           sid <> id ->
           World.cronJobs w' !! e = Some (spec, sid) <->
           World.cronJobs w !! e = Some (spec, sid))
    end.
Proof.
  intros E w cid req Hcron Hsound Hq Hu [next Hparse] Hadd.
  unfold scheduler.UpdateBackupSchedule.
  rewrite (GetBackupSchedule_scheduleOf E w cid Hsound Hq).
  destruct (scheduleOf (World.schedules w) cid) as [old|] eqn:Hold; [|done].
  pose proof Hold as Hold'.
  apply scheduleOf_Some in Hold as [Hin Hcid].
  rewrite Hparse. cbv beta iota zeta.
  cbn [BackupSchedule.ID BackupSchedule.CronSchedule].
  unfold repo.UpdateBackupSchedule. cbn [BackupSchedule.ID]. rewrite Hu.
  cbv beta iota zeta.
  set (rows' := map (repo.updateRow E _) (World.schedules w)).
  assert (Hrows : rows' = withRow (rescheduledRow E req)
                            (BackupSchedule.ID old) (World.schedules w)).
  { subst rows'. destruct Hsound as [_ Hids].
    apply updateRow_withRow; try done.
    unfold repo.updateRow, rescheduledRow. cbn. by rewrite Nat.eqb_refl. }
  set (w1 := World.set_schedules w rows').
  assert (Hs1 : cronSound w1).
  { apply (cronSound_same w); try done.
    subst w1. unfold World.set_schedules. cbn [World.schedules World.uuids].
    rewrite Hrows. unfold withRow. intros r (x & <- & Hx)%in_map_iff.
    destruct Hcron as (_ & _ & _ & _ & _ & H6).
    destruct (Nat.eqb _ _); [|by apply H6]. cbn. by apply H6. }
  destruct (removeEntry_sound w1 (BackupSchedule.ID old) Hs1)
    as (Hs2 & Hnone & _ & Hothers & Hu2 & Hsch2).
  set (w2 := scheduler.removeEntry w1 (BackupSchedule.ID old)) in *.
  assert (Hnext2 : World.nextEntry w2 = World.nextEntry w).
  { subst w2. unfold scheduler.removeEntry.
    by destruct (World.cronEntries w1 !! _). }
  assert (Hlt : (BackupSchedule.ID old < World.uuids w2)%nat).
  { rewrite Hu2. destruct Hcron as (_ & _ & _ & _ & _ & H6). by apply H6. }
  pose proof (register_sound E w2 (UpdateScheduleRequest.CronSchedule req)
                (BackupSchedule.ID old) Hs2 Hnone Hlt)
    as (Hs3 & Hreg & Hothers3 & Hsch3).
  cbv zeta in Hs3, Hreg, Hothers3, Hsch3.
  destruct (Hreg Hadd) as [Hentry Hjob]. clear Hreg.
  rewrite Hnext2 in Hentry, Hjob.
  destruct (service.AddFunc E w2 _ _) as [[entryID|err] w3] eqn:Haddf.
  2:{ unfold service.AddFunc in Haddf. by rewrite Hadd in Haddf. }
  set (w' := World.set_cron w3 _ _ _) in *.
  cbv zeta. split; [done|].
  assert (Hsch' : World.schedules w' = rows').
  { rewrite Hsch3, Hsch2. done. }
  split; [by rewrite Hsch', Hrows|].
  split.
  { rewrite Hsch', Hrows. unfold withRow.
    rewrite scheduleOf_map.
    - rewrite Hold'. simpl. by rewrite Nat.eqb_refl.
    - intros r. by destruct (Nat.eqb _ _). }
  split; [|split; [done|]].
  - intros e spec. split.
    + intros He. destruct Hs3 as (H1 & _).
      pose proof (H1 _ _ _ He) as He'.
      assert (Some (World.nextEntry w) = Some e) as [= <-].
      { etransitivity; [symmetry; exact Hentry|exact He']. }
      assert (Some (UpdateScheduleRequest.CronSchedule req,
                    BackupSchedule.ID old)
              = Some (spec, BackupSchedule.ID old)) as [= <-].
      { etransitivity; [symmetry; exact Hjob|exact He]. }
      done.
    + by intros [-> ->].
  - intros e spec sid Hne. rewrite (Hothers3 e spec sid Hne).
    rewrite (Hothers e spec sid Hne). done.
Qed.

(** The sample schedule is disabled; rescheduling it leaves it disabled
    and registers a job for it. *)
Lemma UpdateBackupSchedule_reschedules_witness :
  let E := demoEnv dumpWritten false false false in
  let w' := snd (scheduler.UpdateBackupSchedule E demoWorldScheduled "c1"
                   demoUpdateRequest) in
  cronSound demoWorldScheduled /\ schedulesSound demoWorldScheduled /\
  (BackupSchedule.Enabled <$> scheduleOf (World.schedules w') "c1")
  = Some false /\
  World.cronJobs w' !! 0%nat = Some ("0 0 0 * * *", 9%nat).
Proof.
  intros E w'.
  assert (Hcron : cronSound demoWorldScheduled).
  { split; [|split; [|split; [|split; [|split]]]]; try done.
    intros r [<-|[]]. cbn. lia. }
  assert (Hsound : schedulesSound demoWorldScheduled).
  { split; simpl; repeat constructor; simpl; tauto. }
  split; [exact Hcron|]. split; [exact Hsound|].
  pose proof (UpdateBackupSchedule_reschedules E demoWorldScheduled "c1"
                demoUpdateRequest Hcron Hsound eq_refl (fun _ => eq_refl)
                ltac:(by eexists) eq_refl) as Hrun.
  subst w'.
  destruct (scheduler.UpdateBackupSchedule E demoWorldScheduled "c1"
              demoUpdateRequest) as [err w'].
  cbn in Hrun. destruct Hrun as (_ & _ & Hrow & Hjobs & _).
  cbn [snd]. split.
  - rewrite Hrow. reflexivity.
  - by apply Hjobs.
Defined.

(** ** A scheduled run *)

Section ScheduledRun.
Import service.

Lemma runDump_schedules E w cmd path :
  World.schedules (snd (runDump E w cmd path)) = World.schedules w.
Proof. unfold runDump. cbn [snd]. by destruct (CmdOutcome.written _). Qed.

Lemma uploadToS3IfEnabled_schedules E w b uid name :
  World.schedules (snd (uploadToS3IfEnabled E w b uid name))
  = World.schedules w.
Proof.
  unfold uploadToS3IfEnabled.
  destruct (Env.GetUserSettingsInternal E uid) as [us|]; [|done].
  destruct (negb (UserSettings.S3Enabled us)); [done|].
  destruct (checkS3Fields us); [done|].
  destruct (Env.Decrypt E _); [|done].
  destruct (s3storage.NewS3Storage E _); [|done].
  unfold s3storage.UploadFileWithPath.
  destruct (os.Stat w _); [|done].
  destruct (Env.PutObject_fails E _); [done|].
  destruct (UserSettings.S3PurgeLocal us); [|done].
  unfold os.Remove.
  destruct (World.files _ !! _); [|done].
  by destruct (Env.Remove_fails E _).
Qed.

Lemma CreateBackup_repo_schedules E w b :
  World.schedules (snd (repo.CreateBackup E w b)) = World.schedules w.
Proof. unfold repo.CreateBackup. by destruct (Env.db_fails E _). Qed.

Lemma createSingleDatabaseBackup_schedules E w conn dbName :
  World.schedules (snd (createSingleDatabaseBackup E w conn dbName))
  = World.schedules w.
Proof.
  unfold createSingleDatabaseBackup.
  destruct (Env.verifyBackupTools E _); [done|].
  destruct (Env.setupSSHTunnelIfNeeded E conn); [|done].
  pose proof (uuid_New_fields w) as Hid.
  destruct (World.uuid_New w) as [id w0]. cbv zeta in Hid.
  destruct Hid as (_ & _ & Hs0 & _). cbn [snd] in Hs0.
  destruct (os.MkdirAll E _); [done|].
  destruct (dumpCmdFor E _ _ _) as [| |cmd]; [done..|].
  match goal with
  | |- context [runDump E w0 cmd ?p] =>
      pose proof (runDump_schedules E w0 cmd p) as Hrun;
      destruct (runDump E w0 cmd p) as [out w1]
  end.
  cbn [snd] in Hrun.
  destruct (CmdOutcome.err out); [cbn [snd]; congruence|].
  destruct (os.Stat w1 _); [|cbn [snd]; congruence].
  match goal with
  | |- context [uploadToS3IfEnabled E w1 ?b ?u ?n] =>
      pose proof (uploadToS3IfEnabled_schedules E w1 b u n) as Hup;
      destruct (uploadToS3IfEnabled E w1 b u n) as [[uerr b1] w2]
  end.
  cbn [snd] in Hup.
  pose proof (CreateBackup_repo_schedules E w2 b1) as Hins.
  destruct (repo.CreateBackup E w2 b1) as [[e|] w3]; cbn [snd] in *;
    congruence.
Qed.

Lemma dumpOne_schedules E w conn folder start dbName :
  World.schedules (snd (dumpOne E w conn folder start dbName))
  = World.schedules w.
Proof.
  unfold dumpOne.
  pose proof (uuid_New_fields w) as Hid.
  destruct (World.uuid_New w) as [id w0]. cbv zeta in Hid.
  destruct Hid as (_ & _ & Hs0 & _). cbn [snd] in Hs0.
  destruct (dumpCmdFor E _ _ _) as [| |cmd]; [done..|].
  match goal with
  | |- context [runDump E w0 cmd ?p] =>
      pose proof (runDump_schedules E w0 cmd p) as Hrun;
      destruct (runDump E w0 cmd p) as [out w1]
  end.
  cbn [snd] in Hrun.
  destruct (CmdOutcome.err out); [cbn [snd]; congruence|].
  destruct (os.Stat w1 _); [|cbn [snd]; congruence].
  match goal with
  | |- context [uploadToS3IfEnabled E w1 ?b ?u ?n] =>
      pose proof (uploadToS3IfEnabled_schedules E w1 b u n) as Hup;
      destruct (uploadToS3IfEnabled E w1 b u n) as [[uerr b1] w2]
  end.
  cbn [snd] in Hup.
  pose proof (CreateBackup_repo_schedules E w2 b1) as Hins.
  destruct (repo.CreateBackup E w2 b1) as [[e|] w3]; cbn [snd] in *;
    congruence.
Qed.

Lemma multiLoop_schedules E conn folder start dbs : forall w failed succ,
  World.schedules (snd (multiLoop E w conn folder start dbs failed succ))
  = World.schedules w.
Proof.
  induction dbs as [|db dbs IH]; intros w failed succ; [done|].
  cbn [multiLoop].
  pose proof (dumpOne_schedules E w conn folder start db) as Hone.
  destruct (dumpOne E w conn folder start db) as [[err| |b] w1];
    cbn [snd] in Hone; [done| |]; by rewrite IH.
Qed.

Lemma CreateBackup_schedules E w connectionID :
  World.schedules (snd (CreateBackup E w connectionID)) = World.schedules w.
Proof.
  unfold CreateBackup.
  destruct (connection.GetConnection _ _ _) as [conn|]; [|done].
  destruct (0 <? length _)%nat;
    [|apply createSingleDatabaseBackup_schedules].
  unfold createMultiDatabaseBackup.
  destruct (Env.verifyBackupTools E _); [done|].
  destruct (Env.setupSSHTunnelIfNeeded E conn); [|done].
  destruct (os.MkdirAll E _); [done|].
  match goal with
  | |- context [multiLoop E w ?c ?f ?s ?d [] []] =>
      pose proof (multiLoop_schedules E c f s d w [] []) as Hloop;
      destruct (multiLoop E w c f s d [] []) as [[[failed succ]|err] w1]
  end; cbn [snd] in Hloop; [|done].
  destruct succ; [|done]. by destruct (0 <? length failed)%nat.
Qed.

Lemma cleanupOne_schedules E st conn w b :
  World.schedules (cleanupOne E st conn w b) = World.schedules w.
Proof.
  unfold cleanupOne, repo.DeleteBackup, os.Remove, os.Stat,
    s3storage.DeleteFile.
  destruct (Env.db_fails E _); cbn [snd];
    repeat match goal with
           | |- context [match ?x with _ => _ end] => destruct x; cbn [snd]
           end; done.
Qed.

Lemma cleanupOldBackups_schedules E w cid days :
  World.schedules (cleanupOldBackups E w cid days) = World.schedules w.
Proof.
  unfold cleanupOldBackups.
  destruct (repo.GetBackupsOlderThan E w cid _) as [olds|]; [|done].
  destruct (Nat.eqb (length olds) 0); [done|].
  destruct (connection.GetConnection _ _ _) as [conn|]; [|done].
  generalize (cleanupS3Storage E (StoredConnection.UserID conn)). intros st.
  revert w. induction olds as [|o olds IH]; intros w; [done|].
  simpl. rewrite IH. apply cleanupOne_schedules.
Qed.

Lemma cleanupOldBackups_backups E w cid days r :
  In r (World.backups (cleanupOldBackups E w cid days)) ->
  In r (World.backups w).
Proof.
  unfold cleanupOldBackups.
  destruct (repo.GetBackupsOlderThan E w cid _) as [olds|]; [|done].
  destruct (Nat.eqb (length olds) 0); [done|].
  destruct (connection.GetConnection _ _ _) as [conn|]; [|done].
  destruct (cleanupFold_spec E (cleanupS3Storage E (StoredConnection.UserID conn))
              conn olds w) as (_ & Hb & _).
  rewrite Hb. by intros [? _]%List.filter_In.
Qed.

End ScheduledRun.

Section ScheduledRunProperties.

Lemma UpdateBackupStatusAndSchedule_schedules E H w id status sid :
  World.schedules (snd (scheduler.UpdateBackupStatusAndSchedule E H w id
                          status sid))
  = World.schedules w.
Proof.
  unfold scheduler.UpdateBackupStatusAndSchedule.
  by destruct (Host.sql_fails H _).
Qed.

(** X16.  A run of the job of a schedule whose expression parses returns, and
    when the UPDATE of the schedule goes through, the stored schedules are
    the ones from before the run with the schedule of the job stamped
    (next run, last backup time, and the switch, the expression and the
    retention of the copy the job holds), whether the backup succeeded or
    failed; no other schedule changes. *)
Theorem executeCronBackup_stamps_schedule E H w schedule next :
  Env.cron_Parse E (BackupSchedule.CronSchedule schedule) = Some next ->
  Env.db_fails E (XUpdateBackupSchedule (BackupSchedule.ID schedule)) = false ->
  exists w',
    scheduler.executeCronBackup E H w schedule = scheduler.Returned w' /\
    World.schedules w'
    = withRow (stampedRow E schedule (next (Env.Now E)))
              (BackupSchedule.ID schedule) (World.schedules w).
Proof.
  intros Hparse Hdb. unfold scheduler.executeCronBackup.
  pose proof (CreateBackup_schedules E w
                (BackupSchedule.ConnectionID schedule)) as Hs1.
  destruct (service.CreateBackup E w _) as [r w1]. cbn [snd] in Hs1.
  rewrite Hparse. cbv zeta.
  set (w2 := match r with Ok _ => _ | Fail _ => _ end).
  assert (Hs2 : World.schedules w2 = World.schedules w).
  { subst w2. destruct r; [|done].
    by rewrite UpdateBackupStatusAndSchedule_schedules. }
  set (w3 := snd (repo.UpdateBackupSchedule E w2 _)).
  assert (Hs3 : World.schedules w3
                = withRow (stampedRow E schedule (next (Env.Now E)))
                          (BackupSchedule.ID schedule) (World.schedules w)).
  { subst w3. unfold repo.UpdateBackupSchedule.
    cbn [BackupSchedule.ID]. rewrite Hdb. cbn [snd].
    unfold World.set_schedules; cbn [World.schedules]. rewrite Hs2.
    unfold withRow. apply map_ext. intros r0.
    unfold repo.updateRow, stampedRow. cbn.
    by destruct (Nat.eqb _ _). }
  destruct (0 <? _).
  - eexists. split; [reflexivity|].
    by rewrite cleanupOldBackups_schedules.
  - by eexists.
Qed.

(** The sample schedule runs in the sample store: the run returns and the
    schedule is stamped. *)
Lemma executeCronBackup_stamps_schedule_witness :
  let E := demoEnv dumpWritten false false false in
  exists w',
    scheduler.executeCronBackup E demoHost demoWorldMidnight
      demoMidnightSchedule = scheduler.Returned w' /\
    (BackupSchedule.LastBackupTime <$> scheduleOf (World.schedules w') "c1")
    = Some (Some (Env.Now E)).
Proof.
  intros E.
  destruct (executeCronBackup_stamps_schedule E demoHost demoWorldMidnight
              demoMidnightSchedule _ eq_refl eq_refl)
    as (w' & Hrun & Hs).
  exists w'. split; [exact Hrun|]. by rewrite Hs.
Defined.

(** X17.  When the backup of a run succeeded and its UPDATE goes through,
    every row the run leaves for that backup carries the id of the
    schedule and the status the backup ended with. *)
Theorem executeCronBackup_links_backup E H w schedule next backup w' :
  Env.cron_Parse E (BackupSchedule.CronSchedule schedule) = Some next ->
  fst (service.CreateBackup E w (BackupSchedule.ConnectionID schedule))
  = Ok backup ->
  Host.sql_fails H (XUpdateBackupStatusAndSchedule (Backup.ID backup))
  = false ->
  scheduler.executeCronBackup E H w schedule = scheduler.Returned w' ->
  forall r, In r (World.backups w') ->
    Backup.ID r = Backup.ID backup ->
    Backup.ScheduleID r
    = Some (Host.UUID_String H (BackupSchedule.ID schedule)) /\
    Backup.Status r = Backup.Status backup.
Proof.
  intros Hparse Hok Hsql. unfold scheduler.executeCronBackup.
  destruct (service.CreateBackup E w _) as [r0 w1]. cbn [fst] in Hok.
  subst r0. rewrite Hparse. cbv zeta.
  unfold scheduler.UpdateBackupStatusAndSchedule. rewrite Hsql. cbn [snd].
  set (w2 := World.set_backups w1 _).
  set (w3 := snd (repo.UpdateBackupSchedule E w2 _)).
  assert (Hb3 : World.backups w3 = World.backups w2).
  { subst w3. unfold repo.UpdateBackupSchedule.
    by destruct (Env.db_fails E _). }
  assert (Hrows : forall r, In r (World.backups w3) ->
            Backup.ID r = Backup.ID backup ->
            Backup.ScheduleID r
            = Some (Host.UUID_String H (BackupSchedule.ID schedule)) /\
            Backup.Status r = Backup.Status backup).
  { intros r. rewrite Hb3. subst w2.
    unfold World.set_backups; cbn [World.backups].
    intros (r1 & <- & _)%in_map_iff.
    unfold scheduler.setStatusAndSchedule.
    destruct (Nat.eqb (Backup.ID r1) (Backup.ID backup)) eqn:Hid; [done|].
    intros Heq. apply Nat.eqb_neq in Hid. done. }
  destruct (0 <? _); intros [= <-] r Hin; apply Hrows;
    eauto using cleanupOldBackups_backups.
Qed.
(** The midnight schedule runs in the sample store: the backup succeeds,
    and the row the run leaves for it names the schedule. *)
Lemma executeCronBackup_links_backup_witness :
  let E := demoEnv dumpWritten false false false in
  exists w' r,
    scheduler.executeCronBackup E demoHost demoWorldMidnight
      demoMidnightSchedule = scheduler.Returned w' /\
    In r (World.backups w') /\ Backup.ID r = 10%nat /\
    Backup.ScheduleID r = Some "uuid-9" /\ Backup.Status r = "completed".
Proof.
  intros E.
  destruct (scheduler.executeCronBackup E demoHost demoWorldMidnight
              demoMidnightSchedule) as [w'|w'] eqn:Hrun.
  - pose proof Hrun as Hval. vm_compute in Hval.
    injection Hval as Hval.
    set (b := Backup.mk 10%nat "c1" None "completed"
                "./backups/pg1/shop_20251114_120000.sql"
                (Some "p/pg1/shop_20251114_120000.sql") 2048 1763121600
                (Some 1763121600) 1763121600 1763121600).
    set (r := Backup.mk 10%nat "c1" (Some "uuid-9") "completed"
                "./backups/pg1/shop_20251114_120000.sql"
                (Some "p/pg1/shop_20251114_120000.sql") 2048 1763121600
                (Some 1763121600) 1763121600 1763121600).
    assert (Hin : In r (World.backups w')).
    { rewrite <- Hval. left. reflexivity. }
    exists w', r. split; [reflexivity|]. split; [exact Hin|].
    split; [reflexivity|].
    apply (executeCronBackup_links_backup E demoHost demoWorldMidnight
             demoMidnightSchedule (fun t => (t / 86400 + 1) * 86400) b w').
    + reflexivity.
    + vm_compute. reflexivity.
    + reflexivity.
    + exact Hrun.
    + exact Hin.
    + reflexivity.
  - vm_compute in Hrun. discriminate Hrun.
Defined.

End ScheduledRunProperties.

(** ** Connections: update, settings, deletion *)

Section ConnectionStore.
Import StoredConnection.

(** What a successful read says about the table. *)
Lemma GetConnection_Ok V tbl id conn :
  connection.GetConnection V tbl id = Ok conn ->
  Vault.db_fails V (QGetConnection id) = false /\
  exists r username password sshPassword sshPrivateKey,
    tbl !! id = Some r /\
    Vault.Decrypt V (ConnRow.username r) = Ok username /\
    Vault.Decrypt V (ConnRow.password r) = Ok password /\
    connection.decryptOptional V (ConnRow.ssh_password r) = Ok sshPassword /\
    connection.decryptOptional V (ConnRow.ssh_private_key r)
    = Ok sshPrivateKey /\
    conn =
      mk (ConnRow.id r) (ConnRow.name r) (ConnRow.type_ r) (ConnRow.host r)
         (ConnRow.port r) username password (ConnRow.database_name r)
         (if String.eqb (default "" (ConnRow.selected_databases r)) ""
          then []
          else connection.parseSelectedDatabases
                 (default "" (ConnRow.selected_databases r)))
         (negb (ConnRow.ssl r =? 0)) (negb (ConnRow.ssh_enabled r =? 0))
         (ConnRow.ssh_host r) (ConnRow.ssh_port r) (ConnRow.ssh_username r)
         sshPassword sshPrivateKey
         (negb (default 1 (ConnRow.s3_cleanup_on_retention r) =? 0))
         (ConnRow.created_at r) (ConnRow.updated_at r)
         (ConnRow.last_connected_at r) (ConnRow.user_id r) (ConnRow.status r)
         (ConnRow.database_size r).
Proof.
  unfold connection.GetConnection.
  destruct (Vault.db_fails V _); [done|].
  destruct (tbl !! id) as [r|]; [|done].
  destruct (Vault.Decrypt V (ConnRow.username r)) as [u|] eqn:Hu; [|done].
  destruct (Vault.Decrypt V (ConnRow.password r)) as [p|] eqn:Hp; [|done].
  destruct (connection.decryptOptional V (ConnRow.ssh_password r))
    as [sp|] eqn:Hsp; [|done].
  destruct (connection.decryptOptional V (ConnRow.ssh_private_key r))
    as [sk|] eqn:Hsk; [|done].
  intros [= <-]. split; [done|]. by exists r, u, p, sp, sk.
Qed.

Lemma negb_flag_eqb (b : bool) : negb ((if b then 1 else 0) =? 0) = b.
Proof. by destruct b. Qed.

(** The row [Update] writes, read back. *)
Lemma Update_read_back V H tbl tbl' conn old :
  vaultRoundTrips V ->
  connection.GetConnection V tbl (ID conn) = Ok old ->
  connections.Update V H tbl conn = (None, tbl') ->
  connection.GetConnection V tbl' (ID conn) = Ok (updatedOver V old conn) /\
  forall id, id <> ID conn -> tbl' !! id = tbl !! id.
Proof.
  intros HV Hold Hupd.
  apply GetConnection_Ok in Hold
    as (Hq & r & u0 & p0 & sp0 & sk0 & Hr & _ & _ & _ & _ & ->).
  unfold connections.Update in Hupd.
  destruct (Vault.Encrypt V (Username conn)) as [cu|] eqn:Hcu; [|done].
  destruct (Vault.Encrypt V (Password conn)) as [cp|] eqn:Hcp; [|done].
  destruct (connection.encryptOptional V (SSHPassword conn))
    as [csp|] eqn:Hcsp; [|done].
  destruct (connection.encryptOptional V (SSHPrivateKey conn))
    as [csk|] eqn:Hcsk; [|done].
  cbv zeta in Hupd. destruct (Host.sql_fails H _); [done|].
  rewrite Hr in Hupd. injection Hupd as <-.
  split; [|by intros id Hne; rewrite lookup_insert_ne].
  unfold connection.GetConnection. rewrite Hq, lookup_insert_eq.
  cbn [ConnRow.username ConnRow.password ConnRow.ssh_password
       ConnRow.ssh_private_key].
  destruct (HV _ _ Hcu) as [_ ->]. destruct (HV _ _ Hcp) as [_ ->].
  rewrite (decryptOptional_encryptOptional V _ _ HV Hcsp).
  rewrite (decryptOptional_encryptOptional V _ _ HV Hcsk).
  unfold updatedOver. cbn. by rewrite !negb_flag_eqb.
Qed.

End ConnectionStore.

Section ConnectionService.
Import StoredConnection.

Lemma Save_read_back V tbl tbl' conn :
  vaultRoundTrips V ->
  Vault.db_fails V (QGetConnection (ID conn)) = false ->
  connection.Save V tbl conn = (None, tbl') ->
  connection.GetConnection V tbl' (ID conn)
  = Ok (mk (ID conn) (Name conn) (Type_ conn) (Host conn) (Port conn)
           (Username conn) (Password conn) (DatabaseName conn) []
           (SSL conn) (SSHEnabled conn) (SSHHost conn) (SSHPort conn)
           (SSHUsername conn) (SSHPassword conn) (SSHPrivateKey conn)
           (S3CleanupOnRetention conn) (CreatedAt conn) (UpdatedAt conn)
           (LastConnectedAt conn) (UserID conn) (Status conn)
           (DatabaseSize conn)) /\
  tbl !! ID conn = None /\
  forall id, id <> ID conn -> tbl' !! id = tbl !! id.
Proof.
  intros HV Hq Hsave. unfold connection.Save in Hsave.
  destruct (Vault.Encrypt V (Username conn)) as [cu|] eqn:Hcu; [|done].
  destruct (Vault.Encrypt V (Password conn)) as [cp|] eqn:Hcp; [|done].
  destruct (connection.encryptOptional V (SSHPassword conn))
    as [csp|] eqn:Hcsp; [|done].
  destruct (connection.encryptOptional V (SSHPrivateKey conn))
    as [csk|] eqn:Hcsk; [|done].
  cbv zeta in Hsave.
  destruct (Vault.db_fails V (XSaveConnection _)); [done|].
  rewrite orb_false_l in Hsave.
  destruct (bool_decide (is_Some (tbl !! ID conn))) eqn:Hdup; [done|].
  injection Hsave as <-.
  apply bool_decide_eq_false in Hdup.
  split; [|split; [by apply eq_None_not_Some
                  |by intros id Hne; rewrite lookup_insert_ne]].
  unfold connection.GetConnection. rewrite Hq, lookup_insert_eq.
  cbn [ConnRow.username ConnRow.password ConnRow.ssh_password
       ConnRow.ssh_private_key].
  destruct (HV _ _ Hcu) as [_ ->]. destruct (HV _ _ Hcp) as [_ ->].
  rewrite (decryptOptional_encryptOptional V _ _ HV Hcsp).
  rewrite (decryptOptional_encryptOptional V _ _ HV Hcsk).
  cbn. rewrite !negb_flag_eqb. by destruct (S3CleanupOnRetention conn).
Qed.

End ConnectionService.

(** X18.  A connection saved by [SaveConnection] is read back as the
    record the call returned, field for field: its id is the one of the
    request, or a new one when the request had none; it has no selected
    databases and the status "connected"; and its flag for S3 cleanup
    on retention is off, whatever the request asked for.  The other
    connections are untouched. *)
Theorem SaveConnection_reads_back :
  forall (E : Env.t) (H : Host.t) (M : Manager.t) (w w' : World.t)
         (config : ConnectionConfig.t) (userID : UUID)
         (stored : StoredConnection.t),
    vaultRoundTrips (Env.vault E) ->
    Env.db_fails E (QGetConnection (StoredConnection.ID stored)) = false ->
    connections.SaveConnection E H M w config userID = (Ok stored, w') ->
    connection.GetConnection (Env.vault E) (World.connections w')
      (StoredConnection.ID stored) = Ok stored /\
    StoredConnection.ID stored
    = (if String.eqb (ConnectionConfig.ID config) ""
       then Host.UUID_String H (World.uuids w)
       else ConnectionConfig.ID config) /\
    StoredConnection.S3CleanupOnRetention stored = false /\
    StoredConnection.SelectedDatabases stored = [] /\
    StoredConnection.UserID stored = userID /\
    StoredConnection.Status stored = "connected" /\
    (forall id, id <> StoredConnection.ID stored ->
       World.connections w' !! id = World.connections w !! id).
Proof.
  intros E H M w w' config userID stored HV Hq.
  unfold connections.SaveConnection.
  set (cw := if String.eqb (ConnectionConfig.ID config) "" then _ else _).
  assert (Hcw : ConnectionConfig.ID (fst cw)
                = (if String.eqb (ConnectionConfig.ID config) ""
                   then Host.UUID_String H (World.uuids w)
                   else ConnectionConfig.ID config) /\
                World.connections (snd cw) = World.connections w).
  { subst cw. by destruct (String.eqb _ _). }
  destruct cw as [config1 w1]. cbn [fst snd] in Hcw. destruct Hcw as [Hid Hc].
  destruct (Manager.Connect M config1); [done|]. cbv zeta.
  destruct (connection.Save _ _ _) as [[err|] tbl'] eqn:Hsave; [done|].
  intros [= <- <-]. rewrite Hc in Hsave.
  destruct (Save_read_back _ _ _ _ HV Hq Hsave) as (Hread & _ & Hrest).
  split; [exact Hread|]. by rewrite <- Hid.
Qed.

(** A request without an id is saved in the sample store under a new id,
    and reads back with the cleanup flag off although it asked for it. *)
Lemma SaveConnection_reads_back_witness :
  let E := demoEnv dumpWritten false false false in
  let config := demoConfig "" "pg2" (Some true) in
  exists stored w',
    connections.SaveConnection E demoHost demoManager demoWorld config 7%nat
    = (Ok stored, w') /\
    connection.GetConnection (Env.vault E) (World.connections w') "uuid-0"
    = Ok stored /\
    StoredConnection.S3CleanupOnRetention stored = false.
Proof.
  intros E config.
  destruct (connections.SaveConnection E demoHost demoManager demoWorld
              config 7%nat) as [[stored|err] w'] eqn:Hsave;
    [|vm_compute in Hsave; discriminate Hsave].
  assert (HV : vaultRoundTrips (Env.vault E)).
  { intros plain cipher [= <-]. split; [discriminate | reflexivity]. }
  assert (Hid : StoredConnection.ID stored = "uuid-0").
  { pose proof Hsave as Hval. vm_compute in Hval. by injection Hval as <- _. }
  destruct (SaveConnection_reads_back E demoHost demoManager demoWorld w'
              config 7%nat stored HV eq_refl Hsave)
    as (Hread & _ & Hflag & _).
  exists stored, w'. rewrite Hid in Hread. by split; [|split].
Defined.

(** X19.  [UpdateConnection] returns more than it stores: the record it
    returns names the caller as owner, the status "connected" and no
    selected databases, while the connection read back afterwards has
    the owner, the status, the selected databases and the creation time
    it had before, together with the new fields of the request.  The flag
    for S3 cleanup on retention is the one of the request, or the stored
    one when the request has none. *)
Theorem UpdateConnection_keeps_owner_and_status :
  forall (E : Env.t) (H : Host.t) (M : Manager.t) (w w' : World.t)
         (config : ConnectionConfig.t) (userID : UUID)
         (old stored : StoredConnection.t),
    vaultRoundTrips (Env.vault E) ->
    connection.GetConnection (Env.vault E) (World.connections w)
      (ConnectionConfig.ID config) = Ok old ->
    connections.UpdateConnection E H M w config userID = (Ok stored, w') ->
    stored
    = connections.storedOfConfig config userID (connections.sizeOrZero M config)
        (default (StoredConnection.S3CleanupOnRetention old)
                 (ConnectionConfig.S3CleanupOnRetention config)) /\
    connection.GetConnection (Env.vault E) (World.connections w')
      (ConnectionConfig.ID config)
    = Ok (updatedOver (Env.vault E) old stored) /\
    (forall id, id <> ConnectionConfig.ID config ->
       World.connections w' !! id = World.connections w !! id).
Proof.
  intros E H M w w' config userID old stored HV Hold.
  unfold connections.UpdateConnection.
  destruct (Manager.Connect M config); [done|]. cbv zeta. rewrite Hold.
  destruct (connections.Update _ _ _ _) as [[err|] tbl'] eqn:Hupd; [done|].
  intros [= <- <-].
  match type of Hupd with
  | connections.Update _ _ _ ?c = _ =>
      destruct (Update_read_back _ _ _ _ c old HV Hold Hupd)
        as [Hread Hrest]
  end.
  split; [|split; [exact Hread|exact Hrest]].
  by destruct (ConnectionConfig.S3CleanupOnRetention config).
Qed.

(** The sample connection is updated by another user under a new name:
    the answer names that user, the store keeps the owner. *)
Lemma UpdateConnection_keeps_owner_and_status_witness :
  let E := demoEnv dumpWritten false false false in
  let config := demoConfig "c1" "pg2" None in
  exists stored w' got,
    connections.UpdateConnection E demoHost demoManager demoWorld config
      99%nat = (Ok stored, w') /\
    connection.GetConnection (Env.vault E) (World.connections w') "c1"
    = Ok got /\
    StoredConnection.UserID stored = 99%nat /\
    StoredConnection.UserID got = 7%nat /\
    StoredConnection.Name got = "pg2" /\
    StoredConnection.S3CleanupOnRetention got = true.
Proof.
  intros E config.
  destruct (connections.UpdateConnection E demoHost demoManager demoWorld
              config 99%nat) as [[stored|err] w'] eqn:Hupd;
    [|vm_compute in Hupd; discriminate Hupd].
  assert (HV : vaultRoundTrips (Env.vault E)).
  { intros plain cipher [= <-]. split; [discriminate | reflexivity]. }
  assert (Hold : connection.GetConnection (Env.vault E)
                   (World.connections demoWorld) (ConnectionConfig.ID config)
                 = Ok demoConnection) by (vm_compute; reflexivity).
  destruct (UpdateConnection_keeps_owner_and_status E demoHost demoManager
              demoWorld w' config 99%nat demoConnection stored HV Hold Hupd)
    as (-> & Hread & _).
  eexists _, w', _. split; [reflexivity|]. split; [exact Hread|].
  by repeat split.
Defined.

(** X20.  [UpdateConnectionSettings] changes the flag for S3 cleanup on
    retention and the update time of a connection and nothing else that
    is read of it: with a vault that decrypts what it encrypts, the
    connection read back after a successful call is the one read before
    with the flag of the request (its own flag when the request has
    none) and the clock of the store as update time. *)
Theorem UpdateConnectionSettings_changes_the_flag_only :
  forall (E : Env.t) (H : Host.t) (w w' : World.t) (id : string)
         (flag : option bool) (old : StoredConnection.t),
    vaultRoundTrips (Env.vault E) ->
    connection.GetConnection (Env.vault E) (World.connections w) id = Ok old ->
    StoredConnection.ID old = id ->
    connections.UpdateConnectionSettings E H w id flag = (None, w') ->
    connection.GetConnection (Env.vault E) (World.connections w') id
    = Ok (StoredConnection.mk (StoredConnection.ID old)
            (StoredConnection.Name old) (StoredConnection.Type_ old)
            (StoredConnection.Host old) (StoredConnection.Port old)
            (StoredConnection.Username old) (StoredConnection.Password old)
            (StoredConnection.DatabaseName old)
            (StoredConnection.SelectedDatabases old)
            (StoredConnection.SSL old) (StoredConnection.SSHEnabled old)
            (StoredConnection.SSHHost old) (StoredConnection.SSHPort old)
            (StoredConnection.SSHUsername old)
            (StoredConnection.SSHPassword old)
            (StoredConnection.SSHPrivateKey old)
            (default (StoredConnection.S3CleanupOnRetention old) flag)
            (StoredConnection.CreatedAt old) (Vault.sql_now (Env.vault E))
            (StoredConnection.LastConnectedAt old)
            (StoredConnection.UserID old) (StoredConnection.Status old)
            (StoredConnection.DatabaseSize old)) /\
    (forall id', id' <> id ->
       World.connections w' !! id' = World.connections w !! id').
Proof.
  intros E H w w' id flag old HV Hold Hid.
  unfold connections.UpdateConnectionSettings. rewrite Hold. cbv zeta.
  set (conn := match flag with Some _ => _ | None => _ end).
  assert (Hcid : StoredConnection.ID conn = id).
  { subst conn. by destruct flag. }
  destruct (connections.Update _ _ _ _) as [[err|] tbl'] eqn:Hupd; [done|].
  intros [= <-]. rewrite <- Hcid in Hold.
  destruct (Update_read_back _ _ _ _ _ old HV Hold Hupd) as [Hread Hrest].
  rewrite Hcid in Hread, Hrest. split; [|exact Hrest].
  cbn [World.connections connections.set_connections]. rewrite Hread.
  subst conn. by destruct flag.
Qed.

(** The cleanup flag of the sample connection is switched off; its
    password and its owner read back as before. *)
Lemma UpdateConnectionSettings_changes_the_flag_only_witness :
  let E := demoEnv dumpWritten false false false in
  let w' := snd (connections.UpdateConnectionSettings E demoHost demoWorld
                   "c1" (Some false)) in
  exists got,
    connection.GetConnection (Env.vault E) (World.connections w') "c1"
    = Ok got /\
    StoredConnection.S3CleanupOnRetention got = false /\
    StoredConnection.Password got = "hunter2" /\
    StoredConnection.UserID got = 7%nat.
Proof.
  intros E w'.
  assert (HV : vaultRoundTrips (Env.vault E)).
  { intros plain cipher [= <-]. split; [discriminate | reflexivity]. }
  assert (Hold : connection.GetConnection (Env.vault E)
                   (World.connections demoWorld) "c1" = Ok demoConnection)
    by (vm_compute; reflexivity).
  assert (Hrun : connections.UpdateConnectionSettings E demoHost demoWorld
                   "c1" (Some false) = (None, w'))
    by (vm_compute; reflexivity).
  destruct (UpdateConnectionSettings_changes_the_flag_only E demoHost
              demoWorld w' "c1" (Some false) demoConnection HV Hold eq_refl
              Hrun) as [Hread _].
  eexists. split; [exact Hread|]. by repeat split.
Defined.

Section DeleteConnection.

Lemma sameButBucket_refl w : sameButBucket w w.
Proof. by repeat split. Qed.

Lemma sameButBucket_trans w1 w2 w3 :
  sameButBucket w1 w2 -> sameButBucket w2 w3 -> sameButBucket w1 w3.
Proof.
  unfold sameButBucket. intros (?&?&?&?&?&?&?&?) (?&?&?&?&?&?&?&?).
  repeat split; congruence.
Qed.

Lemma deleteObjectOf_bucket E st w b :
  sameButBucket w (s3conn.deleteObjectOf E st w b).
Proof.
  unfold s3conn.deleteObjectOf, s3storage.DeleteFile.
  destruct (negb _); [|apply sameButBucket_refl].
  destruct (Env.RemoveObject_fails E _); by repeat split.
Qed.

Lemma deleteFold_bucket E st rows : forall w,
  sameButBucket w (fold_left (s3conn.deleteObjectOf E st) rows w).
Proof.
  induction rows as [|b rows IH]; intros w; [apply sameButBucket_refl|].
  cbn [fold_left]. eapply sameButBucket_trans; [|apply IH].
  apply deleteObjectOf_bucket.
Qed.

Lemma CleanupS3BackupsForConnection_bucket E H w id :
  sameButBucket w (snd (s3conn.CleanupS3BackupsForConnection E H w id)).
Proof.
  unfold s3conn.CleanupS3BackupsForConnection.
  destruct (s3conn.GetBackupsByConnectionID H w id) as [rows|];
    [|apply sameButBucket_refl].
  destruct (Nat.eqb _ _); [apply sameButBucket_refl|].
  destruct (connection.GetConnection _ _ _); [|apply sameButBucket_refl].
  destruct (Env.GetUserSettingsInternal E _); [|apply sameButBucket_refl].
  destruct (s3conn.s3NotConfigured _); [apply sameButBucket_refl|].
  destruct (Env.Decrypt E _); [|apply sameButBucket_refl].
  destruct (s3storage.NewS3Storage E _) as [st|]; [|apply sameButBucket_refl].
  apply deleteFold_bucket.
Qed.

End DeleteConnection.

(** X21.  The handler that deletes a connection answers 204 whenever
    the DELETE goes through, whether the cleanup of the bucket was asked
    for, succeeded or failed.  The row of the connection goes, and with
    it, by the cascade of the store, its schedules and backup records.
    The handler itself takes nothing else away: the cron jobs registered
    for the schedules of the connection stay in the cron manager, the
    local files stay on the spool, and without the parameter
    [cleanup_s3=true] the bucket is as before. *)
Theorem Handler_DeleteConnection_keeps_jobs_and_files :
  forall (E : Env.t) (H : Host.t) (backupService : bool) (w : World.t)
         (id cleanup_s3 : string),
    id <> "" ->
    Host.sql_fails H (XDeleteConnection id) = false ->
    let '(answer, w') :=
      connections.Handler_DeleteConnection E H backupService w id
        cleanup_s3 in
    answer = connections.AnswerStatus 204 /\
    World.connections w' = delete id (World.connections w) /\
    World.schedules w'
    = List.filter
        (fun s => negb (String.eqb (BackupSchedule.ConnectionID s) id))
        (World.schedules w) /\
    World.backups w'
    = List.filter (fun b => negb (String.eqb (Backup.ConnectionID b) id))
        (World.backups w) /\
    World.cronEntries w' = World.cronEntries w /\
    World.cronJobs w' = World.cronJobs w /\
    World.files w' = World.files w /\
    (cleanup_s3 <> "true" -> World.s3 w' = World.s3 w).
Proof.
  intros E H backupService w id cleanup_s3 Hid Hsql.
  unfold connections.Handler_DeleteConnection.
  apply String.eqb_neq in Hid. rewrite Hid. cbv zeta.
  set (w1 := if _ && _ then _ else _).
  assert (Hw1 : sameButBucket w w1 /\
                (cleanup_s3 <> "true" -> World.s3 w1 = World.s3 w)).
  { subst w1. destruct (String.eqb_spec cleanup_s3 "true") as [->|Hne].
    - destruct backupService; cbn [andb];
        (split; [|done]);
        [apply CleanupS3BackupsForConnection_bucket|apply sameButBucket_refl].
    - split; [apply sameButBucket_refl|done]. }
  destruct Hw1 as [(Hc & Hs & Hb & Hf & _ & He & Hj & _) Hs3].
  unfold connections.DeleteConnection, connections.Delete. rewrite Hsql.
  cbn [World.connections World.backups World.schedules World.cronEntries
       World.cronJobs World.files World.s3].
  rewrite Hc, Hs, Hb. by repeat split.
Qed.

(** The sample connection is deleted, with the cleanup, from the store
    in which its schedule has a job: the row, the schedule and the backup
    record are gone, and the job is still registered. *)
Lemma Handler_DeleteConnection_keeps_jobs_and_files_witness :
  let E := demoEnv dumpWritten false false false in
  let '(answer, w') :=
    connections.Handler_DeleteConnection E demoHost true demoWorldRunning
      "c1" "true" in
  answer = connections.AnswerStatus 204 /\
  World.connections w' !! "c1" = None /\
  World.schedules w' = [] /\ World.backups w' = [] /\
  World.cronJobs w' !! 0%nat = Some ("0 0 0 * * *", 9%nat).
Proof.
  intros E.
  assert (Hid : "c1" <> "") by discriminate.
  pose proof (Handler_DeleteConnection_keeps_jobs_and_files E demoHost true
                demoWorldRunning "c1" "true" Hid eq_refl) as Hdel.
  destruct (connections.Handler_DeleteConnection E demoHost true
              demoWorldRunning "c1" "true") as [answer w'].
  destruct Hdel as (Ha & Hc & Hs & Hb & _ & Hj & _).
  split; [exact Ha|]. split; [by rewrite Hc, lookup_delete_eq|].
  split; [by rewrite Hs|]. split; [by rewrite Hb|]. by rewrite Hj.
Defined.

Section RenameFrame.

Lemma renameObjectOf_connections E H st oldFolder newFolder w b :
  World.connections (s3conn.renameObjectOf E H st oldFolder newFolder w b)
  = World.connections w.
Proof.
  unfold s3conn.renameObjectOf.
  destruct (service.blank _); [done|]. cbv zeta.
  destruct (String.eqb _ _); [done|].
  unfold s3more.MoveFile.
  destruct (World.s3 w !! _); [|done].
  destruct (Host.CopyObject_fails H _ _); [done|]. cbv zeta.
  destruct (Env.RemoveObject_fails E _); [done|].
  unfold s3conn.UpdateBackupS3ObjectKey.
  by destruct (Host.sql_fails H _).
Qed.

Lemma RenameS3FolderForConnection_connections E H w id oldName newName :
  World.connections
    (snd (s3conn.RenameS3FolderForConnection E H w id oldName newName))
  = World.connections w.
Proof.
  unfold s3conn.RenameS3FolderForConnection.
  destruct (s3conn.GetBackupsByConnectionID H w id) as [rows|]; [|done].
  destruct (Nat.eqb _ _); [done|].
  destruct (connection.GetConnection _ _ _); [|done].
  destruct (Env.GetUserSettingsInternal E _); [|done].
  destruct (s3conn.s3NotConfigured _); [done|].
  destruct (Env.Decrypt E _); [|done].
  destruct (s3storage.NewS3Storage E _) as [st|]; [|done]. cbv zeta.
  destruct (String.eqb _ _); [done|]. cbn [snd].
  generalize rows w. clear. intros rows.
  induction rows as [|b rows IH]; intros w; [done|].
  cbn [fold_left]. rewrite IH. apply renameObjectOf_connections.
Qed.

End RenameFrame.

(** X22.  The handler that updates a connection answers what the update
    of the service gave, 200 with the record or 500 with the error: the
    rename of the S3 folder that follows a change of name never changes
    the answer nor the stored connections, and when the name is the one
    the connection had, the rename does not run at all. *)
Theorem Handler_UpdateConnection_answers_the_update :
  forall (E : Env.t) (H : Host.t) (M : Manager.t) (backupService : bool)
         (w : World.t) (config : ConnectionConfig.t) (userID : UUID)
         (old : StoredConnection.t),
    connection.GetConnection (Env.vault E) (World.connections w)
      (ConnectionConfig.ID config) = Ok old ->
    let update := connections.UpdateConnection E H M w config userID in
    let handled :=
      connections.Handler_UpdateConnection E H M backupService w
        (Ok config) (Ok userID) in
    fst handled = match fst update with
                  | Ok stored => connections.AnswerJSON 200 stored
                  | Fail err => connections.AnswerError 500 (inr err)
                  end /\
    World.connections (snd handled) = World.connections (snd update) /\
    (StoredConnection.Name old = ConnectionConfig.Name config \/
     backupService = false -> snd handled = snd update).
Proof.
  intros E H M backupService w config userID old Hold. cbv zeta.
  unfold connections.Handler_UpdateConnection,
    connection.Service_GetConnection.
  rewrite Hold.
  destruct (connections.UpdateConnection E H M w config userID)
    as [[stored|err] w1]; [|done]. cbv zeta. cbn [fst snd].
  split; [done|]. split.
  - destruct (_ && _); [|done].
    apply RenameS3FolderForConnection_connections.
  - intros [Hname| ->].
    + rewrite Hname, String.eqb_refl. done.
    + by rewrite andb_false_r.
Qed.

(** The sample connection is renamed through the handler: the answer is
    200 with the record of the update. *)
Lemma Handler_UpdateConnection_answers_the_update_witness :
  let E := demoEnv dumpWritten false false false in
  let config := demoConfig "c1" "pg2" None in
  fst (connections.Handler_UpdateConnection E demoHost demoManager true
         demoWorld (Ok config) (Ok 7%nat))
  = connections.AnswerJSON 200
      (connections.storedOfConfig config 7%nat 4096 true).
Proof.
  intros E config.
  assert (Hold : connection.GetConnection (Env.vault E)
                   (World.connections demoWorld) (ConnectionConfig.ID config)
                 = Ok demoConnection) by (vm_compute; reflexivity).
  destruct (Handler_UpdateConnection_answers_the_update E demoHost
              demoManager true demoWorld config 7%nat demoConnection Hold)
    as (Ha & _).
  etransitivity; [exact Ha|]. vm_compute. reflexivity.
Defined.

(** ** User settings *)

Section SettingsStoreFacts.
Import Settings.
Variables (E : Env.t) (sys : Sys.t).
Hypothesis Htime : timeRoundTrips sys.

(** What a successful read of the repository says: the row is in the
    store afterwards, a later read finds the same settings and leaves
    the store alone, and the settings carry no mark of the process. *)
Lemma GetUserSettings_Ok st userID settings st1 :
  storeKeyed st ->
  settings.GetUserSettings E sys st userID = (Ok settings, st1) ->
  storeKeyed st1 /\ UserID settings = userID /\
  EnvConfigured settings = ∅ /\
  (SettingsStore.rows st !! userID = None ->
   settings = defaultSettings E (SettingsStore.uuids st) userID) /\
  (is_Some (SettingsStore.rows st !! userID) -> st1 = st) /\
  exists row,
    SettingsStore.rows st1 !! userID = Some row /\
    Sys.ParseTime sys (SettingsRow.created_at row) = Ok (CreatedAt settings) /\
    Sys.ParseTime sys (SettingsRow.updated_at row) = Ok (UpdatedAt settings) /\
    settings = settings.scanned row (CreatedAt settings) (UpdatedAt settings).
Proof.
  intros Hkeyed. unfold settings.GetUserSettings.
  destruct (Sys.sql_fails sys (QGetUserSettings userID)); [done|].
  destruct (SettingsStore.rows st !! userID) as [row|] eqn:Hrow.
  - destruct (Sys.ParseTime sys (SettingsRow.created_at row))
      as [c|] eqn:Hc; [|done].
    destruct (Sys.ParseTime sys (SettingsRow.updated_at row))
      as [u|] eqn:Hu; [|done].
    intros [= <- <-]. split; [done|]. split; [by apply Hkeyed|].
    split; [done|]. split; [done|]. split; [done|]. by exists row.
  - cbv zeta. unfold settings.CreateUserSettings. cbn [UserID].
    destruct (Sys.sql_fails sys (XCreateUserSettings userID)); [done|].
    intros [= <- <-]. split.
    { intros u r. cbn [SettingsStore.rows].
      destruct (decide (u = userID)) as [->|Hne].
      - rewrite lookup_insert_eq. by intros [= <-].
      - rewrite lookup_insert_ne by done. apply Hkeyed. }
    split; [done|]. split; [done|]. split; [done|].
    split; [by intros [? [=]]|].
    eexists. cbn [SettingsStore.rows]. rewrite lookup_insert_eq.
    split; [reflexivity|]. cbn. by rewrite !Htime.
Qed.

(** A read that found the settings finds them again. *)
Lemma GetUserSettings_again st userID settings st1 :
  storeKeyed st ->
  settings.GetUserSettings E sys st userID = (Ok settings, st1) ->
  Sys.sql_fails sys (QGetUserSettings userID) = false /\
  settings.GetUserSettings E sys st1 userID = (Ok settings, st1).
Proof.
  intros Hkeyed Hget.
  assert (Hq : Sys.sql_fails sys (QGetUserSettings userID) = false).
  { unfold settings.GetUserSettings in Hget.
    by destruct (Sys.sql_fails sys (QGetUserSettings userID)). }
  split; [exact Hq|].
  destruct (GetUserSettings_Ok _ _ _ _ Hkeyed Hget)
    as (_ & _ & _ & _ & _ & row & Hrow & Hc & Hu & Hs).
  unfold settings.GetUserSettings. rewrite Hq, Hrow, Hc, Hu. by rewrite <- Hs.
Qed.

(** The settings stored by a successful update, read back. *)
Lemma UpdateUserSettings_read_back st userID req got st' :
  storeKeyed st ->
  settings.UpdateUserSettings E sys st userID req = (Ok got, st') ->
  exists before st1 smtpPassword s3SecretKey,
    settings.GetUserSettings E sys st userID = (Ok before, st1) /\
    settings.orKeepSecret E
      (negb (String.eqb (Sys.Getenv sys "SMTP_PASSWORD") ""))
      (UpdateSettingsRequest.SMTPPassword req) (SMTPPassword before)
    = Ok smtpPassword /\
    settings.orKeepSecret E false (UpdateSettingsRequest.S3SecretKey req)
      (S3SecretKey before) = Ok s3SecretKey /\
    let full :=
      settings.stamped E
        (settings.applyRequest sys req before smtpPassword s3SecretKey) in
    got = settings.withoutSecrets full /\
    settings.GetUserSettings E sys st' userID = (Ok full, st') /\
    storeKeyed st'.
Proof.
  intros Hkeyed. unfold settings.UpdateUserSettings.
  destruct (settings.GetUserSettings E sys st userID)
    as [[before|err] st1] eqn:Hget; [|done].
  destruct (GetUserSettings_Ok _ _ _ _ Hkeyed Hget)
    as (Hkeyed1 & Hu & Henv & _ & _ & row & Hrow & Hc & _ & Hs).
  destruct (GetUserSettings_again _ _ _ _ Hkeyed Hget) as [Hq _].
  cbv zeta.
  destruct (settings.orKeepSecret E _ _ (SMTPPassword before))
    as [smtp|] eqn:Hsmtp; [|done].
  destruct (settings.orKeepSecret E false _ _) as [s3|] eqn:Hs3; [|done].
  unfold settings.Repo_UpdateUserSettings. cbv zeta.
  cbn [UserID settings.stamped settings.applyRequest]. rewrite Hu.
  destruct (Sys.sql_fails sys (XUpdateUserSettings userID)); [done|].
  rewrite Hrow. intros [= <- <-].
  exists before, st1, smtp, s3. split; [done|]. split; [done|].
  split; [done|]. cbv zeta. split; [done|]. split.
  - unfold settings.GetUserSettings. rewrite Hq.
    cbn [SettingsStore.rows]. rewrite lookup_insert_eq.
    cbn [SettingsRow.created_at SettingsRow.updated_at settings.updatedRow].
    rewrite Hc. cbn [UpdatedAt]. rewrite Htime.
    assert (Hid : SettingsRow.id row = ID before) by (by rewrite Hs).
    assert (Huid : SettingsRow.user_id row = UserID before)
      by (by rewrite Hs).
    do 2 f_equal.
    unfold settings.scanned, settings.updatedRow, settings.stamped,
      settings.applyRequest.
    cbn. by rewrite Hid, Huid, Henv.
  - intros u r. cbn [SettingsStore.rows].
    destruct (decide (u = userID)) as [->|Hne].
    + rewrite lookup_insert_eq. intros [= <-]. cbn. by apply Hkeyed1.
    + rewrite lookup_insert_ne by done. apply Hkeyed1.
Qed.

End SettingsStoreFacts.

Section SettingsService.
Import Settings.

Lemma applyDefaults_keeps sys s :
  let s' := settings.applyDefaults sys s in
  S3SecretKey s' = S3SecretKey s /\ S3Enabled s' = S3Enabled s /\
  S3Endpoint s' = S3Endpoint s /\ S3Bucket s' = S3Bucket s /\
  S3AccessKey s' = S3AccessKey s /\ S3Region s' = S3Region s /\
  S3UseSSL s' = S3UseSSL s /\ S3PathPrefix s' = S3PathPrefix s /\
  S3PurgeLocal s' = S3PurgeLocal s /\ UserID s' = UserID s.
Proof.
  cbv zeta. unfold settings.applyDefaults. cbv zeta.
  destruct (negb (String.eqb (Sys.Getenv sys "SMTP_HOST") ""));
  destruct (negb (String.eqb (Sys.Getenv sys "SMTP_PORT") ""));
  try destruct (Sys.Atoi sys _);
  destruct (negb (String.eqb (Sys.Getenv sys "SMTP_USER") ""));
  destruct (negb (String.eqb (Sys.Getenv sys "SMTP_PASSWORD") ""));
  destruct (negb (String.eqb (Sys.Getenv sys "SMTP_FROM") ""));
  by repeat split.
Qed.

Lemma orKeepPtr_locked {A} (req old : option A) :
  settings.orKeepPtr true req old = old.
Proof. by destruct req. Qed.

End SettingsService.

(** The sample process reads the times it writes. *)
Lemma demoSys_timeRoundTrips env : timeRoundTrips (demoSys env).
Proof.
  intros t. cbn. unfold Sprintf_d.
  rewrite NilZero.isi; [by rewrite DecimalZ.of_to| |];
    destruct t; cbn; try discriminate; intros [= Hnil];
    by apply Unsigned.to_uint_nonnil in Hnil.
Defined.

(** X23.  The first read of the settings of a user who has none makes
    them up and stores them: dashboard notifications on, SSL towards S3
    on, everything else off or empty, under a new id and with the clock
    as both times.  When the driver accepts both statements and the times
    it writes parse back, the next read returns the same settings and
    changes nothing. *)
Theorem GetUserSettings_creates_defaults_once :
  forall (E : Env.t) (sys : Sys.t) (st : SettingsStore.t) (userID : UUID),
    timeRoundTrips sys ->
    SettingsStore.rows st !! userID = None ->
    Sys.sql_fails sys (QGetUserSettings userID) = false ->
    Sys.sql_fails sys (XCreateUserSettings userID) = false ->
    let defaults := defaultSettings E (SettingsStore.uuids st) userID in
    let st1 := snd (settings.GetUserSettings E sys st userID) in
    fst (settings.GetUserSettings E sys st userID) = Ok defaults /\
    settings.GetUserSettings E sys st1 userID = (Ok defaults, st1) /\
    SettingsStore.uuids st1 = S (SettingsStore.uuids st) /\
    (forall other, other <> userID ->
       SettingsStore.rows st1 !! other = SettingsStore.rows st !! other).
Proof.
  intros E sys st userID Htime Hnone Hq Hx. cbv zeta.
  assert (Hfirst :
    settings.GetUserSettings E sys st userID
    = (Ok (defaultSettings E (SettingsStore.uuids st) userID),
       SettingsStore.mk
         (<[userID := settings.rowOf sys
                        (defaultSettings E (SettingsStore.uuids st) userID)]>
            (SettingsStore.rows st))
         (S (SettingsStore.uuids st)))).
  { unfold settings.GetUserSettings. rewrite Hq, Hnone. cbv zeta.
    unfold settings.CreateUserSettings. cbn [Settings.UserID].
    by rewrite Hx. }
  rewrite Hfirst. cbn [fst snd]. split; [done|]. split.
  - unfold settings.GetUserSettings. rewrite Hq.
    cbn [SettingsStore.rows]. rewrite lookup_insert_eq.
    cbn. by rewrite !Htime.
  - split; [done|]. intros other Hne. cbn [SettingsStore.rows].
    by rewrite lookup_insert_ne.
Qed.

(** In the sample process the first read of user 7 stores the defaults
    and the second one finds them. *)
Lemma GetUserSettings_creates_defaults_once_witness :
  let E := demoEnv dumpWritten false false false in
  let st1 := snd (settings.GetUserSettings E (demoSys []) demoSettingsStore
                    7%nat) in
  settings.GetUserSettings E (demoSys []) st1 7%nat
  = (Ok (defaultSettings E 0%nat 7%nat), st1).
Proof.
  intros E st1.
  destruct (GetUserSettings_creates_defaults_once E (demoSys [])
              demoSettingsStore 7%nat (demoSys_timeRoundTrips [])
              eq_refl eq_refl eq_refl)
    as (_ & Hagain & _).
  exact Hagain.
Defined.

(** X24.  An S3 secret key set through [UpdateUserSettings] is stored
    encrypted and is never shown: the answer of the update and the
    settings the API reads afterwards have neither the S3 secret key nor
    the SMTP password, while the settings the backup service reads hold a
    ciphertext that the vault decrypts to the key of the request. *)
Theorem UpdateUserSettings_stores_the_secret_encrypted :
  forall (E : Env.t) (sys : Sys.t) (st st' : SettingsStore.t)
         (userID : UUID) (req : UpdateSettingsRequest.t) (key : string)
         (got : Settings.t),
    timeRoundTrips sys -> storeKeyed st ->
    vaultRoundTrips (Env.vault E) ->
    UpdateSettingsRequest.S3SecretKey req = Some key ->
    settings.UpdateUserSettings E sys st userID req = (Ok got, st') ->
    Settings.S3SecretKey got = None /\ Settings.SMTPPassword got = None /\
    (exists internal cipher,
       settings.GetUserSettingsInternal E sys st' userID
       = (Ok internal, st') /\
       Settings.S3SecretKey internal = Some cipher /\
       Env.Decrypt E cipher = Ok key) /\
    (exists shown,
       settings.Service_GetUserSettings E sys st' userID = (Ok shown, st') /\
       Settings.S3SecretKey shown = None /\
       Settings.SMTPPassword shown = None).
Proof.
  intros E sys st st' userID req key got Htime Hkeyed HV Hreq Hupd.
  destruct (UpdateUserSettings_read_back E sys Htime _ _ _ _ _ Hkeyed Hupd)
    as (before & st1 & smtp & s3 & _ & _ & Hs3 & Hgot & Hread & _).
  cbv zeta in Hgot, Hread. rewrite Hreq in Hs3. cbn in Hs3.
  destruct (Vault.Encrypt (Env.vault E) key) as [cipher|] eqn:Henc; [|done].
  injection Hs3 as <-. destruct (HV _ _ Henc) as [_ Hdec].
  split; [by rewrite Hgot|]. split; [by rewrite Hgot|]. split.
  - unfold settings.GetUserSettingsInternal. rewrite Hread.
    eexists _, cipher. split; [reflexivity|]. split; [|exact Hdec].
    by rewrite (proj1 (applyDefaults_keeps sys _)).
  - unfold settings.Service_GetUserSettings. rewrite Hread.
    eexists. split; [reflexivity|]. done.
Qed.

(** User 7 sets the S3 secret "s3cr3t" in the sample process: the answer
    hides it, and the backup service reads its ciphertext. *)
Lemma UpdateUserSettings_stores_the_secret_encrypted_witness :
  let E := demoEnv dumpWritten false false false in
  let sys := demoSys [] in
  let '(r, st') :=
    settings.UpdateUserSettings E sys demoSettingsStore 7%nat
      (secretRequest "s3cr3t") in
  exists got internal,
    r = Ok got /\ Settings.S3SecretKey got = None /\
    settings.GetUserSettingsInternal E sys st' 7%nat = (Ok internal, st') /\
    (Settings.S3SecretKey internal ≫= fun c => Some (Env.Decrypt E c))
    = Some (Ok "s3cr3t").
Proof.
  intros E sys.
  destruct (settings.UpdateUserSettings E sys demoSettingsStore 7%nat
              (secretRequest "s3cr3t")) as [[got|err] st'] eqn:Hupd;
    [|vm_compute in Hupd; discriminate Hupd].
  assert (HV : vaultRoundTrips (Env.vault E)).
  { intros plain cipher [= <-]. split; [discriminate | reflexivity]. }
  assert (Hkeyed : storeKeyed demoSettingsStore) by (by intros u r).
  destruct (UpdateUserSettings_stores_the_secret_encrypted E sys
              demoSettingsStore st' 7%nat (secretRequest "s3cr3t") "s3cr3t"
              got (demoSys_timeRoundTrips []) Hkeyed HV eq_refl Hupd)
    as (Hgot & _ & (internal & cipher & Hint & Hc & Hdec) & _).
  exists got, internal. split; [done|]. split; [exact Hgot|].
  split; [exact Hint|]. rewrite Hc. cbn [mbind option_bind]. by rewrite Hdec.
Defined.

(** X25.  A mail field whose variable is set in the process is locked:
    an update leaves the stored host, port, user name, password and
    sender as they were when SMTP_HOST, SMTP_PORT, SMTP_USER,
    SMTP_PASSWORD and SMTP_FROM are set, whatever the request asks; the
    port is locked also when SMTP_PORT does not parse as a number. *)
Theorem UpdateUserSettings_keeps_locked_fields :
  forall (E : Env.t) (sys : Sys.t) (st st1 st' : SettingsStore.t)
         (userID : UUID) (req : UpdateSettingsRequest.t)
         (before got : Settings.t),
    timeRoundTrips sys -> storeKeyed st ->
    settings.GetUserSettings E sys st userID = (Ok before, st1) ->
    settings.UpdateUserSettings E sys st userID req = (Ok got, st') ->
    exists after,
      settings.GetUserSettings E sys st' userID = (Ok after, st') /\
      (Sys.Getenv sys "SMTP_HOST" <> "" ->
       Settings.SMTPHost after = Settings.SMTPHost before) /\
      (Sys.Getenv sys "SMTP_PORT" <> "" ->
       Settings.SMTPPort after = Settings.SMTPPort before) /\
      (Sys.Getenv sys "SMTP_USER" <> "" ->
       Settings.SMTPUsername after = Settings.SMTPUsername before) /\
      (Sys.Getenv sys "SMTP_PASSWORD" <> "" ->
       Settings.SMTPPassword after = Settings.SMTPPassword before) /\
      (Sys.Getenv sys "SMTP_FROM" <> "" ->
       Settings.Email after = Settings.Email before).
Proof.
  intros E sys st st1 st' userID req before got Htime Hkeyed Hget Hupd.
  destruct (UpdateUserSettings_read_back E sys Htime _ _ _ _ _ Hkeyed Hupd)
    as (before' & st1' & smtp & s3 & Hget' & Hsmtp & _ & _ & Hread & _).
  rewrite Hget in Hget'. injection Hget' as <- <-.
  cbv zeta in Hread. eexists. split; [exact Hread|].
  cbn [settings.stamped settings.applyRequest Settings.SMTPHost
       Settings.SMTPPort Settings.SMTPUsername Settings.SMTPPassword
       Settings.Email].
  repeat split; intros Hset%String.eqb_neq.
  1-3,5: by rewrite Hset, orKeepPtr_locked.
  rewrite Hset in Hsmtp. unfold settings.orKeepSecret in Hsmtp. cbn in Hsmtp.
  destruct (UpdateSettingsRequest.SMTPPassword req); by injection Hsmtp.
Qed.

(** With SMTP_HOST set, a request that names another host leaves the
    stored host of user 7 empty, as it was. *)
Lemma UpdateUserSettings_keeps_locked_fields_witness :
  let E := demoEnv dumpWritten false false false in
  let sys := demoSys [("SMTP_HOST", "smtp.fixed")] in
  let st' := snd (settings.UpdateUserSettings E sys demoSettingsStore 7%nat
                    (secretRequest "s3cr3t")) in
  exists after,
    settings.GetUserSettings E sys st' 7%nat = (Ok after, st') /\
    Settings.SMTPHost after = None.
Proof.
  intros E sys st'.
  assert (Hkeyed : storeKeyed demoSettingsStore) by (by intros u r).
  destruct (settings.GetUserSettings E sys demoSettingsStore 7%nat)
    as [[before|err] st1] eqn:Hget;
    [|vm_compute in Hget; discriminate Hget].
  assert (Hbefore : Settings.SMTPHost before = None).
  { vm_compute in Hget. by injection Hget as <- _. }
  destruct (settings.UpdateUserSettings E sys demoSettingsStore 7%nat
              (secretRequest "s3cr3t")) as [[got|err] st2] eqn:Hupd;
    [|vm_compute in Hupd; discriminate Hupd].
  destruct (UpdateUserSettings_keeps_locked_fields E sys demoSettingsStore
              st1 st2 7%nat (secretRequest "s3cr3t") before got
              (demoSys_timeRoundTrips _) Hkeyed Hget Hupd)
    as (after & Hread & Hhost & _).
  exists after. split; [exact Hread|].
  rewrite <- Hbefore. apply Hhost. discriminate.
Defined.

(** ** The pages of the listing *)

Section ListingPages.
Import listpage.

Lemma wrap64_small z : - 2^63 <= z < 2^63 -> wrap64 z = z.
Proof.
  intros Hz. unfold wrap64.
  rewrite Z.mod_small by lia. lia.
Qed.

Lemma positiveOr_positive Atoi s x : 0 < x -> 0 < positiveOr Atoi s x.
Proof.
  intros Hx. unfold positiveOr.
  destruct (String.eqb s ""); [done|].
  destruct (Atoi s) as [v|]; [|done].
  by destruct (Z.ltb_spec 0 v).
Qed.

Lemma GetAllBackupsWithPagination_window {R} (repo : _ -> R) uid l o q :
  0 < l -> 0 <= o ->
  listing.GetAllBackupsWithPagination repo
    (listing.mkBackupListOptions uid l o q)
  = repo (listing.mkBackupListOptions uid (Z.min l 100) o q).
Proof.
  intros Hl Ho. unfold listing.GetAllBackupsWithPagination. cbn.
  destruct (Z.leb_spec l 0); [lia|]. cbn.
  destruct (Z.ltb_spec 100 l); cbn;
    (destruct (Z.ltb_spec o 0); [lia|]); f_equal; f_equal; lia.
Qed.

End ListingPages.

(** X26.  The listing shows page [p] of [l] rows as the window that
    starts at row (p-1)*l, but never more than 100 rows of it: the
    repository is asked for min(l, 100) rows from that offset, while the
    answer repeats the page and the limit of the request.  So with a
    limit above 100 the rows after the first 100 of each window are on no
    page.  Page and limit are the numbers in the URL when they are
    positive, 1 and 10 otherwise. *)
Theorem ListBackups_asks_for_the_window :
  forall (R : Type) (Atoi : string -> option Z)
         (repo : listing.BackupListOptions -> res (R * Z))
         (userID : UUID) (query : string -> string),
    let p := listpage.positiveOr Atoi (query "page") 1 in
    let l := listpage.positiveOr Atoi (query "limit") 10 in
    (p - 1) * l < 2^63 ->
    let asked :=
      listing.mkBackupListOptions userID (Z.min l 100) ((p - 1) * l)
        (query "search") in
    listpage.ListBackups Atoi repo (Ok userID) query
    = match repo asked with
      | Ok (backups, total) => listpage.ListPage backups p l total
      | Fail err => listpage.ListError 500 err
      end /\
    0 < p /\ 0 < l /\
    (100 < l -> snd (windowOf asked) < p * l).
Proof.
  intros R Atoi repo userID query p l Hsmall asked.
  assert (Hp : 0 < p) by (by apply positiveOr_positive).
  assert (Hl : 0 < l) by (by apply positiveOr_positive).
  split; [|split; [exact Hp|split; [exact Hl|]]].
  - unfold listpage.ListBackups. fold p l.
    rewrite wrap64_small by nia.
    by rewrite GetAllBackupsWithPagination_window by nia.
  - intros Hbig. subst asked. unfold windowOf. cbn. lia.
Qed.

(** Page 3 with 250 rows a page: the repository is asked for 100 rows
    from row 500 on, and the answer says page 3 of 250 rows. *)
Lemma ListBackups_asks_for_the_window_witness :
  listpage.ListBackups demoAtoi demoListing (Ok 7%nat) (demoQuery "3" "250")
  = listpage.ListPage (500, 100) 3 250 1000.
Proof.
  destruct (ListBackups_asks_for_the_window (Z * Z) demoAtoi demoListing
              7%nat (demoQuery "3" "250")) as (Hrun & _).
  - vm_compute. reflexivity.
  - exact Hrun.
Defined.
